(** * The automounted-snapshot registry of the ZFS control directory

    A shallow embedding of the snapshot-entry registry, the delayed
    unmount scheduler and the mount/unmount entry points of
    [module/os/linux/zfs/zfs_ctldir.c], with the properties of its
    specification stated and proved over that embedding.

    Kernel memory is a finite map from addresses to [zfs_snapentry_t]
    records, the two AVL trees are finite maps from their sort key to the
    address of the entry they link, and the functions of the C file are
    computations in a state monad whose failure value stands for a kernel
    panic (a failed assertion, or the use of freed memory). *)

From stdpp Require Import gmap strings list fin_maps.
From Stdlib Require Import ZArith Lia.

Open Scope Z_scope.

(** ** Constants of the kernel headers *)

Definition ENOENT : Z := 2.
Definition EACCES : Z := 13.
Definition EBUSY : Z := 16.
Definition EISDIR : Z := 21.
Definition ENAMETOOLONG : Z := 36.
Definition EILSEQ : Z := 84.
Definition ENOTSUP : Z := 95.

Definition MNT_FORCE : Z := 1.
Definition MNT_EXPIRE : Z := 4.
Definition MOUNT_BUSY : Z := 128.
Definition TASKQID_INVALID : Z := 0.
Definition ZFS_MAX_DATASET_NAME_LEN : Z := 256.
Definition MAXPATHLEN : Z := 4096.

(** [SET_ERROR] records the error for tracing and yields it unchanged. *)
Definition SET_ERROR (e : Z) : Z := e.

(** C [int] arithmetic: the value of a product or sum, reduced to 32 bits
    two's complement. *)
Definition int_wrap (x : Z) : Z := (x + 2 ^ 31) mod 2 ^ 32 - 2 ^ 31.

(** An [int] converted to [size_t], as the usual arithmetic conversions
    do when it meets a [size_t]: a negative one becomes huge. *)
Definition size_t (x : Z) : Z := x mod 2 ^ 64.

Definition INT_MAX : Z := 2 ^ 31 - 1.

(** ** Data model *)

(** [zfs_snapentry_t].  Addresses ([spa_t *], [struct dentry *]) and the
    64-bit object-set id are numbers.  The two [avl_node_t] links are
    represented by the entry's membership in the tree maps below, and
    [se_taskqid_lock] by the atomicity of the functions that take it. *)
Record zfs_snapentry_t := mk_snapentry {
  se_name : string;
  se_path : string;
  se_spa : Z;
  se_objsetid : Z;
  se_root_dentry : Z;
  se_taskqid : Z;
  se_refcount : Z
}.

Definition set_se_name (n : string) (e : zfs_snapentry_t) : zfs_snapentry_t :=
  mk_snapentry n (se_path e) (se_spa e) (se_objsetid e) (se_root_dentry e)
    (se_taskqid e) (se_refcount e).

Definition set_se_taskqid (t : Z) (e : zfs_snapentry_t) : zfs_snapentry_t :=
  mk_snapentry (se_name e) (se_path e) (se_spa e) (se_objsetid e)
    (se_root_dentry e) t (se_refcount e).

Definition set_se_refcount (r : Z) (e : zfs_snapentry_t) : zfs_snapentry_t :=
  mk_snapentry (se_name e) (se_path e) (se_spa e) (se_objsetid e)
    (se_root_dentry e) (se_taskqid e) r.

(** A task queued on [system_delay_taskq]: the callback is always
    [snapentry_expire], so a task is its argument and its expiry time. *)
Record tq_task := mk_task {
  tk_arg : Z;
  tk_expire : Z
}.

(** What the file does to the outside world, in order. *)
Inductive kevent :=
  | EvUsermodehelper (argv : list string)
  | EvDslDestroySnapshot (name : string)
  | EvDslRenameSnapshot (fsname snm tnm : string).

(** The kernel state the file reads and writes. *)
Record kstate := mk_kstate {
  kmem : gmap Z zfs_snapentry_t;
  kmem_next : Z;
  zfs_snapshots_by_name : gmap string Z;
  zfs_snapshots_by_objsetid : gmap (Z * Z) Z;
  tq_pending : gmap Z tq_task;
  tq_active : gset Z;
  tq_next_id : Z;
  zfs_expire_snapshot : Z;
  zfs_admin_snapshot : Z;
  zfs_snapshot_no_setuid : Z;
  lbolt : Z;
  HZ : Z;
  klog : list kevent
}.

Definition upd_kmem (f : gmap Z zfs_snapentry_t → gmap Z zfs_snapentry_t)
    (st : kstate) : kstate :=
  mk_kstate (f (kmem st)) (kmem_next st) (zfs_snapshots_by_name st)
    (zfs_snapshots_by_objsetid st) (tq_pending st) (tq_active st)
    (tq_next_id st) (zfs_expire_snapshot st) (zfs_admin_snapshot st)
    (zfs_snapshot_no_setuid st) (lbolt st) (HZ st) (klog st).

Definition set_kmem_next (n : Z) (st : kstate) : kstate :=
  mk_kstate (kmem st) n (zfs_snapshots_by_name st)
    (zfs_snapshots_by_objsetid st) (tq_pending st) (tq_active st)
    (tq_next_id st) (zfs_expire_snapshot st) (zfs_admin_snapshot st)
    (zfs_snapshot_no_setuid st) (lbolt st) (HZ st) (klog st).

Definition set_by_name (t : gmap string Z) (st : kstate) : kstate :=
  mk_kstate (kmem st) (kmem_next st) t
    (zfs_snapshots_by_objsetid st) (tq_pending st) (tq_active st)
    (tq_next_id st) (zfs_expire_snapshot st) (zfs_admin_snapshot st)
    (zfs_snapshot_no_setuid st) (lbolt st) (HZ st) (klog st).

Definition set_by_objsetid (t : gmap (Z * Z) Z) (st : kstate) : kstate :=
  mk_kstate (kmem st) (kmem_next st) (zfs_snapshots_by_name st)
    t (tq_pending st) (tq_active st)
    (tq_next_id st) (zfs_expire_snapshot st) (zfs_admin_snapshot st)
    (zfs_snapshot_no_setuid st) (lbolt st) (HZ st) (klog st).

Definition set_taskq (p : gmap Z tq_task) (a : gset Z) (n : Z)
    (st : kstate) : kstate :=
  mk_kstate (kmem st) (kmem_next st) (zfs_snapshots_by_name st)
    (zfs_snapshots_by_objsetid st) p a n
    (zfs_expire_snapshot st) (zfs_admin_snapshot st)
    (zfs_snapshot_no_setuid st) (lbolt st) (HZ st) (klog st).

Definition set_expire_snapshot (v : Z) (st : kstate) : kstate :=
  mk_kstate (kmem st) (kmem_next st) (zfs_snapshots_by_name st)
    (zfs_snapshots_by_objsetid st) (tq_pending st) (tq_active st)
    (tq_next_id st) v (zfs_admin_snapshot st)
    (zfs_snapshot_no_setuid st) (lbolt st) (HZ st) (klog st).

Definition set_lbolt (v : Z) (st : kstate) : kstate :=
  mk_kstate (kmem st) (kmem_next st) (zfs_snapshots_by_name st)
    (zfs_snapshots_by_objsetid st) (tq_pending st) (tq_active st)
    (tq_next_id st) (zfs_expire_snapshot st) (zfs_admin_snapshot st)
    (zfs_snapshot_no_setuid st) v (HZ st) (klog st).

Definition log_event (ev : kevent) (st : kstate) : kstate :=
  mk_kstate (kmem st) (kmem_next st) (zfs_snapshots_by_name st)
    (zfs_snapshots_by_objsetid st) (tq_pending st) (tq_active st)
    (tq_next_id st) (zfs_expire_snapshot st) (zfs_admin_snapshot st)
    (zfs_snapshot_no_setuid st) (lbolt st) (HZ st) (klog st ++ [ev]).

(** ** The monad of kernel computations *)

Definition M (A : Type) : Type := kstate → option (A * kstate).

Definition ret {A} (a : A) : M A := λ st, Some (a, st).

Definition bind {A B} (m : M A) (k : A → M B) : M B :=
  λ st, match m st with
        | Some (a, st') => k a st'
        | None => None
        end.

Definition panic {A} : M A := λ _, None.

Definition gets {A} (f : kstate → A) : M A := λ st, Some (f st, st).

Definition modify (f : kstate → kstate) : M unit := λ st, Some (tt, f st).

Declare Scope kern_scope.
Delimit Scope kern_scope with kern.
Notation "'do' x <- m ; k" := (bind m (λ x, k))
  (at level 10, x name, m at level 100, k at level 200) : kern_scope.
Notation "'run' m ; k" := (bind m (λ _, k))
  (at level 10, m at level 100, k at level 200) : kern_scope.
Open Scope kern_scope.

(** Reading and writing an entry through its address; touching an address
    that holds no entry (never allocated, or freed) is a panic. *)
Definition deref (se : Z) : M zfs_snapentry_t :=
  λ st, match kmem st !! se with
        | Some e => Some (e, st)
        | None => None
        end.

Definition store (se : Z) (f : zfs_snapentry_t → zfs_snapentry_t) : M unit :=
  do e <- deref se;
  modify (upd_kmem (<[se := f e]>)).

(** ** String helpers of libc *)

(** [strcmp], reduced to its sign. *)
Definition strcmp (a b : string) : Z :=
  match String.compare a b with
  | Lt => -1
  | Eq => 0
  | Gt => 1
  end.

Definition strlen (s : string) : Z := Z.of_nat (String.length s).

(** [snprintf(buf, n, ...)], with [n] a [size_t], keeps at most [n - 1]
    characters of what it formats.  With a size of 0 it writes nothing,
    and the kernel's [vsnprintf] refuses a size above [INT_MAX] in the
    same way: [buf] then keeps what it held. *)
Definition snprintf_trunc (buf : string) (n : Z) (s : string) : string :=
  if (n <=? 0) || (INT_MAX <? n) then buf
  else String.substring 0 (Z.to_nat (n - 1)) s.

(** ** Comparators of the two trees *)

Definition snapentry_compare_by_name (a b : zfs_snapentry_t) : Z :=
  let r := strcmp (se_name a) (se_name b) in
  if r <? 0 then -1 else if r >? 0 then 1 else 0.

Definition snapentry_compare_by_objsetid (a b : zfs_snapentry_t) : Z :=
  if negb (se_spa a =? se_spa b) then
    (if se_spa a <? se_spa b then -1 else 1)
  else if se_objsetid a <? se_objsetid b then -1
  else if se_objsetid a >? se_objsetid b then 1
  else 0.

(** The sort keys the comparators induce. *)
Definition name_key (e : zfs_snapentry_t) : string := se_name e.
Definition objsetid_key (e : zfs_snapentry_t) : Z * Z :=
  (se_spa e, se_objsetid e).

(** ** The AVL library *)

(** Modelled from the spec: [avl_find], [avl_add] and [avl_remove] of the
    AVL library, whose code is not part of the sources at hand.  A tree
    is the finite map from the sort key of each linked node to the node's
    address ("two ordered associative indices over the same set of
    entries"; "No two live Entries compare equal").  Adding a node whose
    key is present, and removing a node the tree does not link, are
    "programming errors — fatal assertions, never recovered". *)
Definition avl_find {K} `{Countable K} (t : gmap K Z) (k : K) : option Z :=
  t !! k.

Definition avl_add {K} `{Countable K} (t : gmap K Z) (k : K) (se : Z)
    : option (gmap K Z) :=
  match t !! k with
  | Some _ => None
  | None => Some (<[k := se]> t)
  end.

Definition avl_remove {K} `{Countable K} (t : gmap K Z) (k : K) (se : Z)
    : option (gmap K Z) :=
  match t !! k with
  | Some p => if decide (p = se) then Some (delete k t) else None
  | None => None
  end.

(** ** Reference counting *)

(** Modelled from the spec: [zfs_refcount_add] and [zfs_refcount_remove],
    whose code is not part of the sources at hand.  The count is the
    "number of live holders"; removing from a count of zero trips the
    assertion of the reference-count library. *)
Definition zfs_refcount_add (se : Z) : M unit :=
  store se (λ e, set_se_refcount (se_refcount e + 1) e).

Definition zfs_refcount_remove (se : Z) : M Z :=
  do e <- deref se;
  if se_refcount e <=? 0 then panic
  else
    run store se (set_se_refcount (se_refcount e - 1));
    ret (se_refcount e - 1).

(** ** Allocation, hold and release *)

Definition zfsctl_snapshot_alloc (full_name full_path : string)
    (spa objsetid root_dentry : Z) : M Z :=
  do se <- gets kmem_next;
  run modify (set_kmem_next (se + 1));
  run modify (upd_kmem (<[se := mk_snapentry full_name full_path spa objsetid
                                   root_dentry TASKQID_INVALID 0]>));
  ret se.

Definition zfsctl_snapshot_free (se : Z) : M unit :=
  run deref se;
  modify (upd_kmem (delete se)).

Definition zfsctl_snapshot_hold (se : Z) : M unit :=
  zfs_refcount_add se.

Definition zfsctl_snapshot_rele (se : Z) : M unit :=
  do n <- zfs_refcount_remove se;
  if n =? 0 then zfsctl_snapshot_free se else ret tt.

(** ** The two-tree registry *)

Definition avl_add_by_name (se : Z) : M unit :=
  do e <- deref se;
  do t <- gets zfs_snapshots_by_name;
  match avl_add t (name_key e) se with
  | Some t' => modify (set_by_name t')
  | None => panic
  end.

Definition avl_add_by_objsetid (se : Z) : M unit :=
  do e <- deref se;
  do t <- gets zfs_snapshots_by_objsetid;
  match avl_add t (objsetid_key e) se with
  | Some t' => modify (set_by_objsetid t')
  | None => panic
  end.

Definition avl_remove_by_name (se : Z) : M unit :=
  do e <- deref se;
  do t <- gets zfs_snapshots_by_name;
  match avl_remove t (name_key e) se with
  | Some t' => modify (set_by_name t')
  | None => panic
  end.

Definition avl_remove_by_objsetid (se : Z) : M unit :=
  do e <- deref se;
  do t <- gets zfs_snapshots_by_objsetid;
  match avl_remove t (objsetid_key e) se with
  | Some t' => modify (set_by_objsetid t')
  | None => panic
  end.

Definition zfsctl_snapshot_add (se : Z) : M unit :=
  run zfsctl_snapshot_hold se;
  run avl_add_by_name se;
  avl_add_by_objsetid se.

Definition zfsctl_snapshot_remove (se : Z) : M unit :=
  run avl_remove_by_name se;
  run avl_remove_by_objsetid se;
  zfsctl_snapshot_rele se.

Definition zfsctl_snapshot_find_by_name (snapname : string) : M (option Z) :=
  do t <- gets zfs_snapshots_by_name;
  match avl_find t snapname with
  | Some se => run zfsctl_snapshot_hold se; ret (Some se)
  | None => ret None
  end.

Definition zfsctl_snapshot_find_by_objsetid (spa objsetid : Z)
    : M (option Z) :=
  do t <- gets zfs_snapshots_by_objsetid;
  match avl_find t (spa, objsetid) with
  | Some se => run zfsctl_snapshot_hold se; ret (Some se)
  | None => ret None
  end.

(** The statements of [zfsctl_snapshot_rename] that follow the lookup, in
    order: remove, free and duplicate the name, add, release. *)
Definition zfsctl_snapshot_rename_body (se : Z) (new_snapname : string)
    : list (M unit) :=
  [ zfsctl_snapshot_remove se;
    store se (set_se_name new_snapname);
    zfsctl_snapshot_add se;
    zfsctl_snapshot_rele se ].

Fixpoint seq_run (body : list (M unit)) : M unit :=
  match body with
  | [] => ret tt
  | s :: rest => run s; seq_run rest
  end.

(** The states a statement list goes through, one after each statement
    that completes. *)
Fixpoint seq_trace (body : list (M unit)) (st : kstate) : list kstate :=
  match body with
  | [] => []
  | s :: rest =>
      match s st with
      | Some (_, st') => st' :: seq_trace rest st'
      | None => []
      end
  end.

Definition zfsctl_snapshot_rename (old_snapname new_snapname : string)
    : M Z :=
  do r <- zfsctl_snapshot_find_by_name old_snapname;
  match r with
  | None => ret (SET_ERROR ENOENT)
  | Some se =>
      run seq_run (zfsctl_snapshot_rename_body se new_snapname);
      ret 0
  end.

Definition zfsctl_snapshot_ismounted (snapname : string) : M bool :=
  do r <- zfsctl_snapshot_find_by_name snapname;
  match r with
  | Some se => run zfsctl_snapshot_rele se; ret true
  | None => ret false
  end.

(** ** The delayed task queue *)

(** Modelled from the spec: [taskq_dispatch_delay] and [taskq_cancel_id]
    of the kernel task queues, whose code is not part of the sources at
    hand.  Dispatching "records a new task handle that will invoke the
    expiry callback after [delay]"; identifiers are handed out in
    increasing order and never equal [TASKQID_INVALID].  Cancelling has
    "three outcomes": the task is still pending and is removed (0), the
    task "cannot be found (already fired or never existed)" ([ENOENT]),
    or the task "is mid-flight and the cancel call blocks until it
    completes" ([EBUSY]). *)
Definition taskq_dispatch_delay (arg expire_time : Z) : M Z :=
  do id <- gets tq_next_id;
  run modify (λ st, set_taskq (<[id := mk_task arg expire_time]> (tq_pending st))
                      (tq_active st) (id + 1) st);
  ret id.

Definition taskq_cancel_id (id : Z) : M Z :=
  do pend <- gets tq_pending;
  do act <- gets tq_active;
  match pend !! id with
  | Some _ =>
      run modify (λ st, set_taskq (delete id pend) act (tq_next_id st) st);
      ret 0
  | None =>
      if decide (id ∈ act) then
        run modify (λ st, set_taskq pend (act ∖ {[id]}) (tq_next_id st) st);
        ret EBUSY
      else ret ENOENT
  end.

(** ** Scheduling and cancelling the delayed unmount *)

Definition zfsctl_snapshot_unmount_cancel (se : Z) : M unit :=
  do e <- deref se;
  do err <- taskq_cancel_id (se_taskqid e);
  run store se (set_se_taskqid TASKQID_INVALID);
  if err =? 0 then zfsctl_snapshot_rele se else ret tt.

(** The task is due at [ddi_get_lbolt() + delay * HZ]: the product is
    an [int], the sum a [clock_t], taken here as it is. *)
Definition zfsctl_snapshot_unmount_delay_impl (se : Z) (delay : Z) : M unit :=
  if delay <=? 0 then ret tt
  else
    run zfsctl_snapshot_hold se;
    do e <- deref se;
    if negb (se_taskqid e =? TASKQID_INVALID) then zfsctl_snapshot_rele se
    else
      do now <- gets lbolt;
      do hz <- gets HZ;
      do id <- taskq_dispatch_delay se (now + int_wrap (delay * hz));
      store se (set_se_taskqid id).

Definition zfsctl_snapshot_unmount_delay (spa objsetid : Z) (delay : Z)
    : M Z :=
  do r <- zfsctl_snapshot_find_by_objsetid spa objsetid;
  match r with
  | Some se =>
      run zfsctl_snapshot_unmount_cancel se;
      run zfsctl_snapshot_unmount_delay_impl se delay;
      run zfsctl_snapshot_rele se;
      ret 0
  | None => ret ENOENT
  end.

(** ** Tearing down a snapshot's registration *)

(** [zfsctl_destroy] for the file system with the given pool and
    object-set id; [z_issnap] tells a snapshot from a head file system,
    whose branch only drops the cached '.zfs' inode. *)
Definition zfsctl_destroy (z_issnap : bool) (spa objsetid : Z) : M unit :=
  if z_issnap then
    do r <- zfsctl_snapshot_find_by_objsetid spa objsetid;
    match r with
    | Some se =>
        run zfsctl_snapshot_remove se;
        run zfsctl_snapshot_unmount_cancel se;
        zfsctl_snapshot_rele se
    | None => ret tt
    end
  else ret tt.

(** ** The user-mode helper *)

(** What the helpers of one unmount attempt did: the exit status of
    the umount helper, whether the kernel unmounted the snapshot's file
    system while it ran, and the exit status of the exportfs helper.
    [zfsctl_destroy] is "only called when the filesystem is unmounted",
    on that file system. *)
Record umh_result := mk_umh {
  umh_status : Z;
  umh_unmounted : bool;
  umh_exportfs : Z
}.

Definition call_usermodehelper (argv : list string) (status : Z) : M Z :=
  run modify (log_event (EvUsermodehelper argv));
  ret status.

Definition exportfs_argv : list string := ["/usr/sbin/exportfs"; "-f"]%string.

(** [exportfs_flush] throws the helper's exit status away. *)
Definition exportfs_flush (status : Z) : M unit :=
  do _ <- call_usermodehelper exportfs_argv status;
  ret tt.

Definition umount_argv (flags : Z) (path : string) : list string :=
  let force := negb (Z.land flags MNT_FORCE =? 0) in
  ["/usr/bin/env"; "umount"; "-t"; "zfs"; if force then "-fn" else "-n";
   path]%string.

Definition zfsctl_snapshot_unmount (snapname : string) (flags : Z)
    (o : umh_result) : M Z :=
  do r <- zfsctl_snapshot_find_by_name snapname;
  match r with
  | None => ret (SET_ERROR ENOENT)
  | Some se =>
      run exportfs_flush (umh_exportfs o);
      do e <- deref se;
      do error <- call_usermodehelper (umount_argv flags (se_path e))
                    (umh_status o);
      run (if umh_unmounted o
           then zfsctl_destroy true (se_spa e) (se_objsetid e)
           else ret tt);
      run zfsctl_snapshot_rele se;
      ret (if negb (error =? 0) then SET_ERROR EBUSY else error)
  end.

(** ** The expiry callback *)

Definition snapentry_expire (o : umh_result) (se : Z) : M unit :=
  do e <- deref se;
  let spa := se_spa e in
  let objsetid := se_objsetid e in
  do expire <- gets zfs_expire_snapshot;
  if expire <=? 0 then zfsctl_snapshot_rele se
  else
    run store se (set_se_taskqid TASKQID_INVALID);
    do e1 <- deref se;
    run zfsctl_snapshot_unmount (se_name e1) MNT_EXPIRE o;
    run zfsctl_snapshot_rele se;
    do r <- zfsctl_snapshot_find_by_objsetid spa objsetid;
    match r with
    | Some se' =>
        do expire' <- gets zfs_expire_snapshot;
        run zfsctl_snapshot_unmount_delay_impl se' expire';
        zfsctl_snapshot_rele se'
    | None => ret tt
    end.

(** The worker thread of [system_delay_taskq] taking a pending task off
    the queue and running its callback on its argument. *)
Definition taskq_fire (o : umh_result) (id : Z) : M unit :=
  do pend <- gets tq_pending;
  match pend !! id with
  | Some t =>
      run modify (λ st, set_taskq (delete id pend) (tq_active st ∪ {[id]})
                          (tq_next_id st) st);
      run snapentry_expire o (tk_arg t);
      modify (λ st, set_taskq (tq_pending st) (tq_active st ∖ {[id]})
                      (tq_next_id st) st)
  | None => panic
  end.

(** ** Name construction *)

(** [zfsctl_snapshot_name]: [namecheck] is the result of
    [zfs_component_namecheck] on the snapshot name and [os_name] what
    [dmu_objset_name] writes.  The lengths are added in [size_t], and the
    [int len] is converted to [size_t] for the comparison. *)
Definition zfsctl_snapshot_name (namecheck : Z) (os_name snap_name : string)
    (len : Z) : Z * string :=
  if negb (namecheck =? 0) then (SET_ERROR EILSEQ, String.EmptyString)
  else if size_t (strlen os_name + 1 + strlen snap_name) >=? size_t len
       then (SET_ERROR ENAMETOOLONG, os_name)
       else (0, os_name +:+ "@" +:+ snap_name).

(** ** Mounting *)

(** What [zfsctl_snapshot_mount] gets from its caller and from the kernel
    services it calls. *)
Record mount_env := mk_mount_env {
  me_ip_null : bool;
  me_zfs_enter : Z;
  me_namecheck : Z;
  me_os_name : string;
  me_dname : string;
  me_chrooted : bool;
  me_root_path : Z * string;
  me_vfs_mntpoint : option string;
  me_umh_status : Z;
  me_follow_down : option (Z * Z * Z)
}.

Definition mount_argv (options full_name full_path : string) : list string :=
  ["/usr/bin/env"; "mount"; "-i"; "-t"; "zfs"; "-n"; "-o";
   options; full_name; full_path]%string.

(** The part of [zfsctl_snapshot_mount] before the registry is consulted:
    an error to return, or the snapshot's full name and mount path. *)
Definition mount_prepare (env : mount_env) : Z + string * string :=
  if me_ip_null env then inl (SET_ERROR EISDIR)
  else if negb (me_zfs_enter env =? 0) then inl (me_zfs_enter env)
  else
    let '(error, full_name) :=
      zfsctl_snapshot_name (me_namecheck env) (me_os_name env)
        (me_dname env) ZFS_MAX_DATASET_NAME_LEN in
    if negb (error =? 0) then inl error
    else
      let mntpoint :=
        if me_chrooted env then inr (me_vfs_mntpoint env)
        else if negb (fst (me_root_path env) =? 0)
             then inl (fst (me_root_path env))
             else inr (Some (snd (me_root_path env))) in
      match mntpoint with
      | inl e => inl e
      | inr mp =>
          inr (full_name,
               snprintf_trunc String.EmptyString MAXPATHLEN
                 (default String.EmptyString mp +:+ "/.zfs/snapshot/"
                  +:+ me_dname env))
      end.

(** The three parts of [zfsctl_snapshot_mount] that touch shared state,
    each atomic with respect to the registry lock: the registry check
    (read lock), the helper invocation (no lock), and the registration
    (write lock). *)
Definition mount_register (full_name full_path : string)
    (follow : option (Z * Z * Z)) : M unit :=
  match follow with
  | Some (spa, objsetid, dentry) =>
      do se <- zfsctl_snapshot_alloc full_name full_path spa objsetid dentry;
      run zfsctl_snapshot_add se;
      do expire <- gets zfs_expire_snapshot;
      zfsctl_snapshot_unmount_delay_impl se expire
  | None => ret tt
  end.

Definition mount_helper (full_name full_path : string) (status : Z) : M Z :=
  do nosetuid <- gets zfs_snapshot_no_setuid;
  let nosuid := negb (nosetuid =? 0) in
  let options := snprintf_trunc String.EmptyString 7
                   (if nosuid then "nosuid" else "suid") in
  call_usermodehelper (mount_argv options full_name full_path) status.

Definition mount_helper_error (error : Z) : Z :=
  if Z.land error (Z.shiftl MOUNT_BUSY 8) =? 0 then SET_ERROR EISDIR else 0.

Definition zfsctl_snapshot_mount (env : mount_env) : M Z :=
  match mount_prepare env with
  | inl error => ret error
  | inr (full_name, full_path) =>
      do ismounted <- zfsctl_snapshot_ismounted full_name;
      if ismounted then ret 0
      else
        do error <- mount_helper full_name full_path (me_umh_status env);
        if negb (error =? 0) then ret (mount_helper_error error)
        else
          run mount_register full_name full_path (me_follow_down env);
          ret error
  end.

(** ** Administrative removal through the snapshot directory *)

Record remove_env := mk_remove_env {
  re_zfs_enter : Z;
  re_case_insensitive : bool;
  re_realname : Z * string;
  re_namecheck : string → Z;
  re_os_name : string;
  re_secpolicy : Z;
  re_umh : umh_result;
  re_dsl_destroy : Z
}.

Definition dsl_destroy_snapshot (snapname : string) (result : Z) : M Z :=
  run modify (log_event (EvDslDestroySnapshot snapname));
  ret result.

(** The part of [zfsctl_snapdir_remove] between [zfs_enter] and the
    unmount: an error to return, or the full name of the snapshot. *)
Definition snapdir_remove_name (env : remove_env) (name : string)
    : Z + string :=
  let realname :=
    if re_case_insensitive env then
      (if fst (re_realname env) =? 0 then inr (snd (re_realname env))
       else if negb (fst (re_realname env) =? ENOTSUP)
            then inl (fst (re_realname env))
            else inr name)
    else inr name in
  match realname with
  | inl error => inl error
  | inr name' =>
      let '(error, snapname) :=
        zfsctl_snapshot_name (re_namecheck env name') (re_os_name env)
          name' ZFS_MAX_DATASET_NAME_LEN in
      let error := if error =? 0 then re_secpolicy env else error in
      if negb (error =? 0) then inl error else inr snapname
  end.

Definition zfsctl_snapdir_remove (env : remove_env) (name : string) : M Z :=
  do admin <- gets zfs_admin_snapshot;
  if admin =? 0 then ret (SET_ERROR EACCES)
  else if negb (re_zfs_enter env =? 0) then ret (re_zfs_enter env)
  else
    match snapdir_remove_name env name with
    | inl error => ret error
    | inr snapname =>
        do error <- zfsctl_snapshot_unmount snapname MNT_FORCE (re_umh env);
        if (error =? 0) || (error =? ENOENT)
        then dsl_destroy_snapshot snapname (re_dsl_destroy env)
        else ret error
    end.

(** ** Module initialisation *)

(** [zfsctl_init] creates the two trees empty; the task queue and the
    tunables are given by the rest of the kernel. *)
Definition zfsctl_init (expire admin nosetuid hz : Z) : kstate :=
  mk_kstate ∅ 1 ∅ ∅ ∅ ∅ 1 expire admin nosetuid 0 hz [].

(** ** Reasoning about computations *)

(** [wp m Q st]: from [st], [m] completes and its result and final state
    satisfy [Q]. *)
Definition wp {A} (m : M A) (Q : A → kstate → Prop) (st : kstate) : Prop :=
  ∃ a st', m st = Some (a, st') ∧ Q a st'.

(** The reference count of the entry at an address, if one is there. *)
Definition refs (st : kstate) (se : Z) : option Z :=
  se_refcount <$> kmem st !! se.

(** Membership of an entry in each tree. *)
Definition in_by_name (st : kstate) (se : Z) : Prop :=
  ∃ k, zfs_snapshots_by_name st !! k = Some se.

Definition in_by_objsetid (st : kstate) (se : Z) : Prop :=
  ∃ k, zfs_snapshots_by_objsetid st !! k = Some se.

(** The number of helper invocations and of snapshot destructions in a
    log. *)
Definition is_umh (ev : kevent) : bool :=
  match ev with EvUsermodehelper _ => true | _ => false end.

Definition is_destroy (ev : kevent) : bool :=
  match ev with EvDslDestroySnapshot _ => true | _ => false end.

Definition umh_count (st : kstate) : nat := length (filter is_umh (klog st)).

(** ** Example states *)

(** The snapshot "pool/fs@s1" of pool 7, object set 42, looked up under
    a file system mounted at "/mnt" while the mount helper succeeds. *)
Definition example_env : mount_env :=
  mk_mount_env false 0 0 "pool/fs" "s1" false (0, "/mnt"%string) None 0
    (Some (7, 42, 99)).

Definition run_from {A} (m : M A) (st : kstate) : kstate :=
  match m st with
  | Some (_, st') => st'
  | None => st
  end.

(** The state after the module is initialised with a 300 second expiry
    and the example snapshot is automounted. *)
Definition example_mounted : kstate :=
  run_from (zfsctl_snapshot_mount example_env) (zfsctl_init 300 1 0 1000).

(** ** The renaming property as the specification words it *)

(** "the pool/dataset index is untouched": in every state the renaming
    goes through, the by-objsetid tree is the one it started with. *)
Definition rename_objsetid_untouched (st : kstate) (old new : string) : Prop :=
  ∀ se st1,
    zfsctl_snapshot_find_by_name old st = Some (Some se, st1) →
    Forall (λ s, zfs_snapshots_by_objsetid s = zfs_snapshots_by_objsetid st)
      (seq_trace (zfsctl_snapshot_rename_body se new) st1).

(** ** What a computation leaves alone *)

(** [preserves R m]: whenever [m] completes, the states before and after
    are related by [R]. *)
Definition preserves {A} (R : relation kstate) (m : M A) : Prop :=
  ∀ st a st', m st = Some (a, st') → R st st'.

Definition same_log : relation kstate :=
  λ st st', klog st' = klog st.

Definition same_destroys : relation kstate :=
  λ st st', filter is_destroy (klog st') = filter is_destroy (klog st).

Definition same_trees : relation kstate :=
  λ st st',
    zfs_snapshots_by_name st' = zfs_snapshots_by_name st ∧
    zfs_snapshots_by_objsetid st' = zfs_snapshots_by_objsetid st.

Definition same_tunables : relation kstate :=
  λ st st',
    zfs_expire_snapshot st' = zfs_expire_snapshot st ∧
    zfs_admin_snapshot st' = zfs_admin_snapshot st ∧
    zfs_snapshot_no_setuid st' = zfs_snapshot_no_setuid st ∧
    lbolt st' = lbolt st ∧
    HZ st' = HZ st.

Definition no_dispatch : relation kstate :=
  λ st st',
    tq_pending st' ⊆ tq_pending st ∧ tq_next_id st' = tq_next_id st.

(** ** The reference-counting discipline *)

(** References that callers in flight hold on entries: [h se] is the
    number of references to [se] that are neither the registry's nor a
    pending task's. *)
Definition h_add (h : Z → Z) (p d : Z) : Z → Z :=
  λ q, if decide (q = p) then h q + d else h q.

Definition reg_count (st : kstate) (p : Z) (e : zfs_snapentry_t) : Z :=
  if decide (zfs_snapshots_by_name st !! se_name e = Some p) then 1 else 0.

Definition pend_count (st : kstate) (e : zfs_snapentry_t) : Z :=
  match tq_pending st !! se_taskqid e with
  | Some _ => 1
  | None => 0
  end.

(** The invariant of the registry and the scheduler, given the
    references in flight. *)
Record ginv (h : Z → Z) (st : kstate) : Prop := mk_ginv {
  gi_next : ∀ p e, kmem st !! p = Some e → p < kmem_next st;
  gi_tqpos : 0 < tq_next_id st;
  gi_tqid : ∀ p e, kmem st !! p = Some e → se_taskqid e < tq_next_id st;
  gi_refs : ∀ p e, kmem st !! p = Some e →
    se_refcount e = reg_count st p e + pend_count st e + h p;
  gi_both : ∀ p e, kmem st !! p = Some e →
    (zfs_snapshots_by_name st !! se_name e = Some p ↔
     zfs_snapshots_by_objsetid st !! objsetid_key e = Some p);
  gi_name : ∀ k p, zfs_snapshots_by_name st !! k = Some p →
    ∃ e, kmem st !! p = Some e ∧ se_name e = k;
  gi_objsetid : ∀ k p, zfs_snapshots_by_objsetid st !! k = Some p →
    ∃ e, kmem st !! p = Some e ∧ objsetid_key e = k;
  gi_task : ∀ id t, tq_pending st !! id = Some t →
    0 < id < tq_next_id st ∧
    ∃ e, kmem st !! tk_arg t = Some e ∧ se_taskqid e = id;
  gi_owner : ∀ p e t, kmem st !! p = Some e →
    tq_pending st !! se_taskqid e = Some t → tk_arg t = p;
  gi_hold : ∀ p, 0 ≤ h p;
  gi_held : ∀ p, 0 < h p → is_Some (kmem st !! p);
  gi_reg : ∀ p e, kmem st !! p = Some e → h p = 0 →
    zfs_snapshots_by_name st !! se_name e = Some p
}.

(** Between two entry points nobody is in flight. *)
Definition inv (st : kstate) : Prop := ginv (λ _, 0) st.

(** ** The entry points and the states they reach *)

Inductive kop :=
  | OpMount (env : mount_env)
  | OpUnmount (snapname : string) (flags : Z) (o : umh_result)
  | OpUnmountDelay (spa objsetid delay : Z)
  | OpDestroy (z_issnap : bool) (spa objsetid : Z)
  | OpRename (old_snapname new_snapname : string)
  | OpSnapdirRemove (env : remove_env) (name : string)
  | OpExpire (o : umh_result) (id : Z)
  | OpSetExpire (v : Z)
  | OpTick (now : Z).

(** [OpRename] is the registry update [zfsctl_snapdir_rename] makes under
    the write lock once the snapshot is renamed on disk, [OpExpire] the
    task queue running a pending task, [OpSetExpire] a write to the
    module parameter [zfs_expire_snapshot], [OpTick] the clock moving. *)
Definition kop_run (op : kop) : M unit :=
  match op with
  | OpMount env => run zfsctl_snapshot_mount env; ret tt
  | OpUnmount snapname flags o =>
      run zfsctl_snapshot_unmount snapname flags o; ret tt
  | OpUnmountDelay spa objsetid delay =>
      run zfsctl_snapshot_unmount_delay spa objsetid delay; ret tt
  | OpDestroy z_issnap spa objsetid => zfsctl_destroy z_issnap spa objsetid
  | OpRename old_snapname new_snapname =>
      run zfsctl_snapshot_rename old_snapname new_snapname; ret tt
  | OpSnapdirRemove env name => run zfsctl_snapdir_remove env name; ret tt
  | OpExpire o id => taskq_fire o id
  | OpSetExpire v => modify (set_expire_snapshot v)
  | OpTick now => modify (set_lbolt now)
  end.

Inductive reachable : kstate → Prop :=
  | reachable_init expire admin nosetuid hz :
      reachable (zfsctl_init expire admin nosetuid hz)
  | reachable_step st op st' :
      reachable st → kop_run op st = Some (tt, st') → reachable st'.

(** ** Sequences of registry operations *)

(** The operations of the registry, applied to whatever address the
    caller passes. *)
Inductive reg_op :=
  | RegAlloc (full_name full_path : string) (spa objsetid root_dentry : Z)
  | RegAdd (se : Z)
  | RegRemove (se : Z)
  | RegHold (se : Z)
  | RegRele (se : Z)
  | RegRename (old_snapname new_snapname : string).

Definition reg_op_run (op : reg_op) : M unit :=
  match op with
  | RegAlloc full_name full_path spa objsetid root_dentry =>
      run zfsctl_snapshot_alloc full_name full_path spa objsetid root_dentry;
      ret tt
  | RegAdd se => zfsctl_snapshot_add se
  | RegRemove se => zfsctl_snapshot_remove se
  | RegHold se => zfsctl_snapshot_hold se
  | RegRele se => zfsctl_snapshot_rele se
  | RegRename old_snapname new_snapname =>
      run zfsctl_snapshot_rename old_snapname new_snapname; ret tt
  end.

(** What ties the two trees together: each tree's key is the key its
    entry carries, and the two trees hold the same entries. *)
Record dual (st : kstate) : Prop := mk_dual {
  du_next : ∀ p e, kmem st !! p = Some e → p < kmem_next st;
  du_name : ∀ k p, zfs_snapshots_by_name st !! k = Some p →
    p < kmem_next st ∧ ∀ e, kmem st !! p = Some e → se_name e = k;
  du_objsetid : ∀ k p, zfs_snapshots_by_objsetid st !! k = Some p →
    p < kmem_next st ∧ ∀ e, kmem st !! p = Some e → objsetid_key e = k;
  du_both : ∀ p, in_by_name st p ↔ in_by_objsetid st p
}.

(** ** Threads inside [zfsctl_snapshot_mount] *)

(** Where a thread is: before the registry check, between the check
    and the helper, between the helper and the registration, or back. *)
Inductive mount_pc :=
  | PcEntry
  | PcHelper (full_name full_path : string)
  | PcRegister (full_name full_path : string)
  | PcReturned (r : Z).

(** One step of a thread: a part of [zfsctl_snapshot_mount] that runs
    under one acquisition of the registry lock, or the helper call, which
    runs under none. *)
Definition mount_step (env : mount_env) (pc : mount_pc) : M mount_pc :=
  match pc with
  | PcEntry =>
      match mount_prepare env with
      | inl error => ret (PcReturned error)
      | inr (full_name, full_path) =>
          do ismounted <- zfsctl_snapshot_ismounted full_name;
          ret (if ismounted then PcReturned 0
               else PcHelper full_name full_path)
      end
  | PcHelper full_name full_path =>
      do error <- mount_helper full_name full_path (me_umh_status env);
      ret (if negb (error =? 0) then PcReturned (mount_helper_error error)
           else PcRegister full_name full_path)
  | PcRegister full_name full_path =>
      run mount_register full_name full_path (me_follow_down env);
      ret (PcReturned 0)
  | PcReturned r => ret (PcReturned r)
  end.

(** Threads run as a schedule says: each element names the thread that
    takes the next step. *)
Fixpoint run_schedule (sched : list nat)
    (threads : list (mount_env * mount_pc))
    : M (list (mount_env * mount_pc)) :=
  match sched with
  | [] => ret threads
  | i :: rest =>
      match threads !! i with
      | Some (env, pc) =>
          do pc' <- mount_step env pc;
          run_schedule rest (<[i := (env, pc')]> threads)
      | None => run_schedule rest threads
      end
  end.

(** Calls made one after the other. *)
Fixpoint mount_seq (envs : list mount_env) : M (list Z) :=
  match envs with
  | [] => ret []
  | env :: rest =>
      do r <- zfsctl_snapshot_mount env;
      do rs <- mount_seq rest;
      ret (r :: rs)
  end.

(** "Concurrent [ensure_mounted(name)] calls from N threads result in
    exactly one external mount invocation and N successful returns":
    whatever the schedule, once every thread is back the helper has been
    called once and every thread returned 0. *)
Definition one_automount (st : kstate) (envs : list mount_env)
    (sched : list nat) : Prop :=
  ∀ threads st',
    run_schedule sched (map (λ env, (env, PcEntry)) envs) st
      = Some (threads, st') →
    Forall (λ t, ∃ r, t.2 = PcReturned r) threads →
    umh_count st' = (umh_count st + 1)%nat ∧
    Forall (λ t, t.2 = PcReturned 0) threads.

(** The same snapshot looked up by a second thread, whose helper finds
    the mount point busy. *)
Definition example_env_busy : mount_env :=
  mk_mount_env false 0 0 "pool/fs" "s1" false (0, "/mnt"%string) None
    (Z.shiftl MOUNT_BUSY 8) (Some (7, 42, 99)).

(** A helper status that [zfsctl_snapshot_mount] takes for "mounted by
    someone else": the exit code has [MOUNT_BUSY] set. *)
Definition umh_busy (status : Z) : Prop :=
  Z.land status (Z.shiftl MOUNT_BUSY 8) ≠ 0.

(** How far a thread has come, and whether it is past the point where
    the helper is called. *)
Definition pc_rank (pc : mount_pc) : nat :=
  match pc with
  | PcEntry => 0
  | PcHelper _ _ => 1
  | PcRegister _ _ => 2
  | PcReturned _ => 3
  end.

Definition pc_called (pc : mount_pc) : nat :=
  match pc with
  | PcEntry | PcHelper _ _ => 0
  | PcRegister _ _ | PcReturned _ => 1
  end.

Definition called_count (threads : list (mount_env * mount_pc)) : nat :=
  sum_list (map (λ t, pc_called t.2) threads).

(** The number of steps a schedule gives to thread [i]. *)
Definition sched_steps (i : nat) (sched : list nat) : nat :=
  length (filter (λ j, j = i) sched).

(** The registry while threads are inside [zfsctl_snapshot_mount] for the
    snapshot [n] of object set [(spa, o)], as seen from the state [st0]
    they started in: either as it was, or with the one entry the thread
    whose helper succeeded has registered. *)
Definition mount_unregistered (st0 st : kstate) : Prop :=
  zfs_snapshots_by_name st = zfs_snapshots_by_name st0 ∧
  zfs_snapshots_by_objsetid st = zfs_snapshots_by_objsetid st0 ∧
  kmem_next st = kmem_next st0.

Definition mount_registered (n : string) (spa o : Z) (st0 st : kstate)
    : Prop :=
  zfs_snapshots_by_name st
    = <[n := kmem_next st0]> (zfs_snapshots_by_name st0) ∧
  zfs_snapshots_by_objsetid st
    = <[(spa, o) := kmem_next st0]> (zfs_snapshots_by_objsetid st0) ∧
  kmem_next st = kmem_next st0 + 1 ∧
  ∃ e, kmem st !! kmem_next st0 = Some e ∧ 1 ≤ se_refcount e.

(** Where the thread whose helper succeeds can be, and what the registry
    then looks like. *)
Definition winner_ok (n path : string) (spa o : Z) (st0 : kstate)
    (pc : mount_pc) (st : kstate) : Prop :=
  match pc with
  | PcEntry =>
      mount_unregistered st0 st ∧ (umh_count st0 ≤ umh_count st)%nat
  | PcHelper n' path' =>
      n' = n ∧ path' = path ∧ mount_unregistered st0 st ∧
      (umh_count st0 ≤ umh_count st)%nat
  | PcRegister n' path' =>
      n' = n ∧ path' = path ∧ mount_unregistered st0 st ∧
      (umh_count st0 + 1 ≤ umh_count st)%nat
  | PcReturned r =>
      r = 0 ∧ mount_registered n spa o st0 st ∧
      (umh_count st0 + 1 ≤ umh_count st)%nat
  end.

(** Where a thread whose helper is told that the mount point is busy can
    be. *)
Definition other_ok (pc : mount_pc) : Prop :=
  match pc with
  | PcEntry | PcHelper _ _ => True
  | PcRegister _ _ => False
  | PcReturned r => r = 0
  end.

(** ** The expiry callback as the specification words it *)

(** "clears [scheduled_task] ...; attempts to unmount the snapshot ...;
    if the entry is still registered after the unmount attempt ... the
    callback re-arms expiry on the same entry with the same base
    delay". *)
Definition expire_rearms (st : kstate) (o : umh_result) (id : Z) : Prop :=
  ∀ t e st',
    tq_pending st !! id = Some t →
    kmem st !! tk_arg t = Some e →
    taskq_fire o id st = Some (tt, st') →
    (∃ evs, klog st' = klog st ++ evs ∧
       EvUsermodehelper (umount_argv MNT_EXPIRE (se_path e)) ∈ evs) ∧
    (zfs_snapshots_by_objsetid st' !! objsetid_key e = Some (tk_arg t) →
     ∃ id' t' e',
       tq_pending st' !! id' = Some t' ∧ tk_arg t' = tk_arg t ∧
       kmem st' !! tk_arg t = Some e' ∧ se_taskqid e' = id' ∧ id' ≠ id).

(** The example snapshot, mounted while expiry was on, with expiry then
    switched off through the module parameter. *)
Definition example_expiry_off : kstate :=
  run_from (modify (set_expire_snapshot 0)) example_mounted.

(** Two snapshots registered, the first renamed, the second held by a
    caller and removed. *)
Definition example_reg_ops : list reg_op :=
  [RegAlloc "pool/fs@s1" "/mnt/.zfs/snapshot/s1" 7 42 99;
   RegAdd 1;
   RegAlloc "pool/fs@s2" "/mnt/.zfs/snapshot/s2" 7 43 98;
   RegAdd 2;
   RegRename "pool/fs@s1" "pool/fs@s3";
   RegHold 2;
   RegRemove 2].

(** * The '.zfs' directory: inodes, file handles and administrative calls *)

(** ** More constants of the kernel headers *)

Definition EINVAL : Z := 22.
Definition ENOSPC : Z := 28.

(** The inode numbers of the control directory count down from the top
    of the 48-bit object-number space: '.zfs', '.zfs/shares',
    '.zfs/snapshot', and below them one number per snapshot. *)
Definition ZFSCTL_INO_ROOT : Z := 0xFFFFFFFFFFFF.
Definition ZFSCTL_INO_SHARES : Z := 0xFFFFFFFFFFFE.
Definition ZFSCTL_INO_SNAPDIR : Z := 0xFFFFFFFFFFFD.
Definition ZFSCTL_INO_SNAPDIRS : Z := 0xFFFFFFFFFFFC.

Definition ZFS_SNAPDIR_NAME : string := "snapshot".
Definition ZFS_SHAREDIR_NAME : string := "shares".
Definition ZFS_SNAPDIR_DISABLED : Z := 2.

Definition S_IFDIR : Z := 0x4000.
Definition S_IRWXUGO : Z := 0x1FF.
Definition SPA_MINBLOCKSHIFT : Z := 9.
Definition IOP_XATTR : Z := 0x8.

(** Conversions between the C integer types. *)
Definition uint8_t (x : Z) : Z := x mod 2 ^ 8.
Definition uint64_t (x : Z) : Z := x mod 2 ^ 64.
Definition int64_t (x : Z) : Z := (x + 2 ^ 63) mod 2 ^ 64 - 2 ^ 63.

(** ** Inodes of the control directory *)

Record inode_timespec_t := mk_timespec {
  tv_sec : Z;
  tv_nsec : Z
}.

(** The operation tables an inode can point to. *)
Inductive file_operations :=
  | zpl_fops_root
  | zpl_fops_snapdir
  | zpl_fops_shares
  | simple_dir_operations
  | other_fops (addr : Z).

Inductive inode_operations :=
  | zpl_ops_root
  | zpl_ops_snapdir
  | zpl_ops_shares
  | simple_dir_inode_operations
  | other_ops (addr : Z).

(** The fields of [znode_t] that [zfsctl_inode_alloc] writes. *)
Record znode_t := mk_znode {
  z_id : Z;
  z_unlinked : bool;
  z_atime_dirty : bool;
  z_zn_prefetch : bool;
  z_is_sa : bool;
  z_is_ctldir : bool;
  z_sa_hdl : option Z;
  z_blksz : Z;
  z_seq : Z;
  z_mapcnt : Z;
  z_size : Z;
  z_pflags : Z;
  z_mode : Z;
  z_sync_cnt : Z;
  z_sync_writes_cnt : Z;
  z_async_writes_cnt : Z
}.

(** [struct inode], with the znode it is embedded in ([ITOZ]). *)
Record inode := mk_inode {
  i_ino : Z;
  i_generation : Z;
  i_mode : Z;
  i_uid : Z;
  i_gid : Z;
  i_blkbits : Z;
  i_atime : inode_timespec_t;
  i_mtime : inode_timespec_t;
  i_ctime : inode_timespec_t;
  i_fop : file_operations;
  i_op : inode_operations;
  i_opflags : Z;
  ITOZ : znode_t
}.

(** What the file reads and writes of a mounted file system: the inodes
    hashed in its super block by inode number, the list of its znodes,
    the cached '.zfs' inode, two properties and the mount point.  An
    inode is not changed once it is hashed, so a pointer to one is the
    inode itself; the reference counts that [igrab], [iput], [dput] and
    [path_put] keep belong to the VFS and are not represented. *)
Record zfsvfs_t := mk_zfsvfs {
  z_sb : gmap Z inode;
  z_all_znodes : list inode;
  z_ctldir : option inode;
  z_show_ctldir : Z;
  z_shares_dir : Z;
  vfs_mntpoint : option string
}.

Definition set_z_ctldir (ip : option inode) (zfsvfs : zfsvfs_t) : zfsvfs_t :=
  mk_zfsvfs (z_sb zfsvfs) (z_all_znodes zfsvfs) ip (z_show_ctldir zfsvfs)
    (z_shares_dir zfsvfs) (vfs_mntpoint zfsvfs).

(** [insert_inode_locked] followed by [list_insert_tail] on the znode
    list. *)
Definition hash_inode (ip : inode) (zfsvfs : zfsvfs_t) : zfsvfs_t :=
  mk_zfsvfs (<[i_ino ip := ip]> (z_sb zfsvfs)) (z_all_znodes zfsvfs ++ [ip])
    (z_ctldir zfsvfs) (z_show_ctldir zfsvfs) (z_shares_dir zfsvfs)
    (vfs_mntpoint zfsvfs).

(** What the functions below get from the rest of the kernel: the result
    of [zfs_enter], the clock, the creation time of the dataset with a
    given object number when [dsl_dataset_hold_obj] can hold it, the
    error and the object number [dmu_snapshot_lookup] gives for a name,
    and the inode of the root of the file system. *)
Record ctl_env := mk_ctl_env {
  ce_zfs_enter : Z;
  ce_current_time : inode_timespec_t;
  ce_creation : Z → option Z;
  ce_snapshot_lookup : string → Z * Z;
  ce_s_root : option inode
}.

Definition zfsctl_is_node (ip : inode) : bool := z_is_ctldir (ITOZ ip).

Definition zfsctl_is_snapdir (ip : inode) : bool :=
  zfsctl_is_node ip && (i_ino ip <=? ZFSCTL_INO_SNAPDIRS).

Definition ilookup (zfsvfs : zfsvfs_t) (ino : Z) : option inode :=
  z_sb zfsvfs !! ino.

(** [zfsctl_inode_alloc]; [new] is what [new_inode] returns, [None] for
    [NULL].  An inode that cannot be hashed, because its number already
    is, is dropped. *)
Definition zfsctl_inode_alloc (env : ctl_env) (zfsvfs : zfsvfs_t) (id : Z)
    (fops : file_operations) (ops : inode_operations) (creation : Z)
    (new : option inode) : option inode * zfsvfs_t :=
  match new with
  | None => (None, zfsvfs)
  | Some ip0 =>
      let now := if creation =? 0 then ce_current_time env
                 else mk_timespec (int64_t creation) 0 in
      let zp := mk_znode id false false false false true None 0 0 0 0 0 0
                  0 0 0 in
      let ip := mk_inode id 0 (Z.lor S_IFDIR S_IRWXUGO) 0 0 SPA_MINBLOCKSHIFT
                  now now now fops ops
                  (Z.land (i_opflags ip0) (Z.lnot IOP_XATTR)) zp in
      match z_sb zfsvfs !! i_ino ip with
      | Some _ => (None, zfsvfs)
      | None => (Some ip, hash_inode ip zfsvfs)
      end
  end.

(** [zfsctl_inode_lookup] loops until it has an inode.  [news] lists
    what the successive calls of [new_inode] return; the result is
    [None] when the loop is still running after the last of them. *)
Fixpoint zfsctl_inode_lookup_loop (env : ctl_env) (news : list (option inode))
    (creation : Z) (zfsvfs : zfsvfs_t) (id : Z) (fops : file_operations)
    (ops : inode_operations) : option (option inode * zfsvfs_t) :=
  match ilookup zfsvfs id with
  | Some ip => Some (Some ip, zfsvfs)
  | None =>
      let creation :=
        if (id <=? ZFSCTL_INO_SNAPDIRS) && (creation =? 0) then
          match ce_creation env (uint64_t (ZFSCTL_INO_SNAPDIRS - id)) with
          | Some c => c
          | None => creation
          end
        else creation in
      match news with
      | [] => None
      | new :: news' =>
          match zfsctl_inode_alloc env zfsvfs id fops ops creation new with
          | (Some ip, zfsvfs') => Some (Some ip, zfsvfs')
          | (None, zfsvfs') =>
              zfsctl_inode_lookup_loop env news' creation zfsvfs' id fops ops
          end
      end
  end.

Definition zfsctl_inode_lookup (env : ctl_env) (news : list (option inode))
    (zfsvfs : zfsvfs_t) (id : Z) (fops : file_operations)
    (ops : inode_operations) : option (option inode * zfsvfs_t) :=
  zfsctl_inode_lookup_loop env news 0 zfsvfs id fops ops.

(** [zfsctl_create]: the error, and the file system with its '.zfs'
    inode cached.  The [ASSERT] that none is cached yet is compiled only
    into debug builds; it appears as a hypothesis where it matters. *)
Definition zfsctl_create (env : ctl_env) (new : option inode)
    (zfsvfs : zfsvfs_t) : Z * zfsvfs_t :=
  let '(ip, zfsvfs) :=
    zfsctl_inode_alloc env zfsvfs ZFSCTL_INO_ROOT zpl_fops_root zpl_ops_root
      0 new in
  let zfsvfs := set_z_ctldir ip zfsvfs in
  match ip with
  | None => (SET_ERROR ENOENT, zfsvfs)
  | Some _ => (0, zfsvfs)
  end.

(** The branch of [zfsctl_destroy] for a head file system. *)
Definition zfsctl_destroy_head (zfsvfs : zfsvfs_t) : zfsvfs_t :=
  match z_ctldir zfsvfs with
  | Some _ => set_z_ctldir None zfsvfs
  | None => zfsvfs
  end.

(** [zfsctl_root]: [None] is the panic of [VERIFY3P] when there is no
    '.zfs' inode to take a reference on. *)
Definition zfsctl_root (zfsvfs : zfsvfs_t) : option inode :=
  z_ctldir zfsvfs.

(** ** Lookups in '.zfs' and '.zfs/snapshot' *)

(** The error a lookup returns for what it stored through [ipp]. *)
Definition lookup_error (ip : option inode) : Z :=
  match ip with
  | None => SET_ERROR ENOENT
  | Some _ => 0
  end.

(** [ipp] is what the caller's [*ipp] held before the call. *)
Definition zfsctl_root_lookup (env : ctl_env) (news : list (option inode))
    (zfsvfs : zfsvfs_t) (name : string) (ipp : option inode)
    : option (Z * option inode * zfsvfs_t) :=
  if negb (ce_zfs_enter env =? 0) then Some (ce_zfs_enter env, ipp, zfsvfs)
  else
    let found :=
      if z_show_ctldir zfsvfs =? ZFS_SNAPDIR_DISABLED then Some (None, zfsvfs)
      else if strcmp name ".." =? 0 then Some (ce_s_root env, zfsvfs)
      else if strcmp name ZFS_SNAPDIR_NAME =? 0 then
        zfsctl_inode_lookup env news zfsvfs ZFSCTL_INO_SNAPDIR
          zpl_fops_snapdir zpl_ops_snapdir
      else if strcmp name ZFS_SHAREDIR_NAME =? 0 then
        zfsctl_inode_lookup env news zfsvfs ZFSCTL_INO_SHARES
          zpl_fops_shares zpl_ops_shares
      else Some (None, zfsvfs) in
    match found with
    | Some (ip, zfsvfs') => Some (lookup_error ip, ip, zfsvfs')
    | None => None
    end.

Definition zfsctl_snapdir_lookup (env : ctl_env) (news : list (option inode))
    (zfsvfs : zfsvfs_t) (name : string) (ipp : option inode)
    : option (Z * option inode * zfsvfs_t) :=
  if negb (ce_zfs_enter env =? 0) then Some (ce_zfs_enter env, ipp, zfsvfs)
  else
    let '(error, id) := ce_snapshot_lookup env name in
    if negb (error =? 0) then Some (error, ipp, zfsvfs)
    else
      match zfsctl_inode_lookup env news zfsvfs
              (uint64_t (ZFSCTL_INO_SNAPDIRS - id))
              simple_dir_operations simple_dir_inode_operations with
      | Some (ip, zfsvfs') => Some (lookup_error ip, ip, zfsvfs')
      | None => None
      end.

(** ** File handles *)

(** [fid_t] seen as [zfid_short_t] and [zfid_long_t]: the length, and
    the byte arrays for the object number, its generation, the object-set
    id and its generation. *)
Record fid_t := mk_fid {
  fid_len : Z;
  zf_object : list Z;
  zf_gen : list Z;
  zf_setid : list Z;
  zf_setgen : list Z
}.

Definition sizeof_zf_object : nat := 6.
Definition sizeof_zf_gen : nat := 4.
Definition sizeof_zf_setid : nat := 6.
Definition sizeof_zf_setgen : nat := 2.

Definition SHORT_FID_LEN : Z :=
  Z.of_nat (sizeof_zf_object + sizeof_zf_gen).
Definition LONG_FID_LEN : Z :=
  SHORT_FID_LEN + Z.of_nat (sizeof_zf_setid + sizeof_zf_setgen).

Definition set_fid_len (n : Z) (fidp : fid_t) : fid_t :=
  mk_fid n (zf_object fidp) (zf_gen fidp) (zf_setid fidp) (zf_setgen fidp).

(** [for (i = 0; i < n; i++) a[i] = f(i);], started at index [i]. *)
Fixpoint fill_array (i n : nat) (f : nat → Z) (a : list Z) : list Z :=
  match n with
  | O => a
  | S n' => fill_array (S i) n' f (<[i := f i]> a)
  end.

(** [(uint8_t)(x >> (8 * i))]. *)
Definition byte_of (x : Z) (i : nat) : Z :=
  uint8_t (Z.shiftr x (8 * Z.of_nat i)).

(** [alias] is what [d_obtain_alias] gives for the inode: [None] for an
    error pointer, otherwise whether the dentry is a mount point. *)
Definition zfsctl_snapdir_fid (ip : inode) (alias : option bool)
    (fidp : fid_t) : Z * fid_t :=
  if fid_len fidp <? LONG_FID_LEN then
    (SET_ERROR ENOSPC, set_fid_len LONG_FID_LEN fidp)
  else
    let object := i_ino ip in
    let objsetid := uint64_t (ZFSCTL_INO_SNAPDIRS - i_ino ip) in
    let gen := match alias with
               | Some true => 1
               | _ => 0
               end in
    (0, mk_fid LONG_FID_LEN
          (fill_array 0 sizeof_zf_object (byte_of object) (zf_object fidp))
          (fill_array 0 sizeof_zf_gen (byte_of gen) (zf_gen fidp))
          (fill_array 0 sizeof_zf_setid (byte_of objsetid) (zf_setid fidp))
          (fill_array 0 sizeof_zf_setgen (λ _, 0) (zf_setgen fidp))).

Definition zfsctl_fid (env : ctl_env) (ip : inode) (alias : option bool)
    (fidp : fid_t) : Z * fid_t :=
  let object := z_id (ITOZ ip) in
  if negb (ce_zfs_enter env =? 0) then (ce_zfs_enter env, fidp)
  else if zfsctl_is_snapdir ip then zfsctl_snapdir_fid ip alias fidp
  else if fid_len fidp <? SHORT_FID_LEN then
    (SET_ERROR ENOSPC, set_fid_len SHORT_FID_LEN fidp)
  else
    (0, mk_fid SHORT_FID_LEN
          (fill_array 0 sizeof_zf_object (byte_of object) (zf_object fidp))
          (fill_array 0 sizeof_zf_gen (λ _, 0) (zf_gen fidp))
          (zf_setid fidp) (zf_setgen fidp)).

(** The number a byte array spells, least significant byte first, as the
    readers of a file handle put it together again. *)
Definition decode_le (bytes : list Z) : Z :=
  foldr (λ b acc, b + 2 ^ 8 * acc) 0 bytes.

(** ** From an object-set id back to the snapshot directory *)

(** [zfsctl_snapshot_path_objset]: [listing] is what the successive calls
    of [dmu_snapshot_list_next] return (error, name, id), [full_path]
    what the caller's buffer held; the [int path_len] reaches [snprintf]
    as a [size_t].  The result is [None] when the loop
    is still running after the last of them. *)
Fixpoint snapshot_list_find (listing : list (Z * string * Z)) (objsetid : Z)
    : option (Z * string) :=
  match listing with
  | [] => None
  | (error, snapname, id) :: rest =>
      if negb (error =? 0) then Some (error, snapname)
      else if id =? objsetid then Some (0, snapname)
      else snapshot_list_find rest objsetid
  end.

Definition zfsctl_snapshot_path_objset (zfsvfs : zfsvfs_t)
    (listing : list (Z * string * Z)) (objsetid : Z) (path_len : Z)
    (full_path : string) : option (Z * string) :=
  match snapshot_list_find listing objsetid with
  | None => None
  | Some (error, snapname) =>
      if negb (error =? 0) then Some (error, full_path)
      else
        match vfs_mntpoint zfsvfs with
        | Some mntpoint =>
            Some (0, snprintf_trunc full_path (size_t path_len)
                       (mntpoint +:+ "/.zfs/snapshot/" +:+ snapname))
        | None => Some (SET_ERROR ENOENT, full_path)
        end
  end.

(** [zfsctl_snapdir_vget]: [kern_path] is the kernel's path walk, which
    mounts the snapshot on the way, [alias] as in [zfsctl_snapdir_fid],
    seen after the walk.  The buffer [mnt] is read only after [snprintf]
    has filled it with [MAXPATHLEN] bytes of room, so what it held when
    it was allocated does not matter. *)
Definition zfsctl_snapdir_vget (zfsvfs : zfsvfs_t)
    (listing : list (Z * string * Z)) (kern_path : string → Z)
    (alias : option bool) (objsetid gen : Z) (ipp : option inode)
    : option (Z * option inode) :=
  match zfsctl_snapshot_path_objset zfsvfs listing objsetid MAXPATHLEN
          String.EmptyString with
  | None => None
  | Some (error, mnt) =>
      if negb (error =? 0) then Some (error, ipp)
      else
        let error := - kern_path mnt in
        if negb (error =? 0) then Some (error, ipp)
        else
          match ilookup zfsvfs (uint64_t (ZFSCTL_INO_SNAPDIRS - objsetid)) with
          | None => Some (SET_ERROR ENOENT, None)
          | Some ip =>
              let mounted := match alias with
                             | Some true => 1
                             | _ => 0
                             end in
              if negb (gen =? mounted) then Some (SET_ERROR ENOENT, None)
              else Some (0, Some ip)
          end
  end.

(** ** Renaming and creating snapshots through '.zfs/snapshot' *)

(** What [zfsctl_snapdir_rename] gets from its caller and from the
    kernel services it calls; the two directories may belong to
    different file systems. *)
Record rename_env := mk_rename_env {
  rn_zfs_enter : Z;
  rn_case_insensitive : bool;
  rn_realname : Z * string;
  rn_namecheck : string → Z;
  rn_fsname : string;
  rn_tfsname : string;
  rn_secpolicy : string → string → Z;
  rn_same_dir : bool;
  rn_dsl_rename : Z
}.

Definition dsl_dataset_rename_snapshot (fsname snm tnm : string) (result : Z)
    : M Z :=
  run modify (log_event (EvDslRenameSnapshot fsname snm tnm));
  ret result.

(** The part of [zfsctl_snapdir_rename] between [zfs_enter] and the
    write lock: what to return at once, or the name to rename from. *)
Definition snapdir_rename_check (env : rename_env) (snm tnm : string)
    : Z + string :=
  let realname :=
    if rn_case_insensitive env then
      (if fst (rn_realname env) =? 0 then inr (snd (rn_realname env))
       else if negb (fst (rn_realname env) =? ENOTSUP)
            then inl (fst (rn_realname env))
            else inr snm)
    else inr snm in
  match realname with
  | inl error => inl error
  | inr snm' =>
      let '(error, from) :=
        zfsctl_snapshot_name (rn_namecheck env snm') (rn_fsname env) snm'
          ZFS_MAX_DATASET_NAME_LEN in
      let '(error, to) :=
        if error =? 0 then
          zfsctl_snapshot_name (rn_namecheck env tnm) (rn_tfsname env) tnm
            ZFS_MAX_DATASET_NAME_LEN
        else (error, String.EmptyString) in
      let error := if error =? 0 then rn_secpolicy env from to else error in
      if negb (error =? 0) then inl error
      else if negb (rn_same_dir env) then inl (SET_ERROR EINVAL)
      else if strcmp snm' tnm =? 0 then inl 0
      else inr snm'
  end.

Definition zfsctl_snapdir_rename (env : rename_env) (snm tnm : string)
    : M Z :=
  do admin <- gets zfs_admin_snapshot;
  if admin =? 0 then ret (SET_ERROR EACCES)
  else if negb (rn_zfs_enter env =? 0) then ret (rn_zfs_enter env)
  else
    match snapdir_rename_check env snm tnm with
    | inl error => ret error
    | inr snm' =>
        do error <- dsl_dataset_rename_snapshot (rn_fsname env) snm' tnm
                      (rn_dsl_rename env);
        run (if error =? 0
             then run zfsctl_snapshot_rename snm' tnm; ret tt
             else ret tt);
        ret error
    end.

(** What [zfsctl_snapdir_mkdir] gets from the kernel services it calls,
    and the snapshots it asks the DMU to take, in order. *)
Record mkdir_env := mk_mkdir_env {
  md_namecheck : Z;
  md_dsname : string;
  md_secpolicy : Z;
  md_snapshot_one : Z
}.

Inductive dmu_request :=
  | DmuObjsetSnapshotOne (dsname snapname : string).

Definition zfsctl_snapdir_mkdir (menv : mkdir_env) (env : ctl_env)
    (news : list (option inode)) (zfsvfs : zfsvfs_t) (dirname : string)
    (ipp : option inode)
    : M (option (Z * option inode * zfsvfs_t) * list dmu_request) :=
  do admin <- gets zfs_admin_snapshot;
  if admin =? 0 then ret (Some (SET_ERROR EACCES, ipp, zfsvfs), [])
  else if negb (md_namecheck menv =? 0)
  then ret (Some (SET_ERROR EILSEQ, ipp, zfsvfs), [])
  else if negb (md_secpolicy menv =? 0)
  then ret (Some (md_secpolicy menv, ipp, zfsvfs), [])
  else
    let requests := [DmuObjsetSnapshotOne (md_dsname menv) dirname] in
    if negb (md_snapshot_one menv =? 0)
    then ret (Some (md_snapshot_one menv, ipp, zfsvfs), requests)
    else ret (zfsctl_snapdir_lookup env news zfsvfs dirname ipp, requests).

(** ** Well-formed values and examples for the '.zfs' directory *)

(** A file handle whose arrays have their declared sizes. *)
Definition fid_sized (fidp : fid_t) : Prop :=
  length (zf_object fidp) = sizeof_zf_object ∧
  length (zf_gen fidp) = sizeof_zf_gen ∧
  length (zf_setid fidp) = sizeof_zf_setid ∧
  length (zf_setgen fidp) = sizeof_zf_setgen.

(** The generation number a snapshot directory's file handle carries:
    1 when the directory is a mount point, 0 otherwise. *)
Definition alias_gen (alias : option bool) : Z :=
  match alias with
  | Some true => 1
  | _ => 0
  end.

(** A file system mounted at "/mnt" with the control directory visible
    and nothing hashed yet, its snapshot "s1" having object number 42 and
    creation time 1000, and the kernel services all succeeding. *)
Definition example_zfsvfs : zfsvfs_t :=
  mk_zfsvfs ∅ [] None 1 0 (Some "/mnt"%string).

Definition example_fresh_inode : inode :=
  mk_inode 0 0 0 0 0 0 (mk_timespec 0 0) (mk_timespec 0 0) (mk_timespec 0 0)
    (other_fops 0) (other_ops 0) 0xF
    (mk_znode 0 false false false false false None 0 0 0 0 0 0 0 0 0).

Definition example_ctl_env : ctl_env :=
  mk_ctl_env 0 (mk_timespec 5000 17)
    (λ obj, if obj =? 42 then Some 1000 else None)
    (λ name, if strcmp name "s1" =? 0 then (0, 42) else (ENOENT, 0))
    (Some example_fresh_inode).

(** The inode of '.zfs/snapshot/s1' and the file system once it is
    hashed. *)
Definition example_snapdir_inode : inode :=
  mk_inode (ZFSCTL_INO_SNAPDIRS - 42) 0 (Z.lor S_IFDIR S_IRWXUGO) 0 0
    SPA_MINBLOCKSHIFT (mk_timespec 1000 0) (mk_timespec 1000 0)
    (mk_timespec 1000 0) simple_dir_operations simple_dir_inode_operations
    0x7
    (mk_znode (ZFSCTL_INO_SNAPDIRS - 42) false false false false true None
       0 0 0 0 0 0 0 0 0).

Definition example_zfsvfs_s1 : zfsvfs_t :=
  hash_inode example_snapdir_inode example_zfsvfs.

(** An empty file handle with room for a long one. *)
Definition example_fid : fid_t :=
  mk_fid LONG_FID_LEN [0; 0; 0; 0; 0; 0] [0; 0; 0; 0] [0; 0; 0; 0; 0; 0]
    [0; 0].

(** The snapshots of the example file system as
    [dmu_snapshot_list_next] lists them, ending with [ENOENT]. *)
Definition example_listing : list (Z * string * Z) :=
  [(0, "s0"%string, 41); (0, "s1"%string, 42);
   (ENOENT, String.EmptyString, 0)].

(** The znode list and the inode hash agree: every listed znode is the
    inode hashed under its number, and no number is listed twice. *)
Definition znodes_hashed (zfsvfs : zfsvfs_t) : Prop :=
  NoDup (i_ino <$> z_all_znodes zfsvfs) ∧
  ∀ ip, ip ∈ z_all_znodes zfsvfs → ilookup zfsvfs (i_ino ip) = Some ip.

(** The time stamps [zfsctl_inode_lookup] gives a new inode: the
    creation time of the snapshot for a snapshot directory whose dataset
    can be held and has one, the current time otherwise. *)
Definition ctl_inode_time (env : ctl_env) (id : Z) : inode_timespec_t :=
  match (if id <=? ZFSCTL_INO_SNAPDIRS
         then ce_creation env (uint64_t (ZFSCTL_INO_SNAPDIRS - id))
         else None) with
  | Some c => if c =? 0 then ce_current_time env
              else mk_timespec (int64_t c) 0
  | None => ce_current_time env
  end.

(** What [zfsctl_inode_lookup] knows of the creation time while it
    loops: nothing yet, or what the snapshot's dataset reports. *)
Definition creation_known (env : ctl_env) (id creation : Z) : Prop :=
  creation = 0 ∨
  (id ≤ ZFSCTL_INO_SNAPDIRS ∧
   ce_creation env (uint64_t (ZFSCTL_INO_SNAPDIRS - id)) = Some creation).

(** The inode of '.zfs' of the example file system. *)
Definition example_root_inode : inode :=
  mk_inode ZFSCTL_INO_ROOT 0 (Z.lor S_IFDIR S_IRWXUGO) 0 0
    SPA_MINBLOCKSHIFT (mk_timespec 5000 17) (mk_timespec 5000 17)
    (mk_timespec 5000 17) zpl_fops_root zpl_ops_root 0x7
    (mk_znode ZFSCTL_INO_ROOT false false false false true None
       0 0 0 0 0 0 0 0 0).

(** A renaming within '.zfs/snapshot' of the example file system, which
    is case sensitive, with every check passing and the DSL renaming the
    snapshot. *)
Definition example_rename_env : rename_env :=
  mk_rename_env 0 false (0, String.EmptyString) (λ _, 0) "pool/fs" "pool/fs"
    (λ _ _, 0) true 0.

(** * Properties *)

(** ** The monad *)

Lemma wp_ret {A} (a : A) Q st : Q a st → wp (ret a) Q st.
Proof. intros HQ. by exists a, st. Qed.

Lemma wp_bind {A B} (m : M A) (k : A → M B) Q st :
  wp m (λ a st', wp (k a) Q st') st → wp (bind m k) Q st.
Proof.
  intros (a & st' & Hm & b & st'' & Hk & HQ).
  exists b, st''. unfold bind. by rewrite Hm.
Qed.

Lemma wp_gets {A} (f : kstate → A) Q st : Q (f st) st → wp (gets f) Q st.
Proof. intros HQ. by exists (f st), st. Qed.

Lemma wp_modify f Q st : Q tt (f st) → wp (modify f) Q st.
Proof. intros HQ. by exists tt, (f st). Qed.

Lemma bind_Some {A B} (m : M A) (k : A → M B) st r :
  bind m k st = Some r ↔ ∃ a st', m st = Some (a, st') ∧ k a st' = Some r.
Proof.
  unfold bind. split.
  - destruct (m st) as [[a st']|]; [eauto | discriminate].
  - intros (a & st' & -> & Hk). done.
Qed.

(** ** Entries in memory *)

Lemma kstate_ext st st' :
  kmem st = kmem st' →
  kmem_next st = kmem_next st' →
  zfs_snapshots_by_name st = zfs_snapshots_by_name st' →
  zfs_snapshots_by_objsetid st = zfs_snapshots_by_objsetid st' →
  tq_pending st = tq_pending st' →
  tq_active st = tq_active st' →
  tq_next_id st = tq_next_id st' →
  zfs_expire_snapshot st = zfs_expire_snapshot st' →
  zfs_admin_snapshot st = zfs_admin_snapshot st' →
  zfs_snapshot_no_setuid st = zfs_snapshot_no_setuid st' →
  lbolt st = lbolt st' →
  HZ st = HZ st' →
  klog st = klog st' →
  st = st'.
Proof.
  destruct st, st'; simpl.
  intros -> -> -> -> -> -> -> -> -> -> -> -> ->. reflexivity.
Qed.

Lemma upd_kmem_upd_kmem f g st :
  upd_kmem f (upd_kmem g st) = upd_kmem (f ∘ g) st.
Proof. by destruct st. Qed.

Lemma upd_kmem_id f st : f (kmem st) = kmem st → upd_kmem f st = st.
Proof. destruct st; unfold upd_kmem; simpl. by intros ->. Qed.

Lemma set_se_refcount_id e : set_se_refcount (se_refcount e) e = e.
Proof. by destruct e. Qed.

Lemma wp_deref se e Q st :
  kmem st !! se = Some e → Q e st → wp (deref se) Q st.
Proof. intros He HQ. exists e, st. unfold deref. by rewrite He. Qed.

Lemma wp_store se f e Q st :
  kmem st !! se = Some e →
  Q tt (upd_kmem (<[se := f e]>) st) →
  wp (store se f) Q st.
Proof.
  intros He HQ. apply wp_bind. eapply wp_deref; [done|].
  by apply wp_modify.
Qed.

Lemma wp_hold se e Q st :
  kmem st !! se = Some e →
  Q tt (upd_kmem (<[se := set_se_refcount (se_refcount e + 1) e]>) st) →
  wp (zfsctl_snapshot_hold se) Q st.
Proof. intros He HQ. by eapply wp_store. Qed.

(** Releasing the last reference frees the entry; releasing another one
    leaves it in place with the count one lower. *)
Lemma wp_rele se e Q st :
  kmem st !! se = Some e →
  0 < se_refcount e →
  Q tt (if se_refcount e =? 1 then upd_kmem (delete se) st
        else upd_kmem (<[se := set_se_refcount (se_refcount e - 1) e]>) st) →
  wp (zfsctl_snapshot_rele se) Q st.
Proof.
  intros He Hrc HQ. unfold zfsctl_snapshot_rele, zfs_refcount_remove.
  apply wp_bind, wp_bind. eapply wp_deref; [done|].
  destruct (se_refcount e <=? 0) eqn:Hle; [lia|].
  apply wp_bind. eapply wp_store; [done|]. apply wp_ret.
  destruct (se_refcount e - 1 =? 0) eqn:Hz.
  - replace (se_refcount e =? 1) with true in HQ by lia.
    unfold zfsctl_snapshot_free. apply wp_bind.
    eapply wp_deref; [simpl; apply lookup_insert_eq|].
    apply wp_modify. rewrite upd_kmem_upd_kmem.
    replace (upd_kmem _ st) with (upd_kmem (delete se) st); [done|].
    apply kstate_ext; simpl; try done. by rewrite delete_insert_eq.
  - replace (se_refcount e =? 1) with false in HQ by lia.
    by apply wp_ret.
Qed.

(** A hold followed by a release gives the state back. *)
Lemma hold_rele se e st :
  kmem st !! se = Some e →
  1 ≤ se_refcount e →
  (run zfsctl_snapshot_hold se; zfsctl_snapshot_rele se) st = Some (tt, st).
Proof.
  intros He Hrc.
  assert (wp (run zfsctl_snapshot_hold se; zfsctl_snapshot_rele se)
            (λ _ s, s = st) st) as (a & s & Hrun & ->); [|by destruct a].
  apply wp_bind. eapply wp_hold; [done|].
  eapply wp_rele; [simpl; apply lookup_insert_eq | simpl; lia |].
  simpl. replace (se_refcount e + 1 =? 1) with false by lia.
  rewrite upd_kmem_upd_kmem. apply upd_kmem_id. simpl.
  rewrite insert_insert_eq. apply insert_id.
  rewrite He. f_equal. destruct e; simpl. unfold set_se_refcount; simpl.
  f_equal. lia.
Qed.

(** ** The comparators and the keys of the trees *)

Lemma string_compare_refl s : String.compare s s = Eq.
Proof.
  pose proof (String.compare_antisym s s) as H.
  destruct (String.compare s s); simpl in H; congruence.
Qed.

(** Two entries compare equal in a tree exactly when they have the same
    key for it, which is what lets a tree be a map from keys. *)
Lemma snapentry_compare_by_name_eq a b :
  snapentry_compare_by_name a b = 0 ↔ name_key a = name_key b.
Proof.
  unfold snapentry_compare_by_name, strcmp, name_key. split.
  - destruct (String.compare (se_name a) (se_name b)) eqn:Hc; simpl;
      [|done..].
    intros _. by apply String.compare_eq_iff.
  - intros ->. by rewrite string_compare_refl.
Qed.

Lemma snapentry_compare_by_objsetid_eq a b :
  snapentry_compare_by_objsetid a b = 0 ↔ objsetid_key a = objsetid_key b.
Proof.
  unfold snapentry_compare_by_objsetid, objsetid_key.
  destruct (se_spa a =? se_spa b) eqn:Hspa; simpl.
  - destruct (se_objsetid a <? se_objsetid b) eqn:Hlt;
      [split; [done | intros [= _ ?]; lia]|].
    destruct (se_objsetid a >? se_objsetid b) eqn:Hgt;
      [split; [done | intros [= _ ?]; lia]|].
    split; [|done]. intros _. f_equal; lia.
  - split; [by destruct (se_spa a <? se_spa b) | intros [= ? _]; lia].
Qed.

(** ** The primitives as equations *)

Lemma hold_eq se st :
  zfsctl_snapshot_hold se st =
  match kmem st !! se with
  | Some e =>
      Some (tt, upd_kmem (<[se := set_se_refcount (se_refcount e + 1) e]>) st)
  | None => None
  end.
Proof.
  unfold zfsctl_snapshot_hold, zfs_refcount_add, store, bind, deref, modify.
  by destruct (kmem st !! se).
Qed.

Lemma rele_eq se st :
  zfsctl_snapshot_rele se st =
  match kmem st !! se with
  | Some e =>
      if se_refcount e <=? 0 then None
      else Some (tt, if se_refcount e =? 1 then upd_kmem (delete se) st
                     else upd_kmem (<[se := set_se_refcount
                                              (se_refcount e - 1) e]>) st)
  | None => None
  end.
Proof.
  destruct (kmem st !! se) as [e|] eqn:He.
  - destruct (se_refcount e <=? 0) eqn:Hle.
    + unfold zfsctl_snapshot_rele, zfs_refcount_remove, bind, deref.
      by rewrite He, Hle.
    + assert (wp (zfsctl_snapshot_rele se)
                (λ _ s, s = if se_refcount e =? 1 then upd_kmem (delete se) st
                            else upd_kmem (<[se := set_se_refcount
                                              (se_refcount e - 1) e]>) st) st)
        as ([] & s & -> & ->); [|done].
      eapply wp_rele; [done | lia | done].
  - unfold zfsctl_snapshot_rele, zfs_refcount_remove, bind, deref.
    by rewrite He.
Qed.

Lemma store_eq se f st :
  store se f st =
  match kmem st !! se with
  | Some e => Some (tt, upd_kmem (<[se := f e]>) st)
  | None => None
  end.
Proof. unfold store, bind, deref, modify. by destruct (kmem st !! se). Qed.

Lemma avl_add_by_name_eq se st :
  avl_add_by_name se st =
  match kmem st !! se with
  | Some e =>
      match zfs_snapshots_by_name st !! se_name e with
      | Some _ => None
      | None =>
          Some (tt, set_by_name (<[se_name e := se]> (zfs_snapshots_by_name st)) st)
      end
  | None => None
  end.
Proof.
  unfold avl_add_by_name, avl_add, name_key, bind, deref, gets, modify, panic.
  destruct (kmem st !! se) as [e|]; [|done].
  by destruct (zfs_snapshots_by_name st !! se_name e).
Qed.

Lemma avl_add_by_objsetid_eq se st :
  avl_add_by_objsetid se st =
  match kmem st !! se with
  | Some e =>
      match zfs_snapshots_by_objsetid st !! objsetid_key e with
      | Some _ => None
      | None =>
          Some (tt, set_by_objsetid
                      (<[objsetid_key e := se]> (zfs_snapshots_by_objsetid st)) st)
      end
  | None => None
  end.
Proof.
  unfold avl_add_by_objsetid, avl_add, bind, deref, gets, modify, panic.
  destruct (kmem st !! se) as [e|]; [|done].
  by destruct (zfs_snapshots_by_objsetid st !! objsetid_key e).
Qed.

Lemma avl_remove_by_name_eq se st :
  avl_remove_by_name se st =
  match kmem st !! se with
  | Some e =>
      if decide (zfs_snapshots_by_name st !! se_name e = Some se)
      then Some (tt, set_by_name (delete (se_name e) (zfs_snapshots_by_name st)) st)
      else None
  | None => None
  end.
Proof.
  unfold avl_remove_by_name, avl_remove, name_key, bind, deref, gets, modify,
    panic.
  destruct (kmem st !! se) as [e|]; [|done].
  destruct (zfs_snapshots_by_name st !! se_name e) as [p|] eqn:Hp.
  - destruct (decide (p = se)) as [->|Hne].
    + by rewrite decide_True.
    + rewrite decide_False; [done | congruence].
  - by rewrite decide_False.
Qed.

Lemma avl_remove_by_objsetid_eq se st :
  avl_remove_by_objsetid se st =
  match kmem st !! se with
  | Some e =>
      if decide (zfs_snapshots_by_objsetid st !! objsetid_key e = Some se)
      then Some (tt, set_by_objsetid
                       (delete (objsetid_key e) (zfs_snapshots_by_objsetid st)) st)
      else None
  | None => None
  end.
Proof.
  unfold avl_remove_by_objsetid, avl_remove, bind, deref, gets, modify, panic.
  destruct (kmem st !! se) as [e|]; [|done].
  destruct (zfs_snapshots_by_objsetid st !! objsetid_key e) as [p|] eqn:Hp.
  - destruct (decide (p = se)) as [->|Hne].
    + by rewrite decide_True.
    + rewrite decide_False; [done | congruence].
  - by rewrite decide_False.
Qed.

Lemma find_by_name_eq snapname st :
  zfsctl_snapshot_find_by_name snapname st =
  match zfs_snapshots_by_name st !! snapname with
  | Some se =>
      match kmem st !! se with
      | Some e =>
          Some (Some se,
                upd_kmem (<[se := set_se_refcount (se_refcount e + 1) e]>) st)
      | None => None
      end
  | None => Some (None, st)
  end.
Proof.
  unfold zfsctl_snapshot_find_by_name, avl_find, bind, gets; simpl.
  destruct (zfs_snapshots_by_name st !! snapname) as [se|]; [|done].
  fold (bind (zfsctl_snapshot_hold se) (λ _, ret (Some se)) st).
  unfold bind. rewrite hold_eq. by destruct (kmem st !! se).
Qed.

Lemma find_by_objsetid_eq spa objsetid st :
  zfsctl_snapshot_find_by_objsetid spa objsetid st =
  match zfs_snapshots_by_objsetid st !! (spa, objsetid) with
  | Some se =>
      match kmem st !! se with
      | Some e =>
          Some (Some se,
                upd_kmem (<[se := set_se_refcount (se_refcount e + 1) e]>) st)
      | None => None
      end
  | None => Some (None, st)
  end.
Proof.
  unfold zfsctl_snapshot_find_by_objsetid, avl_find, bind, gets; simpl.
  destruct (zfs_snapshots_by_objsetid st !! (spa, objsetid)) as [se|]; [|done].
  fold (bind (zfsctl_snapshot_hold se) (λ _, ret (Some se)) st).
  unfold bind. rewrite hold_eq. by destruct (kmem st !! se).
Qed.

Lemma taskq_cancel_id_eq id st :
  taskq_cancel_id id st =
  match tq_pending st !! id with
  | Some _ =>
      Some (0, set_taskq (delete id (tq_pending st)) (tq_active st)
                 (tq_next_id st) st)
  | None =>
      if decide (id ∈ tq_active st)
      then Some (EBUSY, set_taskq (tq_pending st) (tq_active st ∖ {[id]})
                          (tq_next_id st) st)
      else Some (ENOENT, st)
  end.
Proof.
  unfold taskq_cancel_id, bind, gets, modify, ret; simpl.
  destruct (tq_pending st !! id); [done|].
  by destruct (decide (id ∈ tq_active st)).
Qed.

(** A lookup that finds an entry and releases it again leaves the state
    as it was. *)
Lemma ismounted_true snapname se e st :
  zfs_snapshots_by_name st !! snapname = Some se →
  kmem st !! se = Some e →
  1 ≤ se_refcount e →
  zfsctl_snapshot_ismounted snapname st = Some (true, st).
Proof.
  intros Hn He Hrc. unfold zfsctl_snapshot_ismounted, bind.
  rewrite find_by_name_eq, Hn, He.
  fold (bind (zfsctl_snapshot_rele se) (λ _, ret true)). unfold bind.
  rewrite rele_eq. simpl. rewrite lookup_insert_eq. simpl.
  replace (se_refcount e + 1 <=? 0) with false by lia.
  replace (se_refcount e + 1 =? 1) with false by lia.
  unfold ret. do 2 f_equal. rewrite upd_kmem_upd_kmem. apply upd_kmem_id.
  simpl. rewrite insert_insert_eq. apply insert_id. rewrite He. f_equal.
  destruct e; unfold set_se_refcount; simpl. f_equal. lia.
Qed.

Lemma ismounted_false snapname st :
  zfs_snapshots_by_name st !! snapname = None →
  zfsctl_snapshot_ismounted snapname st = Some (false, st).
Proof.
  intros Hn. unfold zfsctl_snapshot_ismounted, bind.
  by rewrite find_by_name_eq, Hn.
Qed.

(** ** Renaming *)

(** What a renaming does when the old name leads to an entry that carries
    it: it panics unless the entry is in the second tree too, holds a
    reference of its own, and the new name is free; otherwise the entry
    moves to the new name in the by-name tree and nothing else changes. *)
Lemma rename_found old new se e st :
  zfs_snapshots_by_name st !! old = Some se →
  kmem st !! se = Some e →
  se_name e = old →
  zfsctl_snapshot_rename old new st =
    if decide (zfs_snapshots_by_objsetid st !! objsetid_key e = Some se) then
      if 1 <=? se_refcount e then
        match delete old (zfs_snapshots_by_name st) !! new with
        | None =>
            Some (0, upd_kmem (<[se := set_se_name new e]>)
                       (set_by_name (<[new := se]>
                          (delete old (zfs_snapshots_by_name st))) st))
        | Some _ => None
        end
      else None
    else None.
Proof.
  intros Hn He Hname. unfold objsetid_key.
  unfold zfsctl_snapshot_rename, bind. rewrite find_by_name_eq, Hn, He.
  simpl. unfold bind, zfsctl_snapshot_remove, bind.
  rewrite avl_remove_by_name_eq. simpl. rewrite lookup_insert_eq. simpl.
  rewrite Hname. rewrite (decide_True _ _ Hn).
  rewrite avl_remove_by_objsetid_eq. simpl. rewrite lookup_insert_eq.
  unfold objsetid_key. simpl.
  destruct (decide (zfs_snapshots_by_objsetid st !! (se_spa e, se_objsetid e)
                    = Some se)) as [Ho|Ho]; [|done].
  rewrite rele_eq. simpl. rewrite lookup_insert_eq. simpl.
  destruct (1 <=? se_refcount e) eqn:Hrc.
  2:{ destruct (se_refcount e + 1 <=? 0) eqn:Hle; [done|].
      replace (se_refcount e + 1 =? 1) with true by lia.
      rewrite store_eq. simpl. by rewrite lookup_delete_eq. }
  replace (se_refcount e + 1 <=? 0) with false by lia.
  replace (se_refcount e + 1 =? 1) with false by lia.
  rewrite store_eq. simpl. rewrite lookup_insert_eq.
  unfold zfsctl_snapshot_add, bind. rewrite hold_eq. simpl.
  rewrite lookup_insert_eq. rewrite avl_add_by_name_eq. simpl.
  rewrite lookup_insert_eq. simpl.
  destruct (delete old (zfs_snapshots_by_name st) !! new) as [q|] eqn:Hnew;
    [done|].
  rewrite avl_add_by_objsetid_eq. simpl. rewrite lookup_insert_eq.
  unfold objsetid_key. simpl. rewrite lookup_delete_eq.
  rewrite rele_eq. simpl. rewrite lookup_insert_eq. simpl.
  replace (se_refcount e + 1 - 1 + 1 <=? 0) with false by lia.
  replace (se_refcount e + 1 - 1 + 1 =? 1) with false by lia.
  unfold ret. do 2 f_equal. apply kstate_ext; simpl; try done.
  - rewrite !insert_insert_eq. f_equal.
    destruct e; unfold set_se_refcount, set_se_name; simpl. f_equal. lia.
  - rewrite insert_delete_eq. by apply insert_id.
Qed.

Lemma rename_success old new se e st r st' :
  zfs_snapshots_by_name st !! old = Some se →
  kmem st !! se = Some e →
  se_name e = old →
  zfsctl_snapshot_rename old new st = Some (r, st') →
  r = 0 ∧
  zfs_snapshots_by_objsetid st !! objsetid_key e = Some se ∧
  1 ≤ se_refcount e ∧
  delete old (zfs_snapshots_by_name st) !! new = None ∧
  st' = upd_kmem (<[se := set_se_name new e]>)
          (set_by_name (<[new := se]>
             (delete old (zfs_snapshots_by_name st))) st).
Proof.
  intros Hn He Hname Hrun.
  rewrite (rename_found old new se e st) in Hrun by done.
  destruct (decide _) as [Ho|]; [|done].
  destruct (1 <=? se_refcount e) eqn:Hrc; [|done].
  destruct (delete old _ !! new) eqn:Hnew; [done|].
  injection Hrun as <- <-. repeat split; [done | lia].
Qed.

(** The last state of a statement list's trace is the state it ends in. *)
Lemma seq_trace_last body st st' :
  body ≠ [] →
  seq_run body st = Some (tt, st') →
  last (seq_trace body st) = Some st'.
Proof.
  revert st. induction body as [|s rest IH]; [done|].
  intros st _ Hrun. simpl in *. apply bind_Some in Hrun as ([] & s1 & Hs & Hrest).
  rewrite Hs. destruct rest as [|s2 rest'].
  - simpl in *. unfold ret in Hrest. by injection Hrest as <-.
  - rewrite last_cons. by rewrite (IH s1).
Qed.

(** C9, as worded, fails: renaming the example snapshot takes it out of
    the by-objsetid tree before putting it back, so the tree does change
    while the renaming runs. *)
Lemma rename_objsetid_untouched_counterexample :
  ¬ rename_objsetid_untouched example_mounted "pool/fs@s1" "pool/fs@s2".
Proof.
  intros H.
  specialize (H 1 _ ltac:(vm_compute; reflexivity)).
  vm_compute in H.
  apply Forall_cons_1 in H as [H _]. discriminate H.
Qed.

(** C9, amended: a renaming that succeeds leaves the by-objsetid tree as a
    whole, and so the renamed entry's membership in it, as it found them;
    in the by-name tree the entry moves from the old name to the new one
    and no other name is affected. *)
Theorem rename_reindexes_by_name_only old new se e st st' :
  zfs_snapshots_by_name st !! old = Some se →
  kmem st !! se = Some e →
  se_name e = old →
  zfsctl_snapshot_rename old new st = Some (0, st') →
  zfs_snapshots_by_objsetid st' = zfs_snapshots_by_objsetid st ∧
  (in_by_objsetid st se ∧ in_by_objsetid st' se) ∧
  zfs_snapshots_by_name st' =
    <[new := se]> (delete old (zfs_snapshots_by_name st)).
Proof.
  intros Hn He Hname Hrun.
  destruct (rename_success _ _ _ _ _ _ _ Hn He Hname Hrun)
    as (_ & Ho & _ & _ & ->).
  simpl. repeat split; by exists (objsetid_key e).
Qed.

Lemma rename_reindexes_by_name_only_witness :
  ∃ st',
    zfsctl_snapshot_rename "pool/fs@s1" "pool/fs@s2" example_mounted
      = Some (0, st') ∧
    zfs_snapshots_by_objsetid st' = zfs_snapshots_by_objsetid example_mounted ∧
    zfs_snapshots_by_name st' !! "pool/fs@s2"%string = Some 1.
Proof.
  eexists. split; [vm_compute; reflexivity|].
  pose proof (rename_reindexes_by_name_only "pool/fs@s1" "pool/fs@s2" 1
    (mk_snapentry "pool/fs@s1" "/mnt/.zfs/snapshot/s1" 7 42 99 1 2)
    example_mounted _
    ltac:(vm_compute; reflexivity) ltac:(vm_compute; reflexivity)
    eq_refl ltac:(vm_compute; reflexivity)) as (Ho & _ & Hn).
  split; [exact Ho|]. rewrite Hn. apply lookup_insert_eq.
Defined.

(** C4: after a renaming that succeeds, the new name finds the entry the
    old name led to, and the old name finds nothing.  The names are two
    different ones, as they are at the only call, which
    [zfsctl_snapdir_rename] makes after it has returned early for a
    renaming of a name to itself. *)
Theorem rename_roundtrip_distinct a b se e st st' :
  a ≠ b →
  zfs_snapshots_by_name st !! a = Some se →
  kmem st !! se = Some e →
  se_name e = a →
  zfsctl_snapshot_rename a b st = Some (0, st') →
  (∃ st2, zfsctl_snapshot_find_by_name b st' = Some (Some se, st2)) ∧
  zfsctl_snapshot_find_by_name a st' = Some (None, st').
Proof.
  intros Hab Hn He Hname Hrun.
  destruct (rename_success _ _ _ _ _ _ _ Hn He Hname Hrun)
    as (_ & _ & _ & _ & ->).
  rewrite !find_by_name_eq. simpl.
  rewrite lookup_insert_eq, lookup_insert_eq.
  rewrite lookup_insert_ne by done. rewrite lookup_delete_eq.
  split; [eauto | done].
Qed.

Lemma rename_roundtrip_distinct_witness :
  ∃ st',
    zfsctl_snapshot_rename "pool/fs@s1" "pool/fs@s2" example_mounted
      = Some (0, st') ∧
    (∃ st2, zfsctl_snapshot_find_by_name "pool/fs@s2" st'
              = Some (Some 1, st2)) ∧
    zfsctl_snapshot_find_by_name "pool/fs@s1" st' = Some (None, st').
Proof.
  eexists. split; [vm_compute; reflexivity|].
  apply (rename_roundtrip_distinct "pool/fs@s1" "pool/fs@s2" 1
    (mk_snapentry "pool/fs@s1" "/mnt/.zfs/snapshot/s1" 7 42 99 1 2)
    example_mounted).
  - discriminate.
  - vm_compute; reflexivity.
  - vm_compute; reflexivity.
  - reflexivity.
  - vm_compute; reflexivity.
Defined.

(** ** Frame rules *)

Section preserves.
Context (R : relation kstate) `{!PreOrder R}.

Lemma preserves_ret {A} (a : A) : preserves R (ret a).
Proof. intros st b st' [= <- <-]. reflexivity. Qed.

Lemma preserves_panic {A} : preserves R (@panic A).
Proof. intros st b st' [=]. Qed.

Lemma preserves_gets {A} (f : kstate → A) : preserves R (gets f).
Proof. intros st b st' [= <- <-]. reflexivity. Qed.

Lemma preserves_deref se : preserves R (deref se).
Proof.
  intros st b st'. unfold deref. destruct (kmem st !! se); [|done].
  intros [= <- <-]. reflexivity.
Qed.

Lemma preserves_modify f : (∀ st, R st (f st)) → preserves R (modify f).
Proof. intros Hf st b st' [= <- <-]. apply Hf. Qed.

Lemma preserves_bind {A B} (m : M A) (k : A → M B) :
  preserves R m → (∀ a, preserves R (k a)) → preserves R (bind m k).
Proof.
  intros Hm Hk st b st' (a & st1 & Hma & Hkb)%bind_Some.
  transitivity st1; [by eapply Hm | by eapply Hk].
Qed.

(** What is left to show for the functions of the file: each of their
    updates of the state respects [R]. *)
Hypothesis R_kmem : ∀ f st, R st (upd_kmem f st).
Hypothesis R_kmem_next : ∀ n st, R st (set_kmem_next n st).

Lemma preserves_store se f : preserves R (store se f).
Proof.
  apply preserves_bind; [apply preserves_deref|].
  intros e. by apply preserves_modify.
Qed.

Lemma preserves_hold se : preserves R (zfsctl_snapshot_hold se).
Proof. apply preserves_store. Qed.

Lemma preserves_rele se : preserves R (zfsctl_snapshot_rele se).
Proof.
  apply preserves_bind.
  - apply preserves_bind; [apply preserves_deref|]. intros e.
    destruct (se_refcount e <=? 0); [apply preserves_panic|].
    apply preserves_bind; [apply preserves_store|].
    intros _. apply preserves_ret.
  - intros n. destruct (n =? 0); [|apply preserves_ret].
    apply preserves_bind; [apply preserves_deref|].
    intros _. by apply preserves_modify.
Qed.

Lemma preserves_alloc n p spa o d :
  preserves R (zfsctl_snapshot_alloc n p spa o d).
Proof.
  apply preserves_bind; [apply preserves_gets|]. intros se.
  apply preserves_bind; [by apply preserves_modify|]. intros _.
  apply preserves_bind; [by apply preserves_modify|]. intros _.
  apply preserves_ret.
Qed.

Hypothesis R_taskq :
  ∀ st p a, p ⊆ tq_pending st → R st (set_taskq p a (tq_next_id st) st).

Lemma preserves_taskq_cancel_id id : preserves R (taskq_cancel_id id).
Proof.
  intros st a st'. rewrite taskq_cancel_id_eq.
  destruct (tq_pending st !! id).
  - intros [= <- <-]. apply R_taskq, delete_subseteq.
  - destruct (decide _); intros [= <- <-]; [by apply R_taskq | reflexivity].
Qed.

Lemma preserves_cancel se : preserves R (zfsctl_snapshot_unmount_cancel se).
Proof.
  apply preserves_bind; [apply preserves_deref|]. intros e.
  apply preserves_bind; [apply preserves_taskq_cancel_id|]. intros err.
  apply preserves_bind; [apply preserves_store|]. intros _.
  destruct (err =? 0); [apply preserves_rele | apply preserves_ret].
Qed.

Lemma preserves_find_by_name n :
  preserves R (zfsctl_snapshot_find_by_name n).
Proof.
  apply preserves_bind; [apply preserves_gets|]. intros t.
  destruct (avl_find t n); [|apply preserves_ret].
  apply preserves_bind; [apply preserves_hold|].
  intros _. apply preserves_ret.
Qed.

Lemma preserves_find_by_objsetid spa o :
  preserves R (zfsctl_snapshot_find_by_objsetid spa o).
Proof.
  apply preserves_bind; [apply preserves_gets|]. intros t.
  destruct (avl_find t (spa, o)); [|apply preserves_ret].
  apply preserves_bind; [apply preserves_hold|].
  intros _. apply preserves_ret.
Qed.

Lemma preserves_ismounted n : preserves R (zfsctl_snapshot_ismounted n).
Proof.
  apply preserves_bind; [apply preserves_find_by_name|]. intros [se|].
  - apply preserves_bind; [apply preserves_rele|].
    intros _. apply preserves_ret.
  - apply preserves_ret.
Qed.

Section trees.
Hypothesis R_by_name : ∀ t st, R st (set_by_name t st).
Hypothesis R_by_objsetid : ∀ t st, R st (set_by_objsetid t st).

Lemma preserves_remove se : preserves R (zfsctl_snapshot_remove se).
Proof.
  apply preserves_bind.
  { apply preserves_bind; [apply preserves_deref|]. intros e.
    apply preserves_bind; [apply preserves_gets|]. intros t.
    destruct (avl_remove _ _ _); [by apply preserves_modify|].
    apply preserves_panic. }
  intros _. apply preserves_bind; [|intros _; apply preserves_rele].
  apply preserves_bind; [apply preserves_deref|]. intros e.
  apply preserves_bind; [apply preserves_gets|]. intros t.
  destruct (avl_remove _ _ _); [by apply preserves_modify|].
  apply preserves_panic.
Qed.

Lemma preserves_add se : preserves R (zfsctl_snapshot_add se).
Proof.
  apply preserves_bind; [apply preserves_hold|]. intros _.
  apply preserves_bind.
  { apply preserves_bind; [apply preserves_deref|]. intros e.
    apply preserves_bind; [apply preserves_gets|]. intros t.
    destruct (avl_add _ _ _); [by apply preserves_modify|].
    apply preserves_panic. }
  intros _.
  apply preserves_bind; [apply preserves_deref|]. intros e.
  apply preserves_bind; [apply preserves_gets|]. intros t.
  destruct (avl_add _ _ _); [by apply preserves_modify|].
  apply preserves_panic.
Qed.

Lemma preserves_destroy z spa o : preserves R (zfsctl_destroy z spa o).
Proof.
  destruct z; [|apply preserves_ret].
  apply preserves_bind; [apply preserves_find_by_objsetid|].
  intros [se|]; [|apply preserves_ret].
  apply preserves_bind; [apply preserves_remove|]. intros _.
  apply preserves_bind; [apply preserves_cancel|]. intros _.
  apply preserves_rele.
Qed.

Hypothesis R_umh : ∀ argv st, R st (log_event (EvUsermodehelper argv) st).

Lemma preserves_unmount n flags o :
  preserves R (zfsctl_snapshot_unmount n flags o).
Proof.
  apply preserves_bind; [apply preserves_find_by_name|].
  intros [se|]; [|apply preserves_ret].
  apply preserves_bind.
  { apply preserves_bind; [|intros _; apply preserves_ret].
    apply preserves_bind; [by apply preserves_modify|].
    intros _. apply preserves_ret. }
  intros _.
  apply preserves_bind; [apply preserves_deref|]. intros e.
  apply preserves_bind.
  { apply preserves_bind; [by apply preserves_modify|].
    intros _. apply preserves_ret. }
  intros error. apply preserves_bind.
  { destruct (umh_unmounted o);
      [apply preserves_destroy | apply preserves_ret]. }
  intros _. apply preserves_bind; [apply preserves_rele|].
  intros _. apply preserves_ret.
Qed.
End trees.

Section dispatch.
Hypothesis R_dispatch :
  ∀ st t, R st (set_taskq (<[tq_next_id st := t]> (tq_pending st))
                  (tq_active st) (tq_next_id st + 1) st).

Lemma preserves_delay_impl se delay :
  preserves R (zfsctl_snapshot_unmount_delay_impl se delay).
Proof.
  unfold zfsctl_snapshot_unmount_delay_impl.
  destruct (delay <=? 0); [apply preserves_ret|].
  apply preserves_bind; [apply preserves_hold|]. intros _.
  apply preserves_bind; [apply preserves_deref|]. intros e.
  destruct (negb _); [apply preserves_rele|].
  apply preserves_bind; [apply preserves_gets|]. intros now.
  apply preserves_bind; [apply preserves_gets|]. intros hz.
  apply preserves_bind; [|intros id; apply preserves_store].
  intros st a st'.
  unfold taskq_dispatch_delay, bind, gets, modify, ret.
  intros [= <- <-]. apply R_dispatch.
Qed.
End dispatch.
End preserves.

(** The instances used below. *)

Global Instance same_log_preorder : PreOrder same_log.
Proof. split; [done|]. intros x y z H1 H2. unfold same_log in *. congruence. Qed.

Global Instance same_destroys_preorder : PreOrder same_destroys.
Proof.
  split; [done|]. intros x y z H1 H2. unfold same_destroys in *. congruence.
Qed.

Global Instance same_trees_preorder : PreOrder same_trees.
Proof.
  split; [done|]. intros x y z [] []. unfold same_trees in *.
  split; congruence.
Qed.

Global Instance same_tunables_preorder : PreOrder same_tunables.
Proof.
  split; [done|]. intros x y z (?&?&?&?&?) (?&?&?&?&?).
  unfold same_tunables. repeat split; congruence.
Qed.

Global Instance no_dispatch_preorder : PreOrder no_dispatch.
Proof.
  split; [done|]. intros x y z [] []. unfold no_dispatch in *.
  split; [by etrans | congruence].
Qed.

(** ** Cancelling and scheduling *)

Lemma cancel_eq se e st :
  kmem st !! se = Some e →
  zfsctl_snapshot_unmount_cancel se st =
  match tq_pending st !! se_taskqid e with
  | Some _ =>
      zfsctl_snapshot_rele se
        (upd_kmem (<[se := set_se_taskqid TASKQID_INVALID e]>)
           (set_taskq (delete (se_taskqid e) (tq_pending st)) (tq_active st)
              (tq_next_id st) st))
  | None =>
      Some (tt, upd_kmem (<[se := set_se_taskqid TASKQID_INVALID e]>)
                  (if decide (se_taskqid e ∈ tq_active st)
                   then set_taskq (tq_pending st)
                          (tq_active st ∖ {[se_taskqid e]}) (tq_next_id st) st
                   else st))
  end.
Proof.
  intros He. unfold zfsctl_snapshot_unmount_cancel, bind, deref.
  rewrite He, taskq_cancel_id_eq.
  destruct (tq_pending st !! se_taskqid e).
  - rewrite store_eq. simpl. by rewrite He.
  - destruct (decide _); rewrite store_eq; simpl; by rewrite He.
Qed.

Lemma delay_impl_disabled se delay st :
  delay ≤ 0 → zfsctl_snapshot_unmount_delay_impl se delay st = Some (tt, st).
Proof.
  intros Hd. unfold zfsctl_snapshot_unmount_delay_impl.
  by replace (delay <=? 0) with true by lia.
Qed.

Lemma delay_impl_scheduled se e delay st :
  kmem st !! se = Some e →
  se_taskqid e ≠ TASKQID_INVALID →
  1 ≤ se_refcount e →
  zfsctl_snapshot_unmount_delay_impl se delay st = Some (tt, st).
Proof.
  intros He Hid Hrc. unfold zfsctl_snapshot_unmount_delay_impl.
  destruct (delay <=? 0); [done|].
  unfold bind, deref. rewrite hold_eq, He. simpl. rewrite lookup_insert_eq.
  simpl. replace (se_taskqid e =? TASKQID_INVALID) with false by lia. simpl.
  rewrite rele_eq. simpl. rewrite lookup_insert_eq. simpl.
  replace (se_refcount e + 1 <=? 0) with false by lia.
  replace (se_refcount e + 1 =? 1) with false by lia.
  do 2 f_equal. rewrite upd_kmem_upd_kmem. apply upd_kmem_id. simpl.
  rewrite insert_insert_eq. apply insert_id. rewrite He. f_equal.
  destruct e; unfold set_se_refcount; simpl. f_equal. lia.
Qed.

(** Arming an entry that has no task recorded dispatches one, due
    [delay] seconds from now, and records its identifier; the reference
    taken for it stays. *)
Lemma delay_impl_idle se e delay st :
  kmem st !! se = Some e →
  se_taskqid e = TASKQID_INVALID →
  0 < delay →
  zfsctl_snapshot_unmount_delay_impl se delay st =
  Some (tt,
    upd_kmem (<[se := set_se_taskqid (tq_next_id st)
                        (set_se_refcount (se_refcount e + 1) e)]>)
      (set_taskq
         (<[tq_next_id st := mk_task se (lbolt st + int_wrap (delay * HZ st))]>
            (tq_pending st))
         (tq_active st) (tq_next_id st + 1) st)).
Proof.
  intros He Hid Hd. unfold zfsctl_snapshot_unmount_delay_impl.
  replace (delay <=? 0) with false by lia.
  unfold bind, deref. rewrite hold_eq, He. simpl. rewrite lookup_insert_eq.
  simpl. rewrite Hid. simpl.
  unfold taskq_dispatch_delay, bind, gets, modify, ret. simpl.
  rewrite store_eq. simpl. rewrite lookup_insert_eq.
  do 2 f_equal. apply kstate_ext; simpl; try done.
  by rewrite insert_insert_eq.
Qed.

(** C5: cancelling releases the pending task's reference exactly when
    [taskq_cancel_id] returned 0, which it does exactly when the task was
    still pending; when the task could not be found ([ENOENT]) or was
    running ([EBUSY]) the count is left alone; and in every case the
    entry, if it is still there, has [se_taskqid] cleared. *)
Theorem unmount_cancel_releases_iff_cancelled se e st err stq :
  kmem st !! se = Some e →
  1 ≤ se_refcount e →
  taskq_cancel_id (se_taskqid e) st = Some (err, stq) →
  ∃ st',
    zfsctl_snapshot_unmount_cancel se st = Some (tt, st') ∧
    (err = 0 ∨ err = ENOENT ∨ err = EBUSY) ∧
    (err = 0 ↔ is_Some (tq_pending st !! se_taskqid e)) ∧
    (err = 0 →
       refs st' se = (if se_refcount e =? 1 then None
                      else Some (se_refcount e - 1))) ∧
    (err ≠ 0 → refs st' se = Some (se_refcount e)) ∧
    (∀ e', kmem st' !! se = Some e' → se_taskqid e' = TASKQID_INVALID) ∧
    tq_pending st' !! se_taskqid e = None.
Proof.
  intros He Hrc Hq. rewrite taskq_cancel_id_eq in Hq.
  rewrite (cancel_eq se e st He). unfold refs.
  destruct (tq_pending st !! se_taskqid e) as [t|] eqn:Ht.
  - injection Hq as <- <-. rewrite rele_eq. simpl. rewrite lookup_insert_eq.
    simpl. replace (se_refcount e <=? 0) with false by lia.
    eexists. split; [done|].
    split; [by left|]. split; [done|].
    destruct (se_refcount e =? 1); simpl.
    + rewrite lookup_delete_eq. repeat split; try done.
      apply lookup_delete_eq.
    + rewrite lookup_insert_eq. simpl. repeat split; try done.
      * by intros e' [= <-].
      * apply lookup_delete_eq.
  - assert (err ≠ 0 ∧ (err = ENOENT ∨ err = EBUSY)) as [Hne Hor].
    { destruct (decide _); injection Hq as <- <-; split; auto; done. }
    eexists. split; [done|]. simpl. rewrite lookup_insert_eq. simpl.
    split; [by right|].
    split; [split; [done | by intros []]|].
    split; [done|]. split; [done|].
    split; [by intros e' [= <-]|].
    by destruct (decide _).
Qed.

Lemma unmount_cancel_releases_iff_cancelled_witness :
  ∃ st',
    zfsctl_snapshot_unmount_cancel 1 example_mounted = Some (tt, st') ∧
    refs st' 1 = Some 1 ∧
    tq_pending st' !! 1 = None.
Proof.
  destruct (unmount_cancel_releases_iff_cancelled 1
    (mk_snapentry "pool/fs@s1" "/mnt/.zfs/snapshot/s1" 7 42 99 1 2)
    example_mounted 0
    (set_taskq ∅ ∅ 2 example_mounted)
    ltac:(vm_compute; reflexivity) ltac:(simpl; lia)
    ltac:(vm_compute; reflexivity))
    as (st' & Hrun & _ & _ & Hrel & _ & _ & Hpend).
  exists st'. split; [exact Hrun|]. split; [exact (Hrel eq_refl) | exact Hpend].
Defined.

(** ** Unmounting *)

Lemma exportfs_flush_eq status st :
  exportfs_flush status st
  = Some (tt, log_event (EvUsermodehelper exportfs_argv) st).
Proof. reflexivity. Qed.

Lemma unmount_not_found snapname flags o st :
  zfs_snapshots_by_name st !! snapname = None →
  zfsctl_snapshot_unmount snapname flags o st = Some (ENOENT, st).
Proof.
  intros Hn. unfold zfsctl_snapshot_unmount, bind.
  by rewrite find_by_name_eq, Hn.
Qed.

(** The value an unmount returns, when it returns. *)
Lemma unmount_result snapname flags o st r st' :
  zfsctl_snapshot_unmount snapname flags o st = Some (r, st') →
  r = match zfs_snapshots_by_name st !! snapname with
      | None => ENOENT
      | Some _ => if umh_status o =? 0 then 0 else EBUSY
      end.
Proof.
  unfold zfsctl_snapshot_unmount. intros (r1 & s1 & Hfind & Hrest)%bind_Some.
  rewrite find_by_name_eq in Hfind.
  destruct (zfs_snapshots_by_name st !! snapname) as [se|].
  - destruct (kmem st !! se) as [e|]; [|done]. injection Hfind as <- <-.
    apply bind_Some in Hrest as (? & s0 & _ & Hrest).
    apply bind_Some in Hrest as (e1 & s2 & _ & Hrest).
    apply bind_Some in Hrest as (err & s3 & Humh & Hrest).
    apply bind_Some in Hrest as (? & s4 & _ & Hrest).
    apply bind_Some in Hrest as (? & s5 & _ & Hrest).
    unfold call_usermodehelper, bind, modify, ret in Humh.
    injection Humh as <- <-. unfold ret in Hrest. injection Hrest as <- <-.
    unfold SET_ERROR. by destruct (umh_status o =? 0) eqn:Hs; simpl; [lia|].
  - injection Hfind as <- <-. unfold ret in Hrest. by injection Hrest as <- <-.
Qed.

Lemma unmount_same_destroys snapname flags o :
  preserves same_destroys (zfsctl_snapshot_unmount snapname flags o).
Proof.
  apply preserves_unmount; try apply _; try done.
  intros argv st. unfold same_destroys. simpl.
  by rewrite filter_app, filter_cons, filter_nil, app_nil_r.
Qed.

Lemma unmount_same_tunables snapname flags o :
  preserves same_tunables (zfsctl_snapshot_unmount snapname flags o).
Proof. apply preserves_unmount; try apply _; done. Qed.

Lemma unmount_no_dispatch snapname flags o :
  preserves no_dispatch (zfsctl_snapshot_unmount snapname flags o).
Proof. apply preserves_unmount; try apply _; done. Qed.

(** ** Administrative removal *)

(** C10: once [zfsctl_snapdir_remove] has got as far as the unmount, it
    goes on to [dsl_destroy_snapshot] exactly when the unmount returned 0
    or [ENOENT], and returns what the destruction returns; any other
    unmount error is returned as it is and no destruction is attempted.
    The unmount itself never destroys a snapshot. *)
Theorem snapdir_remove_destroys_iff env name snapname st error st1 :
  zfs_admin_snapshot st ≠ 0 →
  re_zfs_enter env = 0 →
  snapdir_remove_name env name = inr snapname →
  zfsctl_snapshot_unmount snapname MNT_FORCE (re_umh env) st
    = Some (error, st1) →
  ∃ r st',
    zfsctl_snapdir_remove env name st = Some (r, st') ∧
    (error = 0 ∨ error = ENOENT →
       r = re_dsl_destroy env ∧
       st' = log_event (EvDslDestroySnapshot snapname) st1 ∧
       filter is_destroy (klog st') =
         filter is_destroy (klog st) ++ [EvDslDestroySnapshot snapname]) ∧
    (error ≠ 0 → error ≠ ENOENT →
       r = error ∧ st' = st1 ∧
       filter is_destroy (klog st') = filter is_destroy (klog st)).
Proof.
  intros Hadmin Henter Hname Hun.
  pose proof (unmount_same_destroys _ _ _ _ _ _ Hun) as Hlog.
  unfold same_destroys in Hlog.
  unfold zfsctl_snapdir_remove, bind, gets.
  replace (zfs_admin_snapshot st =? 0) with false by lia.
  rewrite Henter, Hname. simpl. rewrite Hun.
  destruct ((error =? 0) || (error =? ENOENT)) eqn:Hcase.
  - unfold dsl_destroy_snapshot, bind, modify, ret.
    eexists _, _. split; [done|]. split.
    + intros _. repeat split. simpl.
      by rewrite filter_app, Hlog.
    + intros ??. lia.
  - unfold ret. eexists _, _. split; [done|]. split.
    + intros []; lia.
    + by intros _ _.
Qed.

Lemma snapdir_remove_destroys_iff_witness :
  ∃ r st',
    zfsctl_snapdir_remove
      (mk_remove_env 0 false (0, "s1"%string) (λ _, 0) "pool/fs" 0
         (mk_umh 0 true 0) 0) "s1" example_mounted = Some (r, st') ∧
    r = 0 ∧
    filter is_destroy (klog st') = [EvDslDestroySnapshot "pool/fs@s1"].
Proof.
  destruct (snapdir_remove_destroys_iff
    (mk_remove_env 0 false (0, "s1"%string) (λ _, 0) "pool/fs" 0
       (mk_umh 0 true 0) 0) "s1" "pool/fs@s1" example_mounted 0
    (run_from (zfsctl_snapshot_unmount "pool/fs@s1" MNT_FORCE (mk_umh 0 true 0))
       example_mounted)
    ltac:(vm_compute; discriminate) eq_refl
    ltac:(vm_compute; reflexivity) ltac:(vm_compute; reflexivity))
    as (r & st' & Hrun & Hyes & _).
  exists r, st'. split; [exact Hrun|].
  destruct (Hyes (or_introl eq_refl)) as (-> & _ & Hlog).
  split; [reflexivity|]. exact Hlog.
Defined.

(** ** The invariant under each kind of update *)

Lemma h_add_eq h p d : h_add h p d p = h p + d.
Proof. unfold h_add. by rewrite decide_True. Qed.

Lemma h_add_ne h p d q : q ≠ p → h_add h p d q = h q.
Proof. intros. unfold h_add. by rewrite decide_False. Qed.

Lemma ginv_ext h h' st : (∀ p, h p = h' p) → ginv h st → ginv h' st.
Proof.
  intros Hh []. split; try done.
  - intros p e He. rewrite <- Hh. eauto.
  - intros p. rewrite <- Hh. eauto.
  - intros p. rewrite <- Hh. eauto.
  - intros p e He. rewrite <- Hh. eauto.
Qed.

Ltac ginv_destruct H :=
  destruct H as [Hnext Htqpos Htqid Hrefs Hboth Hname Hobj Htask Howner
                   Hhold Hheld Hreg].

(** A caller in flight takes or gives up references on a live entry. *)
Lemma ginv_refcount h st p e d :
  ginv h st →
  kmem st !! p = Some e →
  0 ≤ h p + d →
  (h p + d = 0 → zfs_snapshots_by_name st !! se_name e = Some p) →
  ginv (h_add h p d)
    (upd_kmem (<[p := set_se_refcount (se_refcount e + d) e]>) st).
Proof.
  intros Hg He Hd Hregp. ginv_destruct Hg. unfold objsetid_key in *.
  split; unfold objsetid_key; simpl.
  - intros q e' Hq. destruct (decide (q = p)); simplify_map_eq; eauto.
  - done.
  - intros q e' Hq. destruct (decide (q = p)); simplify_map_eq; eauto.
  - intros q e' Hq. unfold reg_count, pend_count in *; simpl.
    destruct (decide (q = p)) as [->|Hne].
    + rewrite h_add_eq. rewrite lookup_insert_eq in Hq. injection Hq as <-.
      simpl. specialize (Hrefs _ _ He). lia.
    + rewrite h_add_ne by done. rewrite lookup_insert_ne in Hq by done.
      by apply Hrefs.
  - intros q e' Hq. destruct (decide (q = p)); simplify_map_eq; eauto.
  - intros k q Hk. destruct (Hname _ _ Hk) as (e' & He' & Hn).
    destruct (decide (q = p)); simplify_map_eq; eauto.
  - intros k q Hk. destruct (Hobj _ _ Hk) as (e' & He' & Hn).
    destruct (decide (q = p)); simplify_map_eq; eauto.
  - intros id t Ht. destruct (Htask _ _ Ht) as (Hid & e' & He' & Hn).
    split; [done|].
    destruct (decide (tk_arg t = p)); simplify_map_eq; eauto.
  - intros q e' t Hq Ht. destruct (decide (q = p)); simplify_map_eq; eauto.
  - intros q. destruct (decide (q = p)) as [->|];
      [rewrite h_add_eq; lia | rewrite h_add_ne by done; auto].
  - intros q. destruct (decide (q = p)) as [->|].
    + intros _. rewrite lookup_insert_eq. eauto.
    + rewrite h_add_ne, lookup_insert_ne by done. auto.
  - intros q e' Hq. destruct (decide (q = p)) as [->|Hne].
    + rewrite h_add_eq. rewrite lookup_insert_eq in Hq. injection Hq as <-.
      simpl. done.
    + rewrite h_add_ne by done. rewrite lookup_insert_ne in Hq by done.
      eauto.
Qed.

(** The last reference goes and the entry is freed. *)
Lemma ginv_rele_last h st p e :
  ginv h st →
  kmem st !! p = Some e →
  se_refcount e = 1 →
  h p = 1 →
  ginv (h_add h p (-1)) (upd_kmem (delete p) st).
Proof.
  intros Hg He Hrc Hh. ginv_destruct Hg. unfold objsetid_key in *.
  pose proof (Hrefs _ _ He) as Hp. unfold reg_count, pend_count in Hp.
  assert (zfs_snapshots_by_name st !! se_name e ≠ Some p) as Hnreg.
  { intros Hr. rewrite decide_True in Hp by done.
    destruct (tq_pending st !! se_taskqid e); lia. }
  assert (tq_pending st !! se_taskqid e = None) as Hnpend.
  { destruct (tq_pending st !! se_taskqid e); [|done]. case_decide; lia. }
  split; unfold objsetid_key; simpl.
  - intros q e' Hq. destruct (decide (q = p)); simplify_map_eq; eauto.
  - done.
  - intros q e' Hq. destruct (decide (q = p)); simplify_map_eq; eauto.
  - intros q e' Hq. destruct (decide (q = p)); simplify_map_eq.
    rewrite h_add_ne by done. by apply Hrefs.
  - intros q e' Hq. destruct (decide (q = p)); simplify_map_eq; eauto.
  - intros k q Hk. destruct (Hname _ _ Hk) as (e' & He' & Hn).
    destruct (decide (q = p)); simplify_map_eq; eauto.
  - intros k q Hk. destruct (Hobj _ _ Hk) as (e' & He' & Hn).
    destruct (decide (q = p)) as [->|Hne].
    + exfalso. apply Hnreg. rewrite He in He'. injection He' as <-.
      apply Hboth; [done|]. by rewrite Hn.
    + rewrite lookup_delete_ne by done. eauto.
  - intros id t Ht. destruct (Htask _ _ Ht) as (Hid & e' & He' & Hn).
    split; [done|].
    destruct (decide (tk_arg t = p)) as [Heq|Hne].
    + rewrite Heq, He in He'. injection He' as <-. congruence.
    + rewrite lookup_delete_ne by done. eauto.
  - intros q e' t Hq Ht. destruct (decide (q = p)); simplify_map_eq; eauto.
  - intros q. destruct (decide (q = p)) as [->|];
      [rewrite h_add_eq; lia | rewrite h_add_ne by done; auto].
  - intros q. destruct (decide (q = p)) as [->|].
    + rewrite h_add_eq. lia.
    + rewrite h_add_ne, lookup_delete_ne by done. auto.
  - intros q e' Hq. destruct (decide (q = p)); simplify_map_eq.
    rewrite h_add_ne by done. eauto.
Qed.

(** An entry held by a caller enters both trees: the caller's reference
    becomes the registry's. *)
Lemma ginv_trees_add h st p e :
  ginv h st →
  kmem st !! p = Some e →
  zfs_snapshots_by_name st !! se_name e = None →
  zfs_snapshots_by_objsetid st !! objsetid_key e = None →
  1 ≤ h p →
  ginv (h_add h p (-1))
    (set_by_objsetid (<[objsetid_key e := p]> (zfs_snapshots_by_objsetid st))
       (set_by_name (<[se_name e := p]> (zfs_snapshots_by_name st)) st)).
Proof.
  intros Hg He Hn Ho Hh. ginv_destruct Hg. unfold objsetid_key in *.
  split; unfold objsetid_key; simpl; try done.
  - intros q e' Hq. unfold reg_count, pend_count in *; simpl.
    specialize (Hrefs _ _ Hq).
    destruct (decide (q = p)) as [->|Hne].
    + rewrite He in Hq. injection Hq as <-.
      rewrite h_add_eq. rewrite Hn in Hrefs.
      rewrite decide_False in Hrefs by done.
      rewrite lookup_insert_eq. rewrite decide_True by done. lia.
    + rewrite h_add_ne by done.
      destruct (decide (se_name e = se_name e')) as [Heq|Hneq].
      * rewrite <- Heq in *. rewrite Hn in Hrefs.
        rewrite lookup_insert_eq. rewrite decide_False in Hrefs by done.
        rewrite decide_False by congruence. done.
      * by rewrite lookup_insert_ne.
  - intros q e' Hq. specialize (Hboth _ _ Hq).
    destruct (decide (q = p)) as [->|Hne].
    + rewrite He in Hq. injection Hq as <-. by rewrite !lookup_insert_eq.
    + destruct (decide (se_name e = se_name e')) as [Heq|Hneq];
        destruct (decide ((se_spa e, se_objsetid e)
                          = (se_spa e', se_objsetid e'))) as [Hoeq|Honeq].
      * rewrite <- Heq, <- Hoeq, !lookup_insert_eq. split; congruence.
      * rewrite <- Heq in *. rewrite lookup_insert_eq.
        rewrite lookup_insert_ne by done. rewrite Hn in Hboth.
        split; [congruence|]. intros ?%Hboth. done.
      * rewrite <- Hoeq in *. rewrite lookup_insert_eq.
        rewrite lookup_insert_ne by done. rewrite Ho in Hboth.
        split; [|congruence]. intros ?%Hboth. done.
      * by rewrite !lookup_insert_ne.
  - intros k q Hk. destruct (decide (k = se_name e)) as [->|Hne].
    + rewrite lookup_insert_eq in Hk. injection Hk as <-. eauto.
    + rewrite lookup_insert_ne in Hk by done. eauto.
  - intros k q Hk.
    destruct (decide (k = (se_spa e, se_objsetid e))) as [->|Hne].
    + rewrite lookup_insert_eq in Hk. injection Hk as <-. eauto.
    + rewrite lookup_insert_ne in Hk by done. eauto.
  - intros q. destruct (decide (q = p)) as [->|];
      [rewrite h_add_eq; lia | rewrite h_add_ne by done; auto].
  - intros q. destruct (decide (q = p)) as [->|];
      [eauto | rewrite h_add_ne by done; auto].
  - intros q e' Hq. destruct (decide (q = p)) as [->|Hne].
    + rewrite He in Hq. injection Hq as <-. intros _.
      apply lookup_insert_eq.
    + rewrite h_add_ne by done. intros Hq0.
      specialize (Hreg _ _ Hq Hq0).
      destruct (decide (se_name e = se_name e')) as [Heq|Hneq].
      * rewrite <- Heq in Hreg. congruence.
      * by rewrite lookup_insert_ne.
Qed.

(** A registered entry held by a caller leaves both trees: the
    registry's reference becomes one more of the caller's. *)
Lemma ginv_trees_remove h st p e :
  ginv h st →
  kmem st !! p = Some e →
  zfs_snapshots_by_name st !! se_name e = Some p →
  ginv (h_add h p 1)
    (set_by_objsetid (delete (objsetid_key e) (zfs_snapshots_by_objsetid st))
       (set_by_name (delete (se_name e) (zfs_snapshots_by_name st)) st)).
Proof.
  intros Hg He Hn. ginv_destruct Hg. unfold objsetid_key in *.
  assert (zfs_snapshots_by_objsetid st !! (se_spa e, se_objsetid e) = Some p)
    as Ho by by apply Hboth.
  assert (∀ q e', kmem st !! q = Some e' → q ≠ p →
            se_name e' ≠ se_name e ∨
            zfs_snapshots_by_name st !! se_name e' ≠ Some q) as Hother.
  { intros q e' Hq Hne.
    destruct (decide (se_name e' = se_name e)) as [Heq|]; [|by left].
    right. rewrite Heq, Hn. congruence. }
  split; unfold objsetid_key; simpl; try done.
  - intros q e' Hq. unfold reg_count, pend_count in *; simpl.
    specialize (Hrefs _ _ Hq).
    destruct (decide (q = p)) as [->|Hne].
    + rewrite He in Hq. injection Hq as <-.
      rewrite h_add_eq. rewrite decide_True in Hrefs by done.
      rewrite lookup_delete_eq. rewrite decide_False by done. lia.
    + rewrite h_add_ne by done.
      destruct (decide (se_name e = se_name e')) as [Heq|Hneq].
      * rewrite <- Heq in *. rewrite Hn in Hrefs.
        rewrite lookup_delete_eq. rewrite decide_False in Hrefs by congruence.
        rewrite decide_False by done. done.
      * by rewrite lookup_delete_ne.
  - intros q e' Hq. specialize (Hboth _ _ Hq).
    destruct (decide (q = p)) as [->|Hne].
    + rewrite He in Hq. injection Hq as <-. by rewrite !lookup_delete_eq.
    + destruct (decide (se_name e = se_name e')) as [Heq|Hneq];
        destruct (decide ((se_spa e, se_objsetid e)
                          = (se_spa e', se_objsetid e'))) as [Hoeq|Honeq].
      * by rewrite <- Heq, <- Hoeq, !lookup_delete_eq.
      * rewrite <- Heq in *. rewrite lookup_delete_eq.
        rewrite lookup_delete_ne by done. rewrite Hn in Hboth.
        split; [done|]. intros ?%Hboth. congruence.
      * rewrite <- Hoeq in *. rewrite lookup_delete_eq.
        rewrite lookup_delete_ne by done. rewrite Ho in Hboth.
        split; [|done]. intros ?%Hboth. congruence.
      * by rewrite !lookup_delete_ne.
  - intros k q Hk. destruct (decide (k = se_name e)) as [->|Hne].
    + by rewrite lookup_delete_eq in Hk.
    + rewrite lookup_delete_ne in Hk by done. eauto.
  - intros k q Hk.
    destruct (decide (k = (se_spa e, se_objsetid e))) as [->|Hne].
    + by rewrite lookup_delete_eq in Hk.
    + rewrite lookup_delete_ne in Hk by done. eauto.
  - intros q. specialize (Hhold q). destruct (decide (q = p)) as [->|];
      [rewrite h_add_eq; lia | by rewrite h_add_ne].
  - intros q. destruct (decide (q = p)) as [->|];
      [eauto | rewrite h_add_ne by done; auto].
  - intros q e' Hq. destruct (decide (q = p)) as [->|Hne].
    + rewrite h_add_eq. specialize (Hhold p). lia.
    + rewrite h_add_ne by done. intros Hq0.
      specialize (Hreg _ _ Hq Hq0).
      destruct (decide (se_name e = se_name e')) as [Heq|Hneq].
      * rewrite <- Heq in Hreg. congruence.
      * by rewrite lookup_delete_ne.
Qed.

(** An unregistered entry held by a caller gets a new name. *)
Lemma ginv_set_name h st p e n :
  ginv h st →
  kmem st !! p = Some e →
  zfs_snapshots_by_name st !! se_name e ≠ Some p →
  ginv h (upd_kmem (<[p := set_se_name n e]>) st).
Proof.
  intros Hg He Hn. ginv_destruct Hg.
  assert (∀ k, zfs_snapshots_by_name st !! k ≠ Some p) as Hnone.
  { intros k Hk. destruct (Hname _ _ Hk) as (e' & He' & Hk').
    rewrite He in He'. injection He' as <-. congruence. }
  assert (h p ≠ 0) as Hh by (intros Hh; by apply Hn, Hreg).
  split; unfold objsetid_key in *; simpl; try done.
  - intros q e' Hq. destruct (decide (q = p)); simplify_map_eq; eauto.
  - intros q e' Hq. destruct (decide (q = p)); simplify_map_eq; eauto.
  - intros q e' Hq. unfold reg_count, pend_count in *; simpl.
    destruct (decide (q = p)) as [->|Hne].
    + rewrite lookup_insert_eq in Hq. injection Hq as <-. simpl.
      specialize (Hrefs _ _ He). rewrite decide_False in Hrefs by done.
      rewrite decide_False by apply Hnone. done.
    + rewrite lookup_insert_ne in Hq by done. by apply Hrefs.
  - intros q e' Hq. destruct (decide (q = p)) as [->|Hne].
    + rewrite lookup_insert_eq in Hq. injection Hq as <-. simpl.
      specialize (Hboth _ _ He). split; [by intros ?%Hnone|].
      intros Ho. exfalso. apply Hn. by apply Hboth.
    + rewrite lookup_insert_ne in Hq by done. eauto.
  - intros k q Hk. destruct (Hname _ _ Hk) as (e' & He' & Hk').
    destruct (decide (q = p)) as [->|Hne]; [by apply Hnone in Hk|].
    rewrite lookup_insert_ne by done. eauto.
  - intros k q Hk. destruct (Hobj _ _ Hk) as (e' & He' & Hk').
    destruct (decide (q = p)) as [->|Hne].
    + rewrite He in He'. injection He' as <-.
      rewrite lookup_insert_eq. eauto.
    + rewrite lookup_insert_ne by done. eauto.
  - intros id t Ht. destruct (Htask _ _ Ht) as (Hid & e' & He' & Hn').
    split; [done|].
    destruct (decide (tk_arg t = p)) as [Heq|Hne].
    + rewrite Heq, He in He'. injection He' as <-.
      rewrite Heq, lookup_insert_eq. eauto.
    + rewrite lookup_insert_ne by done. eauto.
  - intros q e' t Hq Ht. destruct (decide (q = p)) as [->|Hne].
    + rewrite lookup_insert_eq in Hq. injection Hq as <-. eauto.
    + rewrite lookup_insert_ne in Hq by done. eauto.
  - intros q Hq. destruct (decide (q = p)) as [->|Hne].
    + rewrite lookup_insert_eq. eauto.
    + rewrite lookup_insert_ne by done. auto.
  - intros q e' Hq Hq0. destruct (decide (q = p)) as [->|Hne]; [done|].
    rewrite lookup_insert_ne in Hq by done. eauto.
Qed.

(** A task is dispatched for an idle entry: the reference the caller
    took for it becomes the task's. *)
Lemma ginv_dispatch h st p e x :
  ginv h st →
  kmem st !! p = Some e →
  se_taskqid e = TASKQID_INVALID →
  1 ≤ h p →
  (h p = 1 → zfs_snapshots_by_name st !! se_name e = Some p) →
  ginv (h_add h p (-1))
    (upd_kmem (<[p := set_se_taskqid (tq_next_id st) e]>)
       (set_taskq (<[tq_next_id st := mk_task p x]> (tq_pending st))
          (tq_active st) (tq_next_id st + 1) st)).
Proof.
  intros Hg He Hid Hh Hregp. ginv_destruct Hg. unfold TASKQID_INVALID in *.
  assert (tq_pending st !! tq_next_id st = None) as Hfresh.
  { destruct (tq_pending st !! tq_next_id st) as [t|] eqn:Ht; [|done].
    apply Htask in Ht as [? _]. lia. }
  assert (tq_pending st !! 0 = None) as Hzero.
  { destruct (tq_pending st !! 0) as [t|] eqn:Ht; [|done].
    apply Htask in Ht as [? _]. lia. }
  split; unfold objsetid_key in *; simpl; try done.
  - intros q e' Hq. destruct (decide (q = p)); simplify_map_eq; eauto.
  - lia.
  - intros q e' Hq. destruct (decide (q = p)) as [->|Hne].
    + rewrite lookup_insert_eq in Hq. injection Hq as <-. simpl. lia.
    + rewrite lookup_insert_ne in Hq by done.
      specialize (Htqid _ _ Hq). lia.
  - intros q e' Hq. unfold reg_count, pend_count in *; simpl.
    destruct (decide (q = p)) as [->|Hne].
    + rewrite lookup_insert_eq in Hq. injection Hq as <-. simpl.
      rewrite h_add_eq, lookup_insert_eq.
      specialize (Hrefs _ _ He). rewrite Hid in Hrefs.
      rewrite Hzero in Hrefs. lia.
    + rewrite lookup_insert_ne in Hq by done. rewrite h_add_ne by done.
      rewrite lookup_insert_ne; [by apply Hrefs|].
      specialize (Htqid _ _ Hq). lia.
  - intros q e' Hq. destruct (decide (q = p)) as [->|Hne].
    + rewrite lookup_insert_eq in Hq. injection Hq as <-. simpl. eauto.
    + rewrite lookup_insert_ne in Hq by done. eauto.
  - intros k q Hk. destruct (Hname _ _ Hk) as (e' & He' & Hk').
    destruct (decide (q = p)) as [->|Hne].
    + rewrite He in He'. injection He' as <-.
      rewrite lookup_insert_eq. eauto.
    + rewrite lookup_insert_ne by done. eauto.
  - intros k q Hk. destruct (Hobj _ _ Hk) as (e' & He' & Hk').
    destruct (decide (q = p)) as [->|Hne].
    + rewrite He in He'. injection He' as <-.
      rewrite lookup_insert_eq. eauto.
    + rewrite lookup_insert_ne by done. eauto.
  - intros id t Ht.
    destruct (decide (id = tq_next_id st)) as [->|Hne].
    + rewrite lookup_insert_eq in Ht. injection Ht as <-. simpl.
      split; [lia|]. rewrite lookup_insert_eq. eauto.
    + rewrite lookup_insert_ne in Ht by done.
      destruct (Htask _ _ Ht) as (Hlt & e' & He' & Hn').
      split; [lia|].
      destruct (decide (tk_arg t = p)) as [Heq|Hnep].
      * rewrite Heq, He in He'. injection He' as <-. lia.
      * rewrite lookup_insert_ne by done. eauto.
  - intros q e' t Hq Ht. destruct (decide (q = p)) as [->|Hne].
    + rewrite lookup_insert_eq in Hq. injection Hq as <-. simpl in Ht.
      rewrite lookup_insert_eq in Ht. by injection Ht as <-.
    + rewrite lookup_insert_ne in Hq by done.
      rewrite lookup_insert_ne in Ht; [eauto|].
      specialize (Htqid _ _ Hq). lia.
  - intros q. destruct (decide (q = p)) as [->|];
      [rewrite h_add_eq; lia | rewrite h_add_ne by done; auto].
  - intros q. destruct (decide (q = p)) as [->|].
    + intros _. rewrite lookup_insert_eq. eauto.
    + rewrite h_add_ne, lookup_insert_ne by done. auto.
  - intros q e' Hq. destruct (decide (q = p)) as [->|Hne].
    + rewrite lookup_insert_eq in Hq. injection Hq as <-. simpl.
      rewrite h_add_eq. intros ?. apply Hregp. lia.
    + rewrite lookup_insert_ne in Hq by done. rewrite h_add_ne by done.
      eauto.
Qed.

(** The invariant only reads the memory, the trees and the queue. *)
Lemma ginv_core h st st' :
  kmem st' = kmem st →
  kmem_next st' = kmem_next st →
  zfs_snapshots_by_name st' = zfs_snapshots_by_name st →
  zfs_snapshots_by_objsetid st' = zfs_snapshots_by_objsetid st →
  tq_pending st' = tq_pending st →
  tq_next_id st' = tq_next_id st →
  ginv h st → ginv h st'.
Proof.
  intros H1 H2 H3 H4 H5 H6 Hg. ginv_destruct Hg.
  split; unfold reg_count, pend_count in *;
    rewrite ?H1, ?H2, ?H3, ?H4, ?H5, ?H6; done.
Qed.

(** A pending task is cancelled: its reference passes to the caller. *)
Lemma ginv_cancel_pending h st p e t a :
  ginv h st →
  kmem st !! p = Some e →
  tq_pending st !! se_taskqid e = Some t →
  ginv (h_add h p 1)
    (upd_kmem (<[p := set_se_taskqid TASKQID_INVALID e]>)
       (set_taskq (delete (se_taskqid e) (tq_pending st)) a
          (tq_next_id st) st)).
Proof.
  intros Hg He Ht. ginv_destruct Hg. unfold TASKQID_INVALID in *.
  assert (tq_pending st !! 0 = None) as Hzero.
  { destruct (tq_pending st !! 0) as [t0|] eqn:Ht0; [|done].
    apply Htask in Ht0 as [? _]. lia. }
  assert (se_taskqid e ≠ 0) as Hnz by congruence.
  split; unfold objsetid_key in *; simpl; try done.
  - intros q e' Hq. destruct (decide (q = p)); simplify_map_eq; eauto.
  - intros q e' Hq. destruct (decide (q = p)) as [->|Hne].
    + rewrite lookup_insert_eq in Hq. injection Hq as <-. simpl. lia.
    + rewrite lookup_insert_ne in Hq by done. eauto.
  - intros q e' Hq. unfold reg_count, pend_count in *; simpl.
    destruct (decide (q = p)) as [->|Hne].
    + rewrite lookup_insert_eq in Hq. injection Hq as <-. simpl.
      rewrite h_add_eq. rewrite lookup_delete_ne, Hzero by done.
      specialize (Hrefs _ _ He). rewrite Ht in Hrefs. lia.
    + rewrite lookup_insert_ne in Hq by done. rewrite h_add_ne by done.
      specialize (Hrefs _ _ Hq).
      destruct (decide (se_taskqid e' = se_taskqid e)) as [Heq|Hneq].
      * exfalso. apply Hne. rewrite <- (Howner _ _ _ He Ht).
        symmetry. apply (Howner _ _ _ Hq). by rewrite Heq.
      * by rewrite lookup_delete_ne.
  - intros q e' Hq. destruct (decide (q = p)) as [->|Hne].
    + rewrite lookup_insert_eq in Hq. injection Hq as <-. simpl. eauto.
    + rewrite lookup_insert_ne in Hq by done. eauto.
  - intros k q Hk. destruct (Hname _ _ Hk) as (e' & He' & Hk').
    destruct (decide (q = p)) as [->|Hne].
    + rewrite He in He'. injection He' as <-.
      rewrite lookup_insert_eq. eauto.
    + rewrite lookup_insert_ne by done. eauto.
  - intros k q Hk. destruct (Hobj _ _ Hk) as (e' & He' & Hk').
    destruct (decide (q = p)) as [->|Hne].
    + rewrite He in He'. injection He' as <-.
      rewrite lookup_insert_eq. eauto.
    + rewrite lookup_insert_ne by done. eauto.
  - intros id t' Ht'.
    destruct (decide (id = se_taskqid e)) as [->|Hne];
      [by rewrite lookup_delete_eq in Ht'|].
    rewrite lookup_delete_ne in Ht' by done.
    destruct (Htask _ _ Ht') as (Hlt & e' & He' & Hn').
    split; [done|].
    destruct (decide (tk_arg t' = p)) as [Heq|Hnep].
    + rewrite Heq, He in He'. injection He' as <-. done.
    + rewrite lookup_insert_ne by done. eauto.
  - intros q e' t' Hq Ht'. destruct (decide (q = p)) as [->|Hne].
    + rewrite lookup_insert_eq in Hq. injection Hq as <-. simpl in Ht'.
      rewrite lookup_delete_ne in Ht' by done. congruence.
    + rewrite lookup_insert_ne in Hq by done.
      destruct (decide (se_taskqid e' = se_taskqid e)) as [Heq|Hneq].
      * rewrite Heq, lookup_delete_eq in Ht'. done.
      * rewrite lookup_delete_ne in Ht' by done. eauto.
  - intros q. specialize (Hhold q). destruct (decide (q = p)) as [->|];
      [rewrite h_add_eq; lia | by rewrite h_add_ne].
  - intros q. destruct (decide (q = p)) as [->|].
    + intros _. rewrite lookup_insert_eq. eauto.
    + rewrite h_add_ne, lookup_insert_ne by done. auto.
  - intros q e' Hq. destruct (decide (q = p)) as [->|Hne].
    + rewrite h_add_eq. specialize (Hhold p). lia.
    + rewrite lookup_insert_ne in Hq by done. rewrite h_add_ne by done.
      eauto.
Qed.

(** The task identifier of an entry with no pending task is cleared. *)
Lemma ginv_clear_taskqid h st p e a :
  ginv h st →
  kmem st !! p = Some e →
  tq_pending st !! se_taskqid e = None →
  ginv h
    (upd_kmem (<[p := set_se_taskqid TASKQID_INVALID e]>)
       (set_taskq (tq_pending st) a (tq_next_id st) st)).
Proof.
  intros Hg He Ht. ginv_destruct Hg. unfold TASKQID_INVALID in *.
  assert (tq_pending st !! 0 = None) as Hzero.
  { destruct (tq_pending st !! 0) as [t0|] eqn:Ht0; [|done].
    apply Htask in Ht0 as [? _]. lia. }
  split; unfold objsetid_key in *; simpl; try done.
  - intros q e' Hq. destruct (decide (q = p)); simplify_map_eq; eauto.
  - intros q e' Hq. destruct (decide (q = p)) as [->|Hne].
    + rewrite lookup_insert_eq in Hq. injection Hq as <-. simpl. lia.
    + rewrite lookup_insert_ne in Hq by done. eauto.
  - intros q e' Hq. unfold reg_count, pend_count in *; simpl.
    destruct (decide (q = p)) as [->|Hne].
    + rewrite lookup_insert_eq in Hq. injection Hq as <-. simpl.
      rewrite Hzero. specialize (Hrefs _ _ He). rewrite Ht in Hrefs. lia.
    + rewrite lookup_insert_ne in Hq by done. eauto.
  - intros q e' Hq. destruct (decide (q = p)) as [->|Hne].
    + rewrite lookup_insert_eq in Hq. injection Hq as <-. simpl. eauto.
    + rewrite lookup_insert_ne in Hq by done. eauto.
  - intros k q Hk. destruct (Hname _ _ Hk) as (e' & He' & Hk').
    destruct (decide (q = p)) as [->|Hne].
    + rewrite He in He'. injection He' as <-.
      rewrite lookup_insert_eq. eauto.
    + rewrite lookup_insert_ne by done. eauto.
  - intros k q Hk. destruct (Hobj _ _ Hk) as (e' & He' & Hk').
    destruct (decide (q = p)) as [->|Hne].
    + rewrite He in He'. injection He' as <-.
      rewrite lookup_insert_eq. eauto.
    + rewrite lookup_insert_ne by done. eauto.
  - intros id t' Ht'.
    destruct (Htask _ _ Ht') as (Hlt & e' & He' & Hn').
    split; [done|].
    destruct (decide (tk_arg t' = p)) as [Heq|Hnep].
    + rewrite Heq, He in He'. injection He' as <-. congruence.
    + rewrite lookup_insert_ne by done. eauto.
  - intros q e' t' Hq Ht'. destruct (decide (q = p)) as [->|Hne].
    + rewrite lookup_insert_eq in Hq. injection Hq as <-. simpl in Ht'.
      congruence.
    + rewrite lookup_insert_ne in Hq by done. eauto.
  - intros q Hq. destruct (decide (q = p)) as [->|].
    + rewrite lookup_insert_eq. eauto.
    + rewrite lookup_insert_ne by done. auto.
  - intros q e' Hq. destruct (decide (q = p)) as [->|Hne].
    + rewrite lookup_insert_eq in Hq. injection Hq as <-. simpl. eauto.
    + rewrite lookup_insert_ne in Hq by done. eauto.
Qed.

(** The queue takes a pending task to run it: the task's reference is
    now held by the running callback. *)
Lemma ginv_fire h st id t a :
  ginv h st →
  tq_pending st !! id = Some t →
  ginv (h_add h (tk_arg t) 1)
    (set_taskq (delete id (tq_pending st)) a (tq_next_id st) st).
Proof.
  intros Hg Ht. ginv_destruct Hg.
  destruct (Htask _ _ Ht) as (Hlt & e & He & Hid).
  split; unfold objsetid_key in *; simpl; try done.
  - intros q e' Hq. unfold reg_count, pend_count in *; simpl.
    specialize (Hrefs _ _ Hq).
    destruct (decide (q = tk_arg t)) as [->|Hne].
    + rewrite He in Hq. injection Hq as <-.
      rewrite h_add_eq, Hid, lookup_delete_eq.
      rewrite Hid, Ht in Hrefs. lia.
    + rewrite h_add_ne by done.
      destruct (decide (se_taskqid e' = id)) as [Heq|Hneq].
      * exfalso. rewrite <- Heq in Ht. apply Hne. symmetry. eauto.
      * by rewrite lookup_delete_ne.
  - intros id' t' Ht'.
    destruct (decide (id' = id)) as [->|Hne];
      [by rewrite lookup_delete_eq in Ht'|].
    rewrite lookup_delete_ne in Ht' by done. eauto.
  - intros q e' t' Hq Ht'.
    destruct (decide (se_taskqid e' = id)) as [Heq|Hneq].
    + by rewrite Heq, lookup_delete_eq in Ht'.
    + rewrite lookup_delete_ne in Ht' by done. eauto.
  - intros q. specialize (Hhold q).
    destruct (decide (q = tk_arg t)) as [->|];
      [rewrite h_add_eq; lia | by rewrite h_add_ne].
  - intros q. destruct (decide (q = tk_arg t)) as [->|];
      [eauto | rewrite h_add_ne by done; auto].
  - intros q e' Hq. destruct (decide (q = tk_arg t)) as [->|Hne].
    + rewrite h_add_eq. specialize (Hhold (tk_arg t)). lia.
    + rewrite h_add_ne by done. eauto.
Qed.

(** A new entry is allocated and registered at once. *)
Lemma ginv_register_new h st n path spa o d :
  ginv h st →
  zfs_snapshots_by_name st !! n = None →
  zfs_snapshots_by_objsetid st !! (spa, o) = None →
  ginv h
    (set_by_objsetid (<[(spa, o) := kmem_next st]> (zfs_snapshots_by_objsetid st))
       (set_by_name (<[n := kmem_next st]> (zfs_snapshots_by_name st))
          (upd_kmem (<[kmem_next st :=
                        mk_snapentry n path spa o d TASKQID_INVALID 1]>)
             (set_kmem_next (kmem_next st + 1) st)))).
Proof.
  intros Hg Hn Ho. ginv_destruct Hg. unfold TASKQID_INVALID in *.
  assert (kmem st !! kmem_next st = None) as Hfresh.
  { destruct (kmem st !! kmem_next st) as [e|] eqn:He; [|done].
    apply Hnext in He. lia. }
  assert (tq_pending st !! 0 = None) as Hzero.
  { destruct (tq_pending st !! 0) as [t0|] eqn:Ht0; [|done].
    apply Htask in Ht0 as [? _]. lia. }
  assert (h (kmem_next st) = 0) as Hh0.
  { destruct (decide (0 < h (kmem_next st))) as [Hpos|Hnpos].
    - apply Hheld in Hpos as [e He]. congruence.
    - specialize (Hhold (kmem_next st)). lia. }
  set (p := kmem_next st) in *.
  split; unfold objsetid_key in *; simpl; try done.
  - intros q e' Hq. destruct (decide (q = p)) as [->|Hne]; [lia|].
    rewrite lookup_insert_ne in Hq by done. apply Hnext in Hq. lia.
  - intros q e' Hq. destruct (decide (q = p)) as [->|Hne].
    + rewrite lookup_insert_eq in Hq. injection Hq as <-. simpl. lia.
    + rewrite lookup_insert_ne in Hq by done. eauto.
  - intros q e' Hq. unfold reg_count, pend_count in *; simpl.
    destruct (decide (q = p)) as [->|Hne].
    + rewrite lookup_insert_eq in Hq. injection Hq as <-. simpl.
      rewrite lookup_insert_eq, decide_True, Hzero by done. lia.
    + rewrite lookup_insert_ne in Hq by done.
      specialize (Hrefs _ _ Hq).
      destruct (decide (n = se_name e')) as [->|Hneq].
      * rewrite Hn in Hrefs. rewrite decide_False in Hrefs by done.
        rewrite lookup_insert_eq. rewrite decide_False by congruence. done.
      * by rewrite lookup_insert_ne.
  - intros q e' Hq. destruct (decide (q = p)) as [->|Hne].
    + rewrite lookup_insert_eq in Hq. injection Hq as <-. simpl.
      by rewrite !lookup_insert_eq.
    + rewrite lookup_insert_ne in Hq by done. specialize (Hboth _ _ Hq).
      destruct (decide (n = se_name e')) as [Heq|Hneq];
        destruct (decide ((spa, o) = (se_spa e', se_objsetid e')))
          as [Hoeq|Honeq].
      * rewrite <- Heq, <- Hoeq, !lookup_insert_eq. split; congruence.
      * rewrite <- Heq in *. rewrite lookup_insert_eq.
        rewrite lookup_insert_ne by done. rewrite Hn in Hboth.
        split; [congruence|]. intros ?%Hboth. done.
      * rewrite <- Hoeq in *. rewrite lookup_insert_eq.
        rewrite lookup_insert_ne by done. rewrite Ho in Hboth.
        split; [|congruence]. intros ?%Hboth. done.
      * by rewrite !lookup_insert_ne.
  - intros k q Hk. destruct (decide (k = n)) as [->|Hne].
    + rewrite lookup_insert_eq in Hk. injection Hk as <-.
      rewrite lookup_insert_eq. eauto.
    + rewrite lookup_insert_ne in Hk by done.
      destruct (Hname _ _ Hk) as (e' & He' & Hk').
      rewrite lookup_insert_ne by congruence. eauto.
  - intros k q Hk. destruct (decide (k = (spa, o))) as [->|Hne].
    + rewrite lookup_insert_eq in Hk. injection Hk as <-.
      rewrite lookup_insert_eq. eauto.
    + rewrite lookup_insert_ne in Hk by done.
      destruct (Hobj _ _ Hk) as (e' & He' & Hk').
      rewrite lookup_insert_ne by congruence. eauto.
  - intros id t Ht. destruct (Htask _ _ Ht) as (Hlt & e' & He' & Hid).
    split; [done|]. rewrite lookup_insert_ne by congruence. eauto.
  - intros q e' t Hq Ht. destruct (decide (q = p)) as [->|Hne].
    + rewrite lookup_insert_eq in Hq. injection Hq as <-. simpl in Ht.
      congruence.
    + rewrite lookup_insert_ne in Hq by done. eauto.
  - intros q Hq. destruct (decide (q = p)) as [->|Hne].
    + rewrite lookup_insert_eq. eauto.
    + rewrite lookup_insert_ne by done. auto.
  - intros q e' Hq Hq0. destruct (decide (q = p)) as [->|Hne].
    + rewrite lookup_insert_eq in Hq. injection Hq as <-. simpl.
      apply lookup_insert_eq.
    + rewrite lookup_insert_ne in Hq by done.
      specialize (Hreg _ _ Hq Hq0).
      destruct (decide (n = se_name e')) as [->|Hneq]; [congruence|].
      by rewrite lookup_insert_ne.
Qed.

Lemma ginv_init expire admin nosetuid hz :
  inv (zfsctl_init expire admin nosetuid hz).
Proof.
  split; done.
Qed.

(** ** The functions of the file under the invariant *)

Lemma ginv_no_task_zero h st : ginv h st → tq_pending st !! 0 = None.
Proof.
  intros Hg. destruct (tq_pending st !! 0) as [t|] eqn:Ht; [|done].
  apply (gi_task _ _ Hg) in Ht as [? _]. lia.
Qed.

Lemma ginv_refcount_pos h st p e :
  ginv h st → kmem st !! p = Some e → 1 ≤ se_refcount e.
Proof.
  intros Hg He. pose proof (gi_refs _ _ Hg _ _ He) as Hr.
  pose proof (gi_hold _ _ Hg p) as Hh.
  unfold reg_count, pend_count in Hr.
  destruct (decide (h p = 0)) as [H0|H0].
  - rewrite decide_True in Hr by by eapply gi_reg.
    destruct (tq_pending st !! se_taskqid e); lia.
  - destruct (decide _); destruct (tq_pending st !! se_taskqid e); lia.
Qed.

(** A caller gives up one of its references.  Unless the entry is
    registered or the caller holds another reference, no task may be
    pending for it: the release then frees it. *)
Lemma rele_ginv h st p :
  ginv h st →
  1 ≤ h p →
  (h p = 1 → ∀ e, kmem st !! p = Some e →
     zfs_snapshots_by_name st !! se_name e ≠ Some p →
     tq_pending st !! se_taskqid e = None) →
  ∃ e st',
    kmem st !! p = Some e ∧
    zfsctl_snapshot_rele p st = Some (tt, st') ∧
    ginv (h_add h p (-1)) st' ∧
    st' = (if se_refcount e =? 1 then upd_kmem (delete p) st
           else upd_kmem (<[p := set_se_refcount (se_refcount e - 1) e]>) st).
Proof.
  intros Hg Hh Hlast.
  destruct (gi_held _ _ Hg p) as [e He]; [lia|].
  pose proof (ginv_refcount_pos _ _ _ _ Hg He) as Hpos.
  pose proof (gi_refs _ _ Hg _ _ He) as Hr.
  unfold reg_count, pend_count in Hr.
  exists e. eexists. split; [done|]. rewrite rele_eq, He.
  replace (se_refcount e <=? 0) with false by lia.
  split; [done|]. split; [|done].
  destruct (se_refcount e =? 1) eqn:Hone.
  - apply (ginv_rele_last h st p e); [done | done | lia |].
    destruct (decide _); destruct (tq_pending st !! se_taskqid e); lia.
  - replace (se_refcount e - 1) with (se_refcount e + -1) by lia.
    apply ginv_refcount; [done | done | lia |].
    intros H1. destruct (decide (zfs_snapshots_by_name st !! se_name e = Some p))
      as [|Hn]; [done|].
    rewrite (Hlast ltac:(lia) e He Hn) in Hr. lia.
Qed.

Lemma hold_ginv h st p e :
  ginv h st →
  kmem st !! p = Some e →
  zfsctl_snapshot_hold p st =
    Some (tt, upd_kmem (<[p := set_se_refcount (se_refcount e + 1) e]>) st) ∧
  ginv (h_add h p 1)
    (upd_kmem (<[p := set_se_refcount (se_refcount e + 1) e]>) st).
Proof.
  intros Hg He. rewrite hold_eq, He. split; [done|].
  pose proof (gi_hold _ _ Hg p).
  apply ginv_refcount; [done | done | lia | lia].
Qed.

Lemma find_by_name_ginv h st n :
  ginv h st →
  ∃ st',
    zfsctl_snapshot_find_by_name n st
      = Some (zfs_snapshots_by_name st !! n, st') ∧
    match zfs_snapshots_by_name st !! n with
    | Some p =>
        ∃ e, kmem st !! p = Some e ∧ se_name e = n ∧
             st' = upd_kmem (<[p := set_se_refcount (se_refcount e + 1) e]>) st ∧
             ginv (h_add h p 1) st'
    | None => st' = st
    end.
Proof.
  intros Hg. rewrite find_by_name_eq.
  destruct (zfs_snapshots_by_name st !! n) as [p|] eqn:Hn; [|by eexists].
  destruct (gi_name _ _ Hg _ _ Hn) as (e & He & Hname). rewrite He.
  eexists. split; [done|]. exists e.
  split; [done|]. split; [done|]. split; [done|].
  by destruct (hold_ginv _ _ _ _ Hg He).
Qed.

Lemma find_by_objsetid_ginv h st spa o :
  ginv h st →
  ∃ st',
    zfsctl_snapshot_find_by_objsetid spa o st
      = Some (zfs_snapshots_by_objsetid st !! (spa, o), st') ∧
    match zfs_snapshots_by_objsetid st !! (spa, o) with
    | Some p =>
        ∃ e, kmem st !! p = Some e ∧ objsetid_key e = (spa, o) ∧
             st' = upd_kmem (<[p := set_se_refcount (se_refcount e + 1) e]>) st ∧
             ginv (h_add h p 1) st'
    | None => st' = st
    end.
Proof.
  intros Hg. rewrite find_by_objsetid_eq.
  destruct (zfs_snapshots_by_objsetid st !! (spa, o)) as [p|] eqn:Hn;
    [|by eexists].
  destruct (gi_objsetid _ _ Hg _ _ Hn) as (e & He & Hname). rewrite He.
  eexists. split; [done|]. exists e.
  split; [done|]. split; [done|]. split; [done|].
  by destruct (hold_ginv _ _ _ _ Hg He).
Qed.

Lemma rele_same_trees p : preserves same_trees (zfsctl_snapshot_rele p).
Proof. apply preserves_rele; try apply _; done. Qed.

Lemma rele_no_dispatch p : preserves no_dispatch (zfsctl_snapshot_rele p).
Proof. apply preserves_rele; try apply _; done. Qed.

Lemma cancel_same_trees p :
  preserves same_trees (zfsctl_snapshot_unmount_cancel p).
Proof.
  apply preserves_cancel; try apply _; done.
Qed.

Lemma delay_impl_same_trees p d :
  preserves same_trees (zfsctl_snapshot_unmount_delay_impl p d).
Proof. apply preserves_delay_impl; try apply _; done. Qed.

(** Cancelling keeps the invariant whoever calls it, and leaves the
    entry, if it is still there, without a task identifier. *)
Lemma cancel_ginv h st p e :
  ginv h st →
  kmem st !! p = Some e →
  ∃ st',
    zfsctl_snapshot_unmount_cancel p st = Some (tt, st') ∧
    ginv h st' ∧
    (∀ e', kmem st' !! p = Some e' → se_taskqid e' = TASKQID_INVALID).
Proof.
  intros Hg He. rewrite (cancel_eq p e st He).
  destruct (tq_pending st !! se_taskqid e) as [t|] eqn:Ht.
  - pose proof (ginv_cancel_pending h st p e t (tq_active st) Hg He Ht) as Hg1.
    destruct (rele_ginv _ _ p Hg1) as (e1 & st' & He1 & Hrun & Hg2 & Hst').
    + rewrite h_add_eq. pose proof (gi_hold _ _ Hg p). lia.
    + intros _ e1 He1 _. simpl in He1. rewrite lookup_insert_eq in He1.
      injection He1 as <-. simpl. apply (ginv_no_task_zero _ _ Hg1).
    + exists st'. split; [done|]. split.
      * eapply ginv_ext; [|exact Hg2]. intros q. unfold h_add.
        destruct (decide (q = p)); lia.
      * simpl in He1. rewrite lookup_insert_eq in He1. injection He1 as <-.
        subst st'. simpl. destruct (_ =? 1); simpl; intros e'.
        -- by rewrite lookup_delete_eq.
        -- rewrite lookup_insert_eq. by intros [= <-].
  - eexists. split; [done|]. split.
    + destruct (decide _).
      * by apply ginv_clear_taskqid.
      * eapply ginv_core;
          [..|exact (ginv_clear_taskqid h st p e (tq_active st) Hg He Ht)];
          done.
    + intros e'. simpl. rewrite lookup_insert_eq. by intros [= <-].
Qed.

(** Arming keeps the invariant. *)
Lemma delay_impl_ginv h st p e delay :
  ginv h st →
  kmem st !! p = Some e →
  ∃ st',
    zfsctl_snapshot_unmount_delay_impl p delay st = Some (tt, st') ∧
    ginv h st'.
Proof.
  intros Hg He. pose proof (ginv_refcount_pos _ _ _ _ Hg He) as Hpos.
  destruct (decide (delay ≤ 0)) as [Hd|Hd].
  { exists st. by rewrite delay_impl_disabled. }
  destruct (decide (se_taskqid e = TASKQID_INVALID)) as [Hid|Hid].
  2:{ exists st. by rewrite (delay_impl_scheduled p e). }
  eexists. split; [apply delay_impl_idle; [done | done | lia]|].
  destruct (hold_ginv _ _ _ _ Hg He) as [_ Hg1].
  pose proof (gi_hold _ _ Hg p) as Hh.
  eapply ginv_ext; [|eapply ginv_core;
    [..|apply (ginv_dispatch (h_add h p 1) _ p
              (set_se_refcount (se_refcount e + 1) e)
              (lbolt st + int_wrap (delay * HZ st)) Hg1)]]; simpl.
  - intros q. unfold h_add. destruct (decide (q = p)); lia.
  - by rewrite insert_insert_eq.
  - done.
  - done.
  - done.
  - done.
  - done.
  - apply lookup_insert_eq.
  - done.
  - rewrite h_add_eq. lia.
  - rewrite h_add_eq. intros ?. simpl. eapply gi_reg; [done | done | lia].
Qed.

(** Removing a registered entry the caller holds keeps the invariant. *)
Lemma remove_ginv h st p e :
  ginv h st →
  kmem st !! p = Some e →
  zfs_snapshots_by_name st !! se_name e = Some p →
  1 ≤ h p →
  ∃ st',
    zfsctl_snapshot_remove p st = Some (tt, st') ∧
    ginv h st' ∧
    zfs_snapshots_by_name st' = delete (se_name e) (zfs_snapshots_by_name st) ∧
    zfs_snapshots_by_objsetid st'
      = delete (objsetid_key e) (zfs_snapshots_by_objsetid st).
Proof.
  intros Hg He Hn Hh.
  assert (zfs_snapshots_by_objsetid st !! objsetid_key e = Some p) as Ho
    by by apply (gi_both _ _ Hg).
  pose proof (ginv_trees_remove h st p e Hg He Hn) as Hg1.
  destruct (rele_ginv _ _ p Hg1) as (e1 & st' & He1 & Hrun & Hg2 & Hst').
  { rewrite h_add_eq. lia. }
  { rewrite h_add_eq. intros ?. lia. }
  exists st'. split; [|split].
  - unfold zfsctl_snapshot_remove, bind.
    rewrite avl_remove_by_name_eq, He, decide_True by done.
    rewrite avl_remove_by_objsetid_eq. simpl. rewrite He.
    rewrite decide_True by done. exact Hrun.
  - eapply ginv_ext; [|exact Hg2]. intros q. unfold h_add.
    destruct (decide (q = p)); lia.
  - destruct (rele_same_trees _ _ _ _ Hrun) as [-> ->]. done.
Qed.

Lemma cancel_no_dispatch p :
  preserves no_dispatch (zfsctl_snapshot_unmount_cancel p).
Proof. apply preserves_cancel; try apply _; done. Qed.

(** Tearing down a registration keeps the invariant; afterwards the
    object-set id is unregistered, and the entry that carried it, if it
    is still there, has no task identifier. *)
Lemma destroy_ginv h st z spa o :
  ginv h st →
  ∃ st',
    zfsctl_destroy z spa o st = Some (tt, st') ∧
    ginv h st' ∧
    (z = true → zfs_snapshots_by_objsetid st' !! (spa, o) = None) ∧
    (z = true → ∀ p e', zfs_snapshots_by_objsetid st !! (spa, o) = Some p →
       kmem st' !! p = Some e' → se_taskqid e' = TASKQID_INVALID).
Proof.
  intros Hg. destruct z; [|by exists st].
  unfold zfsctl_destroy, bind.
  destruct (find_by_objsetid_ginv h st spa o Hg) as (s1 & -> & Hfind).
  destruct (zfs_snapshots_by_objsetid st !! (spa, o)) as [p|] eqn:Ho.
  2:{ subst s1. exists st. by rewrite Ho. }
  destruct Hfind as (e & He & Hkey & -> & Hg1).
  set (e1 := set_se_refcount (se_refcount e + 1) e) in *.
  set (s1 := upd_kmem _ st) in *.
  assert (kmem s1 !! p = Some e1) as He1 by apply lookup_insert_eq.
  assert (zfs_snapshots_by_name s1 !! se_name e1 = Some p) as Hn1.
  { simpl. apply (gi_both _ _ Hg _ _ He). by rewrite Hkey. }
  pose proof (gi_hold _ _ Hg p) as Hh.
  destruct (remove_ginv _ _ _ _ Hg1 He1 Hn1) as (s2 & Hrun2 & Hg2 & Hbn & Hbo).
  { rewrite h_add_eq. lia. }
  rewrite Hrun2.
  destruct (gi_held _ _ Hg2 p) as [e2 He2]; [rewrite h_add_eq; lia|].
  destruct (cancel_ginv _ _ _ _ Hg2 He2) as (s3 & Hrun3 & Hg3 & Hclr).
  rewrite Hrun3.
  destruct (rele_ginv _ _ p Hg3) as (e3 & s4 & He3 & Hrun4 & Hg4 & Hs4).
  { rewrite h_add_eq. lia. }
  { intros _ e3 He3 _. rewrite (Hclr _ He3).
    apply (ginv_no_task_zero _ _ Hg3). }
  exists s4. split; [done|]. split; [|split].
  - eapply ginv_ext; [|exact Hg4]. intros q. unfold h_add.
    destruct (decide (q = p)); lia.
  - intros _.
    destruct (rele_same_trees _ _ _ _ Hrun4) as [_ ->].
    destruct (cancel_same_trees _ _ _ _ Hrun3) as [_ ->].
    rewrite Hbo. unfold e1, objsetid_key in *. simpl. rewrite Hkey.
    apply lookup_delete_eq.
  - intros _ p' e' [= <-] He'. specialize (Hclr _ He3).
    subst s4. destruct (_ =? 1); simpl in He'.
    + by rewrite lookup_delete_eq in He'.
    + rewrite lookup_insert_eq in He'. by injection He' as <-.
Qed.

(** Unmounting always completes and keeps the invariant, whatever the
    helper did. *)
Lemma unmount_ginv h st n flags o :
  ginv h st →
  ∃ r st',
    zfsctl_snapshot_unmount n flags o st = Some (r, st') ∧ ginv h st'.
Proof.
  intros Hg. unfold zfsctl_snapshot_unmount, bind.
  destruct (find_by_name_ginv h st n Hg) as (s1 & -> & Hfind).
  destruct (zfs_snapshots_by_name st !! n) as [p|] eqn:Hn.
  2:{ subst s1. by eexists _, st. }
  destruct Hfind as (e & He & Hname & -> & Hg1).
  set (e1 := set_se_refcount (se_refcount e + 1) e) in *.
  set (s1 := upd_kmem _ st) in *.
  assert (kmem s1 !! p = Some e1) as He1 by apply lookup_insert_eq.
  rewrite exportfs_flush_eq. set (s1' := log_event _ s1).
  assert (kmem s1' !! p = Some e1) as He1' by exact He1.
  unfold deref. rewrite He1'.
  unfold call_usermodehelper, bind, modify, ret.
  set (s2 := log_event _ s1').
  assert (ginv (h_add h p 1) s2) as Hg2 by by eapply ginv_core; [..|exact Hg1].
  pose proof (gi_hold _ _ Hg p) as Hh.
  assert (zfs_snapshots_by_objsetid s2 !! (se_spa e1, se_objsetid e1) = Some p)
    as Ho2.
  { simpl. apply (gi_both _ _ Hg _ _ He). by rewrite Hname. }
  assert (∃ s3,
    (if umh_unmounted o then zfsctl_destroy true (se_spa e1) (se_objsetid e1)
     else λ st, Some (tt, st)) s2 = Some (tt, s3) ∧
    ginv (h_add h p 1) s3 ∧
    (∀ e3, kmem s3 !! p = Some e3 →
       zfs_snapshots_by_name s3 !! se_name e3 ≠ Some p →
       tq_pending s3 !! se_taskqid e3 = None)) as (s3 & Hrun3 & Hg3 & Hlast).
  { destruct (umh_unmounted o).
    - destruct (destroy_ginv _ _ true (se_spa e1) (se_objsetid e1) Hg2)
        as (s3 & Hrun3 & Hg3 & _ & Hclr).
      exists s3. split; [done|]. split; [done|].
      intros e3 He3 _. rewrite (Hclr eq_refl p e3 Ho2 He3).
      apply (ginv_no_task_zero _ _ Hg3).
    - exists s2. split; [done|]. split; [done|].
      intros e3 He3 Hn3. exfalso. apply Hn3. simpl in *.
      rewrite He1 in He3. injection He3 as <-. simpl. by rewrite Hname. }
  rewrite Hrun3.
  destruct (rele_ginv _ _ p Hg3) as (e3 & s4 & He3 & Hrun4 & Hg4 & Hs4).
  { rewrite h_add_eq. lia. }
  { intros _. exact Hlast. }
  rewrite Hrun4. eexists _, s4. split; [done|].
  eapply ginv_ext; [|exact Hg4]. intros q. unfold h_add.
  destruct (decide (q = p)); lia.
Qed.

Lemma hold_same_trees p : preserves same_trees (zfsctl_snapshot_hold p).
Proof. apply preserves_hold; try apply _; done. Qed.

(** The expiry callback, run by a caller that holds the reference of a
    task no longer pending, completes, gives the reference up and keeps
    the invariant. *)
Lemma expire_ginv h st o p :
  ginv h st →
  1 ≤ h p →
  (∀ e, kmem st !! p = Some e → tq_pending st !! se_taskqid e = None) →
  ∃ st',
    snapentry_expire o p st = Some (tt, st') ∧ ginv (h_add h p (-1)) st'.
Proof.
  intros Hg Hh Hnp.
  destruct (gi_held _ _ Hg p) as [e He]; [lia|].
  specialize (Hnp e He).
  unfold snapentry_expire, bind, deref, gets. rewrite He.
  destruct (zfs_expire_snapshot st <=? 0).
  { destruct (rele_ginv _ _ p Hg Hh) as (e0 & s1 & _ & Hrun & Hg1 & _).
    - intros _ e0 He0 _. rewrite He in He0. by injection He0 as <-.
    - by exists s1. }
  rewrite store_eq, He.
  set (s1 := upd_kmem _ st).
  assert (ginv h s1) as Hg1.
  { eapply ginv_core;
      [..|exact (ginv_clear_taskqid h st p e (tq_active st) Hg He Hnp)];
      done. }
  assert (kmem s1 !! p = Some (set_se_taskqid TASKQID_INVALID e)) as He1
    by apply lookup_insert_eq.
  rewrite He1. simpl se_name.
  destruct (unmount_ginv h s1 (se_name e) MNT_EXPIRE o Hg1)
    as (r & s2 & Hrun2 & Hg2).
  rewrite Hrun2.
  destruct (rele_ginv _ _ p Hg2 Hh) as (e2 & s3 & He2 & Hrun3 & Hg3 & _).
  { intros _ e2 He2 _.
    destruct (tq_pending s2 !! se_taskqid e2) as [t|] eqn:Ht; [|done].
    exfalso.
    pose proof (gi_owner _ _ Hg2 _ _ _ He2 Ht) as Harg.
    destruct (unmount_no_dispatch _ _ _ _ _ _ Hrun2) as [Hsub _].
    pose proof (lookup_weaken _ _ _ _ Ht Hsub) as Ht1.
    destruct (gi_task _ _ Hg1 _ _ Ht1) as (Hpos & e1 & He1' & Hid).
    rewrite Harg, He1 in He1'. injection He1' as <-. simpl in Hid.
    unfold TASKQID_INVALID in Hid. lia. }
  rewrite Hrun3.
  destruct (find_by_objsetid_ginv _ s3 (se_spa e) (se_objsetid e) Hg3)
    as (s4 & -> & Hfind).
  destruct (zfs_snapshots_by_objsetid s3 !! (se_spa e, se_objsetid e))
    as [p'|] eqn:Ho.
  2:{ subst s4. by exists s3. }
  destruct Hfind as (e3 & He3 & Hkey & -> & Hg4).
  set (s4 := upd_kmem _ s3) in *.
  assert (kmem s4 !! p' = Some (set_se_refcount (se_refcount e3 + 1) e3))
    as He4 by apply lookup_insert_eq.
  destruct (delay_impl_ginv _ _ _ _ (zfs_expire_snapshot s4) Hg4 He4)
    as (s5 & Hrun5 & Hg5).
  rewrite Hrun5.
  pose proof (gi_hold _ _ Hg3 p') as Hh3.
  destruct (rele_ginv _ _ p' Hg5) as (e5 & s6 & He5 & Hrun6 & Hg6 & _).
  { rewrite h_add_eq. lia. }
  { intros _ e5 He5 Hn5. exfalso. apply Hn5.
    apply (gi_both _ _ Hg5 _ _ He5).
    destruct (gi_objsetid _ _ Hg5 (se_spa e, se_objsetid e) p')
      as (e5' & He5' & Hkey5).
    - destruct (delay_impl_same_trees _ _ _ _ _ Hrun5) as [_ ->]. exact Ho.
    - rewrite He5 in He5'. injection He5' as <-. rewrite Hkey5.
      destruct (delay_impl_same_trees _ _ _ _ _ Hrun5) as [_ ->]. exact Ho. }
  exists s6. split; [done|].
  eapply ginv_ext; [|exact Hg6]. intros q. unfold h_add.
  destruct (decide (q = p')); destruct (decide (q = p)); lia.
Qed.

(** The queue running a pending task keeps the invariant. *)
Lemma fire_ginv h st o id t :
  ginv h st →
  tq_pending st !! id = Some t →
  ∃ st', taskq_fire o id st = Some (tt, st') ∧ ginv h st'.
Proof.
  intros Hg Ht. unfold taskq_fire, bind, gets, modify. rewrite Ht.
  set (s0 := set_taskq _ _ _ st).
  pose proof (ginv_fire h st id t (tq_active st ∪ {[id]}) Hg Ht) as Hg0.
  fold s0 in Hg0.
  destruct (gi_task _ _ Hg _ _ Ht) as (_ & e & He & Hid).
  pose proof (gi_hold _ _ Hg (tk_arg t)) as Hh.
  destruct (expire_ginv _ s0 o (tk_arg t) Hg0) as (s1 & Hrun & Hg1).
  { rewrite h_add_eq. lia. }
  { intros e0 He0. simpl in *. rewrite He in He0. injection He0 as <-.
    rewrite Hid. apply lookup_delete_eq. }
  rewrite Hrun. eexists. split; [done|].
  eapply ginv_core; [..|eapply ginv_ext; [|exact Hg1]]; try done.
  intros q. unfold h_add. destruct (decide (q = tk_arg t)); lia.
Qed.

(** Rescheduling keeps the invariant. *)
Lemma unmount_delay_ginv h st spa o delay :
  ginv h st →
  ∃ r st',
    zfsctl_snapshot_unmount_delay spa o delay st = Some (r, st') ∧
    ginv h st'.
Proof.
  intros Hg. unfold zfsctl_snapshot_unmount_delay, bind.
  destruct (find_by_objsetid_ginv h st spa o Hg) as (s1 & -> & Hfind).
  destruct (zfs_snapshots_by_objsetid st !! (spa, o)) as [p|] eqn:Ho.
  2:{ subst s1. by eexists _, st. }
  destruct Hfind as (e & He & Hkey & -> & Hg1).
  set (s1 := upd_kmem _ st) in *.
  assert (kmem s1 !! p = Some (set_se_refcount (se_refcount e + 1) e))
    as He1 by apply lookup_insert_eq.
  pose proof (gi_hold _ _ Hg p) as Hh.
  destruct (cancel_ginv _ _ _ _ Hg1 He1) as (s2 & Hrun2 & Hg2 & _).
  rewrite Hrun2.
  destruct (gi_held _ _ Hg2 p) as [e2 He2]; [rewrite h_add_eq; lia|].
  destruct (delay_impl_ginv _ _ _ _ delay Hg2 He2) as (s3 & Hrun3 & Hg3).
  rewrite Hrun3.
  destruct (rele_ginv _ _ p Hg3) as (e3 & s4 & He3 & Hrun4 & Hg4 & _).
  { rewrite h_add_eq. lia. }
  { intros _ e3 He3 Hn3. exfalso. apply Hn3.
    apply (gi_both _ _ Hg3 _ _ He3).
    assert (zfs_snapshots_by_objsetid s3 !! (spa, o) = Some p) as Ho3.
    { destruct (delay_impl_same_trees _ _ _ _ _ Hrun3) as [_ ->].
      destruct (cancel_same_trees _ _ _ _ Hrun2) as [_ ->]. exact Ho. }
    destruct (gi_objsetid _ _ Hg3 _ _ Ho3) as (e3' & He3' & Hkey3).
    rewrite He3 in He3'. injection He3' as <-. by rewrite Hkey3. }
  rewrite Hrun4. eexists _, s4. split; [done|].
  eapply ginv_ext; [|exact Hg4]. intros q. unfold h_add.
  destruct (decide (q = p)); lia.
Qed.

(** The state in which a new entry for a snapshot is allocated and
    linked into both trees. *)
Lemma alloc_add_eq {A} n path spa o d (k : Z → M A) st :
  zfs_snapshots_by_name st !! n = None →
  bind (zfsctl_snapshot_alloc n path spa o d)
    (λ se, bind (zfsctl_snapshot_add se) (λ _, k se)) st =
  match zfs_snapshots_by_objsetid st !! (spa, o) with
  | Some _ => None
  | None =>
      k (kmem_next st)
        (set_by_objsetid
           (<[(spa, o) := kmem_next st]> (zfs_snapshots_by_objsetid st))
           (set_by_name (<[n := kmem_next st]> (zfs_snapshots_by_name st))
              (upd_kmem (<[kmem_next st :=
                            mk_snapentry n path spa o d TASKQID_INVALID 1]>)
                 (set_kmem_next (kmem_next st + 1) st))))
  end.
Proof.
  intros Hn.
  unfold zfsctl_snapshot_alloc, zfsctl_snapshot_add, bind, gets, modify, ret.
  rewrite hold_eq. simpl. rewrite lookup_insert_eq.
  rewrite avl_add_by_name_eq. simpl. rewrite lookup_insert_eq. simpl.
  rewrite Hn. rewrite avl_add_by_objsetid_eq. simpl.
  rewrite lookup_insert_eq. unfold objsetid_key. simpl.
  destruct (zfs_snapshots_by_objsetid st !! (spa, o)); [done|].
  f_equal. apply kstate_ext; simpl; try done.
  by rewrite insert_insert_eq.
Qed.

Lemma ismounted_ginv h st n :
  ginv h st →
  zfsctl_snapshot_ismounted n st
    = Some (bool_decide (is_Some (zfs_snapshots_by_name st !! n)), st).
Proof.
  intros Hg. destruct (zfs_snapshots_by_name st !! n) as [p|] eqn:Hn.
  - destruct (gi_name _ _ Hg _ _ Hn) as (e & He & _).
    rewrite (ismounted_true n p e); [|done..|by eapply ginv_refcount_pos].
    by rewrite bool_decide_true.
  - rewrite ismounted_false by done. rewrite bool_decide_false; [done|].
    by intros [].
Qed.

(** Mounting, when it completes, keeps the invariant. *)
Lemma mount_ginv h st env r st' :
  ginv h st →
  zfsctl_snapshot_mount env st = Some (r, st') →
  ginv h st'.
Proof.
  intros Hg. unfold zfsctl_snapshot_mount.
  destruct (mount_prepare env) as [error|[n path]].
  { by intros [= <- <-]. }
  unfold bind at 1. rewrite (ismounted_ginv h) by done.
  destruct (zfs_snapshots_by_name st !! n) as [p|] eqn:Hn.
  { rewrite bool_decide_true by eauto. by intros [= <- <-]. }
  rewrite bool_decide_false by by intros [].
  unfold bind at 1. unfold mount_helper, call_usermodehelper, bind, gets,
    modify, ret.
  set (s1 := log_event _ st).
  assert (ginv h s1) as Hg1 by by eapply ginv_core; [..|exact Hg].
  destruct (negb (me_umh_status env =? 0)); [by intros [= <- <-]|].
  unfold mount_register.
  destruct (me_follow_down env) as [[[spa o] d]|]; [|by intros [= <- <-]].
  fold (bind (zfsctl_snapshot_alloc n path spa o d)
          (λ se, bind (zfsctl_snapshot_add se)
             (λ _, bind (gets zfs_expire_snapshot)
                (λ expire, zfsctl_snapshot_unmount_delay_impl se expire))) s1).
  rewrite alloc_add_eq by done.
  destruct (zfs_snapshots_by_objsetid s1 !! (spa, o)) eqn:Ho; [done|].
  pose proof (ginv_register_new h s1 n path spa o d Hg1 Hn Ho) as Hg2.
  set (s2 := set_by_objsetid _ _) in *.
  unfold bind, gets.
  destruct (delay_impl_ginv h s2 (kmem_next s1)
              (mk_snapentry n path spa o d TASKQID_INVALID 1)
              (zfs_expire_snapshot s2) Hg2)
    as (s3 & Hrun3 & Hg3); [apply lookup_insert_eq|].
  rewrite Hrun3. by intros [= <- <-].
Qed.

(** Renaming, when it completes, keeps the invariant. *)
Lemma rename_ginv h st old new r st' :
  ginv h st →
  zfsctl_snapshot_rename old new st = Some (r, st') →
  ginv h st'.
Proof.
  intros Hg Hrun.
  destruct (zfs_snapshots_by_name st !! old) as [p|] eqn:Hn.
  2:{ unfold zfsctl_snapshot_rename, bind in Hrun.
      rewrite find_by_name_eq, Hn in Hrun. by injection Hrun as <- <-. }
  destruct (gi_name _ _ Hg _ _ Hn) as (e & He & Hname).
  destruct (rename_success _ _ _ _ _ _ _ Hn He Hname Hrun)
    as (_ & Ho & Hrc & Hnew & ->).
  rewrite <- Hname in Hn, Hnew.
  pose proof (ginv_trees_remove h st p e Hg He Hn) as Hg1.
  set (s1 := set_by_objsetid _ _) in Hg1.
  assert (ginv (h_add h p 1) (upd_kmem (<[p := set_se_name new e]>) s1))
    as Hg2.
  { apply ginv_set_name; [done | done |]. simpl.
    rewrite lookup_delete_eq. done. }
  set (s2 := upd_kmem _ s1) in Hg2.
  pose proof (ginv_trees_add _ s2 p (set_se_name new e) Hg2) as Hg3.
  simpl in Hg3. rewrite lookup_insert_eq in Hg3.
  specialize (Hg3 eq_refl Hnew).
  unfold objsetid_key in Hg3 at 1. simpl in Hg3.
  rewrite lookup_delete_eq, h_add_eq in Hg3.
  pose proof (gi_hold _ _ Hg p) as Hh.
  specialize (Hg3 eq_refl ltac:(lia)).
  eapply ginv_ext; [|eapply ginv_core; [..|exact Hg3]]; simpl; try done.
  - intros q. unfold h_add. destruct (decide (q = p)); lia.
  - by rewrite Hname.
  - unfold objsetid_key in *. simpl.
    rewrite insert_delete_eq. symmetry. by apply insert_id.
Qed.

(** Administrative removal always completes and keeps the invariant. *)
Lemma snapdir_remove_ginv h st env name :
  ginv h st →
  ∃ r st', zfsctl_snapdir_remove env name st = Some (r, st') ∧ ginv h st'.
Proof.
  intros Hg. unfold zfsctl_snapdir_remove, bind, gets.
  destruct (zfs_admin_snapshot st =? 0); [by eexists _, st|].
  destruct (negb (re_zfs_enter env =? 0)); [by eexists _, st|].
  destruct (snapdir_remove_name env name) as [error|snapname];
    [by eexists _, st|].
  destruct (unmount_ginv h st snapname MNT_FORCE (re_umh env) Hg)
    as (r & s1 & -> & Hg1).
  destruct ((r =? 0) || (r =? ENOENT)); [|by eexists _, s1].
  unfold dsl_destroy_snapshot, bind, modify, ret.
  eexists _, _. split; [done|]. by eapply ginv_core; [..|exact Hg1].
Qed.

(** Every entry point keeps the invariant. *)
Lemma kop_run_inv op st st' :
  inv st → kop_run op st = Some (tt, st') → inv st'.
Proof.
  unfold inv. intros Hg Hrun. destruct op; simpl in Hrun.
  - apply bind_Some in Hrun as (r & s1 & Hrun & [= <-]).
    by eapply mount_ginv.
  - apply bind_Some in Hrun as (r & s1 & Hrun & [= <-]).
    destruct (unmount_ginv _ st snapname flags o Hg) as (r' & s' & Hrun' & Hg').
    congruence.
  - apply bind_Some in Hrun as (r & s1 & Hrun & [= <-]).
    destruct (unmount_delay_ginv _ st spa objsetid delay Hg)
      as (r' & s' & Hrun' & Hg').
    congruence.
  - destruct (destroy_ginv _ st z_issnap spa objsetid Hg)
      as (s' & Hrun' & Hg' & _).
    congruence.
  - apply bind_Some in Hrun as (r & s1 & Hrun & [= <-]).
    by eapply rename_ginv.
  - apply bind_Some in Hrun as (r & s1 & Hrun & [= <-]).
    destruct (snapdir_remove_ginv _ st env name Hg) as (r' & s' & Hrun' & Hg').
    congruence.
  - unfold taskq_fire, bind, gets in Hrun.
    destruct (tq_pending st !! id) as [t|] eqn:Ht; [|done].
    destruct (fire_ginv _ st o id t Hg Ht) as (s' & Hrun' & Hg').
    unfold taskq_fire, bind, gets in Hrun'. rewrite Ht in Hrun'. congruence.
  - injection Hrun as <-. by eapply ginv_core; [..|exact Hg].
  - injection Hrun as <-. by eapply ginv_core; [..|exact Hg].
Qed.

Lemma reachable_inv st : reachable st → inv st.
Proof.
  induction 1 as [|st op st' _ IH Hrun]; [apply ginv_init|].
  by eapply kop_run_inv.
Qed.

(** ** Reference counts and scheduled tasks *)

Lemma example_mounted_reachable : reachable example_mounted.
Proof.
  apply (reachable_step (zfsctl_init 300 1 0 1000) (OpMount example_env));
    [apply reachable_init | vm_compute; reflexivity].
Qed.

Lemma inv_registered_live st se :
  inv st →
  in_by_name st se ∨ in_by_objsetid st se →
  ∃ e, kmem st !! se = Some e ∧ 1 ≤ se_refcount e.
Proof.
  intros Hg [[k Hk]|[k Hk]].
  - destruct (gi_name _ _ Hg _ _ Hk) as (e & He & _).
    exists e. split; [done|]. by eapply ginv_refcount_pos.
  - destruct (gi_objsetid _ _ Hg _ _ Hk) as (e & He & _).
    exists e. split; [done|]. by eapply ginv_refcount_pos.
Qed.

(** C2: between any two entry points, every entry that is in either tree
    is allocated with a reference count of at least 1, and every
    allocated entry is in both trees with a count of at least 1, so that
    an entry whose count reached 0 is in neither; and in any state a
    release that takes the count to 0 frees the entry, while any other
    release leaves it allocated with the count one lower. *)
Theorem refcount_positive_while_registered st :
  reachable st →
  (∀ se, in_by_name st se ∨ in_by_objsetid st se →
     ∃ e, kmem st !! se = Some e ∧ 1 ≤ se_refcount e) ∧
  (∀ se e, kmem st !! se = Some e →
     1 ≤ se_refcount e ∧ in_by_name st se ∧ in_by_objsetid st se) ∧
  (∀ se, kmem st !! se = None →
     ¬ in_by_name st se ∧ ¬ in_by_objsetid st se) ∧
  (∀ s se e s', kmem s !! se = Some e →
     zfsctl_snapshot_rele se s = Some (tt, s') →
     if se_refcount e =? 1 then kmem s' !! se = None
     else refs s' se = Some (se_refcount e - 1)).
Proof.
  intros Hg%reachable_inv. split; [|split; [|split]].
  - intros se. by apply inv_registered_live.
  - intros se e He. split; [by eapply ginv_refcount_pos|].
    assert (zfs_snapshots_by_name st !! se_name e = Some se) as Hn
      by by eapply gi_reg.
    split; [by eexists|].
    exists (objsetid_key e). by apply (gi_both _ _ Hg _ _ He).
  - intros se Hnone. split; intros Hin.
    + destruct (inv_registered_live st se Hg (or_introl Hin)) as (e & He & _).
      congruence.
    + destruct (inv_registered_live st se Hg (or_intror Hin)) as (e & He & _).
      congruence.
  - intros s se e s' He. rewrite rele_eq, He.
    destruct (se_refcount e <=? 0); [done|]. intros [= <-].
    unfold refs. destruct (se_refcount e =? 1); simpl.
    + apply lookup_delete_eq.
    + by rewrite lookup_insert_eq.
Qed.

Lemma refcount_positive_while_registered_witness :
  (∃ e, kmem example_mounted !! 1 = Some e ∧ 1 ≤ se_refcount e) ∧
  ¬ in_by_name example_mounted 2.
Proof.
  destruct (refcount_positive_while_registered example_mounted
              example_mounted_reachable) as (Hreg & _ & Hfree & _).
  split.
  - apply Hreg. left. exists "pool/fs@s1"%string. vm_compute. reflexivity.
  - apply Hfree. vm_compute. reflexivity.
Defined.

Lemma inv_one_task st id1 id2 t1 t2 :
  inv st →
  tq_pending st !! id1 = Some t1 →
  tq_pending st !! id2 = Some t2 →
  tk_arg t1 = tk_arg t2 →
  id1 = id2.
Proof.
  intros Hg H1 H2 Harg.
  destruct (gi_task _ _ Hg _ _ H1) as (_ & e1 & He1 & <-).
  destruct (gi_task _ _ Hg _ _ H2) as (_ & e2 & He2 & <-).
  rewrite Harg in He1. congruence.
Qed.

(** C3: in any state, arming with a delay that is not positive does
    nothing, and arming an entry that has a task identifier recorded
    gives back the reference it took and leaves the state, and so the
    queue, as it was; between any two entry points that is the case of
    every entry for which a task is pending, and no two pending tasks are
    for the same entry; and the same holds after cancelling and arming
    again, whatever the delay. *)
Theorem at_most_one_scheduled_task st :
  reachable st →
  (∀ s se delay, delay ≤ 0 →
     zfsctl_snapshot_unmount_delay_impl se delay s = Some (tt, s)) ∧
  (∀ s se e delay, kmem s !! se = Some e →
     se_taskqid e ≠ TASKQID_INVALID → 1 ≤ se_refcount e →
     zfsctl_snapshot_unmount_delay_impl se delay s = Some (tt, s)) ∧
  (∀ se delay id t, tq_pending st !! id = Some t → tk_arg t = se →
     zfsctl_snapshot_unmount_delay_impl se delay st = Some (tt, st)) ∧
  (∀ id1 id2 t1 t2,
     tq_pending st !! id1 = Some t1 → tq_pending st !! id2 = Some t2 →
     tk_arg t1 = tk_arg t2 → id1 = id2) ∧
  (∀ se e delay, kmem st !! se = Some e →
     ∃ st',
       (run zfsctl_snapshot_unmount_cancel se;
        zfsctl_snapshot_unmount_delay_impl se delay) st = Some (tt, st') ∧
       ∀ id1 id2 t1 t2,
         tq_pending st' !! id1 = Some t1 → tq_pending st' !! id2 = Some t2 →
         tk_arg t1 = tk_arg t2 → id1 = id2).
Proof.
  intros Hg%reachable_inv. split; [|split; [|split; [|split]]].
  - intros s se delay Hd. by apply delay_impl_disabled.
  - intros s se e delay He Hid Hrc. by apply (delay_impl_scheduled _ e).
  - intros se delay id t Ht <-.
    destruct (gi_task _ _ Hg _ _ Ht) as (Hpos & e & He & Hid).
    apply (delay_impl_scheduled _ e); [done | |by eapply ginv_refcount_pos].
    unfold TASKQID_INVALID. lia.
  - intros id1 id2 t1 t2. by apply inv_one_task.
  - intros se e delay He.
    destruct (cancel_ginv _ _ _ _ Hg He) as (s1 & Hrun1 & Hg1 & _).
    assert (∃ e1, kmem s1 !! se = Some e1) as [e1 He1].
    { assert (zfs_snapshots_by_name st !! se_name e = Some se) as Hn
        by by eapply gi_reg.
      destruct (cancel_same_trees _ _ _ _ Hrun1) as [Hbn _].
      rewrite <- Hbn in Hn.
      destruct (gi_name _ _ Hg1 _ _ Hn) as (e1 & He1 & _). eauto. }
    destruct (delay_impl_ginv _ _ _ _ delay Hg1 He1) as (s2 & Hrun2 & Hg2).
    exists s2. split; [unfold bind; by rewrite Hrun1|].
    intros id1 id2 t1 t2. by apply inv_one_task.
Qed.

Lemma at_most_one_scheduled_task_witness :
  zfsctl_snapshot_unmount_delay_impl 1 300 example_mounted
    = Some (tt, example_mounted) ∧
  ∃ st',
    (run zfsctl_snapshot_unmount_cancel 1;
     zfsctl_snapshot_unmount_delay_impl 1 10) example_mounted
      = Some (tt, st') ∧
    ∀ id1 id2 t1 t2,
      tq_pending st' !! id1 = Some t1 → tq_pending st' !! id2 = Some t2 →
      tk_arg t1 = tk_arg t2 → id1 = id2.
Proof.
  destruct (at_most_one_scheduled_task example_mounted
              example_mounted_reachable) as (_ & _ & Hsched & _ & Hcancel).
  split.
  - apply (Hsched 1 300 1 (mk_task 1 300000)); [vm_compute|]; reflexivity.
  - apply (Hcancel 1 (mk_snapentry "pool/fs@s1" "/mnt/.zfs/snapshot/s1"
                        7 42 99 1 2)).
    vm_compute. reflexivity.
Defined.

(** C7: in any state, unmounting a name that is not registered returns
    [ENOENT] and leaves the state as it was, so that doing it again does
    the same; between any two entry points, unmounting a registered name
    when the helper exits with a nonzero status completes and returns
    [EBUSY], which is a different error. *)
Theorem unmount_not_found_or_busy st :
  reachable st →
  (∀ s n flags o, zfs_snapshots_by_name s !! n = None →
     zfsctl_snapshot_unmount n flags o s = Some (ENOENT, s) ∧
     (run zfsctl_snapshot_unmount n flags o;
      zfsctl_snapshot_unmount n flags o) s = Some (ENOENT, s)) ∧
  (∀ n flags o, is_Some (zfs_snapshots_by_name st !! n) →
     umh_status o ≠ 0 →
     ∃ st', zfsctl_snapshot_unmount n flags o st = Some (EBUSY, st')) ∧
  EBUSY ≠ ENOENT.
Proof.
  intros Hg%reachable_inv. split; [|split; [|done]].
  - intros s n flags o Hn.
    pose proof (unmount_not_found n flags o s Hn) as Hrun.
    split; [done|]. unfold bind. by rewrite Hrun.
  - intros n flags o [p Hn] Hs.
    destruct (unmount_ginv _ st n flags o Hg) as (r & st' & Hrun & _).
    exists st'. rewrite Hrun.
    rewrite (unmount_result _ _ _ _ _ _ Hrun), Hn.
    by replace (umh_status o =? 0) with false by lia.
Qed.

Lemma unmount_not_found_or_busy_witness :
  zfsctl_snapshot_unmount "pool/fs@s9" MNT_FORCE (mk_umh 0 true 0)
    example_mounted = Some (ENOENT, example_mounted) ∧
  ∃ st', zfsctl_snapshot_unmount "pool/fs@s1" MNT_FORCE (mk_umh 256 false 0)
           example_mounted = Some (EBUSY, st').
Proof.
  destruct (unmount_not_found_or_busy example_mounted
              example_mounted_reachable) as (Hnf & Hbusy & _).
  split.
  - apply Hnf. vm_compute. reflexivity.
  - apply Hbusy; [|discriminate]. exists 1. vm_compute. reflexivity.
Defined.

(** ** The expiry callback *)

Lemma wp_of_eq {A} (m : M A) Q st a st' :
  m st = Some (a, st') → Q a st' → wp m Q st.
Proof. intros Hm HQ. by exists a, st'. Qed.

Lemma wp_eq_inv {A} (m : M A) st a st' :
  wp m (λ b s, b = a ∧ s = st') st → m st = Some (a, st').
Proof. by intros (b & s & -> & -> & ->). Qed.

Lemma rele_same_log p : preserves same_log (zfsctl_snapshot_rele p).
Proof. apply preserves_rele; try apply _; done. Qed.

Lemma destroy_same_log z spa o : preserves same_log (zfsctl_destroy z spa o).
Proof. apply preserves_destroy; try apply _; done. Qed.

(** An unmount of a registered name flushes the export table and then
    calls the umount helper once, on the entry's mount path, and nothing
    else. *)
Lemma unmount_log n flags o st r st' p e :
  zfsctl_snapshot_unmount n flags o st = Some (r, st') →
  zfs_snapshots_by_name st !! n = Some p →
  kmem st !! p = Some e →
  klog st' = klog st ++ [EvUsermodehelper exportfs_argv;
                         EvUsermodehelper (umount_argv flags (se_path e))].
Proof.
  intros Hrun Hn He. unfold zfsctl_snapshot_unmount in Hrun.
  apply bind_Some in Hrun as (r1 & s1 & Hfind & Hrun).
  rewrite find_by_name_eq, Hn, He in Hfind. injection Hfind as <- <-.
  apply bind_Some in Hrun as ([] & s0 & Hflush & Hrun).
  rewrite exportfs_flush_eq in Hflush. injection Hflush as <-.
  apply bind_Some in Hrun as (e1 & s2 & Hderef & Hrun).
  unfold deref in Hderef. simpl in Hderef. rewrite lookup_insert_eq in Hderef.
  injection Hderef as <- <-.
  apply bind_Some in Hrun as (err & s3 & Humh & Hrun).
  unfold call_usermodehelper, bind, modify, ret in Humh.
  injection Humh as <- <-.
  apply bind_Some in Hrun as ([] & s4 & Hdestroy & Hrun).
  apply bind_Some in Hrun as ([] & s5 & Hrele & [= <- <-]).
  rewrite (rele_same_log _ _ _ _ Hrele).
  destruct (umh_unmounted o).
  - rewrite (destroy_same_log _ _ _ _ _ _ Hdestroy). simpl.
    by rewrite <- app_assoc.
  - injection Hdestroy as <-. simpl. by rewrite <- app_assoc.
Qed.

(** An unmount during which the kernel unmounted the snapshot leaves the
    snapshot's object-set id unregistered. *)
Lemma unmount_unregisters h n flags o st r st' p e :
  ginv h st →
  zfsctl_snapshot_unmount n flags o st = Some (r, st') →
  zfs_snapshots_by_name st !! n = Some p →
  kmem st !! p = Some e →
  umh_unmounted o = true →
  zfs_snapshots_by_objsetid st' !! objsetid_key e = None.
Proof.
  intros Hg Hrun Hn He Ho. unfold zfsctl_snapshot_unmount in Hrun.
  apply bind_Some in Hrun as (r1 & s1 & Hfind & Hrun).
  rewrite find_by_name_eq, Hn, He in Hfind. injection Hfind as <- <-.
  destruct (hold_ginv _ _ _ _ Hg He) as [_ Hg1].
  apply bind_Some in Hrun as ([] & s0 & Hflush & Hrun).
  rewrite exportfs_flush_eq in Hflush. injection Hflush as <-.
  apply bind_Some in Hrun as (e1 & s2 & Hderef & Hrun).
  unfold deref in Hderef. simpl in Hderef. rewrite lookup_insert_eq in Hderef.
  injection Hderef as <- <-.
  apply bind_Some in Hrun as (err & s3 & Humh & Hrun).
  unfold call_usermodehelper, bind, modify, ret in Humh.
  injection Humh as <- <-.
  apply bind_Some in Hrun as ([] & s4 & Hdestroy & Hrun).
  apply bind_Some in Hrun as ([] & s5 & Hrele & [= <- <-]).
  destruct (rele_same_trees _ _ _ _ Hrele) as [_ ->].
  rewrite Ho in Hdestroy.
  set (s3 := log_event _ _) in *.
  change (zfsctl_destroy true (se_spa e) (se_objsetid e) s3 = Some (tt, s4))
    in Hdestroy.
  assert (ginv (h_add h p 1) s3) as Hg3 by by eapply ginv_core; [..|exact Hg1].
  destruct (destroy_ginv _ s3 true (se_spa e) (se_objsetid e) Hg3)
    as (s4' & Hrun' & _ & Hnone & _).
  rewrite Hrun' in Hdestroy. injection Hdestroy as <-. by apply Hnone.
Qed.

(** An unmount during which the kernel did not unmount the snapshot only
    calls the two helpers. *)
Lemma unmount_busy_eq n flags o p e st :
  zfs_snapshots_by_name st !! n = Some p →
  kmem st !! p = Some e →
  1 ≤ se_refcount e →
  umh_unmounted o = false →
  zfsctl_snapshot_unmount n flags o st =
    Some (if negb (umh_status o =? 0) then EBUSY else umh_status o,
          log_event (EvUsermodehelper (umount_argv flags (se_path e)))
            (log_event (EvUsermodehelper exportfs_argv) st)).
Proof.
  intros Hn He Hrc Ho. unfold zfsctl_snapshot_unmount, bind.
  rewrite find_by_name_eq, Hn, He. rewrite exportfs_flush_eq.
  unfold deref. simpl.
  rewrite lookup_insert_eq. unfold call_usermodehelper, bind, modify, ret.
  rewrite Ho. rewrite rele_eq. simpl. rewrite lookup_insert_eq. simpl.
  replace (se_refcount e + 1 <=? 0) with false by lia.
  replace (se_refcount e + 1 =? 1) with false by lia.
  do 2 f_equal. apply kstate_ext; simpl; try done.
  rewrite insert_insert_eq. apply insert_id. rewrite He. f_equal.
  destruct e; unfold set_se_refcount; simpl. f_equal. lia.
Qed.

(** The callback of a task for a registered entry, run with expiry on
    while the snapshot stays mounted: the two helpers are called, and a
    new task is pending for the entry, due the configured delay from
    now. *)
Lemma fire_busy_eq st o id t e :
  inv st →
  tq_pending st !! id = Some t →
  kmem st !! tk_arg t = Some e →
  0 < zfs_expire_snapshot st →
  umh_unmounted o = false →
  taskq_fire o id st =
    Some (tt,
      log_event (EvUsermodehelper (umount_argv MNT_EXPIRE (se_path e)))
        (log_event (EvUsermodehelper exportfs_argv)
           (upd_kmem (<[tk_arg t := set_se_taskqid (tq_next_id st) e]>)
              (set_taskq
                 (<[tq_next_id st :=
                      mk_task (tk_arg t)
                        (lbolt st
                         + int_wrap (zfs_expire_snapshot st * HZ st))]>
                    (delete id (tq_pending st)))
                 ((tq_active st ∪ {[id]}) ∖ {[id]}) (tq_next_id st + 1)
                 st)))).
Proof.
  intros Hg Ht He Hexp Ho. set (p := tk_arg t) in *.
  assert (zfs_snapshots_by_name st !! se_name e = Some p) as Hn
    by by eapply gi_reg.
  assert (zfs_snapshots_by_objsetid st !! (se_spa e, se_objsetid e) = Some p)
    as Hobj by by apply (gi_both _ _ Hg _ _ He).
  assert (se_refcount e = 2) as Hrc.
  { pose proof (gi_refs _ _ Hg _ _ He) as Hr.
    unfold reg_count, pend_count in Hr. rewrite decide_True in Hr by done.
    destruct (gi_task _ _ Hg _ _ Ht) as (_ & e' & He' & Hid).
    fold p in He'. rewrite He in He'. injection He' as <-.
    rewrite Hid, Ht in Hr. lia. }
  apply wp_eq_inv. unfold taskq_fire.
  apply wp_bind, wp_gets. rewrite Ht. fold p.
  apply wp_bind, wp_modify. apply wp_bind.
  unfold snapentry_expire.
  apply wp_bind. eapply wp_deref; [exact He|].
  apply wp_bind, wp_gets. cbn [zfs_expire_snapshot set_taskq].
  replace (zfs_expire_snapshot st <=? 0) with false by lia.
  apply wp_bind. eapply wp_store; [exact He|].
  apply wp_bind. eapply wp_deref; [apply lookup_insert_eq|].
  apply wp_bind. eapply wp_of_eq.
  { apply (unmount_busy_eq _ _ _ p (set_se_taskqid TASKQID_INVALID e));
      [exact Hn | apply lookup_insert_eq | simpl; lia | exact Ho]. }
  apply wp_bind. eapply wp_rele; [apply lookup_insert_eq | simpl; lia|].
  cbn [se_refcount set_se_taskqid]. rewrite Hrc. cbn [Z.eqb Pos.eqb].
  apply wp_bind. eapply wp_of_eq.
  { rewrite find_by_objsetid_eq. cbn [zfs_snapshots_by_objsetid upd_kmem
      log_event set_taskq]. rewrite Hobj. cbn [kmem upd_kmem].
    rewrite lookup_insert_eq. reflexivity. }
  apply wp_bind, wp_gets. apply wp_bind. eapply wp_of_eq.
  { apply (delay_impl_idle p); [apply lookup_insert_eq | done | done]. }
  eapply wp_rele; [apply lookup_insert_eq | simpl; lia|].
  apply wp_modify. split; [done|].
  apply kstate_ext; simpl; try done.
  rewrite !insert_insert_eq. f_equal.
  destruct e; unfold set_se_taskqid, set_se_refcount; simpl in *.
  by rewrite Hrc.
Qed.

Lemma find_by_objsetid_same_trees spa o :
  preserves same_trees (zfsctl_snapshot_find_by_objsetid spa o).
Proof. apply preserves_find_by_objsetid; try apply _; done. Qed.

Lemma find_by_objsetid_same_log spa o :
  preserves same_log (zfsctl_snapshot_find_by_objsetid spa o).
Proof. apply preserves_find_by_objsetid; try apply _; done. Qed.

Lemma find_by_objsetid_no_dispatch spa o :
  preserves no_dispatch (zfsctl_snapshot_find_by_objsetid spa o).
Proof. apply preserves_find_by_objsetid; try apply _; done. Qed.

(** The callback of a task for a registered entry, run with expiry on
    while the kernel unmounts the snapshot: the two helpers are called,
    the registration goes, and no task is armed. *)
Lemma fire_unmounted st o id t e :
  inv st →
  tq_pending st !! id = Some t →
  kmem st !! tk_arg t = Some e →
  0 < zfs_expire_snapshot st →
  umh_unmounted o = true →
  ∃ st',
    taskq_fire o id st = Some (tt, st') ∧
    klog st' = klog st ++
      [EvUsermodehelper exportfs_argv;
       EvUsermodehelper (umount_argv MNT_EXPIRE (se_path e))] ∧
    zfs_snapshots_by_objsetid st' !! objsetid_key e = None ∧
    tq_pending st' ⊆ delete id (tq_pending st).
Proof.
  intros Hg Ht He Hexp Ho. set (p := tk_arg t) in *.
  assert (zfs_snapshots_by_name st !! se_name e = Some p) as Hn
    by by eapply gi_reg.
  destruct (gi_task _ _ Hg _ _ Ht) as (_ & e' & He' & Hid).
  fold p in He'. rewrite He in He'. injection He' as <-.
  set (s0 := set_taskq (delete id (tq_pending st)) (tq_active st ∪ {[id]})
               (tq_next_id st) st).
  pose proof (ginv_fire _ st id t (tq_active st ∪ {[id]}) Hg Ht) as Hg0.
  fold s0 p in Hg0.
  set (e1 := set_se_taskqid TASKQID_INVALID e).
  set (s1 := upd_kmem (<[p := e1]>) s0).
  assert (ginv (h_add (λ _, 0) p 1) s1) as Hg1.
  { eapply ginv_core;
      [..|apply (ginv_clear_taskqid _ s0 p e (tq_active s0) Hg0 He)];
      try done.
    simpl. rewrite Hid. apply lookup_delete_eq. }
  assert (kmem s1 !! p = Some e1) as He1 by apply lookup_insert_eq.
  destruct (unmount_ginv _ s1 (se_name e) MNT_EXPIRE o Hg1)
    as (r & s2 & Hrun2 & Hg2).
  pose proof (unmount_log _ _ _ _ _ _ p e1 Hrun2 Hn He1) as Hlog2.
  pose proof (unmount_unregisters _ _ _ _ _ _ _ p e1 Hg1 Hrun2 Hn He1 Ho)
    as Hnone2.
  destruct (unmount_no_dispatch _ _ _ _ _ _ Hrun2) as [Hsub2 _].
  destruct (rele_ginv _ _ p Hg2) as (e2 & s3 & He2 & Hrun3 & Hg3 & _).
  { rewrite h_add_eq. lia. }
  { intros _ e2 He2 _.
    destruct (tq_pending s2 !! se_taskqid e2) as [t2|] eqn:Ht2; [|done].
    exfalso.
    pose proof (gi_owner _ _ Hg2 _ _ _ He2 Ht2) as Harg.
    pose proof (lookup_weaken _ _ _ _ Ht2 Hsub2) as Ht1.
    destruct (gi_task _ _ Hg1 _ _ Ht1) as (Hpos & e1' & He1' & Hid1).
    rewrite Harg, He1 in He1'. injection He1' as <-. simpl in Hid1.
    unfold TASKQID_INVALID in Hid1. lia. }
  destruct (rele_same_trees _ _ _ _ Hrun3) as [_ Hbo3].
  pose proof (rele_same_log _ _ _ _ Hrun3) as Hlog3.
  destruct (rele_no_dispatch _ _ _ _ Hrun3) as [Hsub3 _].
  eexists. split; [|split; [|split]].
  - apply wp_eq_inv. unfold taskq_fire.
    apply wp_bind, wp_gets. rewrite Ht. fold p.
    apply wp_bind, wp_modify. fold s0. apply wp_bind.
    unfold snapentry_expire.
    apply wp_bind. eapply wp_deref; [exact He|].
    apply wp_bind, wp_gets. cbn [zfs_expire_snapshot set_taskq s0].
    replace (zfs_expire_snapshot st <=? 0) with false by lia.
    apply wp_bind. eapply wp_store; [exact He|]. fold e1 s1.
    apply wp_bind. eapply wp_deref; [exact He1|].
    apply wp_bind. eapply wp_of_eq; [exact Hrun2|].
    apply wp_bind. eapply wp_of_eq; [exact Hrun3|].
    apply wp_bind. eapply wp_of_eq.
    { rewrite find_by_objsetid_eq, Hbo3.
      unfold objsetid_key in Hnone2. simpl in Hnone2. rewrite Hnone2.
      reflexivity. }
    apply wp_ret, wp_modify. split; reflexivity.
  - simpl. by rewrite Hlog3, Hlog2.
  - simpl. rewrite Hbo3. exact Hnone2.
  - simpl. etrans; [exact Hsub3|]. exact Hsub2.
Qed.

(** C6, as worded, fails when expiry has been switched off since the
    task was armed: the callback gives up its reference and returns,
    without clearing the task identifier, calling the helper or arming a
    new task, although the entry is still registered. *)
Lemma expire_rearms_counterexample :
  ¬ expire_rearms example_expiry_off (mk_umh 256 false 0) 1.
Proof.
  intros H.
  destruct (H (mk_task 1 300000)
              (mk_snapentry "pool/fs@s1" "/mnt/.zfs/snapshot/s1" 7 42 99 1 2)
              _ ltac:(vm_compute; reflexivity) ltac:(vm_compute; reflexivity)
              ltac:(vm_compute; reflexivity))
    as [(evs & Hlog & Hin) _].
  vm_compute in Hlog. injection Hlog as <-. by apply elem_of_nil in Hin.
Qed.

(** C6, amended: when the callback runs while [zfs_expire_snapshot] is
    positive, it completes whatever the helpers' status, the task that
    fired is pending no more, and the export table has been flushed and
    the umount helper called once on the entry's path.  If the snapshot
    stayed mounted the entry
    is still registered, and a new task is pending for it, recorded in
    the entry and due [zfs_expire_snapshot] seconds from now; if the
    kernel unmounted it the entry is registered no more.  So an entry
    that is still registered afterwards has been armed again. *)
Theorem expire_rearms_when_enabled st o id t e :
  reachable st →
  tq_pending st !! id = Some t →
  kmem st !! tk_arg t = Some e →
  0 < zfs_expire_snapshot st →
  ∃ st',
    taskq_fire o id st = Some (tt, st') ∧
    klog st' = klog st ++
      [EvUsermodehelper exportfs_argv;
       EvUsermodehelper (umount_argv MNT_EXPIRE (se_path e))] ∧
    tq_pending st' !! id = None ∧
    (zfs_snapshots_by_objsetid st' !! objsetid_key e = Some (tk_arg t) ↔
     umh_unmounted o = false) ∧
    (umh_unmounted o = true →
     zfs_snapshots_by_objsetid st' !! objsetid_key e = None) ∧
    (zfs_snapshots_by_objsetid st' !! objsetid_key e = Some (tk_arg t) →
     kmem st' !! tk_arg t = Some (set_se_taskqid (tq_next_id st) e) ∧
     tq_next_id st ≠ id ∧
     tq_pending st' !! tq_next_id st =
       Some (mk_task (tk_arg t)
               (lbolt st + int_wrap (zfs_expire_snapshot st * HZ st)))).
Proof.
  intros Hg%reachable_inv Ht He Hexp.
  destruct (gi_task _ _ Hg _ _ Ht) as (Hlt & _).
  destruct (umh_unmounted o) eqn:Ho.
  - destruct (fire_unmounted st o id t e Hg Ht He Hexp Ho)
      as (st' & Hrun & Hlog & Hnone & Hsub).
    exists st'. split; [done|]. split; [done|]. split.
    { eapply lookup_weaken_None; [|exact Hsub]. apply lookup_delete_eq. }
    rewrite Hnone. split; [done|]. split; [done|]. done.
  - eexists. split; [by apply fire_busy_eq|]. simpl.
    split; [by rewrite <- app_assoc|]. split.
    { rewrite lookup_insert_ne by lia. apply lookup_delete_eq. }
    assert (zfs_snapshots_by_objsetid st !! objsetid_key e = Some (tk_arg t))
      as Hobj.
    { apply (gi_both _ _ Hg _ _ He). by eapply gi_reg. }
    split; [done|]. split; [done|]. intros _.
    rewrite !lookup_insert_eq. split; [done|]. split; [lia | done].
Qed.

Lemma expire_rearms_when_enabled_witness :
  ∃ st',
    taskq_fire (mk_umh 256 false 0) 1 example_mounted = Some (tt, st') ∧
    zfs_snapshots_by_objsetid st' !! (7, 42) = Some 1 ∧
    tq_pending st' !! 2 = Some (mk_task 1 300000).
Proof.
  destruct (expire_rearms_when_enabled example_mounted (mk_umh 256 false 0) 1
    (mk_task 1 300000)
    (mk_snapentry "pool/fs@s1" "/mnt/.zfs/snapshot/s1" 7 42 99 1 2)
    example_mounted_reachable
    ltac:(vm_compute; reflexivity) ltac:(vm_compute; reflexivity)
    ltac:(vm_compute; reflexivity))
    as (st' & Hrun & _ & _ & Hreg & _ & Hrearm).
  exists st'. split; [exact Hrun|].
  pose proof (proj2 Hreg eq_refl) as Hstill.
  split; [exact Hstill|]. exact (proj2 (proj2 (Hrearm Hstill))).
Defined.

(** ** Automounting *)

(** A thread that takes its three steps without interruption does what
    [zfsctl_snapshot_mount] does. *)
Lemma mount_steps env st :
  zfsctl_snapshot_mount env st =
  (do pc1 <- mount_step env PcEntry;
   do pc2 <- mount_step env pc1;
   do pc3 <- mount_step env pc2;
   ret (match pc3 with PcReturned r => r | _ => 0 end)) st.
Proof.
  unfold zfsctl_snapshot_mount, mount_step, bind, ret.
  destruct (mount_prepare env) as [error|[n path]]; [reflexivity|].
  destruct (zfsctl_snapshot_ismounted n st) as [[[] s1]|];
    [reflexivity | |reflexivity].
  destruct (mount_helper n path (me_umh_status env) s1) as [[error s2]|];
    [|reflexivity].
  destruct (negb (error =? 0)) eqn:Herr; [reflexivity|].
  destruct (mount_register n path (me_follow_down env) s2) as [[[] s3]|];
    [|reflexivity].
  do 2 f_equal. apply negb_false_iff in Herr. lia.
Qed.

(** C8, as worded, fails: two threads that both pass the registry check
    before either registers each call the helper, the second being told
    that the mount point is busy; both return 0 after two helper
    invocations. *)
Lemma one_automount_counterexample :
  ¬ one_automount (zfsctl_init 300 1 0 1000)
      [example_env; example_env_busy] [0; 1; 0; 1; 0]%nat.
Proof.
  intros H.
  destruct (H _ _ ltac:(vm_compute; reflexivity)) as [Hc _].
  - repeat constructor; by eexists.
  - vm_compute in Hc. discriminate.
Qed.

Lemma wp_alloc_add {A} n path spa o d (k : Z → M A) Q st :
  zfs_snapshots_by_name st !! n = None →
  zfs_snapshots_by_objsetid st !! (spa, o) = None →
  wp (k (kmem_next st)) Q
    (set_by_objsetid
       (<[(spa, o) := kmem_next st]> (zfs_snapshots_by_objsetid st))
       (set_by_name (<[n := kmem_next st]> (zfs_snapshots_by_name st))
          (upd_kmem (<[kmem_next st :=
                        mk_snapentry n path spa o d TASKQID_INVALID 1]>)
             (set_kmem_next (kmem_next st + 1) st)))) →
  wp (bind (zfsctl_snapshot_alloc n path spa o d)
        (λ se, bind (zfsctl_snapshot_add se) (λ _, k se))) Q st.
Proof.
  intros Hn Ho (a & st' & Hk & HQ). exists a, st'. split; [|done].
  by rewrite alloc_add_eq, Ho.
Qed.

(** The first of a series of calls: with the name and the object-set id
    unregistered, a helper that succeeds and a mount that can be followed
    down, the call returns 0 after one helper invocation and leaves the
    name registered to a live entry. *)
Lemma mount_first env n path spa o d st :
  mount_prepare env = inr (n, path) →
  zfs_snapshots_by_name st !! n = None →
  zfs_snapshots_by_objsetid st !! (spa, o) = None →
  me_umh_status env = 0 →
  me_follow_down env = Some (spa, o, d) →
  ∃ st' e,
    zfsctl_snapshot_mount env st = Some (0, st') ∧
    umh_count st' = (umh_count st + 1)%nat ∧
    zfs_snapshots_by_name st' !! n = Some (kmem_next st) ∧
    kmem st' !! kmem_next st = Some e ∧
    1 ≤ se_refcount e.
Proof.
  intros Hprep Hn Ho Hstatus Hfollow.
  assert (wp (zfsctl_snapshot_mount env)
            (λ r st', r = 0 ∧
               umh_count st' = (umh_count st + 1)%nat ∧
               zfs_snapshots_by_name st' !! n = Some (kmem_next st) ∧
               ∃ e, kmem st' !! kmem_next st = Some e ∧ 1 ≤ se_refcount e) st)
    as (r & st' & Hrun & -> & Hcount & Hn' & e & He & Hrc);
    [|by exists st', e].
  unfold zfsctl_snapshot_mount. rewrite Hprep.
  apply wp_bind. eapply wp_of_eq; [by apply ismounted_false|]. cbv iota.
  apply wp_bind. unfold mount_helper, call_usermodehelper.
  apply wp_bind, wp_gets. apply wp_bind, wp_modify, wp_ret.
  rewrite Hstatus. change (negb (0 =? 0)) with false. cbv iota.
  set (s1 := log_event _ st).
  assert (umh_count s1 = (umh_count st + 1)%nat) as Hcount.
  { unfold umh_count, s1. simpl. rewrite filter_app, length_app. done. }
  apply wp_bind. unfold mount_register. rewrite Hfollow.
  apply wp_alloc_add; [done | done|].
  set (s2 := set_by_objsetid _ _).
  apply wp_bind, wp_gets.
  destruct (decide (zfs_expire_snapshot s2 ≤ 0)) as [Hexp|Hexp].
  - eapply wp_of_eq; [by apply delay_impl_disabled|]. apply wp_ret.
    split; [done|]. split; [done|]. simpl. rewrite !lookup_insert_eq.
    split; [done|]. by eexists.
  - eapply wp_of_eq;
      [apply (delay_impl_idle (kmem_next s1));
         [apply lookup_insert_eq | done | lia]|].
    apply wp_ret. split; [done|]. split; [done|]. simpl.
    rewrite !lookup_insert_eq. split; [done|]. eexists. split; [done|].
    simpl. lia.
Qed.

(** Calls for a name registered to a live entry return 0 and leave the
    state as it is. *)
Lemma mount_seq_registered n p e st envs :
  zfs_snapshots_by_name st !! n = Some p →
  kmem st !! p = Some e →
  1 ≤ se_refcount e →
  Forall (λ env, ∃ path, mount_prepare env = inr (n, path)) envs →
  mount_seq envs st = Some (map (λ _, 0) envs, st).
Proof.
  intros Hn He Hrc. induction 1 as [|env envs [path Hprep] _ IH]; [done|].
  simpl. unfold bind at 1. unfold zfsctl_snapshot_mount. rewrite Hprep.
  unfold bind at 1. rewrite (ismounted_true n p e) by done.
  unfold ret at 1. unfold bind. by rewrite IH.
Qed.

(** ** Threads inside the automount *)

Lemma umh_count_log argv st :
  umh_count (log_event (EvUsermodehelper argv) st) = S (umh_count st).
Proof.
  unfold umh_count. simpl. rewrite filter_app, length_app. simpl. lia.
Qed.

(** Every step takes a thread that is not back yet one stage further. *)
Lemma mount_step_rank env pc st pc' st' :
  mount_step env pc st = Some (pc', st') →
  (Nat.min 3 (S (pc_rank pc)) ≤ pc_rank pc')%nat.
Proof.
  destruct pc as [|fn fp|fn fp|r]; simpl.
  - destruct (mount_prepare env) as [err|[fn fp]].
    + intros [= <- <-]. simpl. lia.
    + intros (b & s1 & _ & [= <- <-])%bind_Some. destruct b; simpl; lia.
  - intros (err & s1 & _ & [= <- <-])%bind_Some.
    destruct (negb _); simpl; lia.
  - intros ([] & s1 & _ & [= <- <-])%bind_Some. simpl. lia.
  - intros [= <- <-]. simpl. lia.
Qed.

Lemma sched_steps_here i sched :
  sched_steps i (i :: sched) = S (sched_steps i sched).
Proof. unfold sched_steps. by rewrite filter_cons_True. Qed.

Lemma sched_steps_other i j sched :
  j ≠ i → sched_steps i (j :: sched) = sched_steps i sched.
Proof. intros Hne. unfold sched_steps. by rewrite filter_cons_False. Qed.

(** A schedule leaves every thread its environment, and a thread that
    is given three steps is back. *)
Lemma run_schedule_progress sched threads st threads' st' :
  run_schedule sched threads st = Some (threads', st') →
  ∀ i env pc, threads !! i = Some (env, pc) →
    ∃ pc', threads' !! i = Some (env, pc') ∧
      (Nat.min 3 (pc_rank pc + sched_steps i sched) ≤ pc_rank pc')%nat.
Proof.
  revert threads st. induction sched as [|j sched IH]; intros threads st.
  - intros [= <- <-] i env pc Hi. exists pc. split; [done|].
    unfold sched_steps. rewrite filter_nil. cbn [length]. lia.
  - intros Hrun i env pc Hi. simpl in Hrun.
    destruct (threads !! j) as [[envj pcj]|] eqn:Hj.
    + apply bind_Some in Hrun as (pcj' & s1 & Hstep & Hrun).
      pose proof (mount_step_rank _ _ _ _ _ Hstep) as Hrank.
      destruct (decide (j = i)) as [->|Hne].
      * rewrite Hi in Hj. injection Hj as <- <-. rewrite sched_steps_here.
        destruct (IH _ _ Hrun i env pcj') as (pc' & Hi' & Hr').
        { apply list_lookup_insert_eq. by eapply lookup_lt_Some. }
        exists pc'. split; [done|]. lia.
      * rewrite sched_steps_other by done.
        destruct (IH _ _ Hrun i env pc) as (pc' & Hi' & Hr').
        { by rewrite list_lookup_insert_ne. }
        exists pc'. split; [done|]. lia.
    + destruct (decide (j = i)) as [->|Hne]; [congruence|].
      rewrite sched_steps_other by done.
      destruct (IH _ _ Hrun i env pc Hi) as (pc' & Hi' & Hr').
      exists pc'. split; [done|]. lia.
Qed.

Lemma called_count_insert rest j env pc pc' :
  rest !! j = Some (env, pc) →
  (called_count (<[j := (env, pc')]> rest) + pc_called pc
   = called_count rest + pc_called pc')%nat.
Proof.
  unfold called_count. revert j.
  induction rest as [|t rest IH]; intros [|j] Hj; try done; simpl in *.
  - injection Hj as ->. simpl. lia.
  - specialize (IH j Hj). lia.
Qed.

Lemma called_count_le threads : (called_count threads ≤ length threads)%nat.
Proof.
  unfold called_count. induction threads as [|[env pc] threads IH]; simpl.
  - lia.
  - destruct pc; simpl; lia.
Qed.

Lemma called_count_entry envs :
  called_count (map (λ env : mount_env, (env, PcEntry)) envs) = 0%nat.
Proof. unfold called_count. induction envs; simpl; [done | lia]. Qed.

Lemma winner_ok_log n path spa o st0 pc st argv :
  winner_ok n path spa o st0 pc st →
  winner_ok n path spa o st0 pc (log_event (EvUsermodehelper argv) st).
Proof.
  unfold winner_ok, mount_unregistered, mount_registered.
  rewrite umh_count_log. destruct pc; simpl; intros H.
  - destruct H as (? & ?). split; [done | lia].
  - destruct H as (? & ? & ? & ?). repeat split; try done; try tauto. lia.
  - destruct H as (? & ? & ? & ?). repeat split; try done; try tauto. lia.
  - destruct H as (? & ? & ?). repeat split; try done; try tauto. lia.
Qed.

(** What a thread that looks the snapshot up finds, wherever the thread
    whose helper succeeds is. *)
Lemma winner_ok_registry n path spa o st0 pc st :
  zfs_snapshots_by_name st0 !! n = None →
  winner_ok n path spa o st0 pc st →
  zfs_snapshots_by_name st !! n = None ∨
  ∃ p e, zfs_snapshots_by_name st !! n = Some p ∧ kmem st !! p = Some e ∧
         1 ≤ se_refcount e.
Proof.
  intros Hn. unfold winner_ok, mount_unregistered, mount_registered.
  destruct pc.
  - intros ((-> & _) & _). by left.
  - intros (_ & _ & (-> & _) & _). by left.
  - intros (_ & _ & (-> & _) & _). by left.
  - intros (_ & (-> & _ & _ & e & He & Hrc) & _). right.
    exists (kmem_next st0), e. by rewrite lookup_insert_eq.
Qed.

Lemma mount_helper_eq full_name full_path status st :
  ∃ argv, mount_helper full_name full_path status st
          = Some (status, log_event (EvUsermodehelper argv) st).
Proof.
  unfold mount_helper, call_usermodehelper, bind, gets, modify, ret.
  by eexists.
Qed.

(** A step of a thread whose helper is told that the mount point is
    busy: it only looks the snapshot up, or calls the helper, and never
    registers anything. *)
Lemma other_step n env path pc st :
  mount_prepare env = inr (n, path) →
  umh_busy (me_umh_status env) →
  other_ok pc →
  (zfs_snapshots_by_name st !! n = None ∨
   ∃ p e, zfs_snapshots_by_name st !! n = Some p ∧ kmem st !! p = Some e ∧
          1 ≤ se_refcount e) →
  ∃ pc' st',
    mount_step env pc st = Some (pc', st') ∧ other_ok pc' ∧
    (st' = st ∧ (pc_called pc ≤ pc_called pc')%nat ∨
     (∃ argv, st' = log_event (EvUsermodehelper argv) st) ∧
     pc_called pc = 0%nat ∧ pc_called pc' = 1%nat).
Proof.
  intros Hprep Hbusy Hok Hreg. destruct pc as [|fn fp|fn fp|r]; simpl.
  - rewrite Hprep. unfold bind.
    destruct Hreg as [Hn|(p & e & Hn & He & Hrc)].
    + rewrite (ismounted_false _ _ Hn). eexists _, st.
      split; [done|]. split; [done|]. left. by split.
    + rewrite (ismounted_true _ _ _ _ Hn He Hrc). eexists _, st.
      split; [done|]. split; [done|]. left. split; [done|]. simpl. lia.
  - destruct (mount_helper_eq fn fp (me_umh_status env) st) as [argv Hh].
    unfold bind. rewrite Hh. unfold ret.
    assert (me_umh_status env ≠ 0) as Hne.
    { intros H0. apply Hbusy. by rewrite H0. }
    replace (me_umh_status env =? 0) with false by lia. simpl.
    eexists _, _. split; [done|]. split.
    + simpl. unfold mount_helper_error.
      unfold umh_busy in Hbusy.
      by replace (Z.land (me_umh_status env) (Z.shiftl MOUNT_BUSY 8) =? 0)
        with false by lia.
    + right. split; [by exists argv | done].
  - done.
  - eexists _, st. split; [done|]. split; [done|]. left. by split.
Qed.

Lemma mount_register_eq n path spa o d st :
  zfs_snapshots_by_name st !! n = None →
  zfs_snapshots_by_objsetid st !! (spa, o) = None →
  ∃ st' e,
    mount_register n path (Some (spa, o, d)) st = Some (tt, st') ∧
    klog st' = klog st ∧
    zfs_snapshots_by_name st'
      = <[n := kmem_next st]> (zfs_snapshots_by_name st) ∧
    zfs_snapshots_by_objsetid st'
      = <[(spa, o) := kmem_next st]> (zfs_snapshots_by_objsetid st) ∧
    kmem_next st' = kmem_next st + 1 ∧
    kmem st' !! kmem_next st = Some e ∧ 1 ≤ se_refcount e.
Proof.
  intros Hn Ho.
  assert (wp (mount_register n path (Some (spa, o, d)))
            (λ _ st', klog st' = klog st ∧
               zfs_snapshots_by_name st'
                 = <[n := kmem_next st]> (zfs_snapshots_by_name st) ∧
               zfs_snapshots_by_objsetid st'
                 = <[(spa, o) := kmem_next st]>
                     (zfs_snapshots_by_objsetid st) ∧
               kmem_next st' = kmem_next st + 1 ∧
               ∃ e, kmem st' !! kmem_next st = Some e ∧ 1 ≤ se_refcount e) st)
    as ([] & st' & Hrun & Hlog & Hbn & Hbo & Hnext & e & He & Hrc);
    [|by exists st', e].
  unfold mount_register.
  apply wp_alloc_add; [done | done|].
  set (s2 := set_by_objsetid _ _).
  apply wp_bind, wp_gets.
  destruct (decide (zfs_expire_snapshot s2 ≤ 0)) as [Hexp|Hexp].
  - eapply wp_of_eq; [by apply delay_impl_disabled|].
    repeat split; try done. simpl. rewrite lookup_insert_eq. by eexists.
  - eapply wp_of_eq;
      [apply (delay_impl_idle (kmem_next st));
         [apply lookup_insert_eq | done | lia]|].
    repeat split; try done. simpl. rewrite !lookup_insert_eq.
    eexists. split; [done|]. simpl. lia.
Qed.

(** A step of the thread whose helper succeeds. *)
Lemma winner_step env n path spa o d st0 pc st :
  mount_prepare env = inr (n, path) →
  zfs_snapshots_by_name st0 !! n = None →
  zfs_snapshots_by_objsetid st0 !! (spa, o) = None →
  me_umh_status env = 0 →
  me_follow_down env = Some (spa, o, d) →
  winner_ok n path spa o st0 pc st →
  ∃ pc' st',
    mount_step env pc st = Some (pc', st') ∧
    winner_ok n path spa o st0 pc' st' ∧
    (umh_count st' + pc_called pc = umh_count st + pc_called pc')%nat.
Proof.
  intros Hprep Hn Ho Hstatus Hfollow Hok.
  destruct pc as [|fn fp|fn fp|r]; simpl in *.
  - rewrite Hprep. unfold bind.
    destruct Hok as ((Hbn & Hbo & Hnext) & Hcount).
    rewrite ismounted_false by by rewrite Hbn.
    eexists _, st. split; [done|]. simpl. split; [|done].
    by repeat split.
  - destruct Hok as (-> & -> & (Hbn & Hbo & Hnext) & Hcount).
    destruct (mount_helper_eq n path (me_umh_status env) st) as [argv Hh].
    unfold bind. rewrite Hh. unfold ret. rewrite Hstatus.
    change (negb (0 =? 0)) with false. cbv iota.
    eexists _, _. split; [done|]. rewrite umh_count_log.
    split; [|cbn [pc_called]; lia].
    cbn [winner_ok]. rewrite umh_count_log.
    split; [done|]. split; [done|]. split; [by repeat split | lia].
  - destruct Hok as (-> & -> & (Hbn & Hbo & Hnext) & Hcount).
    rewrite Hfollow.
    destruct (mount_register_eq n path spa o d st)
      as (st' & e & Hrun & Hlog & Hbn' & Hbo' & Hnext' & He & Hrc).
    { by rewrite Hbn. }
    { by rewrite Hbo. }
    unfold bind. rewrite Hrun. unfold ret.
    eexists _, st'. split; [done|].
    assert (umh_count st' = umh_count st) as Hc
      by (unfold umh_count; by rewrite Hlog).
    split; [|simpl; lia].
    split; [done|]. split; [|lia].
    unfold mount_registered.
    rewrite Hbn', Hbo', Hnext', Hbn, Hbo, Hnext.
    repeat split; try done. exists e. by rewrite <- Hnext.
  - eexists _, st. split; [done|]. split; [done|]. simpl. lia.
Qed.

Section schedules.

Context (env : mount_env) (others : list mount_env) (n path : string)
  (spa o d : Z) (st0 : kstate).
Hypothesis Hprep : mount_prepare env = inr (n, path).
Hypothesis Hothers :
  Forall (λ env', (∃ path', mount_prepare env' = inr (n, path')) ∧
                  umh_busy (me_umh_status env')) others.
Hypothesis Hn : zfs_snapshots_by_name st0 !! n = None.
Hypothesis Ho : zfs_snapshots_by_objsetid st0 !! (spa, o) = None.
Hypothesis Hstatus : me_umh_status env = 0.
Hypothesis Hfollow : me_follow_down env = Some (spa, o, d).

(** Whatever the schedule, the threads get through it, and what holds
    of them and of the registry at the start holds at the end. *)
Lemma run_schedule_inv sched pc0 rest st :
  rest.*1 = others →
  Forall (λ t, other_ok t.2) rest →
  winner_ok n path spa o st0 pc0 st →
  (umh_count st ≤ umh_count st0 + pc_called pc0 + called_count rest)%nat →
  ∃ pc0' rest' st',
    run_schedule sched ((env, pc0) :: rest) st
      = Some ((env, pc0') :: rest', st') ∧
    rest'.*1 = others ∧
    Forall (λ t, other_ok t.2) rest' ∧
    winner_ok n path spa o st0 pc0' st' ∧
    (umh_count st' ≤ umh_count st0 + pc_called pc0' + called_count rest')%nat.
Proof.
  revert pc0 rest st.
  induction sched as [|i sched IH]; intros pc0 rest st Henvs Hrest Hw Hc.
  - by exists pc0, rest, st.
  - destruct i as [|j]; simpl.
    + destruct (winner_step env n path spa o d st0 pc0 st Hprep Hn Ho
                  Hstatus Hfollow Hw) as (pc0' & s1 & Hstep & Hw1 & Hc1).
      unfold bind. rewrite Hstep.
      apply IH; [done | done | done | lia].
    + destruct (rest !! j) as [[envj pcj]|] eqn:Hj; [|by apply IH].
      assert (others !! j = Some envj) as Hoj.
      { rewrite <- Henvs, list_lookup_fmap, Hj. done. }
      destruct (proj1 (Forall_lookup _ _) Hothers j envj Hoj)
        as [[pathj Hprepj] Hbusy].
      pose proof (proj1 (Forall_lookup _ _) Hrest j _ Hj) as Hokj.
      destruct (other_step n envj pathj pcj st Hprepj Hbusy Hokj
                  (winner_ok_registry _ _ _ _ _ _ _ Hn Hw))
        as (pcj' & s1 & Hstep & Hokj' & Hs1).
      unfold bind. rewrite Hstep.
      pose proof (called_count_insert rest j envj pcj pcj' Hj) as Hins.
      apply IH.
      * rewrite list_fmap_insert. simpl. rewrite list_insert_id; [done|].
        by rewrite list_lookup_fmap, Hj.
      * by apply Forall_insert.
      * destruct Hs1 as [[-> _]|[[argv ->] _]]; [done|].
        by apply winner_ok_log.
      * destruct Hs1 as [[-> Hle]|[[argv ->] [H0 H1]]].
        -- lia.
        -- rewrite umh_count_log. lia.
Qed.

End schedules.

(** C8, amended: threads that call [zfsctl_snapshot_mount] for one
    snapshot while neither its name nor its object set is registered,
    the helper of one of them succeeding and its mount being followed
    down, the helper of every other one that gets to call it being told
    that the mount point is busy.  Whatever the schedule, every step is
    taken without a panic, a thread that is back has returned 0, and the
    helper has been called at most once for each thread; every thread
    the schedule gives three steps is back; and once all are back, the
    helper has been called at least once and exactly one entry has been
    registered, for this snapshot.  When the calls are made one after the
    other, the one whose helper succeeds first, the helper is called
    exactly once. *)
Theorem one_registration_under_any_schedule env others n path spa o d st
    sched :
  mount_prepare env = inr (n, path) →
  Forall (λ env', (∃ path', mount_prepare env' = inr (n, path')) ∧
                  umh_busy (me_umh_status env')) others →
  zfs_snapshots_by_name st !! n = None →
  zfs_snapshots_by_objsetid st !! (spa, o) = None →
  me_umh_status env = 0 →
  me_follow_down env = Some (spa, o, d) →
  (∃ threads st',
     run_schedule sched (map (λ e, (e, PcEntry)) (env :: others)) st
       = Some (threads, st') ∧
     threads.*1 = env :: others ∧
     Forall (λ t, ∀ r, t.2 = PcReturned r → r = 0) threads ∧
     (umh_count st' ≤ umh_count st + length (env :: others))%nat ∧
     ((∀ i, (i < length (env :: others))%nat →
            (3 ≤ sched_steps i sched)%nat) →
      Forall (λ t, t.2 = PcReturned 0) threads) ∧
     (Forall (λ t, t.2 = PcReturned 0) threads →
      (umh_count st + 1 ≤ umh_count st')%nat ∧
      zfs_snapshots_by_name st'
        = <[n := kmem_next st]> (zfs_snapshots_by_name st) ∧
      zfs_snapshots_by_objsetid st'
        = <[(spa, o) := kmem_next st]> (zfs_snapshots_by_objsetid st) ∧
      kmem_next st' = kmem_next st + 1)) ∧
  (∃ st',
     mount_seq (env :: others) st
       = Some (map (λ _, 0) (env :: others), st') ∧
     umh_count st' = (umh_count st + 1)%nat).
Proof.
  intros Hprep Hothers Hn Ho Hstatus Hfollow. split.
  - destruct (run_schedule_inv env others n path spa o d st Hprep Hothers
                Hn Ho Hstatus Hfollow sched PcEntry
                (map (λ e, (e, PcEntry)) others) st)
      as (pc0 & rest & st' & Hrun & Henvs & Hrest & Hw & Hc).
    { rewrite <- list_fmap_compose. apply list_fmap_id. }
    { apply Forall_fmap. by apply Forall_true. }
    { by repeat split. }
    { lia. }
    exists ((env, pc0) :: rest), st'. split; [exact Hrun|].
    assert (Forall (λ t : mount_env * mount_pc,
                      ∀ r, t.2 = PcReturned r → r = 0)
              ((env, pc0) :: rest)) as Hzero.
    { constructor.
      - simpl. intros r ->. by destruct Hw as (-> & _).
      - eapply Forall_impl; [exact Hrest|]. intros [e pc] Hok r.
        simpl in *. by intros ->. }
    split; [by rewrite fmap_cons, Henvs|]. split; [exact Hzero|].
    split; [|split].
    + pose proof (called_count_le rest) as Hle.
      assert (length rest = length others) as Hlen
        by by rewrite <- Henvs, length_fmap.
      assert (pc_called pc0 ≤ 1)%nat by (destruct pc0; simpl; lia).
      cbn [length]. lia.
    + intros Hfair. apply Forall_lookup. intros i [e pc] Hi.
      assert (i < length (env :: others))%nat as Hlt.
      { apply lookup_lt_Some in Hi. simpl in *.
        by rewrite <- Henvs, length_fmap. }
      destruct (lookup_lt_is_Some_2
                  (map (λ e, (e, PcEntry)) (env :: others)) i)
        as [[e0 pc1] Hi0]; [by rewrite length_map|].
      assert (pc1 = PcEntry) as ->.
      { change (map (λ e, (e, PcEntry)) (env :: others))
          with ((λ e : mount_env, (e, PcEntry)) <$> (env :: others)) in Hi0.
        rewrite list_lookup_fmap in Hi0.
        destruct ((env :: others) !! i); [|done]. by injection Hi0. }
      destruct (run_schedule_progress _ _ _ _ _ Hrun i e0 PcEntry Hi0)
        as (pc' & Hi' & Hrank).
      rewrite Hi in Hi'. injection Hi' as -> ->.
      specialize (Hfair i Hlt). cbn [pc_rank Nat.add] in Hrank.
      destruct pc' as [| | |r]; cbn [pc_rank] in Hrank; try lia. simpl.
      f_equal. by apply (proj1 (Forall_lookup _ _) Hzero i _ Hi).
    + intros Hall. apply Forall_cons_1 in Hall as [Hpc0 _].
      simpl in Hpc0. subst pc0.
      destruct Hw as (_ & (Hbn & Hbo & Hnext & _) & Hcount). done.
  - destruct (mount_first env n path spa o d st Hprep Hn Ho Hstatus Hfollow)
      as (s1 & e & Hrun & Hcount & Hn1 & He1 & Hrc).
    exists s1. split; [|done]. simpl. unfold bind at 1. rewrite Hrun.
    unfold bind.
    rewrite (mount_seq_registered n (kmem_next st) e s1 others); try done.
    eapply Forall_impl; [exact Hothers|]. by intros env' [? _].
Qed.

Lemma one_registration_under_any_schedule_witness :
  ∃ threads st',
    run_schedule [0; 1; 1; 0; 1; 0]%nat
      (map (λ e, (e, PcEntry)) [example_env; example_env_busy])
      (zfsctl_init 300 1 0 1000) = Some (threads, st') ∧
    Forall (λ t, t.2 = PcReturned 0) threads ∧
    zfs_snapshots_by_name st' !! "pool/fs@s1"%string = Some 1.
Proof.
  destruct (one_registration_under_any_schedule example_env
              [example_env_busy] "pool/fs@s1" "/mnt/.zfs/snapshot/s1"
              7 42 99 (zfsctl_init 300 1 0 1000) [0; 1; 1; 0; 1; 0]%nat)
    as [(threads & st' & Hrun & _ & _ & _ & Hfair & Hall) _].
  - vm_compute. reflexivity.
  - repeat constructor.
    + eexists. vm_compute. reflexivity.
    + unfold umh_busy. vm_compute. discriminate.
  - vm_compute. reflexivity.
  - vm_compute. reflexivity.
  - reflexivity.
  - reflexivity.
  - exists threads, st'. split; [exact Hrun|].
    assert (Forall (λ t : mount_env * mount_pc, t.2 = PcReturned 0) threads)
      as Hret.
    { apply Hfair. intros [|[|i]] Hi; [vm_compute; lia..|simpl in Hi; lia]. }
    split; [exact Hret|].
    destruct (Hall Hret) as (_ & -> & _). apply lookup_insert_eq.
Defined.

(** ** The two trees under any sequence of registry operations *)

Lemma dual_init expire admin nosetuid hz :
  dual (zfsctl_init expire admin nosetuid hz).
Proof.
  split; try done. intros p. split; intros [k Hk]; done.
Qed.

(** Updates of memory that keep the keys of the entries that stay. *)
Lemma dual_kmem f st :
  dual st →
  (∀ q e', f (kmem st) !! q = Some e' →
     ∃ e, kmem st !! q = Some e ∧ se_name e' = se_name e ∧
          objsetid_key e' = objsetid_key e) →
  dual (upd_kmem f st).
Proof.
  intros [Hnext Hname Hobj Hboth] Hf. split; simpl.
  - intros q e' Hq. destruct (Hf _ _ Hq) as (e & He & _). eauto.
  - intros k q Hk. destruct (Hname _ _ Hk) as [Hlt Hkey]. split; [done|].
    intros e' Hq. destruct (Hf _ _ Hq) as (e & He & -> & _). eauto.
  - intros k q Hk. destruct (Hobj _ _ Hk) as [Hlt Hkey]. split; [done|].
    intros e' Hq. destruct (Hf _ _ Hq) as (e & He & _ & ->). eauto.
  - done.
Qed.

Lemma dual_refcount st p e r :
  dual st → kmem st !! p = Some e →
  dual (upd_kmem (<[p := set_se_refcount r e]>) st).
Proof.
  intros Hd He. apply dual_kmem; [done|]. intros q e' Hq.
  destruct (decide (q = p)) as [->|Hne].
  - rewrite lookup_insert_eq in Hq. injection Hq as <-. eauto.
  - rewrite lookup_insert_ne in Hq by done. eauto.
Qed.

Lemma dual_free st p : dual st → dual (upd_kmem (delete p) st).
Proof.
  intros Hd. apply dual_kmem; [done|]. intros q e' Hq.
  destruct (decide (q = p)) as [->|Hne].
  - by rewrite lookup_delete_eq in Hq.
  - rewrite lookup_delete_ne in Hq by done. eauto.
Qed.

Lemma dual_alloc st e :
  dual st →
  dual (upd_kmem (<[kmem_next st := e]>) (set_kmem_next (kmem_next st + 1) st)).
Proof.
  intros [Hnext Hname Hobj Hboth]. split; simpl.
  - intros q e' Hq. destruct (decide (q = kmem_next st)) as [->|Hne]; [lia|].
    rewrite lookup_insert_ne in Hq by done. apply Hnext in Hq. lia.
  - intros k q Hk. destruct (Hname _ _ Hk) as [Hlt Hkey]. split; [lia|].
    intros e' Hq. rewrite lookup_insert_ne in Hq by lia. eauto.
  - intros k q Hk. destruct (Hobj _ _ Hk) as [Hlt Hkey]. split; [lia|].
    intros e' Hq. rewrite lookup_insert_ne in Hq by lia. eauto.
  - done.
Qed.

Lemma dual_trees_add st p e :
  dual st →
  kmem st !! p = Some e →
  zfs_snapshots_by_name st !! se_name e = None →
  zfs_snapshots_by_objsetid st !! objsetid_key e = None →
  dual (set_by_objsetid (<[objsetid_key e := p]> (zfs_snapshots_by_objsetid st))
          (set_by_name (<[se_name e := p]> (zfs_snapshots_by_name st)) st)).
Proof.
  intros [Hnext Hname Hobj Hboth] He Hn Ho. split; simpl.
  - done.
  - intros k q Hk. destruct (decide (k = se_name e)) as [->|Hne].
    + rewrite lookup_insert_eq in Hk. injection Hk as <-.
      split; [eauto|]. intros e' He'. congruence.
    + rewrite lookup_insert_ne in Hk by done. eauto.
  - intros k q Hk. destruct (decide (k = objsetid_key e)) as [->|Hne].
    + rewrite lookup_insert_eq in Hk. injection Hk as <-.
      split; [eauto|]. intros e' He'. congruence.
    + rewrite lookup_insert_ne in Hk by done. eauto.
  - intros q. unfold in_by_name, in_by_objsetid in *. simpl.
    destruct (decide (q = p)) as [->|Hne].
    + split; intros _; eexists; apply lookup_insert_eq.
    + split; intros [k Hk].
      * assert (zfs_snapshots_by_name st !! k = Some q) as Hk'.
        { destruct (decide (k = se_name e)) as [->|];
            [rewrite lookup_insert_eq in Hk; congruence|].
          by rewrite lookup_insert_ne in Hk. }
        destruct (proj1 (Hboth q) (ex_intro _ k Hk')) as [k' Hk''].
        exists k'. rewrite lookup_insert_ne; [done|]. congruence.
      * assert (zfs_snapshots_by_objsetid st !! k = Some q) as Hk'.
        { destruct (decide (k = objsetid_key e)) as [->|];
            [rewrite lookup_insert_eq in Hk; congruence|].
          by rewrite lookup_insert_ne in Hk. }
        destruct (proj2 (Hboth q) (ex_intro _ k Hk')) as [k' Hk''].
        exists k'. rewrite lookup_insert_ne; [done|]. congruence.
Qed.

Lemma dual_trees_remove st p e :
  dual st →
  kmem st !! p = Some e →
  zfs_snapshots_by_name st !! se_name e = Some p →
  zfs_snapshots_by_objsetid st !! objsetid_key e = Some p →
  dual (set_by_objsetid (delete (objsetid_key e) (zfs_snapshots_by_objsetid st))
          (set_by_name (delete (se_name e) (zfs_snapshots_by_name st)) st)) ∧
  ∀ k, delete (se_name e) (zfs_snapshots_by_name st) !! k ≠ Some p.
Proof.
  intros [Hnext Hname Hobj Hboth] He Hn Ho.
  assert (∀ k, delete (se_name e) (zfs_snapshots_by_name st) !! k ≠ Some p)
    as Hgone.
  { intros k Hk. destruct (decide (k = se_name e)) as [->|Hne].
    - by rewrite lookup_delete_eq in Hk.
    - rewrite lookup_delete_ne in Hk by done.
      destruct (Hname _ _ Hk) as [_ Hkey]. specialize (Hkey _ He). done. }
  assert (∀ k, delete (objsetid_key e) (zfs_snapshots_by_objsetid st) !! k
               ≠ Some p) as Hgone'.
  { intros k Hk. destruct (decide (k = objsetid_key e)) as [->|Hne].
    - by rewrite lookup_delete_eq in Hk.
    - rewrite lookup_delete_ne in Hk by done.
      destruct (Hobj _ _ Hk) as [_ Hkey]. specialize (Hkey _ He). done. }
  split; [|done]. split; simpl.
  - done.
  - intros k q Hk. destruct (decide (k = se_name e)) as [->|Hne].
    + by rewrite lookup_delete_eq in Hk.
    + rewrite lookup_delete_ne in Hk by done. eauto.
  - intros k q Hk. destruct (decide (k = objsetid_key e)) as [->|Hne].
    + by rewrite lookup_delete_eq in Hk.
    + rewrite lookup_delete_ne in Hk by done. eauto.
  - intros q. unfold in_by_name, in_by_objsetid in *. simpl.
    destruct (decide (q = p)) as [->|Hne].
    + split; intros [k Hk]; [by apply Hgone in Hk | by apply Hgone' in Hk].
    + split; intros [k Hk].
      * assert (zfs_snapshots_by_name st !! k = Some q) as Hk'.
        { destruct (decide (k = se_name e)) as [->|];
            [by rewrite lookup_delete_eq in Hk|].
          by rewrite lookup_delete_ne in Hk. }
        destruct (proj1 (Hboth q) (ex_intro _ k Hk')) as [k' Hk''].
        exists k'. rewrite lookup_delete_ne; [done|]. congruence.
      * assert (zfs_snapshots_by_objsetid st !! k = Some q) as Hk'.
        { destruct (decide (k = objsetid_key e)) as [->|];
            [by rewrite lookup_delete_eq in Hk|].
          by rewrite lookup_delete_ne in Hk. }
        destruct (proj2 (Hboth q) (ex_intro _ k Hk')) as [k' Hk''].
        exists k'. rewrite lookup_delete_ne; [done|]. congruence.
Qed.

Lemma dual_set_name st p e n :
  dual st →
  kmem st !! p = Some e →
  (∀ k, zfs_snapshots_by_name st !! k ≠ Some p) →
  dual (upd_kmem (<[p := set_se_name n e]>) st).
Proof.
  intros [Hnext Hname Hobj Hboth] He Hgone.
  assert (∀ k, zfs_snapshots_by_objsetid st !! k ≠ Some p) as Hgone'.
  { intros k Hk. destruct (proj2 (Hboth p) (ex_intro _ k Hk)) as [k' Hk'].
    by apply Hgone in Hk'. }
  split; simpl.
  - intros q e' Hq. destruct (decide (q = p)) as [->|Hne]; [eauto|].
    rewrite lookup_insert_ne in Hq by done. eauto.
  - intros k q Hk. destruct (Hname _ _ Hk) as [Hlt Hkey]. split; [done|].
    intros e' Hq. destruct (decide (q = p)) as [->|Hne];
      [by apply Hgone in Hk|].
    rewrite lookup_insert_ne in Hq by done. eauto.
  - intros k q Hk. destruct (Hobj _ _ Hk) as [Hlt Hkey]. split; [done|].
    intros e' Hq. destruct (decide (q = p)) as [->|Hne];
      [by apply Hgone' in Hk|].
    rewrite lookup_insert_ne in Hq by done. eauto.
  - done.
Qed.

Lemma dual_rele st p st' :
  dual st → zfsctl_snapshot_rele p st = Some (tt, st') → dual st'.
Proof.
  intros Hd. rewrite rele_eq. destruct (kmem st !! p) as [e|] eqn:He; [|done].
  destruct (se_refcount e <=? 0); [done|]. intros [= <-].
  destruct (se_refcount e =? 1); [by apply dual_free | by apply dual_refcount].
Qed.

Lemma dual_hold st p st' :
  dual st → zfsctl_snapshot_hold p st = Some (tt, st') → dual st'.
Proof.
  intros Hd. rewrite hold_eq. destruct (kmem st !! p) as [e|] eqn:He; [|done].
  intros [= <-]. by apply dual_refcount.
Qed.

Lemma dual_add st p st' :
  dual st → zfsctl_snapshot_add p st = Some (tt, st') → dual st'.
Proof.
  intros Hd. unfold zfsctl_snapshot_add.
  intros ([] & s1 & Hhold & Hrun)%bind_Some.
  apply bind_Some in Hrun as ([] & s2 & Hadd1 & Hadd2).
  pose proof (dual_hold _ _ _ Hd Hhold) as Hd1.
  rewrite avl_add_by_name_eq in Hadd1.
  destruct (kmem s1 !! p) as [e|] eqn:He; [|done].
  destruct (zfs_snapshots_by_name s1 !! se_name e) eqn:Hn; [done|].
  injection Hadd1 as <-.
  rewrite avl_add_by_objsetid_eq in Hadd2. simpl in Hadd2. rewrite He in Hadd2.
  destruct (zfs_snapshots_by_objsetid s1 !! objsetid_key e) eqn:Ho; [done|].
  injection Hadd2 as <-. by apply dual_trees_add.
Qed.

Lemma dual_remove st p st' :
  dual st → zfsctl_snapshot_remove p st = Some (tt, st') → dual st'.
Proof.
  intros Hd. unfold zfsctl_snapshot_remove.
  intros ([] & s1 & Hrm1 & Hrun)%bind_Some.
  apply bind_Some in Hrun as ([] & s2 & Hrm2 & Hrele).
  rewrite avl_remove_by_name_eq in Hrm1.
  destruct (kmem st !! p) as [e|] eqn:He; [|done].
  destruct (decide _) as [Hn|]; [|done]. injection Hrm1 as <-.
  rewrite avl_remove_by_objsetid_eq in Hrm2. simpl in Hrm2. rewrite He in Hrm2.
  destruct (decide _) as [Ho|]; [|done]. injection Hrm2 as <-.
  eapply dual_rele; [|exact Hrele].
  by destruct (dual_trees_remove st p e Hd He Hn Ho).
Qed.

Lemma dual_rename st old new r st' :
  dual st → zfsctl_snapshot_rename old new st = Some (r, st') → dual st'.
Proof.
  intros Hd Hrun.
  destruct (zfs_snapshots_by_name st !! old) as [p|] eqn:Hn.
  2:{ unfold zfsctl_snapshot_rename, bind in Hrun.
      rewrite find_by_name_eq, Hn in Hrun. by injection Hrun as <- <-. }
  destruct (kmem st !! p) as [e|] eqn:He.
  2:{ unfold zfsctl_snapshot_rename, bind in Hrun.
      by rewrite find_by_name_eq, Hn, He in Hrun. }
  assert (se_name e = old) as Hname.
  { by destruct (du_name _ Hd _ _ Hn) as [_ ->]. }
  destruct (rename_success _ _ _ _ _ _ _ Hn He Hname Hrun)
    as (_ & Ho & Hrc & Hnew & ->).
  rewrite <- Hname in Hn, Hnew.
  destruct (dual_trees_remove st p e Hd He Hn Ho) as [Hd1 Hgone].
  set (s1 := set_by_objsetid _ _) in Hd1.
  pose proof (dual_set_name s1 p e new Hd1 He Hgone) as Hd2.
  set (s2 := upd_kmem _ s1) in Hd2.
  pose proof (dual_trees_add s2 p (set_se_name new e) Hd2) as Hd3.
  simpl in Hd3. rewrite lookup_insert_eq in Hd3.
  specialize (Hd3 eq_refl Hnew).
  unfold objsetid_key in Hd3 at 1. simpl in Hd3.
  rewrite lookup_delete_eq in Hd3. specialize (Hd3 eq_refl).
  replace (upd_kmem _ _) with
    (set_by_objsetid
       (<[objsetid_key (set_se_name new e) := p]>
          (delete (se_spa e, se_objsetid e) (zfs_snapshots_by_objsetid st)))
       (set_by_name
          (<[new := p]> (delete (se_name e) (zfs_snapshots_by_name st))) s2));
    [done|].
  apply kstate_ext; simpl; try done.
  - by rewrite Hname.
  - unfold objsetid_key in *. simpl.
    rewrite insert_delete_eq. by apply insert_id.
Qed.

Lemma dual_reg_op op st st' :
  dual st → reg_op_run op st = Some (tt, st') → dual st'.
Proof.
  intros Hd Hrun. destruct op; simpl in Hrun.
  - apply bind_Some in Hrun as (p & s1 & Halloc & [= <-]).
    unfold zfsctl_snapshot_alloc, bind, gets, modify, ret in Halloc.
    injection Halloc as <- <-. by apply dual_alloc.
  - by eapply dual_add.
  - by eapply dual_remove.
  - by eapply dual_hold.
  - by eapply dual_rele.
  - apply bind_Some in Hrun as (r & s1 & Hrun & [= <-]).
    by eapply dual_rename.
Qed.

Lemma dual_seq_run ops st st' :
  dual st → seq_run (map reg_op_run ops) st = Some (tt, st') → dual st'.
Proof.
  revert st. induction ops as [|op ops IH]; intros st Hd Hrun; simpl in Hrun.
  - by injection Hrun as <-.
  - apply bind_Some in Hrun as ([] & s1 & Hop & Hrest).
    eapply IH; [|exact Hrest]. by eapply dual_reg_op.
Qed.

(** C1: after any sequence of allocations, insertions, removals, holds,
    releases and renamings that runs to its end from the initial state,
    an entry is in the by-name tree exactly when it is in the
    by-objsetid tree. *)
Theorem registry_entries_in_both_trees ops expire admin nosetuid hz st :
  seq_run (map reg_op_run ops) (zfsctl_init expire admin nosetuid hz)
    = Some (tt, st) →
  ∀ se, in_by_name st se ↔ in_by_objsetid st se.
Proof.
  intros Hrun. eapply du_both, dual_seq_run; [apply dual_init | exact Hrun].
Qed.

Lemma registry_entries_in_both_trees_witness :
  ∃ st,
    seq_run (map reg_op_run example_reg_ops) (zfsctl_init 300 1 0 1000)
      = Some (tt, st) ∧
    (in_by_name st 1 ↔ in_by_objsetid st 1) ∧
    (in_by_name st 2 ↔ in_by_objsetid st 2).
Proof.
  eexists. split; [vm_compute; reflexivity|].
  split;
    apply (registry_entries_in_both_trees example_reg_ops 300 1 0 1000);
    vm_compute; reflexivity.
Defined.

(** * Properties of the rest of the file *)

(** ** Strings *)

Lemma strlen_append a b : strlen (a +:+ b) = strlen a + strlen b.
Proof.
  unfold strlen. induction a as [|c a IH]; [reflexivity|].
  simpl. lia.
Qed.

Lemma strlen_nonneg s : 0 ≤ strlen s.
Proof. unfold strlen. lia. Qed.

Lemma substring_length n s : (String.length (String.substring 0 n s) ≤ n)%nat.
Proof.
  revert s. induction n as [|n IH]; intros [|c s]; simpl; try lia.
  specialize (IH s). lia.
Qed.

Lemma size_t_small x : 0 ≤ x < 2 ^ 64 → size_t x = x.
Proof. intros Hx. unfold size_t. by apply Z.mod_small. Qed.

Lemma size_t_range x : 0 ≤ size_t x < 2 ^ 64.
Proof. unfold size_t. apply Z.mod_pos_bound. lia. Qed.

Lemma size_t_negative x : - 2 ^ 31 ≤ x < 0 → INT_MAX < size_t x.
Proof.
  intros Hx. unfold size_t, INT_MAX.
  replace x with (x + 2 ^ 64 + (-1) * 2 ^ 64) by lia.
  rewrite Z.mod_add by lia. rewrite Z.mod_small; lia.
Qed.

Lemma snprintf_trunc_fits buf n s :
  0 < n ≤ INT_MAX → strlen (snprintf_trunc buf n s) < n.
Proof.
  intros Hn. unfold snprintf_trunc, strlen.
  replace (n <=? 0) with false by lia.
  replace (INT_MAX <? n) with false by lia. simpl.
  pose proof (substring_length (Z.to_nat (n - 1)) s). lia.
Qed.

Lemma snprintf_trunc_none buf n s :
  n ≤ 0 ∨ INT_MAX < n → snprintf_trunc buf n s = buf.
Proof.
  intros Hn. unfold snprintf_trunc.
  destruct (n <=? 0) eqn:H0; [done|].
  destruct (INT_MAX <? n) eqn:H1; [done|]. lia.
Qed.

Lemma substring_all n s :
  (String.length s ≤ n)%nat → String.substring 0 n s = s.
Proof.
  revert s. induction n as [|n IH]; intros [|c s] Hlen; simpl in *;
    try done; try lia.
  rewrite IH; [done | lia].
Qed.

Lemma snprintf_trunc_short buf n s :
  strlen s < n ≤ INT_MAX → snprintf_trunc buf n s = s.
Proof.
  intros Hlen. unfold snprintf_trunc. pose proof (strlen_nonneg s).
  replace (n <=? 0) with false by lia.
  replace (INT_MAX <? n) with false by lia. simpl.
  apply substring_all. unfold strlen in Hlen. lia.
Qed.

Lemma strcmp_eq a b : strcmp a b = 0 ↔ a = b.
Proof.
  unfold strcmp. split.
  - destruct (String.compare a b) eqn:Hc; try discriminate.
    intros _. by apply String.compare_eq_iff.
  - intros ->. by rewrite string_compare_refl.
Qed.

Lemma strcmp_eqb a b : (strcmp a b =? 0) = bool_decide (a = b).
Proof.
  case_bool_decide as Hab.
  - apply Z.eqb_eq. by apply strcmp_eq.
  - apply Z.eqb_neq. by rewrite strcmp_eq.
Qed.

(** ** The comparators as orders *)

Lemma ascii_compare_refl c : Ascii.compare c c = Eq.
Proof. unfold Ascii.compare. apply N.compare_refl. Qed.

Lemma string_compare_lt_trans a b c :
  String.compare a b = Lt → String.compare b c = Lt →
  String.compare a c = Lt.
Proof.
  revert b c. induction a as [|c1 a IH]; intros [|c2 b] [|c3 c]; simpl;
    try done.
  destruct (Ascii.compare c1 c2) eqn:H12; [| |done].
  - apply Ascii.compare_eq_iff in H12 as ->.
    destruct (Ascii.compare c2 c3); [apply IH | done | done].
  - intros _. destruct (Ascii.compare c2 c3) eqn:H23; [| |done].
    + apply Ascii.compare_eq_iff in H23 as <-. by rewrite H12.
    + intros _. unfold Ascii.compare in *.
      apply N.compare_lt_iff in H12. apply N.compare_lt_iff in H23.
      replace (Ascii.N_of_ascii c1 ?= Ascii.N_of_ascii c3)%N with Lt; [done|].
      symmetry. apply N.compare_lt_iff. by eapply N.lt_trans.
Qed.

Lemma strcmp_antisym a b : strcmp a b = - strcmp b a.
Proof.
  unfold strcmp. rewrite (String.compare_antisym b a).
  by destruct (String.compare a b).
Qed.

Lemma strcmp_lt_trans a b c :
  strcmp a b = -1 → strcmp b c = -1 → strcmp a c = -1.
Proof.
  unfold strcmp. intros Hab Hbc.
  rewrite (string_compare_lt_trans a b c); [done | |].
  - by destruct (String.compare a b).
  - by destruct (String.compare b c).
Qed.

Lemma compare_by_name_strcmp a b :
  snapentry_compare_by_name a b = strcmp (se_name a) (se_name b).
Proof.
  unfold snapentry_compare_by_name, strcmp.
  by destruct (String.compare (se_name a) (se_name b)).
Qed.

Lemma compare_by_objsetid_cases a b :
  (snapentry_compare_by_objsetid a b = -1 ∧
   (se_spa a < se_spa b ∨
    se_spa a = se_spa b ∧ se_objsetid a < se_objsetid b)) ∨
  (snapentry_compare_by_objsetid a b = 0 ∧
   se_spa a = se_spa b ∧ se_objsetid a = se_objsetid b) ∨
  (snapentry_compare_by_objsetid a b = 1 ∧
   (se_spa b < se_spa a ∨
    se_spa a = se_spa b ∧ se_objsetid b < se_objsetid a)).
Proof.
  unfold snapentry_compare_by_objsetid. rewrite Z.gtb_ltb.
  destruct (se_spa a =? se_spa b) eqn:He; simpl.
  - destruct (se_objsetid a <? se_objsetid b) eqn:Hl.
    { left. split; [done|]. lia. }
    destruct (se_objsetid b <? se_objsetid a) eqn:Hg.
    { right. right. split; [done|]. lia. }
    right. left. split; [done|]. lia.
  - destruct (se_spa a <? se_spa b) eqn:Hl.
    + left. split; [done|]. lia.
    + right. right. split; [done|]. lia.
Qed.

(** X1: each comparator is a total order on its key, as a tree needs: it
    returns -1, 0 or 1; swapping the arguments negates the result; the
    result is 0 exactly when the two entries have the same name, or the
    same pool and object-set id; and "less than" is transitive.  The
    pool is compared before the object-set id. *)
Theorem comparators_are_total_orders a b c :
  (snapentry_compare_by_name a b = -1 ∨ snapentry_compare_by_name a b = 0 ∨
   snapentry_compare_by_name a b = 1) ∧
  snapentry_compare_by_name a b = - snapentry_compare_by_name b a ∧
  (snapentry_compare_by_name a b = 0 ↔ se_name a = se_name b) ∧
  (snapentry_compare_by_name a b = -1 ∧ snapentry_compare_by_name b c = -1 →
   snapentry_compare_by_name a c = -1) ∧
  (snapentry_compare_by_objsetid a b = -1 ∨
   snapentry_compare_by_objsetid a b = 0 ∨
   snapentry_compare_by_objsetid a b = 1) ∧
  snapentry_compare_by_objsetid a b = - snapentry_compare_by_objsetid b a ∧
  (snapentry_compare_by_objsetid a b = 0 ↔
   se_spa a = se_spa b ∧ se_objsetid a = se_objsetid b) ∧
  (snapentry_compare_by_objsetid a b = -1 ∧
   snapentry_compare_by_objsetid b c = -1 →
   snapentry_compare_by_objsetid a c = -1) ∧
  (snapentry_compare_by_objsetid a b = -1 ↔
   se_spa a < se_spa b ∨
   se_spa a = se_spa b ∧ se_objsetid a < se_objsetid b).
Proof.
  rewrite !compare_by_name_strcmp.
  pose proof (compare_by_objsetid_cases a b) as Hab.
  pose proof (compare_by_objsetid_cases b a) as Hba.
  pose proof (compare_by_objsetid_cases b c) as Hbc.
  pose proof (compare_by_objsetid_cases a c) as Hac.
  split; [|split; [|split; [|split; [|split; [|split; [|split; [|split]]]]]]].
  - unfold strcmp. destruct (String.compare _ _); by auto.
  - apply strcmp_antisym.
  - apply strcmp_eq.
  - intros [H1 H2]. by eapply strcmp_lt_trans.
  - destruct Hab as [[-> _]|[[-> _]|[-> _]]]; by auto.
  - destruct Hab as [[-> ?]|[[-> ?]|[-> ?]]];
      destruct Hba as [[-> ?]|[[-> ?]|[-> ?]]]; lia.
  - destruct Hab as [[-> ?]|[[-> ?]|[-> ?]]]; split; (done || lia).
  - intros [H1 H2].
    destruct Hab as [[_ ?]|[[? _]|[? _]]]; [|lia..].
    destruct Hbc as [[_ ?]|[[? _]|[? _]]]; [|lia..].
    destruct Hac as [[-> ?]|[[_ ?]|[_ ?]]]; [done | lia..].
  - destruct Hab as [[-> ?]|[[-> ?]|[-> ?]]]; split; (done || lia).
Qed.

(** ** Full names of snapshots *)

Lemma snapshot_name_error namecheck os_name snap_name len :
  (zfsctl_snapshot_name namecheck os_name snap_name len).1 = 0 ∨
  (zfsctl_snapshot_name namecheck os_name snap_name len).1 = EILSEQ ∨
  (zfsctl_snapshot_name namecheck os_name snap_name len).1 = ENAMETOOLONG.
Proof.
  unfold zfsctl_snapshot_name.
  destruct (negb (namecheck =? 0)); [by auto|].
  destruct (_ >=? size_t len); by auto.
Qed.

Lemma snapshot_name_ok namecheck os_name snap_name len :
  (zfsctl_snapshot_name namecheck os_name snap_name len).1 = 0 →
  namecheck = 0 ∧
  size_t (strlen os_name + 1 + strlen snap_name) < size_t len ∧
  (zfsctl_snapshot_name namecheck os_name snap_name len).2
    = os_name +:+ "@" +:+ snap_name.
Proof.
  unfold zfsctl_snapshot_name.
  destruct (namecheck =? 0) eqn:Hc; simpl; [|done].
  destruct (_ >=? size_t len) eqn:Hl; simpl; [done|]. intros _.
  rewrite Z.geb_leb in Hl. split; [lia|]. split; [lia | done].
Qed.

(** X2: [zfsctl_snapshot_name] succeeds exactly when the component is
    valid and the length of the dataset's name, "@" and the snapshot's
    name, added up in [size_t], is below [len] converted to [size_t];
    the name it then writes is those three put together.  For a [len]
    that is not negative this is the comparison of the numbers
    themselves, and the name fits in [len] bytes with its terminator; a
    negative [len] becomes huge, so that a valid component of ordinary
    length is never refused and the name is written whatever room there
    is.  An invalid component is refused with [EILSEQ] whatever its
    length, and a valid one that does not pass the comparison with
    [ENAMETOOLONG].  Within one dataset different snapshots get
    different names. *)
Theorem snapshot_name_fits namecheck os_name snap_name len :
  let total := strlen os_name + 1 + strlen snap_name in
  ((zfsctl_snapshot_name namecheck os_name snap_name len).1 = 0 ↔
   namecheck = 0 ∧ size_t total < size_t len) ∧
  ((zfsctl_snapshot_name namecheck os_name snap_name len).1 = 0 →
   (zfsctl_snapshot_name namecheck os_name snap_name len).2
     = os_name +:+ "@" +:+ snap_name) ∧
  (0 ≤ len ≤ INT_MAX ∧ total < 2 ^ 64 →
   ((zfsctl_snapshot_name namecheck os_name snap_name len).1 = 0 ↔
    namecheck = 0 ∧ total < len) ∧
   ((zfsctl_snapshot_name namecheck os_name snap_name len).1 = 0 →
    strlen (zfsctl_snapshot_name namecheck os_name snap_name len).2 + 1
      ≤ len)) ∧
  (- 2 ^ 31 ≤ len < 0 ∧ total ≤ INT_MAX ∧ namecheck = 0 →
   zfsctl_snapshot_name namecheck os_name snap_name len
     = (0, os_name +:+ "@" +:+ snap_name)) ∧
  (namecheck ≠ 0 →
   (zfsctl_snapshot_name namecheck os_name snap_name len).1 = EILSEQ) ∧
  (namecheck = 0 ∧ size_t len ≤ size_t total →
   (zfsctl_snapshot_name namecheck os_name snap_name len).1 = ENAMETOOLONG) ∧
  (∀ snap_name',
     os_name +:+ "@" +:+ snap_name = os_name +:+ "@" +:+ snap_name' →
     snap_name = snap_name').
Proof.
  intros total.
  assert (0 ≤ total) as Hpos.
  { unfold total. pose proof (strlen_nonneg os_name).
    pose proof (strlen_nonneg snap_name). lia. }
  assert ((zfsctl_snapshot_name namecheck os_name snap_name len).1 = 0 ↔
          namecheck = 0 ∧ size_t total < size_t len) as Hiff.
  { split.
    - intros H0. by destruct (snapshot_name_ok _ _ _ _ H0) as (? & ? & _).
    - intros [-> Hlen]. unfold zfsctl_snapshot_name. simpl.
      fold total. rewrite Z.geb_leb.
      by replace (size_t len <=? size_t total) with false by lia. }
  split; [exact Hiff|]. split; [|split; [|split; [|split; [|split]]]].
  - intros H0. by destruct (snapshot_name_ok _ _ _ _ H0) as (_ & _ & ->).
  - intros [Hlen Htot].
    assert (size_t len = len) as Hl
      by (apply size_t_small; unfold INT_MAX in Hlen; lia).
    assert (size_t total = total) as Ht by (apply size_t_small; lia).
    rewrite Hiff, Hl, Ht. split; [done|]. intros [-> Hfit].
    unfold zfsctl_snapshot_name. fold total. rewrite Hl, Ht. simpl.
    rewrite Z.geb_leb. replace (len <=? total) with false by lia. simpl.
    rewrite !strlen_append. change (strlen "@") with 1.
    unfold total in Hfit. lia.
  - intros (Hlen & Htot & ->).
    pose proof (size_t_negative len Hlen) as Hbig.
    assert (size_t total = total) as Ht
      by (apply size_t_small; unfold INT_MAX in Htot; lia).
    unfold zfsctl_snapshot_name. fold total. simpl. rewrite Ht.
    rewrite Z.geb_leb. by replace (size_t len <=? total) with false by lia.
  - intros Hc. unfold zfsctl_snapshot_name.
    by replace (namecheck =? 0) with false by lia.
  - intros [-> Hlen]. unfold zfsctl_snapshot_name. simpl. fold total.
    rewrite Z.geb_leb.
    by replace (size_t len <=? size_t total) with true by lia.
  - intros snap_name' Heq. clear total Hpos Hiff.
    induction os_name as [|c os IH]; simpl in Heq.
    + by injection Heq.
    + injection Heq as Heq. by apply IH.
Qed.

(** ** Tearing down and re-arming, step by step *)

Lemma remove_eq p e st :
  kmem st !! p = Some e →
  zfs_snapshots_by_name st !! se_name e = Some p →
  zfs_snapshots_by_objsetid st !! objsetid_key e = Some p →
  2 ≤ se_refcount e →
  zfsctl_snapshot_remove p st =
  Some (tt, upd_kmem (<[p := set_se_refcount (se_refcount e - 1) e]>)
              (set_by_objsetid
                 (delete (objsetid_key e) (zfs_snapshots_by_objsetid st))
                 (set_by_name (delete (se_name e) (zfs_snapshots_by_name st))
                    st))).
Proof.
  intros He Hn Ho Hrc. unfold zfsctl_snapshot_remove, bind.
  rewrite avl_remove_by_name_eq, He, (decide_True _ _ Hn).
  rewrite avl_remove_by_objsetid_eq. simpl. rewrite He.
  rewrite (decide_True _ _ Ho). rewrite rele_eq. simpl. rewrite He.
  replace (se_refcount e <=? 0) with false by lia.
  by replace (se_refcount e =? 1) with false by lia.
Qed.

(** Tearing down the registration of an entry on which [k] references
    are held besides the registry's and its task's. *)
Lemma destroy_eq spa o p e k st :
  zfs_snapshots_by_objsetid st !! (spa, o) = Some p →
  kmem st !! p = Some e →
  zfs_snapshots_by_name st !! se_name e = Some p →
  objsetid_key e = (spa, o) →
  0 ≤ k →
  se_refcount e = 1 + pend_count st e + k →
  ∃ st',
    zfsctl_destroy true spa o st = Some (tt, st') ∧
    kmem st' =
      (if k =? 0 then delete p (kmem st)
       else <[p := set_se_taskqid TASKQID_INVALID (set_se_refcount k e)]>
              (kmem st)) ∧
    zfs_snapshots_by_name st'
      = delete (se_name e) (zfs_snapshots_by_name st) ∧
    zfs_snapshots_by_objsetid st'
      = delete (spa, o) (zfs_snapshots_by_objsetid st) ∧
    tq_pending st' = delete (se_taskqid e) (tq_pending st) ∧
    tq_next_id st' = tq_next_id st ∧
    klog st' = klog st.
Proof.
  intros Ho He Hn Hkey Hk Hrc. unfold zfsctl_destroy, bind.
  rewrite find_by_objsetid_eq, Ho, He.
  set (e1 := set_se_refcount (se_refcount e + 1) e).
  set (s1 := upd_kmem _ st).
  assert (0 ≤ pend_count st e) as Hpc.
  { unfold pend_count. destruct (tq_pending st !! _); lia. }
  rewrite (remove_eq p e1 s1);
    [| apply lookup_insert_eq | exact Hn
     | change (objsetid_key e1) with (objsetid_key e); rewrite Hkey; exact Ho
     | simpl; lia].
  change (objsetid_key e1) with (objsetid_key e). rewrite Hkey.
  set (e2 := set_se_refcount (se_refcount e1 - 1) e1).
  set (s2 := upd_kmem _ _).
  assert (kmem s2 !! p = Some e2) as He2 by apply lookup_insert_eq.
  rewrite (cancel_eq p e2 s2 He2).
  change (se_taskqid e2) with (se_taskqid e).
  change (tq_pending s2) with (tq_pending st).
  unfold pend_count in Hrc.
  destruct (tq_pending st !! se_taskqid e) as [t|] eqn:Ht.
  - rewrite rele_eq. simpl. rewrite lookup_insert_eq. simpl.
    replace (se_refcount e + 1 - 1 <=? 0) with false by lia.
    replace (se_refcount e + 1 - 1 =? 1) with false by lia.
    rewrite rele_eq. simpl. rewrite lookup_insert_eq. simpl.
    replace (se_refcount e + 1 - 1 - 1 <=? 0) with false by lia.
    replace (se_refcount e + 1 - 1 - 1 =? 1) with (k =? 0) by lia.
    eexists. split; [reflexivity|].
    destruct (k =? 0) eqn:Hk0; simpl.
    + by rewrite !delete_insert_eq.
    + rewrite !insert_insert_eq. repeat split. do 2 f_equal.
      unfold set_se_taskqid, set_se_refcount. simpl. f_equal. lia.
  - rewrite rele_eq. simpl. rewrite lookup_insert_eq. simpl.
    replace (se_refcount e + 1 - 1 <=? 0) with false by lia.
    replace (se_refcount e + 1 - 1 =? 1) with (k =? 0) by lia.
    eexists. split; [reflexivity|].
    rewrite (delete_id (tq_pending st)) by done.
    destruct (k =? 0) eqn:Hk0; destruct (decide _); simpl;
      rewrite ?delete_insert_eq, ?insert_insert_eq; repeat split;
      do 2 f_equal; unfold set_se_taskqid, set_se_refcount; simpl;
      f_equal; lia.
Qed.

Lemma ginv_entry_by_objsetid h st spa o p :
  ginv h st →
  zfs_snapshots_by_objsetid st !! (spa, o) = Some p →
  ∃ e,
    kmem st !! p = Some e ∧ objsetid_key e = (spa, o) ∧
    zfs_snapshots_by_name st !! se_name e = Some p ∧
    se_refcount e = 1 + pend_count st e + h p.
Proof.
  intros Hg Ho. destruct (gi_objsetid _ _ Hg _ _ Ho) as (e & He & Hkey).
  exists e. split; [done|]. split; [done|].
  assert (zfs_snapshots_by_name st !! se_name e = Some p) as Hn.
  { apply (gi_both _ _ Hg _ _ He). by rewrite Hkey. }
  split; [done|]. rewrite (gi_refs _ _ Hg _ _ He). unfold reg_count.
  by rewrite decide_True.
Qed.

Lemma ginv_entry_by_name h st n p :
  ginv h st →
  zfs_snapshots_by_name st !! n = Some p →
  ∃ e,
    kmem st !! p = Some e ∧ se_name e = n ∧
    zfs_snapshots_by_objsetid st !! objsetid_key e = Some p ∧
    se_refcount e = 1 + pend_count st e + h p.
Proof.
  intros Hg Hn. destruct (gi_name _ _ Hg _ _ Hn) as (e & He & Hname).
  exists e. split; [done|]. split; [done|].
  split; [apply (gi_both _ _ Hg _ _ He); by rewrite Hname|].
  rewrite (gi_refs _ _ Hg _ _ He). unfold reg_count.
  rewrite decide_True; [done | by rewrite Hname].
Qed.

(** X3: when the file system of a registered snapshot goes away,
    [zfsctl_destroy] leaves nothing of its entry behind: the entry is
    taken out of both trees and freed, and the task pending for it, if
    there is one, is cancelled, so that no pending task refers to the
    freed entry.  Nothing else is touched, and for an object-set id that
    is not registered, or for a head file system, nothing happens. *)
Theorem destroy_frees_entry st spa o :
  reachable st →
  (∀ p, zfs_snapshots_by_objsetid st !! (spa, o) = Some p →
     ∃ e st',
       kmem st !! p = Some e ∧
       zfsctl_destroy true spa o st = Some (tt, st') ∧
       kmem st' = delete p (kmem st) ∧
       zfs_snapshots_by_name st'
         = delete (se_name e) (zfs_snapshots_by_name st) ∧
       zfs_snapshots_by_objsetid st'
         = delete (spa, o) (zfs_snapshots_by_objsetid st) ∧
       tq_pending st' = delete (se_taskqid e) (tq_pending st) ∧
       (∀ id t, tq_pending st' !! id = Some t → tk_arg t ≠ p) ∧
       klog st' = klog st) ∧
  (zfs_snapshots_by_objsetid st !! (spa, o) = None →
     zfsctl_destroy true spa o st = Some (tt, st)) ∧
  zfsctl_destroy false spa o st = Some (tt, st).
Proof.
  intros Hg%reachable_inv. split; [|split; [|done]].
  - intros p Ho.
    destruct (ginv_entry_by_objsetid _ _ _ _ _ Hg Ho)
      as (e & He & Hkey & Hn & Hrc).
    destruct (destroy_eq spa o p e 0 st Ho He Hn Hkey ltac:(lia) Hrc)
      as (st' & Hrun & Hk & Hbn & Hbo & Hq & _ & Hlog).
    exists e, st'. simpl in Hk. repeat (split; [done|]). split; [|done].
    intros id t Ht Harg. rewrite Hq in Ht.
    apply lookup_delete_Some in Ht as [Hne Ht].
    destruct (gi_task _ _ Hg _ _ Ht) as (_ & e' & He' & Hid).
    rewrite Harg, He in He'. injection He' as <-. done.
  - intros Ho. unfold zfsctl_destroy, bind.
    by rewrite find_by_objsetid_eq, Ho.
Qed.

Lemma destroy_frees_entry_witness :
  ∃ st',
    zfsctl_destroy true 7 42 example_mounted = Some (tt, st') ∧
    kmem st' = delete 1 (kmem example_mounted) ∧
    tq_pending st' = delete 1 (tq_pending example_mounted).
Proof.
  destruct (destroy_frees_entry example_mounted 7 42
              example_mounted_reachable) as (Hreg & _).
  destruct (Hreg 1 ltac:(vm_compute; reflexivity))
    as (e & st' & He & Hrun & Hk & _ & _ & Hq & _).
  exists st'. split; [done|]. split; [done|].
  vm_compute in He. injection He as <-. exact Hq.
Defined.

(** X4: an unmount whose helper succeeds and during which the kernel
    tears the snapshot's mount down returns 0 and leaves nothing of the
    entry behind: it is out of both trees and freed, and its task is
    cancelled. *)
Theorem unmount_success_unregisters st n flags o p :
  reachable st →
  zfs_snapshots_by_name st !! n = Some p →
  umh_status o = 0 →
  umh_unmounted o = true →
  ∃ e st',
    kmem st !! p = Some e ∧
    zfsctl_snapshot_unmount n flags o st = Some (0, st') ∧
    kmem st' = delete p (kmem st) ∧
    zfs_snapshots_by_name st' = delete n (zfs_snapshots_by_name st) ∧
    zfs_snapshots_by_objsetid st'
      = delete (objsetid_key e) (zfs_snapshots_by_objsetid st) ∧
    tq_pending st' = delete (se_taskqid e) (tq_pending st).
Proof.
  intros Hg%reachable_inv Hn Hstatus Hun.
  destruct (ginv_entry_by_name _ _ _ _ Hg Hn) as (e & He & Hname & Ho & Hrc).
  exists e. unfold zfsctl_snapshot_unmount, bind.
  rewrite find_by_name_eq, Hn, He.
  set (e1 := set_se_refcount (se_refcount e + 1) e).
  rewrite exportfs_flush_eq. unfold deref.
  change (kmem (log_event _ (upd_kmem <[p:=e1]> st)))
    with (<[p:=e1]> (kmem st)).
  rewrite lookup_insert_eq.
  unfold call_usermodehelper, bind, modify, ret. rewrite Hun, Hstatus.
  set (s2 := log_event _ _).
  destruct (destroy_eq (se_spa e) (se_objsetid e) p e1 1 s2)
    as (s3 & Hrun & Hk & Hbn & Hbo & Hq & _ & Hlog).
  { exact Ho. }
  { apply lookup_insert_eq. }
  { exact (eq_ind_r (λ k, zfs_snapshots_by_name st !! k = Some p) Hn Hname). }
  { done. }
  { lia. }
  { change (pend_count s2 e1) with (pend_count st e). simpl. lia. }
  change (se_spa e1) with (se_spa e).
  change (se_objsetid e1) with (se_objsetid e).
  rewrite Hrun. simpl in Hk.
  rewrite rele_eq, Hk, lookup_insert_eq. simpl.
  eexists. split; [done|]. split; [reflexivity|]. simpl.
  rewrite Hk, Hbn, Hbo, Hq. simpl.
  rewrite delete_insert_eq, delete_insert_eq. rewrite Hname. done.
Qed.

Lemma unmount_success_unregisters_witness :
  ∃ st',
    zfsctl_snapshot_unmount "pool/fs@s1" MNT_FORCE (mk_umh 0 true 0)
      example_mounted = Some (0, st') ∧
    kmem st' = delete 1 (kmem example_mounted).
Proof.
  destruct (unmount_success_unregisters example_mounted "pool/fs@s1"
              MNT_FORCE (mk_umh 0 true 0) 1 example_mounted_reachable
              ltac:(vm_compute; reflexivity) eq_refl eq_refl)
    as (e & st' & _ & Hrun & Hk & _).
  by exists st'.
Defined.

Lemma unmount_delay_eq spa o p e delay st :
  zfs_snapshots_by_objsetid st !! (spa, o) = Some p →
  kmem st !! p = Some e →
  se_refcount e = 1 + pend_count st e →
  ∃ st',
    zfsctl_snapshot_unmount_delay spa o delay st = Some (0, st') ∧
    kmem st' =
      <[p := set_se_taskqid
               (if 0 <? delay then tq_next_id st else TASKQID_INVALID)
               (set_se_refcount (if 0 <? delay then 2 else 1) e)]>
        (kmem st) ∧
    tq_pending st' =
      (if 0 <? delay
       then <[tq_next_id st :=
                mk_task p (lbolt st + int_wrap (delay * HZ st))]>
              (delete (se_taskqid e) (tq_pending st))
       else delete (se_taskqid e) (tq_pending st)) ∧
    same_trees st st' ∧
    klog st' = klog st.
Proof.
  intros Ho He Hrc. unfold zfsctl_snapshot_unmount_delay, bind.
  rewrite find_by_objsetid_eq, Ho, He.
  set (e1 := set_se_refcount (se_refcount e + 1) e).
  set (s1 := upd_kmem _ st).
  assert (kmem s1 !! p = Some e1) as He1 by apply lookup_insert_eq.
  rewrite (cancel_eq p e1 s1 He1).
  change (se_taskqid e1) with (se_taskqid e).
  change (tq_pending s1) with (tq_pending st).
  unfold pend_count in Hrc.
  destruct (tq_pending st !! se_taskqid e) as [t|] eqn:Ht.
  - rewrite rele_eq. simpl. rewrite lookup_insert_eq. simpl.
    replace (se_refcount e + 1 <=? 0) with false by lia.
    replace (se_refcount e + 1 =? 1) with false by lia.
    set (e2 := set_se_refcount _ _). set (s2 := upd_kmem _ _).
    assert (kmem s2 !! p = Some e2) as He2 by apply lookup_insert_eq.
    destruct (0 <? delay) eqn:Hd.
    + rewrite (delay_impl_idle p e2 delay s2 He2 eq_refl ltac:(lia)).
      rewrite rele_eq. simpl. rewrite lookup_insert_eq. simpl.
      replace (se_refcount e + 1 - 1 + 1 <=? 0) with false by lia.
      replace (se_refcount e + 1 - 1 + 1 =? 1) with false by lia.
      eexists. split; [reflexivity|]. simpl.
      rewrite !insert_insert_eq. repeat split. do 2 f_equal.
      unfold set_se_taskqid, set_se_refcount. simpl. f_equal. lia.
    + rewrite (delay_impl_disabled p delay s2 ltac:(lia)).
      rewrite rele_eq. rewrite He2. simpl.
      replace (se_refcount e + 1 - 1 <=? 0) with false by lia.
      replace (se_refcount e + 1 - 1 =? 1) with false by lia.
      eexists. split; [reflexivity|]. simpl.
      rewrite !insert_insert_eq. repeat split. do 2 f_equal.
      unfold set_se_taskqid, set_se_refcount. simpl. f_equal. lia.
  - rewrite (delete_id (tq_pending st)) by done.
    match goal with
    | |- context [@decide ?P ?d] => destruct (@decide P d)
    end;
      set (s2 := upd_kmem _ _); set (e2 := set_se_taskqid TASKQID_INVALID e1);
      assert (kmem s2 !! p = Some e2) as He2 by apply lookup_insert_eq;
      (destruct (0 <? delay) eqn:Hd;
       [ rewrite (delay_impl_idle p e2 delay s2 He2 eq_refl ltac:(lia));
         rewrite rele_eq; simpl; rewrite lookup_insert_eq; simpl;
         replace (se_refcount e + 1 + 1 <=? 0) with false by lia;
         replace (se_refcount e + 1 + 1 =? 1) with false by lia
       | rewrite (delay_impl_disabled p delay s2 ltac:(lia));
         rewrite rele_eq; rewrite He2; simpl;
         replace (se_refcount e + 1 <=? 0) with false by lia;
         replace (se_refcount e + 1 =? 1) with false by lia ]);
      (eexists; split; [reflexivity|]; simpl;
       rewrite !insert_insert_eq; repeat split; do 2 f_equal;
       unfold set_se_taskqid, set_se_refcount; simpl; f_equal; lia).
Qed.

(** X5: [zfsctl_snapshot_unmount_delay] moves the deadline: for a
    registered snapshot it returns 0, the task that was pending for the
    entry, if any, is pending no more, and with a positive delay one
    new task is pending for it, due that many seconds from now and
    recorded in the entry, which is then held by the registry and that
    task; with a delay that is not positive the entry is left without a
    task, held by the registry alone.  The trees and the log are not
    touched.  For an object-set id that is not registered it returns
    [ENOENT] and does nothing. *)
Theorem unmount_delay_moves_deadline st spa o delay :
  reachable st →
  (zfs_snapshots_by_objsetid st !! (spa, o) = None →
     zfsctl_snapshot_unmount_delay spa o delay st = Some (ENOENT, st)) ∧
  (∀ p, zfs_snapshots_by_objsetid st !! (spa, o) = Some p →
     ∃ e st',
       kmem st !! p = Some e ∧
       zfsctl_snapshot_unmount_delay spa o delay st = Some (0, st') ∧
       kmem st' =
         <[p := set_se_taskqid
                  (if 0 <? delay then tq_next_id st else TASKQID_INVALID)
                  (set_se_refcount (if 0 <? delay then 2 else 1) e)]>
           (kmem st) ∧
       tq_pending st' =
         (if 0 <? delay
          then <[tq_next_id st :=
                   mk_task p (lbolt st + int_wrap (delay * HZ st))]>
                 (delete (se_taskqid e) (tq_pending st))
          else delete (se_taskqid e) (tq_pending st)) ∧
       (∀ id t, tq_pending st' !! id = Some t → tk_arg t = p →
                0 < delay ∧ id = tq_next_id st) ∧
       same_trees st st' ∧
       klog st' = klog st).
Proof.
  intros Hg%reachable_inv. split.
  - intros Ho. unfold zfsctl_snapshot_unmount_delay, bind.
    by rewrite find_by_objsetid_eq, Ho.
  - intros p Ho.
    destruct (ginv_entry_by_objsetid _ _ _ _ _ Hg Ho)
      as (e & He & _ & _ & Hrc).
    destruct (unmount_delay_eq spa o p e delay st Ho He ltac:(lia))
      as (st' & Hrun & Hk & Hq & Htrees & Hlog).
    exists e, st'. repeat (split; [done|]). split; [|done].
    intros id t Ht Harg. rewrite Hq in Ht.
    assert (∀ id', delete (se_taskqid e) (tq_pending st) !! id' = Some t →
              False) as Hold.
    { intros id' [Hne Ht']%lookup_delete_Some.
      destruct (gi_task _ _ Hg _ _ Ht') as (_ & e' & He' & Hid).
      rewrite Harg, He in He'. injection He' as <-. done. }
    destruct (0 <? delay) eqn:Hd; [|by apply Hold in Ht].
    split; [lia|].
    destruct (decide (id = tq_next_id st)) as [|Hne]; [done|].
    rewrite lookup_insert_ne in Ht by done. by apply Hold in Ht.
Qed.

Lemma unmount_delay_moves_deadline_witness :
  ∃ st',
    zfsctl_snapshot_unmount_delay 7 42 60 example_mounted = Some (0, st') ∧
    tq_pending st' = {[2 := mk_task 1 60000]}.
Proof.
  destruct (unmount_delay_moves_deadline example_mounted 7 42 60
              example_mounted_reachable) as (_ & Hreg).
  destruct (Hreg 1 ltac:(vm_compute; reflexivity))
    as (e & st' & He & Hrun & _ & Hq & _).
  exists st'. split; [done|]. rewrite Hq.
  vm_compute in He. injection He as <-. vm_compute. reflexivity.
Defined.

(** ** Registering and unregistering *)

Lemma add_eq se e st :
  kmem st !! se = Some e →
  zfs_snapshots_by_name st !! se_name e = None →
  zfs_snapshots_by_objsetid st !! objsetid_key e = None →
  zfsctl_snapshot_add se st =
  Some (tt, set_by_objsetid
              (<[objsetid_key e := se]> (zfs_snapshots_by_objsetid st))
              (set_by_name (<[se_name e := se]> (zfs_snapshots_by_name st))
                 (upd_kmem (<[se := set_se_refcount (se_refcount e + 1) e]>)
                    st))).
Proof.
  intros He Hn Ho. unfold zfsctl_snapshot_add, bind.
  rewrite hold_eq, He. rewrite avl_add_by_name_eq. simpl.
  rewrite lookup_insert_eq. simpl. rewrite Hn.
  rewrite avl_add_by_objsetid_eq. simpl. rewrite lookup_insert_eq.
  change (objsetid_key (set_se_refcount (se_refcount e + 1) e))
    with (objsetid_key e).
  by rewrite Ho.
Qed.

(** X6: registering an entry and unregistering it again is a round trip.
    For an entry that is allocated and held at least once, whose name
    and object-set id are in neither tree, [zfsctl_snapshot_add] puts it
    into both trees, where both lookups find it, and takes one
    reference; [zfsctl_snapshot_remove] then gives back exactly the
    state before.  An entry whose name or object-set id is registered
    already cannot be added: the tree panics. *)
Theorem add_remove_roundtrip se e st :
  kmem st !! se = Some e →
  1 ≤ se_refcount e →
  zfs_snapshots_by_name st !! se_name e = None →
  zfs_snapshots_by_objsetid st !! objsetid_key e = None →
  ∃ st1,
    zfsctl_snapshot_add se st = Some (tt, st1) ∧
    zfs_snapshots_by_name st1 !! se_name e = Some se ∧
    zfs_snapshots_by_objsetid st1 !! (se_spa e, se_objsetid e) = Some se ∧
    refs st1 se = Some (se_refcount e + 1) ∧
    (∃ st2, zfsctl_snapshot_find_by_name (se_name e) st1
              = Some (Some se, st2)) ∧
    (∃ st2, zfsctl_snapshot_find_by_objsetid (se_spa e) (se_objsetid e) st1
              = Some (Some se, st2)) ∧
    zfsctl_snapshot_remove se st1 = Some (tt, st) ∧
    zfsctl_snapshot_add se st1 = None.
Proof.
  intros He Hrc Hn Ho. rewrite (add_eq se e st He Hn Ho).
  set (e1 := set_se_refcount (se_refcount e + 1) e).
  eexists. split; [reflexivity|]. set (st1 := set_by_objsetid _ _).
  assert (kmem st1 !! se = Some e1) as He1 by apply lookup_insert_eq.
  assert (zfs_snapshots_by_name st1 !! se_name e = Some se) as Hn1
    by apply lookup_insert_eq.
  assert (zfs_snapshots_by_objsetid st1 !! objsetid_key e = Some se) as Ho1
    by apply lookup_insert_eq.
  split; [done|]. split; [done|].
  split; [unfold refs; by rewrite He1|].
  split; [rewrite find_by_name_eq, Hn1, He1; by eexists|].
  split.
  { rewrite find_by_objsetid_eq.
    change (se_spa e, se_objsetid e) with (objsetid_key e).
    rewrite Ho1, He1. by eexists. }
  split.
  - rewrite (remove_eq se e1 st1 He1 Hn1 Ho1); [|simpl; lia].
    do 2 f_equal. apply kstate_ext; simpl; try done.
    + rewrite insert_insert_eq. unfold e1, set_se_refcount. simpl.
      replace (se_refcount e + 1 - 1) with (se_refcount e) by lia.
      apply insert_id. rewrite He. by destruct e.
    + rewrite delete_insert_eq. by apply delete_id.
    + change (objsetid_key e1) with (objsetid_key e).
      rewrite delete_insert_eq. by apply delete_id.
  - unfold zfsctl_snapshot_add, bind. rewrite hold_eq, He1.
    rewrite avl_add_by_name_eq. simpl. rewrite lookup_insert_eq. simpl.
    by rewrite lookup_insert_eq.
Qed.

Lemma add_remove_roundtrip_witness :
  ∃ st0 st1,
    zfsctl_snapshot_alloc "pool/fs@s2" "/mnt/.zfs/snapshot/s2" 7 43 98
      example_mounted = Some (2, st0) ∧
    zfsctl_snapshot_hold 2 st0 = Some (tt, st1) ∧
    ∃ st2,
      zfsctl_snapshot_add 2 st1 = Some (tt, st2) ∧
      zfsctl_snapshot_remove 2 st2 = Some (tt, st1).
Proof.
  eexists _, _. split; [vm_compute; reflexivity|].
  split; [vm_compute; reflexivity|].
  match goal with
  | |- ∃ st2, zfsctl_snapshot_add 2 ?s = _ ∧ _ =>
      destruct (add_remove_roundtrip 2
                  (mk_snapentry "pool/fs@s2" "/mnt/.zfs/snapshot/s2" 7 43 98
                     0 1) s)
        as (st2 & Hadd & _ & _ & _ & _ & _ & Hrem & _)
  end.
  - vm_compute. reflexivity.
  - simpl. lia.
  - vm_compute. reflexivity.
  - vm_compute. reflexivity.
  - exists st2. by split.
Defined.

(** ** Queries, mounts and expiry *)

(** X7: between two entry points [zfsctl_snapshot_ismounted] is a pure
    query: it says whether the name is registered, and the reference it
    takes to find that out is given back, so that nothing has changed
    when it returns. *)
Theorem ismounted_is_pure_query st n :
  reachable st →
  zfsctl_snapshot_ismounted n st
    = Some (bool_decide (is_Some (zfs_snapshots_by_name st !! n)), st).
Proof. intros Hg%reachable_inv. by apply (ismounted_ginv (λ _, 0)). Qed.

Lemma ismounted_is_pure_query_witness :
  zfsctl_snapshot_ismounted "pool/fs@s1" example_mounted
    = Some (true, example_mounted) ∧
  zfsctl_snapshot_ismounted "pool/fs@s2" example_mounted
    = Some (false, example_mounted).
Proof.
  split.
  - apply (ismounted_is_pure_query example_mounted "pool/fs@s1"
             example_mounted_reachable).
  - apply (ismounted_is_pure_query example_mounted "pool/fs@s2"
             example_mounted_reachable).
Defined.

Lemma mount_options_fit nosetuid :
  snprintf_trunc String.EmptyString 7
    (if negb (nosetuid =? 0) then "nosuid" else "suid")
  = if nosetuid =? 0 then "suid"%string else "nosuid"%string.
Proof. by destruct (nosetuid =? 0). Qed.

Lemma mount_helper_error_bit error :
  mount_helper_error error = if Z.testbit error 15 then 0 else EISDIR.
Proof.
  unfold mount_helper_error.
  change (Z.shiftl MOUNT_BUSY 8) with (2 ^ 15).
  destruct (Z.testbit error 15) eqn:Hbit.
  - destruct (Z.land error (2 ^ 15) =? 0) eqn:Hl; [|done].
    apply Z.eqb_eq in Hl. apply (f_equal (λ x, Z.testbit x 15)) in Hl.
    rewrite Z.land_spec, Hbit in Hl. done.
  - replace (Z.land error (2 ^ 15)) with 0; [done|].
    symmetry. apply Z.bits_inj'. intros n Hn.
    rewrite Z.land_spec, Z.bits_0.
    destruct (decide (n = 15)) as [->|Hne]; [by rewrite Hbit|].
    rewrite Z.pow2_bits_false by lia. apply andb_false_r.
Qed.

(** X8: a mount that registers nothing.  For a snapshot that is
    registered already [zfsctl_snapshot_mount] returns 0 without calling
    the helper or changing anything.  For one that is not, a helper that
    exits with a status other than 0 is called once, with the options
    "suid" or "nosuid" never cut short, and nothing is registered or
    scheduled; the call returns 0 when bit 15 of the status is set,
    which is bit [MOUNT_BUSY] of the exit code, and [EISDIR]
    otherwise. *)
Theorem mount_without_registration st env full_name full_path :
  reachable st →
  mount_prepare env = inr (full_name, full_path) →
  (is_Some (zfs_snapshots_by_name st !! full_name) →
     zfsctl_snapshot_mount env st = Some (0, st)) ∧
  (zfs_snapshots_by_name st !! full_name = None ∧ me_umh_status env ≠ 0 →
     zfsctl_snapshot_mount env st =
     Some (if Z.testbit (me_umh_status env) 15 then 0 else EISDIR,
           log_event
             (EvUsermodehelper
                (mount_argv
                   (if zfs_snapshot_no_setuid st =? 0 then "suid"
                    else "nosuid") full_name full_path)) st)).
Proof.
  intros Hg%reachable_inv Hprep. unfold zfsctl_snapshot_mount.
  rewrite Hprep. split.
  - intros Hsome. unfold bind.
    rewrite (ismounted_ginv (λ _, 0) _ full_name Hg).
    by rewrite bool_decide_true.
  - intros [Hnone Hstatus]. unfold bind at 1.
    rewrite (ismounted_ginv (λ _, 0) _ full_name Hg).
    rewrite bool_decide_false by (rewrite Hnone; by intros [? ?]).
    unfold mount_helper, call_usermodehelper, bind, gets, modify, ret.
    replace (me_umh_status env =? 0) with false by lia. simpl.
    by rewrite mount_options_fit, mount_helper_error_bit.
Qed.

Lemma mount_without_registration_witness :
  zfsctl_snapshot_mount example_env example_mounted
    = Some (0, example_mounted) ∧
  ∃ st', zfsctl_snapshot_mount example_env_busy (zfsctl_init 300 1 0 1000)
           = Some (0, st') ∧
         kmem st' = ∅.
Proof.
  split.
  - apply (mount_without_registration example_mounted example_env
             "pool/fs@s1" "/mnt/.zfs/snapshot/s1" example_mounted_reachable);
      [vm_compute; reflexivity|]. eexists. vm_compute. reflexivity.
  - eexists. split.
    + apply (mount_without_registration (zfsctl_init 300 1 0 1000)
               example_env_busy "pool/fs@s1" "/mnt/.zfs/snapshot/s1"
               (reachable_init 300 1 0 1000));
        [vm_compute; reflexivity|].
      split; [reflexivity | vm_compute; discriminate].
    + reflexivity.
Defined.

(** X9: a mount that registers.  For a snapshot registered neither by
    name nor by object-set id, with a helper that exits with 0 and a
    mount that can be followed down, [zfsctl_snapshot_mount] returns 0
    having called the helper once and put a new entry, with the full
    name, the mount path and the object-set id, into both trees.  With
    a positive [zfs_expire_snapshot] one task is then pending for the
    entry, due that many seconds from now, and the entry is held twice;
    otherwise no task is dispatched and the registry alone holds it.
    When the mount cannot be followed down nothing is registered. *)
Theorem mount_registers_entry st env full_name full_path :
  mount_prepare env = inr (full_name, full_path) →
  zfs_snapshots_by_name st !! full_name = None →
  me_umh_status env = 0 →
  (∀ spa o d,
     me_follow_down env = Some (spa, o, d) →
     zfs_snapshots_by_objsetid st !! (spa, o) = None →
     ∃ st',
       zfsctl_snapshot_mount env st = Some (0, st') ∧
       zfs_snapshots_by_name st'
         = <[full_name := kmem_next st]> (zfs_snapshots_by_name st) ∧
       zfs_snapshots_by_objsetid st'
         = <[(spa, o) := kmem_next st]> (zfs_snapshots_by_objsetid st) ∧
       kmem st' =
         <[kmem_next st :=
             mk_snapentry full_name full_path spa o d
               (if 0 <? zfs_expire_snapshot st then tq_next_id st
                else TASKQID_INVALID)
               (if 0 <? zfs_expire_snapshot st then 2 else 1)]> (kmem st) ∧
       tq_pending st' =
         (if 0 <? zfs_expire_snapshot st
          then <[tq_next_id st :=
                   mk_task (kmem_next st)
                     (lbolt st
                      + int_wrap (zfs_expire_snapshot st * HZ st))]>
                 (tq_pending st)
          else tq_pending st) ∧
       umh_count st' = (umh_count st + 1)%nat) ∧
  (me_follow_down env = None →
     ∃ st',
       zfsctl_snapshot_mount env st = Some (0, st') ∧
       kmem st' = kmem st ∧ same_trees st st' ∧
       tq_pending st' = tq_pending st).
Proof.
  intros Hprep Hn Hstatus. split.
  - intros spa o d Hfollow Ho.
    assert (wp (zfsctl_snapshot_mount env)
      (λ r st', r = 0 ∧
         zfs_snapshots_by_name st'
           = <[full_name := kmem_next st]> (zfs_snapshots_by_name st) ∧
         zfs_snapshots_by_objsetid st'
           = <[(spa, o) := kmem_next st]> (zfs_snapshots_by_objsetid st) ∧
         kmem st' =
           <[kmem_next st :=
               mk_snapentry full_name full_path spa o d
                 (if 0 <? zfs_expire_snapshot st then tq_next_id st
                  else TASKQID_INVALID)
                 (if 0 <? zfs_expire_snapshot st then 2 else 1)]> (kmem st) ∧
         tq_pending st' =
           (if 0 <? zfs_expire_snapshot st
            then <[tq_next_id st :=
                     mk_task (kmem_next st)
                       (lbolt st
                        + int_wrap (zfs_expire_snapshot st * HZ st))]>
                   (tq_pending st)
            else tq_pending st) ∧
         umh_count st' = (umh_count st + 1)%nat) st)
      as (r & st' & Hrun & -> & H); [|by exists st'].
    unfold zfsctl_snapshot_mount. rewrite Hprep.
    apply wp_bind. eapply wp_of_eq; [by apply ismounted_false|]. cbv iota.
    apply wp_bind. unfold mount_helper, call_usermodehelper.
    apply wp_bind, wp_gets. apply wp_bind, wp_modify, wp_ret.
    rewrite Hstatus. change (negb (0 =? 0)) with false. cbv iota.
    set (s1 := log_event _ st).
    assert (umh_count s1 = (umh_count st + 1)%nat) as Hcount.
    { unfold umh_count, s1. simpl. rewrite filter_app, length_app. done. }
    apply wp_bind. unfold mount_register. rewrite Hfollow.
    apply wp_alloc_add; [done | done|].
    set (s2 := set_by_objsetid _ _).
    apply wp_bind, wp_gets.
    change (zfs_expire_snapshot s2) with (zfs_expire_snapshot st).
    destruct (0 <? zfs_expire_snapshot st) eqn:Hexp.
    + eapply wp_of_eq;
        [apply (delay_impl_idle (kmem_next s1));
           [apply lookup_insert_eq | done | lia]|].
      apply wp_ret. split; [done|]. simpl.
      rewrite !insert_insert_eq. done.
    + eapply wp_of_eq; [apply delay_impl_disabled; lia|]. apply wp_ret.
      split; [done|]. simpl. done.
  - intros Hfollow. unfold zfsctl_snapshot_mount. rewrite Hprep.
    unfold bind at 1. rewrite (ismounted_false _ _ Hn).
    unfold mount_helper, call_usermodehelper, bind, gets, modify, ret.
    rewrite Hstatus. simpl. unfold mount_register. rewrite Hfollow.
    eexists. split; [reflexivity|]. done.
Qed.

Lemma mount_registers_entry_witness :
  ∃ st',
    zfsctl_snapshot_mount example_env (zfsctl_init 300 1 0 1000)
      = Some (0, st') ∧
    kmem st' = {[1 := mk_snapentry "pool/fs@s1" "/mnt/.zfs/snapshot/s1" 7 42
                        99 1 2]} ∧
    tq_pending st' = {[1 := mk_task 1 300000]}.
Proof.
  destruct (mount_registers_entry (zfsctl_init 300 1 0 1000) example_env
              "pool/fs@s1" "/mnt/.zfs/snapshot/s1")
    as (Hreg & _).
  - vm_compute. reflexivity.
  - reflexivity.
  - reflexivity.
  - destruct (Hreg 7 42 99 eq_refl eq_refl)
      as (st' & Hrun & _ & _ & Hk & Hq & _).
    exists st'. split; [done|]. rewrite Hk, Hq. split; reflexivity.
Defined.

Lemma expire_disabled_eq o p e st :
  kmem st !! p = Some e →
  zfs_expire_snapshot st ≤ 0 →
  snapentry_expire o p st = zfsctl_snapshot_rele p st.
Proof.
  intros He Hexp. unfold snapentry_expire, bind, deref, gets. rewrite He.
  by replace (zfs_expire_snapshot st <=? 0) with true by lia.
Qed.

(** X10: a task that fires while [zfs_expire_snapshot] is not positive is
    dropped for good: the helper is not called, the snapshot stays
    registered, held by the registry alone, and no task is pending for
    it any more, though the entry still records the identifier of the
    task that fired. *)
Theorem expiry_disabled_drops_task st o id t :
  reachable st →
  tq_pending st !! id = Some t →
  zfs_expire_snapshot st ≤ 0 →
  ∃ e st',
    kmem st !! tk_arg t = Some e ∧
    taskq_fire o id st = Some (tt, st') ∧
    klog st' = klog st ∧
    same_trees st st' ∧
    zfs_snapshots_by_name st' !! se_name e = Some (tk_arg t) ∧
    kmem st' = <[tk_arg t := set_se_refcount 1 e]> (kmem st) ∧
    se_taskqid e = id ∧
    tq_pending st' = delete id (tq_pending st) ∧
    (∀ id' t', tq_pending st' !! id' = Some t' → tk_arg t' ≠ tk_arg t).
Proof.
  intros Hg%reachable_inv Ht Hexp.
  destruct (gi_task _ _ Hg _ _ Ht) as (Hid & e & He & Htid).
  assert (zfs_snapshots_by_name st !! se_name e = Some (tk_arg t)) as Hn
    by by eapply gi_reg.
  pose proof (gi_refs _ _ Hg _ _ He) as Hrc.
  unfold reg_count, pend_count in Hrc. rewrite (decide_True _ _ Hn) in Hrc.
  rewrite Htid, Ht in Hrc.
  exists e. unfold taskq_fire, bind, gets. rewrite Ht.
  unfold modify at 1.
  rewrite (expire_disabled_eq o (tk_arg t) e) by done.
  rewrite rele_eq. simpl. rewrite He.
  replace (se_refcount e <=? 0) with false by lia.
  replace (se_refcount e =? 1) with false by lia.
  unfold modify. eexists. split; [done|]. split; [reflexivity|]. simpl.
  split; [done|]. split; [done|]. split; [done|].
  split; [do 2 f_equal; lia|]. split; [done|]. split; [done|].
  intros id' t' [Hne Ht']%lookup_delete_Some Harg.
  destruct (gi_task _ _ Hg _ _ Ht') as (_ & e' & He' & Hid').
  rewrite Harg, He in He'. injection He' as <-. congruence.
Qed.

Lemma expiry_disabled_drops_task_witness :
  ∃ st',
    taskq_fire (mk_umh 0 true 0) 1 example_expiry_off = Some (tt, st') ∧
    klog st' = klog example_expiry_off ∧
    tq_pending st' = delete 1 (tq_pending example_expiry_off).
Proof.
  destruct (expiry_disabled_drops_task example_expiry_off (mk_umh 0 true 0) 1
              (mk_task 1 300000))
    as (e & st' & _ & Hrun & Hlog & _ & _ & _ & _ & Hq & _).
  - apply (reachable_step example_mounted (OpSetExpire 0));
      [apply example_mounted_reachable | reflexivity].
  - vm_compute. reflexivity.
  - vm_compute. discriminate.
  - by exists st'.
Defined.

(** ** Renaming through '.zfs/snapshot' *)

(** What [snapdir_rename_check] has checked when it lets the renaming go
    ahead. *)
Lemma snapdir_rename_check_inr env snm tnm snm' :
  snapdir_rename_check env snm tnm = inr snm' →
  rn_same_dir env = true ∧ snm' ≠ tnm ∧
  rn_namecheck env snm' = 0 ∧ rn_namecheck env tnm = 0 ∧
  rn_secpolicy env (rn_fsname env +:+ "@" +:+ snm')
    (rn_tfsname env +:+ "@" +:+ tnm) = 0 ∧
  (snm' = snm ∨
   rn_case_insensitive env = true ∧ rn_realname env = (0, snm')).
Proof.
  unfold snapdir_rename_check.
  set (realname := if rn_case_insensitive env then _ else _).
  assert (∀ s, realname = inr s →
            s = snm ∨ rn_case_insensitive env = true ∧
                      rn_realname env = (0, s)) as Hreal.
  { intros s. unfold realname. destruct (rn_case_insensitive env).
    - destruct (rn_realname env) as [e n]. simpl.
      destruct (e =? 0) eqn:He.
      + intros [= <-]. right. split; [done|]. f_equal. lia.
      + destruct (negb (e =? ENOTSUP)); [done|]. intros [= <-]. by left.
    - intros [= <-]. by left. }
  destruct realname as [error|s]; [done|].
  specialize (Hreal s eq_refl).
  pose proof (snapshot_name_ok (rn_namecheck env s) (rn_fsname env) s
                ZFS_MAX_DATASET_NAME_LEN) as Hfrom.
  destruct (zfsctl_snapshot_name (rn_namecheck env s) _ _ _)
    as [e1 from]. simpl in Hfrom.
  destruct (e1 =? 0) eqn:He1.
  2:{ simpl. rewrite He1. simpl. by rewrite He1. }
  pose proof (snapshot_name_ok (rn_namecheck env tnm) (rn_tfsname env) tnm
                ZFS_MAX_DATASET_NAME_LEN) as Hto.
  destruct (zfsctl_snapshot_name (rn_namecheck env tnm) _ _ _)
    as [e2 to]. simpl in Hto.
  simpl. destruct (e2 =? 0) eqn:He2; [|simpl; by rewrite He2].
  destruct (Hfrom ltac:(lia)) as (Hc1 & _ & ->).
  destruct (Hto ltac:(lia)) as (Hc2 & _ & ->).
  destruct (rn_secpolicy env _ _ =? 0) eqn:Hsec; simpl; [|done].
  destruct (rn_same_dir env); simpl; [|done].
  rewrite strcmp_eqb. case_bool_decide as Hne; [done|].
  intros [= <-]. repeat split; try done. lia.
Qed.

(** Every error [snapdir_rename_check] returns with the directories
    different is an error. *)
Lemma snapdir_rename_check_cross env snm tnm :
  rn_same_dir env = false →
  ∃ error, snapdir_rename_check env snm tnm = inl error ∧ error ≠ 0.
Proof.
  intros Hdir. unfold snapdir_rename_check.
  destruct (if rn_case_insensitive env then _ else _) as [error|s] eqn:Hreal.
  { exists error. split; [done|].
    destruct (rn_case_insensitive env); [|done].
    destruct ((rn_realname env).1 =? 0) eqn:H0; [done|].
    destruct (negb _); [|done]. injection Hreal as <-. lia. }
  pose proof (snapshot_name_error (rn_namecheck env s) (rn_fsname env) s
                ZFS_MAX_DATASET_NAME_LEN) as Hfrom.
  destruct (zfsctl_snapshot_name (rn_namecheck env s) _ _ _)
    as [e1 from]. simpl in Hfrom.
  destruct (e1 =? 0) eqn:He1.
  2:{ simpl. rewrite He1. simpl. rewrite He1. simpl.
      exists e1. split; [done | lia]. }
  pose proof (snapshot_name_error (rn_namecheck env tnm) (rn_tfsname env)
                tnm ZFS_MAX_DATASET_NAME_LEN) as Hto.
  destruct (zfsctl_snapshot_name (rn_namecheck env tnm) _ _ _)
    as [e2 to]. simpl in Hto.
  simpl. destruct (e2 =? 0) eqn:He2.
  2:{ simpl. rewrite He2. simpl. exists e2. split; [done | lia]. }
  destruct (rn_secpolicy env from to =? 0) eqn:Hsec; simpl.
  - rewrite Hdir. simpl. by exists EINVAL.
  - eexists. split; [done | lia].
Qed.

Lemma snapdir_rename_inl env snm tnm st error :
  zfs_admin_snapshot st ≠ 0 →
  rn_zfs_enter env = 0 →
  snapdir_rename_check env snm tnm = inl error →
  zfsctl_snapdir_rename env snm tnm st = Some (error, st).
Proof.
  intros Hadmin Henter Hcheck. unfold zfsctl_snapdir_rename, bind, gets.
  replace (zfs_admin_snapshot st =? 0) with false by lia.
  by rewrite Henter, Hcheck.
Qed.

Lemma snapdir_rename_inr env snm tnm st snm' :
  zfs_admin_snapshot st ≠ 0 →
  rn_zfs_enter env = 0 →
  snapdir_rename_check env snm tnm = inr snm' →
  zfsctl_snapdir_rename env snm tnm st =
  if rn_dsl_rename env =? 0 then
    match zfsctl_snapshot_rename snm' tnm
            (log_event (EvDslRenameSnapshot (rn_fsname env) snm' tnm) st) with
    | Some (_, st') => Some (0, st')
    | None => None
    end
  else Some (rn_dsl_rename env,
             log_event (EvDslRenameSnapshot (rn_fsname env) snm' tnm) st).
Proof.
  intros Hadmin Henter Hcheck. unfold zfsctl_snapdir_rename, bind, gets.
  replace (zfs_admin_snapshot st =? 0) with false by lia.
  rewrite Henter, Hcheck. simpl.
  unfold dsl_dataset_rename_snapshot, bind, modify, ret.
  destruct (rn_dsl_rename env =? 0) eqn:Hdsl; [|done].
  destruct (zfsctl_snapshot_rename snm' tnm _) as [[r st']|]; [|done].
  f_equal. f_equal. lia.
Qed.

(** X11: what [zfsctl_snapdir_rename] refuses leaves everything as it
    was: with administration through '.zfs' switched off it returns
    [EACCES]; a renaming from one directory into another always fails;
    and on a case-sensitive file system renaming a name to itself is
    never passed on to the DSL. *)
Theorem snapdir_rename_refusals env snm tnm st :
  (zfs_admin_snapshot st = 0 →
     zfsctl_snapdir_rename env snm tnm st = Some (EACCES, st)) ∧
  (rn_same_dir env = false →
     ∃ r, zfsctl_snapdir_rename env snm tnm st = Some (r, st) ∧ r ≠ 0) ∧
  (rn_case_insensitive env = false ∧ snm = tnm →
     ∃ r, zfsctl_snapdir_rename env snm tnm st = Some (r, st)).
Proof.
  split; [|split].
  - intros Hadmin. unfold zfsctl_snapdir_rename, bind, gets.
    by rewrite Hadmin.
  - intros Hdir.
    destruct (decide (zfs_admin_snapshot st = 0)) as [Hadmin|Hadmin].
    { exists EACCES. split; [|done].
      unfold zfsctl_snapdir_rename, bind, gets. by rewrite Hadmin. }
    destruct (decide (rn_zfs_enter env = 0)) as [Henter|Henter].
    + destruct (snapdir_rename_check_cross env snm tnm Hdir)
        as (error & Hcheck & Herr).
      exists error. split; [|done]. by apply snapdir_rename_inl.
    + exists (rn_zfs_enter env). split; [|done].
      unfold zfsctl_snapdir_rename, bind, gets.
      replace (zfs_admin_snapshot st =? 0) with false by lia.
      by replace (rn_zfs_enter env =? 0) with false by lia.
  - intros [Hcase <-].
    destruct (decide (zfs_admin_snapshot st = 0)) as [Hadmin|Hadmin].
    { exists EACCES. unfold zfsctl_snapdir_rename, bind, gets.
      by rewrite Hadmin. }
    destruct (decide (rn_zfs_enter env = 0)) as [Henter|Henter].
    + destruct (snapdir_rename_check env snm snm) as [error|snm'] eqn:Hcheck.
      * exists error. by apply snapdir_rename_inl.
      * apply snapdir_rename_check_inr in Hcheck
          as (_ & Hne & _ & _ & _ & [->|[Hci _]]); [done | congruence].
    + exists (rn_zfs_enter env).
      unfold zfsctl_snapdir_rename, bind, gets.
      replace (zfs_admin_snapshot st =? 0) with false by lia.
      by replace (rn_zfs_enter env =? 0) with false by lia.
Qed.

Lemma rename_same_log old new :
  preserves same_log (zfsctl_snapshot_rename old new).
Proof.
  apply preserves_bind; [apply _ | |].
  { apply preserves_find_by_name; try apply _; done. }
  intros [se|]; [|apply preserves_ret; apply _].
  apply preserves_bind; [apply _ | | intros; apply preserves_ret; apply _].
  simpl.
  apply preserves_bind; [apply _ | | intros _].
  { apply preserves_remove; try apply _; done. }
  apply preserves_bind; [apply _ | | intros _].
  { apply preserves_store; try apply _; done. }
  apply preserves_bind; [apply _ | | intros _].
  { apply preserves_add; try apply _; done. }
  apply preserves_bind; [apply _ | | intros; apply preserves_ret; apply _].
  apply preserves_rele; try apply _; done.
Qed.

Lemma snapdir_rename_early env snm tnm st :
  zfs_admin_snapshot st = 0 ∨ rn_zfs_enter env ≠ 0 →
  ∃ r, zfsctl_snapdir_rename env snm tnm st = Some (r, st) ∧ r ≠ 0.
Proof.
  intros Hearly. unfold zfsctl_snapdir_rename, bind, gets.
  destruct (zfs_admin_snapshot st =? 0) eqn:Hadmin; [by exists EACCES|].
  destruct Hearly as [?|Henter]; [lia|].
  replace (rn_zfs_enter env =? 0) with false by lia. simpl.
  by exists (rn_zfs_enter env).
Qed.

Lemma log_event_neq ev st : klog (log_event ev st) ≠ klog st.
Proof.
  simpl. intros Heq. apply (f_equal length) in Heq.
  rewrite length_app in Heq. simpl in Heq. lia.
Qed.

(** X12: [zfsctl_snapdir_rename] asks the DSL to rename a snapshot at most
    once, and only when administration through '.zfs' is switched on,
    the file system is entered, both names are valid components, the
    caller is allowed to, the two directories are the same and the names
    differ; it then returns what the DSL returns.  Whenever it makes no
    request it changes nothing at all, and whenever it returns an error
    the registry and the task queue are as they were. *)
Theorem snapdir_rename_requests env snm tnm st r st' :
  zfsctl_snapdir_rename env snm tnm st = Some (r, st') →
  (klog st' = klog st ∨
   ∃ snm',
     klog st' = klog st ++ [EvDslRenameSnapshot (rn_fsname env) snm' tnm] ∧
     r = rn_dsl_rename env ∧
     zfs_admin_snapshot st ≠ 0 ∧ rn_zfs_enter env = 0 ∧
     rn_same_dir env = true ∧ snm' ≠ tnm ∧
     rn_namecheck env snm' = 0 ∧ rn_namecheck env tnm = 0 ∧
     rn_secpolicy env (rn_fsname env +:+ "@" +:+ snm')
       (rn_tfsname env +:+ "@" +:+ tnm) = 0 ∧
     (snm' = snm ∨
      rn_case_insensitive env = true ∧ rn_realname env = (0, snm'))) ∧
  (klog st' = klog st → st' = st) ∧
  (r ≠ 0 →
     kmem st' = kmem st ∧ same_trees st st' ∧
     tq_pending st' = tq_pending st).
Proof.
  intros Hrun.
  destruct (decide (zfs_admin_snapshot st = 0 ∨ rn_zfs_enter env ≠ 0))
    as [Hearly|Hlate].
  { destruct (snapdir_rename_early env snm tnm st Hearly) as (r' & Hr & _).
    rewrite Hr in Hrun. injection Hrun as <- <-.
    split; [by left|]. split; [done|]. by intros _. }
  assert (zfs_admin_snapshot st ≠ 0) as Hadmin by tauto.
  assert (rn_zfs_enter env = 0) as Henter by lia.
  destruct (snapdir_rename_check env snm tnm) as [error|snm'] eqn:Hcheck.
  { rewrite (snapdir_rename_inl _ _ _ _ _ Hadmin Henter Hcheck) in Hrun.
    injection Hrun as <- <-. split; [by left|]. split; [done|].
    by intros _. }
  rewrite (snapdir_rename_inr _ _ _ _ _ Hadmin Henter Hcheck) in Hrun.
  apply snapdir_rename_check_inr in Hcheck
    as (Hdir & Hne & Hc1 & Hc2 & Hsec & Hreal).
  destruct (rn_dsl_rename env =? 0) eqn:Hdsl.
  - destruct (zfsctl_snapshot_rename snm' tnm _) as [[r1 s1]|] eqn:Hren;
      [|done].
    injection Hrun as <- <-.
    pose proof (rename_same_log _ _ _ _ _ Hren) as Hlog.
    unfold same_log in Hlog. simpl in Hlog.
    split; [|split; [|done]].
    + right. exists snm'. split; [done|]. split; [lia|]. done.
    + intros Heq. rewrite Hlog in Heq. apply (f_equal length) in Heq.
      rewrite length_app in Heq. simpl in Heq. lia.
  - injection Hrun as <- <-. split; [|split; [|done]].
    + right. exists snm'. done.
    + intros Heq. by apply log_event_neq in Heq.
Qed.

Lemma snapdir_rename_requests_witness :
  ∃ st',
    zfsctl_snapdir_rename example_rename_env "s1" "s2" example_mounted
      = Some (0, st') ∧
    (klog st' = klog example_mounted → st' = example_mounted).
Proof.
  destruct (zfsctl_snapdir_rename example_rename_env "s1" "s2"
              example_mounted) as [[r st']|] eqn:Hrun;
    [|vm_compute in Hrun; discriminate].
  assert (r = 0) as ->.
  { vm_compute in Hrun. by injection Hrun as <- _. }
  exists st'. split; [done|].
  by destruct (snapdir_rename_requests _ _ _ _ _ _ Hrun) as (_ & Hsame & _).
Defined.

Lemma snapshot_name_longer os_name snap_name :
  os_name +:+ "@" +:+ snap_name ≠ snap_name.
Proof.
  intros Heq. apply (f_equal strlen) in Heq.
  rewrite !strlen_append in Heq.
  pose proof (strlen_nonneg os_name). change (strlen "@") with 1 in Heq. lia.
Qed.

(** X13: after the DSL has renamed the snapshot, the registry is searched
    for the bare name of the directory, which is never the full name
    "fs@name" under which [zfsctl_snapshot_mount] registers a snapshot:
    when no entry is registered under the bare name, the registry is
    left exactly as it was, so that an entry registered under the old
    full name is still found under it. *)
Theorem snapdir_rename_registry_by_component env snm tnm snm' st :
  zfs_admin_snapshot st ≠ 0 →
  rn_zfs_enter env = 0 →
  snapdir_rename_check env snm tnm = inr snm' →
  zfs_snapshots_by_name st !! snm' = None →
  zfsctl_snapdir_rename env snm tnm st =
    Some (rn_dsl_rename env,
          log_event (EvDslRenameSnapshot (rn_fsname env) snm' tnm) st) ∧
  rn_fsname env +:+ "@" +:+ snm' ≠ snm'.
Proof.
  intros Hadmin Henter Hcheck Hnone.
  split; [|apply snapshot_name_longer].
  rewrite (snapdir_rename_inr _ _ _ _ _ Hadmin Henter Hcheck).
  destruct (rn_dsl_rename env =? 0) eqn:Hdsl; [|done].
  unfold zfsctl_snapshot_rename, bind. rewrite find_by_name_eq. simpl.
  rewrite Hnone. simpl. do 2 f_equal. lia.
Qed.

Lemma snapdir_rename_registry_by_component_witness :
  ∃ st',
    zfsctl_snapdir_rename example_rename_env "s1" "s2" example_mounted
      = Some (0, st') ∧
    zfs_snapshots_by_name st' !! "pool/fs@s1"%string = Some 1 ∧
    zfs_snapshots_by_name st' !! "pool/fs@s2"%string = None.
Proof.
  destruct (snapdir_rename_registry_by_component example_rename_env "s1" "s2"
              "s1" example_mounted) as (Hrun & _).
  - vm_compute. discriminate.
  - reflexivity.
  - vm_compute. reflexivity.
  - vm_compute. reflexivity.
  - eexists. split; [exact Hrun|]. split; vm_compute; reflexivity.
Defined.

(** ** Removing through '.zfs/snapshot' *)

Lemma snapdir_remove_name_inr env name snapname :
  snapdir_remove_name env name = inr snapname →
  ∃ name',
    snapname = re_os_name env +:+ "@" +:+ name' ∧
    re_namecheck env name' = 0 ∧
    re_secpolicy env = 0 ∧
    size_t (strlen snapname) < ZFS_MAX_DATASET_NAME_LEN ∧
    (name' = name ∨
     re_case_insensitive env = true ∧ re_realname env = (0, name')).
Proof.
  unfold snapdir_remove_name.
  set (realname := if re_case_insensitive env then _ else _).
  assert (∀ s, realname = inr s →
            s = name ∨ re_case_insensitive env = true ∧
                       re_realname env = (0, s)) as Hreal.
  { intros s. unfold realname. destruct (re_case_insensitive env).
    - destruct (re_realname env) as [e n]. simpl.
      destruct (e =? 0) eqn:He.
      + intros [= <-]. right. split; [done|]. f_equal. lia.
      + destruct (negb (e =? ENOTSUP)); [done|]. intros [= <-]. by left.
    - intros [= <-]. by left. }
  destruct realname as [error|s]; [done|].
  specialize (Hreal s eq_refl).
  pose proof (snapshot_name_ok (re_namecheck env s) (re_os_name env) s
                ZFS_MAX_DATASET_NAME_LEN) as Hname.
  destruct (zfsctl_snapshot_name (re_namecheck env s) _ _ _)
    as [e1 full]. simpl in Hname.
  destruct (e1 =? 0) eqn:He1; [|simpl; by rewrite He1].
  destruct (Hname ltac:(lia)) as (Hc & Hlen & ->).
  destruct (re_secpolicy env =? 0) eqn:Hsec; simpl; [|done].
  intros [= <-]. exists s. split; [done|]. split; [done|].
  split; [lia|]. split; [|done].
  rewrite !strlen_append. change (strlen "@") with 1.
  by replace (strlen (re_os_name env) + (1 + strlen s))
    with (strlen (re_os_name env) + 1 + strlen s) by lia.
Qed.

(** X14: [zfsctl_snapdir_remove] gets as far as unmounting, and so as far
    as destroying, only when administration through '.zfs' is switched
    on, the file system is entered, the name is a valid component whose
    full name fits a dataset name, and the caller is allowed to; when it
    does not, it returns an error, [EACCES] first, and changes nothing.
    It never asks for more than one snapshot to be destroyed, and the
    one it asks for is "fs@name". *)
Theorem snapdir_remove_guards env name st r st' :
  zfsctl_snapdir_remove env name st = Some (r, st') →
  (klog st' ≠ klog st →
     zfs_admin_snapshot st ≠ 0 ∧ re_zfs_enter env = 0 ∧
     ∃ name',
       snapdir_remove_name env name
         = inr (re_os_name env +:+ "@" +:+ name') ∧
       re_namecheck env name' = 0 ∧ re_secpolicy env = 0 ∧
       (name' = name ∨
        re_case_insensitive env = true ∧ re_realname env = (0, name')) ∧
       (filter is_destroy (klog st') = filter is_destroy (klog st) ∨
        filter is_destroy (klog st') =
          filter is_destroy (klog st)
          ++ [EvDslDestroySnapshot (re_os_name env +:+ "@" +:+ name')])) ∧
  (zfs_admin_snapshot st = 0 → r = EACCES ∧ st' = st) ∧
  (zfs_admin_snapshot st ≠ 0 ∧ re_zfs_enter env ≠ 0 →
     r = re_zfs_enter env ∧ st' = st) ∧
  (∀ error, zfs_admin_snapshot st ≠ 0 ∧ re_zfs_enter env = 0 ∧
            snapdir_remove_name env name = inl error →
     r = error ∧ st' = st).
Proof.
  unfold zfsctl_snapdir_remove, bind, gets.
  destruct (zfs_admin_snapshot st =? 0) eqn:Hadmin.
  { intros [= <- <-]. split; [done|]. split; [done|]. split; [lia|].
    intros error (? & _). lia. }
  destruct (re_zfs_enter env =? 0) eqn:Henter; simpl.
  2:{ intros [= <- <-]. split; [done|]. split; [lia|]. split; [done|].
      intros error (_ & ? & _). lia. }
  destruct (snapdir_remove_name env name) as [error|snapname] eqn:Hname.
  { intros [= <- <-]. split; [done|]. split; [lia|]. split; [lia|].
    by intros error' (_ & _ & [= <-]). }
  intros Hrun. split; [|split; [lia|split; [lia|by intros error (_ & _ & ?)]]].
  intros _. split; [lia|]. split; [lia|].
  destruct (snapdir_remove_name_inr _ _ _ Hname)
    as (name' & -> & Hc & Hsec & _ & Hreal).
  exists name'. split; [done|]. split; [done|]. split; [done|].
  split; [done|].
  destruct (zfsctl_snapshot_unmount _ _ _ st) as [[error s1]|] eqn:Hun;
    [|done].
  pose proof (unmount_same_destroys _ _ _ _ _ _ Hun) as Hlog.
  unfold same_destroys in Hlog.
  destruct ((error =? 0) || (error =? ENOENT)).
  - unfold dsl_destroy_snapshot, bind, modify, ret in Hrun.
    injection Hrun as <- <-. right. simpl. by rewrite filter_app, Hlog.
  - injection Hrun as <- <-. by left.
Qed.

Lemma snapdir_remove_guards_witness :
  ∃ r st',
    zfsctl_snapdir_remove
      (mk_remove_env 0 false (0, String.EmptyString) (λ _, 0) "pool/fs" 0
         (mk_umh 0 true 0) 0) "s1" example_mounted = Some (r, st') ∧
    (klog st' ≠ klog example_mounted →
     zfs_admin_snapshot example_mounted ≠ 0).
Proof.
  destruct (zfsctl_snapdir_remove
              (mk_remove_env 0 false (0, String.EmptyString) (λ _, 0)
                 "pool/fs" 0 (mk_umh 0 true 0) 0) "s1" example_mounted)
    as [[r st']|] eqn:Hrun; [|vm_compute in Hrun; discriminate].
  exists r, st'. split; [done|].
  destruct (snapdir_remove_guards _ _ _ _ _ Hrun) as (Hlog & _).
  intros Hne. by destruct (Hlog Hne).
Defined.

(** ** File handles *)

Lemma fill_array_length i n f a : length (fill_array i n f a) = length a.
Proof.
  revert i a. induction n as [|n IH]; intros i a; simpl; [done|].
  by rewrite IH, length_insert.
Qed.

Lemma fill_array_spec i n f a :
  length a = (i + n)%nat →
  fill_array i n f a = take i a ++ map f (seq i n).
Proof.
  revert i a. induction n as [|n IH]; intros i a Hlen; simpl.
  - rewrite app_nil_r, take_ge; [done | lia].
  - rewrite IH by (rewrite length_insert; lia).
    rewrite (take_S_r _ _ (f i)).
    + rewrite take_insert_ge by lia. by rewrite <- app_assoc.
    + apply list_lookup_insert_eq. lia.
Qed.

Lemma fill_array_all n f a :
  length a = n → fill_array 0 n f a = map f (seq 0 n).
Proof. intros Hlen. by rewrite fill_array_spec. Qed.

Lemma byte_of_range x i : 0 ≤ byte_of x i < 2 ^ 8.
Proof. unfold byte_of, uint8_t. apply Z.mod_pos_bound. lia. Qed.

Lemma decode_le_bytes x i n :
  decode_le (map (byte_of x) (seq i n)) =
  (x / 2 ^ (8 * Z.of_nat i)) mod 2 ^ (8 * Z.of_nat n).
Proof.
  revert i. induction n as [|n IH]; intros i.
  - simpl. by rewrite Z.mod_1_r.
  - change (decode_le (map (byte_of x) (seq i (S n)))) with
      (byte_of x i + 2 ^ 8 * decode_le (map (byte_of x) (seq (S i) n))).
    rewrite IH. unfold byte_of, uint8_t. rewrite Z.shiftr_div_pow2 by lia.
    replace (8 * Z.of_nat (S n)) with (8 + 8 * Z.of_nat n) by lia.
    rewrite Z.pow_add_r by lia.
    rewrite Z.rem_mul_r by lia. f_equal. f_equal. f_equal.
    replace (8 * Z.of_nat (S i)) with (8 * Z.of_nat i + 8) by lia.
    rewrite Z.pow_add_r by lia. rewrite Z.div_div by lia. done.
Qed.

Lemma decode_le_zeros i n : decode_le (map (λ _ : nat, 0) (seq i n)) = 0.
Proof.
  revert i. induction n as [|n IH]; intros i; [done|].
  change (decode_le (map (λ _ : nat, 0) (seq i (S n)))) with
    (0 + 2 ^ 8 * decode_le (map (λ _ : nat, 0) (seq (S i) n))).
  rewrite IH. done.
Qed.

Lemma decode_le_fill x n a :
  length a = n →
  decode_le (fill_array 0 n (byte_of x) a) = x mod 2 ^ (8 * Z.of_nat n).
Proof.
  intros Hlen. rewrite fill_array_all by done. rewrite decode_le_bytes.
  simpl. by rewrite Z.div_1_r.
Qed.

Lemma fill_array_bytes x n a :
  length a = n →
  Forall (λ b, 0 ≤ b < 2 ^ 8) (fill_array 0 n (byte_of x) a).
Proof.
  intros Hlen. rewrite fill_array_all by done.
  apply Forall_map, Forall_forall. intros i _. apply byte_of_range.
Qed.

Arguments fill_array : simpl never.
Arguments decode_le : simpl never.

Lemma uint64_small x : 0 ≤ x < 2 ^ 64 → uint64_t x = x.
Proof. intros Hx. unfold uint64_t. by apply Z.mod_small. Qed.

Lemma snapdir_fid_long ip alias fidp :
  fid_sized fidp →
  LONG_FID_LEN ≤ fid_len fidp →
  0 ≤ i_ino ip ≤ ZFSCTL_INO_SNAPDIRS →
  ∃ fid',
    zfsctl_snapdir_fid ip alias fidp = (0, fid') ∧
    fid_sized fid' ∧
    fid_len fid' = LONG_FID_LEN ∧
    decode_le (zf_object fid') = i_ino ip ∧
    decode_le (zf_setid fid') = ZFSCTL_INO_SNAPDIRS - i_ino ip ∧
    decode_le (zf_gen fid') = alias_gen alias ∧
    decode_le (zf_setgen fid') = 0 ∧
    Forall (λ b, 0 ≤ b < 2 ^ 8)
      (zf_object fid' ++ zf_gen fid' ++ zf_setid fid' ++ zf_setgen fid').
Proof.
  intros (Hobj & Hgen & Hsetid & Hsetgen) Hlen Hino.
  unfold zfsctl_snapdir_fid.
  replace (fid_len fidp <? LONG_FID_LEN) with false by lia.
  eexists. split; [reflexivity|]. simpl.
  assert (ZFSCTL_INO_SNAPDIRS < 2 ^ 48) as Hmax by done.
  split; [|split; [done|]].
  { unfold fid_sized. simpl. by rewrite !fill_array_length. }
  rewrite !decode_le_fill by done.
  rewrite (fill_array_all _ _ _ Hsetgen), decode_le_zeros.
  rewrite uint64_small by lia.
  change (8 * Z.of_nat sizeof_zf_object) with 48.
  change (8 * Z.of_nat sizeof_zf_setid) with 48.
  change (8 * Z.of_nat sizeof_zf_gen) with 32.
  rewrite !Z.mod_small by lia.
  split; [done|]. split; [done|]. split.
  { destruct alias as [[]|]; done. }
  split; [done|].
  rewrite !Forall_app. split; [by apply fill_array_bytes|].
  split; [by apply fill_array_bytes|]. split; [by apply fill_array_bytes|].
  apply Forall_map, Forall_forall. intros. lia.
Qed.

Lemma fid_of_snapdir env ip alias fidp :
  ce_zfs_enter env = 0 →
  zfsctl_is_snapdir ip = true →
  zfsctl_fid env ip alias fidp = zfsctl_snapdir_fid ip alias fidp ∧
  i_ino ip ≤ ZFSCTL_INO_SNAPDIRS.
Proof.
  intros Henter Hsnap. unfold zfsctl_fid. rewrite Henter, Hsnap.
  split; [done|]. unfold zfsctl_is_snapdir in Hsnap.
  apply andb_true_iff in Hsnap as [_ Hle]. lia.
Qed.

Lemma snapdir_ino_back ino :
  0 ≤ ino ≤ ZFSCTL_INO_SNAPDIRS →
  uint64_t (ZFSCTL_INO_SNAPDIRS - (ZFSCTL_INO_SNAPDIRS - ino)) = ino.
Proof.
  intros Hino. replace (ZFSCTL_INO_SNAPDIRS - (ZFSCTL_INO_SNAPDIRS - ino))
    with ino by lia.
  apply uint64_small. assert (ZFSCTL_INO_SNAPDIRS < 2 ^ 64) by done. lia.
Qed.

(** X15: the file handle of a snapshot directory is a long one that
    spells, least significant byte first, the directory's inode number,
    the snapshot's object-set id, and 1 or 0 for whether the directory
    was a mount point; from the object-set id a reader gets back the
    inode number that [zfsctl_snapdir_vget] looks up. *)
Theorem snapdir_fid_roundtrip env ip alias fidp :
  ce_zfs_enter env = 0 →
  zfsctl_is_snapdir ip = true →
  0 ≤ i_ino ip →
  fid_sized fidp →
  LONG_FID_LEN ≤ fid_len fidp →
  ∃ fid',
    zfsctl_fid env ip alias fidp = (0, fid') ∧
    fid_sized fid' ∧
    fid_len fid' = LONG_FID_LEN ∧
    decode_le (zf_object fid') = i_ino ip ∧
    decode_le (zf_setid fid') = ZFSCTL_INO_SNAPDIRS - i_ino ip ∧
    uint64_t (ZFSCTL_INO_SNAPDIRS - decode_le (zf_setid fid')) = i_ino ip ∧
    decode_le (zf_gen fid') = alias_gen alias ∧
    decode_le (zf_setgen fid') = 0 ∧
    Forall (λ b, 0 ≤ b < 2 ^ 8)
      (zf_object fid' ++ zf_gen fid' ++ zf_setid fid' ++ zf_setgen fid').
Proof.
  intros Henter Hsnap Hpos Hsized Hlen.
  destruct (fid_of_snapdir env ip alias fidp Henter Hsnap) as [-> Hmax].
  destruct (snapdir_fid_long ip alias fidp Hsized Hlen (conj Hpos Hmax))
    as (fid' & Hrun & Hs & Hl & Ho & Hid & Hg & Hsg & Hb).
  exists fid'.
  split; [done|]. split; [done|]. split; [done|]. split; [done|].
  split; [done|]. split; [|done].
  rewrite Hid. by apply snapdir_ino_back.
Qed.

Lemma snapdir_fid_roundtrip_witness :
  ∃ fid',
    zfsctl_fid example_ctl_env example_snapdir_inode (Some true) example_fid
      = (0, fid') ∧
    decode_le (zf_setid fid') = 42 ∧
    decode_le (zf_gen fid') = 1.
Proof.
  destruct (snapdir_fid_roundtrip example_ctl_env example_snapdir_inode
              (Some true) example_fid)
    as (fid' & Hrun & _ & _ & _ & Hid & _ & Hg & _).
  - reflexivity.
  - reflexivity.
  - vm_compute. discriminate.
  - repeat split.
  - vm_compute. discriminate.
  - exists fid'. split; [done|]. split; [|done].
    rewrite Hid. reflexivity.
Defined.

(** X16: a file handle too short for the node is refused with [ENOSPC]
    and told the length it needs, 18 bytes for a snapshot directory and
    10 for any other node; a long enough one is filled in and given
    exactly that length; so a caller that calls again with what it got
    back always succeeds. *)
Theorem fid_retry_succeeds env ip alias fidp :
  ce_zfs_enter env = 0 →
  let need := if zfsctl_is_snapdir ip then LONG_FID_LEN
              else SHORT_FID_LEN in
  (fid_len fidp < need →
     zfsctl_fid env ip alias fidp = (ENOSPC, set_fid_len need fidp)) ∧
  (need ≤ fid_len fidp → (zfsctl_fid env ip alias fidp).1 = 0) ∧
  fid_len (zfsctl_fid env ip alias fidp).2 = need ∧
  (zfsctl_fid env ip alias (zfsctl_fid env ip alias fidp).2).1 = 0.
Proof.
  intros Henter. unfold zfsctl_fid, zfsctl_snapdir_fid. rewrite Henter.
  change LONG_FID_LEN with 18. change SHORT_FID_LEN with 10. simpl.
  destruct (zfsctl_is_snapdir ip); simpl.
  - destruct (fid_len fidp <? 18) eqn:Hlt; simpl.
    + repeat split; try done; lia.
    + repeat split; try done; lia.
  - destruct (fid_len fidp <? 10) eqn:Hlt; simpl.
    + repeat split; try done; lia.
    + repeat split; try done; lia.
Qed.

Lemma fid_retry_succeeds_witness :
  (zfsctl_fid example_ctl_env example_snapdir_inode None
     (zfsctl_fid example_ctl_env example_snapdir_inode None
        (set_fid_len 0 example_fid)).2).1 = 0.
Proof.
  apply (fid_retry_succeeds example_ctl_env example_snapdir_inode None
           (set_fid_len 0 example_fid)).
  reflexivity.
Defined.

(** X17: for a node of '.zfs' that is not a snapshot directory the file
    handle is a short one: the low 48 bits of the znode's object number,
    which for the numbers of the control directory is the number itself,
    a generation of zero, and the rest of the buffer left as it was. *)
Theorem fid_of_control_node env ip alias fidp :
  ce_zfs_enter env = 0 →
  zfsctl_is_snapdir ip = false →
  fid_sized fidp →
  SHORT_FID_LEN ≤ fid_len fidp →
  ∃ fid',
    zfsctl_fid env ip alias fidp = (0, fid') ∧
    fid_len fid' = SHORT_FID_LEN ∧
    decode_le (zf_object fid') = z_id (ITOZ ip) mod 2 ^ 48 ∧
    (0 ≤ z_id (ITOZ ip) ≤ ZFSCTL_INO_ROOT →
     decode_le (zf_object fid') = z_id (ITOZ ip)) ∧
    zf_gen fid' = [0; 0; 0; 0] ∧
    zf_setid fid' = zf_setid fidp ∧
    zf_setgen fid' = zf_setgen fidp.
Proof.
  intros Henter Hsnap (Hobj & Hgen & _ & _) Hlen.
  unfold zfsctl_fid. rewrite Henter, Hsnap. simpl.
  replace (fid_len fidp <? SHORT_FID_LEN) with false by lia.
  eexists. split; [reflexivity|]. simpl. split; [done|].
  rewrite decode_le_fill by done.
  change (8 * Z.of_nat sizeof_zf_object) with 48.
  split; [done|]. split.
  { intros Hid. apply Z.mod_small.
    assert (ZFSCTL_INO_ROOT < 2 ^ 48) by done. lia. }
  split; [|done]. by rewrite (fill_array_all _ _ _ Hgen).
Qed.

Lemma fid_of_control_node_witness :
  ∃ fid',
    zfsctl_fid example_ctl_env example_root_inode None example_fid
      = (0, fid') ∧
    fid_len fid' = SHORT_FID_LEN ∧
    decode_le (zf_object fid') = ZFSCTL_INO_ROOT.
Proof.
  destruct (fid_of_control_node example_ctl_env example_root_inode None
              example_fid)
    as (fid' & Hfid & Hlen & _ & Hobj & _).
  - reflexivity.
  - reflexivity.
  - repeat split.
  - vm_compute. discriminate.
  - exists fid'. split; [done|]. split; [done|]. apply Hobj.
    split; vm_compute; discriminate.
Defined.

(** ** From an object-set id back to the snapshot directory *)

Lemma snapshot_list_find_skip pre rest objsetid :
  Forall (λ x, x.1.1 = 0 ∧ x.2 ≠ objsetid) pre →
  snapshot_list_find (pre ++ rest) objsetid = snapshot_list_find rest objsetid.
Proof.
  induction 1 as [|[[error name] id] pre [He Hid] _ IH]; [done|].
  simpl in *. rewrite He. simpl.
  replace (id =? objsetid) with false by lia. done.
Qed.

Lemma snapshot_path_objset_found zfsvfs pre name post objsetid path_len
    full_path :
  Forall (λ x, x.1.1 = 0 ∧ x.2 ≠ objsetid) pre →
  zfsctl_snapshot_path_objset zfsvfs (pre ++ (0, name, objsetid) :: post)
    objsetid path_len full_path =
  Some match vfs_mntpoint zfsvfs with
       | Some mntpoint =>
           (0, snprintf_trunc full_path (size_t path_len)
                 (mntpoint +:+ "/.zfs/snapshot/" +:+ name))
       | None => (ENOENT, full_path)
       end.
Proof.
  intros Hpre. unfold zfsctl_snapshot_path_objset.
  rewrite snapshot_list_find_skip by done.
  simpl. rewrite Z.eqb_refl. simpl. by destruct (vfs_mntpoint zfsvfs).
Qed.

(** X18: the search for the snapshot with a given object-set id goes
    through the listing in order, past the snapshots with other ids: it
    is still running when the listing gives nothing else; it stops at
    the first error, which it returns with the caller's buffer left as it
    was; and at the first snapshot with the id it returns [ENOENT] when
    the file system has no mount point recorded, and otherwise has
    [snprintf] write the mount point, "/.zfs/snapshot/" and that
    snapshot's name: cut to fit the buffer with its terminator when
    [path_len] is positive, and not at all, the caller's buffer being
    left as it was under a result of 0, when [path_len] is zero or
    negative. *)
Theorem snapshot_path_objset_scan zfsvfs pre post objsetid path_len full_path :
  Forall (λ x, x.1.1 = 0 ∧ x.2 ≠ objsetid) pre →
  zfsctl_snapshot_path_objset zfsvfs pre objsetid path_len full_path = None ∧
  (∀ error name id, error ≠ 0 →
     zfsctl_snapshot_path_objset zfsvfs (pre ++ (error, name, id) :: post)
       objsetid path_len full_path = Some (error, full_path)) ∧
  (∀ name,
     zfsctl_snapshot_path_objset zfsvfs (pre ++ (0, name, objsetid) :: post)
       objsetid path_len full_path =
     Some match vfs_mntpoint zfsvfs with
          | Some mntpoint =>
              (0, snprintf_trunc full_path (size_t path_len)
                    (mntpoint +:+ "/.zfs/snapshot/" +:+ name))
          | None => (ENOENT, full_path)
          end) ∧
  (∀ mntpoint name, 0 < path_len ≤ INT_MAX →
     strlen (snprintf_trunc full_path (size_t path_len)
               (mntpoint +:+ "/.zfs/snapshot/" +:+ name)) < path_len) ∧
  (∀ mntpoint name, - 2 ^ 31 ≤ path_len ≤ 0 →
     snprintf_trunc full_path (size_t path_len)
       (mntpoint +:+ "/.zfs/snapshot/" +:+ name) = full_path).
Proof.
  intros Hpre. split; [|split; [|split; [|split]]];
    [unfold zfsctl_snapshot_path_objset ..| | |].
  - pose proof (snapshot_list_find_skip pre [] objsetid Hpre) as Hskip.
    rewrite app_nil_r in Hskip. by rewrite Hskip.
  - intros error name id Herr. rewrite snapshot_list_find_skip by done.
    simpl. replace (error =? 0) with false by lia. simpl.
    by replace (error =? 0) with false by lia.
  - intros name. by apply snapshot_path_objset_found.
  - intros mntpoint name Hlen.
    rewrite size_t_small by (unfold INT_MAX in Hlen; lia).
    by apply snprintf_trunc_fits.
  - intros mntpoint name Hlen. apply snprintf_trunc_none.
    destruct (decide (path_len = 0)) as [->|Hne]; [by left|].
    right. apply size_t_negative. lia.
Qed.

Lemma snapshot_path_objset_scan_witness :
  zfsctl_snapshot_path_objset example_zfsvfs example_listing 42 MAXPATHLEN
    String.EmptyString = Some (0, "/mnt/.zfs/snapshot/s1"%string).
Proof.
  destruct (snapshot_path_objset_scan example_zfsvfs [(0, "s0"%string, 41)]
              [(ENOENT, String.EmptyString, 0)] 42 MAXPATHLEN
              String.EmptyString) as (_ & _ & Hfound & _ & _).
  - repeat constructor; simpl; lia.
  - apply (Hfound "s1"%string).
Defined.

(** X19: the path [zfsctl_snapdir_vget] walks to have a snapshot mounted
    is the path under which [zfsctl_snapshot_mount] registers it, when
    both see the same mount point of the file system. *)
Theorem vget_path_is_mount_path env full_name full_path zfsvfs pre post
    objsetid :
  mount_prepare env = inr (full_name, full_path) →
  is_Some (vfs_mntpoint zfsvfs) →
  vfs_mntpoint zfsvfs =
    (if me_chrooted env then me_vfs_mntpoint env
     else Some (me_root_path env).2) →
  Forall (λ x, x.1.1 = 0 ∧ x.2 ≠ objsetid) pre →
  zfsctl_snapshot_path_objset zfsvfs
    (pre ++ (0, me_dname env, objsetid) :: post) objsetid MAXPATHLEN
    String.EmptyString = Some (0, full_path).
Proof.
  intros Hprep [mnt Hmnt] Hsame Hpre.
  rewrite snapshot_path_objset_found by done.
  change (size_t MAXPATHLEN) with MAXPATHLEN.
  rewrite Hmnt. rewrite Hmnt in Hsame.
  unfold mount_prepare in Hprep.
  destruct (me_ip_null env); [done|].
  destruct (negb (me_zfs_enter env =? 0)); [done|].
  destruct (zfsctl_snapshot_name _ _ _ _) as [error n].
  destruct (negb (error =? 0)); [done|].
  destruct (me_chrooted env).
  - rewrite <- Hsame in Hprep. simpl in Hprep. by injection Hprep as _ <-.
  - destruct (negb ((me_root_path env).1 =? 0)); [done|].
    injection Hsame as ->. simpl in Hprep. by injection Hprep as _ <-.
Qed.

Lemma vget_path_is_mount_path_witness :
  mount_prepare example_env
    = inr ("pool/fs@s1"%string, "/mnt/.zfs/snapshot/s1"%string) ∧
  zfsctl_snapshot_path_objset example_zfsvfs example_listing 42 MAXPATHLEN
    String.EmptyString = Some (0, "/mnt/.zfs/snapshot/s1"%string).
Proof.
  split; [vm_compute; reflexivity|].
  apply (vget_path_is_mount_path example_env "pool/fs@s1"
           "/mnt/.zfs/snapshot/s1" example_zfsvfs [(0, "s0"%string, 41)]
           [(ENOENT, String.EmptyString, 0)] 42).
  - vm_compute. reflexivity.
  - by eexists.
  - reflexivity.
  - repeat constructor; simpl; lia.
Defined.

(** ** File handles back to inodes *)


(** X20: [zfsctl_snapdir_vget] returns an inode only if the path was
    built and walked without error, the inode numbered
    [ZFSCTL_INO_SNAPDIRS - objsetid] is hashed, which is then the one it
    returns, and the generation asked for is 1 when the directory is now
    a mount point and 0 when it is not; any other generation is refused.
    Whenever it fails after the walk it stores [NULL]. *)
Theorem snapdir_vget_checks_generation zfsvfs listing kern_path alias
    objsetid gen ipp r ip' :
  zfsctl_snapdir_vget zfsvfs listing kern_path alias objsetid gen ipp
    = Some (r, ip') →
  (r = 0 →
     ∃ mnt,
       zfsctl_snapshot_path_objset zfsvfs listing objsetid MAXPATHLEN
         String.EmptyString = Some (0, mnt) ∧
       kern_path mnt = 0 ∧
       ip' = ilookup zfsvfs (uint64_t (ZFSCTL_INO_SNAPDIRS - objsetid)) ∧
       is_Some ip' ∧
       gen = alias_gen alias) ∧
  (gen ≠ 0 → gen ≠ 1 → r ≠ 0) ∧
  (r ≠ 0 → ip' = ipp ∨ ip' = None).
Proof.
  unfold zfsctl_snapdir_vget.
  destruct (zfsctl_snapshot_path_objset _ _ _ _ _) as [[error mnt]|];
    [|done].
  destruct (negb (error =? 0)) eqn:Herr.
  { intros [= <- <-]. split; [lia|]. split; [lia|]. by left. }
  destruct (negb (- kern_path mnt =? 0)) eqn:Hk.
  { intros [= <- <-]. split; [lia|]. split; [lia|]. by left. }
  destruct (ilookup zfsvfs _) as [ip|] eqn:Hip.
  2:{ intros [= <- <-]. split; [done|]. split; [done|]. by right. }
  fold (alias_gen alias). destruct (negb (gen =? alias_gen alias)) eqn:Hg.
  { intros [= <- <-]. split; [done|]. split; [done|]. by right. }
  intros [= <- <-]. split.
  - intros _. exists mnt. replace error with 0 by lia.
    split; [done|]. split; [lia|]. split; [done|]. split; [by eexists|]. lia.
  - split; [|done]. intros H0 H1.
    assert (gen = alias_gen alias) as Hgen by lia.
    rewrite Hgen in H0, H1. by destruct alias as [[]|].
Qed.

Lemma snapdir_vget_checks_generation_witness :
  zfsctl_snapdir_vget example_zfsvfs_s1 example_listing (λ _, 0) (Some true)
    42 1 None = Some (0, Some example_snapdir_inode) ∧
  ∃ mnt,
    zfsctl_snapshot_path_objset example_zfsvfs_s1 example_listing 42
      MAXPATHLEN String.EmptyString = Some (0, mnt).
Proof.
  assert (zfsctl_snapdir_vget example_zfsvfs_s1 example_listing (λ _, 0)
            (Some true) 42 1 None = Some (0, Some example_snapdir_inode))
    as Hrun by (vm_compute; reflexivity).
  split; [exact Hrun|].
  destruct (snapdir_vget_checks_generation _ _ _ _ _ _ _ _ _ Hrun)
    as (Hok & _).
  destruct (Hok eq_refl) as (mnt & Hpath & _). by exists mnt.
Defined.



(** ** Inodes of the control directory *)

Lemma inode_alloc_eq env zfsvfs id fops ops creation new :
  zfsctl_inode_alloc env zfsvfs id fops ops creation new =
  match new with
  | None => (None, zfsvfs)
  | Some ip0 =>
      match ilookup zfsvfs id with
      | Some _ => (None, zfsvfs)
      | None =>
          let now := if creation =? 0 then ce_current_time env
                     else mk_timespec (int64_t creation) 0 in
          let ip :=
            mk_inode id 0 (Z.lor S_IFDIR S_IRWXUGO) 0 0 SPA_MINBLOCKSHIFT
              now now now fops ops
              (Z.land (i_opflags ip0) (Z.lnot IOP_XATTR))
              (mk_znode id false false false false true None 0 0 0 0 0 0
                 0 0 0) in
          (Some ip, hash_inode ip zfsvfs)
      end
  end.
Proof. unfold zfsctl_inode_alloc, ilookup. by destruct new. Qed.

Lemma inode_alloc_fail env zfsvfs id fops ops creation new zfsvfs' :
  zfsctl_inode_alloc env zfsvfs id fops ops creation new = (None, zfsvfs') →
  zfsvfs' = zfsvfs ∧ (new = None ∨ is_Some (ilookup zfsvfs id)).
Proof.
  rewrite inode_alloc_eq. destruct new as [ip0|].
  - destruct (ilookup zfsvfs id) eqn:Hi; [|done].
    intros [= <-]. split; [done|]. right. by eexists.
  - intros [= <-]. split; [done|]. by left.
Qed.

Lemma ilookup_hash_inode ip zfsvfs id :
  ilookup (hash_inode ip zfsvfs) id =
  if decide (i_ino ip = id) then Some ip else ilookup zfsvfs id.
Proof.
  unfold ilookup, hash_inode. simpl. destruct (decide (i_ino ip = id)) as [<-|].
  - apply lookup_insert_eq.
  - by apply lookup_insert_ne.
Qed.

Lemma inode_lookup_cached env news creation zfsvfs id fops ops ip :
  ilookup zfsvfs id = Some ip →
  zfsctl_inode_lookup_loop env news creation zfsvfs id fops ops
    = Some (Some ip, zfsvfs).
Proof. intros Hip. destruct news; simpl; by rewrite Hip. Qed.

Lemma creation_known_time env id creation :
  creation_known env id creation →
  (if (if (id <=? ZFSCTL_INO_SNAPDIRS) && (creation =? 0)
       then match ce_creation env (uint64_t (ZFSCTL_INO_SNAPDIRS - id)) with
            | Some c => c
            | None => creation
            end
       else creation) =? 0
   then ce_current_time env
   else mk_timespec
          (int64_t (if (id <=? ZFSCTL_INO_SNAPDIRS) && (creation =? 0)
                    then match ce_creation env
                                 (uint64_t (ZFSCTL_INO_SNAPDIRS - id)) with
                         | Some c => c
                         | None => creation
                         end
                    else creation)) 0) = ctl_inode_time env id.
Proof.
  unfold ctl_inode_time. intros [->|[Hle Hc]].
  - rewrite Z.eqb_refl, andb_true_r.
    destruct (id <=? ZFSCTL_INO_SNAPDIRS); [|done].
    by destruct (ce_creation env _).
  - replace (id <=? ZFSCTL_INO_SNAPDIRS) with true by lia. rewrite Hc.
    destruct (creation =? 0) eqn:H0; simpl; by rewrite H0.
Qed.

Lemma creation_known_step env id creation :
  creation_known env id creation →
  creation_known env id
    (if (id <=? ZFSCTL_INO_SNAPDIRS) && (creation =? 0)
     then match ce_creation env (uint64_t (ZFSCTL_INO_SNAPDIRS - id)) with
          | Some c => c
          | None => creation
          end
     else creation).
Proof.
  intros Hk. destruct ((id <=? ZFSCTL_INO_SNAPDIRS) && (creation =? 0)) eqn:Hc;
    [|done].
  apply andb_true_iff in Hc as [Hle H0].
  destruct (ce_creation env _) as [c|] eqn:Hcr; [|done].
  right. split; [lia | done].
Qed.

Lemma inode_lookup_loop_new env news creation zfsvfs id fops ops r zfsvfs' :
  creation_known env id creation →
  ilookup zfsvfs id = None →
  zfsctl_inode_lookup_loop env news creation zfsvfs id fops ops
    = Some (r, zfsvfs') →
  ∃ ip0,
    Some ip0 ∈ news ∧
    r = Some (mk_inode id 0 (Z.lor S_IFDIR S_IRWXUGO) 0 0 SPA_MINBLOCKSHIFT
                (ctl_inode_time env id) (ctl_inode_time env id)
                (ctl_inode_time env id) fops ops
                (Z.land (i_opflags ip0) (Z.lnot IOP_XATTR))
                (mk_znode id false false false false true None 0 0 0 0 0 0
                   0 0 0)) ∧
    ∀ ip, r = Some ip → zfsvfs' = hash_inode ip zfsvfs.
Proof.
  revert creation. induction news as [|new news IH]; intros creation Hk Hnone;
    simpl; rewrite Hnone; [done|].
  rewrite inode_alloc_eq, Hnone.
  destruct new as [ip0|].
  - cbv zeta. rewrite (creation_known_time env id creation Hk).
    intros [= <- <-]. exists ip0. split; [apply list_elem_of_here|].
    split; [done|]. by intros ip [= <-].
  - intros Hrun.
    destruct (IH _ (creation_known_step _ _ _ Hk) Hnone Hrun)
      as (ip0 & Hin & Hr & Hz).
    exists ip0. split; [by apply list_elem_of_further | done].
Qed.

Lemma inode_lookup_loop_none env news creation zfsvfs id fops ops :
  zfsctl_inode_lookup_loop env news creation zfsvfs id fops ops = None ↔
  ilookup zfsvfs id = None ∧ Forall (λ new, new = None) news.
Proof.
  revert creation. induction news as [|new news IH]; intros creation; simpl.
  - destruct (ilookup zfsvfs id); [|done]. split; [done | by intros [? _]].
  - destruct (ilookup zfsvfs id) as [ip|] eqn:Hip.
    { split; [done | by intros [? _]]. }
    rewrite inode_alloc_eq, Hip. destruct new as [ip0|].
    + cbv zeta. split; [done|]. intros [_ Hall].
      by apply Forall_cons_1 in Hall as [? _].
    + rewrite IH. split.
      * intros [_ Hall]. split; [done|]. by constructor.
      * intros [_ Hall]. split; [done|].
        by apply Forall_cons_1 in Hall as [_ ?].
Qed.

(** X22: [zfsctl_inode_lookup] goes on exactly as long as the inode is not
    hashed and [new_inode] gives nothing: it has returned as soon as one
    of the allocations succeeds, and at once when the inode is hashed
    already; and what it returns is never [NULL]. *)
Theorem inode_lookup_spins_iff env news zfsvfs id fops ops :
  (zfsctl_inode_lookup env news zfsvfs id fops ops = None ↔
   ilookup zfsvfs id = None ∧ Forall (λ new, new = None) news) ∧
  (∀ zfsvfs', zfsctl_inode_lookup env news zfsvfs id fops ops
              ≠ Some (None, zfsvfs')).
Proof.
  unfold zfsctl_inode_lookup. split; [apply inode_lookup_loop_none|].
  intros zfsvfs' Hrun.
  destruct (ilookup zfsvfs id) as [ip|] eqn:Hip.
  - by rewrite (inode_lookup_cached _ _ _ _ _ _ _ ip) in Hrun.
  - apply inode_lookup_loop_new in Hrun as (ip0 & _ & Hr & _);
      [done | by left | done].
Qed.

Lemma inode_lookup_result env news zfsvfs id fops ops r zfsvfs' :
  zfsctl_inode_lookup env news zfsvfs id fops ops = Some (r, zfsvfs') →
  ∃ ip,
    r = Some ip ∧
    ilookup zfsvfs' id = Some ip ∧
    (∀ ip0,
       ilookup zfsvfs id = Some ip0 → ip = ip0 ∧ zfsvfs' = zfsvfs) ∧
    (ilookup zfsvfs id = None →
       i_ino ip = id ∧ zfsvfs' = hash_inode ip zfsvfs) ∧
    (∀ id', id' ≠ id → ilookup zfsvfs' id' = ilookup zfsvfs id').
Proof.
  unfold zfsctl_inode_lookup. intros Hrun.
  destruct (ilookup zfsvfs id) as [ip|] eqn:Hip.
  - rewrite (inode_lookup_cached _ _ _ _ _ _ _ ip Hip) in Hrun.
    injection Hrun as <- <-. exists ip. split; [done|]. split; [done|].
    split; [by intros ip0 [= <-]|]. split; [done|]. done.
  - apply inode_lookup_loop_new in Hrun as (ip0 & _ & -> & Hz);
      [| by left | done].
    eexists. split; [reflexivity|]. rewrite (Hz _ eq_refl).
    rewrite ilookup_hash_inode. simpl.
    split; [by rewrite decide_True|]. split; [done|].
    split; [done|]. intros id' Hne. rewrite ilookup_hash_inode. simpl.
    by rewrite decide_False.
Qed.

(** X23: the inode [zfsctl_inode_lookup] returns is hashed under the number
    asked for when it returns.  When one was hashed before, it is that
    one and nothing has changed; in any case no other number is affected,
    and asking again, with whatever operations and whatever the
    allocator does, returns the same inode and changes nothing. *)
Theorem inode_lookup_caches env news zfsvfs id fops ops r zfsvfs' :
  zfsctl_inode_lookup env news zfsvfs id fops ops = Some (r, zfsvfs') →
  ∃ ip,
    r = Some ip ∧
    ilookup zfsvfs' id = Some ip ∧
    (∀ ip0,
       ilookup zfsvfs id = Some ip0 → ip = ip0 ∧ zfsvfs' = zfsvfs) ∧
    (∀ id', id' ≠ id → ilookup zfsvfs' id' = ilookup zfsvfs id') ∧
    (∀ env' news' fops' ops',
       zfsctl_inode_lookup env' news' zfsvfs' id fops' ops'
         = Some (Some ip, zfsvfs')).
Proof.
  intros Hrun.
  destruct (inode_lookup_result _ _ _ _ _ _ _ _ Hrun)
    as (ip & -> & Hip & Hold & _ & Hother).
  exists ip. split; [done|]. split; [done|]. split; [done|].
  split; [done|]. intros env' news' fops' ops'.
  by apply inode_lookup_cached.
Qed.

Lemma inode_lookup_caches_witness :
  ∃ ip zfsvfs',
    zfsctl_inode_lookup example_ctl_env [None; Some example_fresh_inode]
      example_zfsvfs ZFSCTL_INO_SNAPDIR zpl_fops_snapdir zpl_ops_snapdir
      = Some (Some ip, zfsvfs') ∧
    zfsctl_inode_lookup example_ctl_env [] zfsvfs' ZFSCTL_INO_SNAPDIR
      zpl_fops_root zpl_ops_root = Some (Some ip, zfsvfs').
Proof.
  destruct (zfsctl_inode_lookup example_ctl_env
              [None; Some example_fresh_inode] example_zfsvfs
              ZFSCTL_INO_SNAPDIR zpl_fops_snapdir zpl_ops_snapdir)
    as [[r zfsvfs']|] eqn:Hrun; [|vm_compute in Hrun; discriminate].
  destruct (inode_lookup_caches _ _ _ _ _ _ _ _ Hrun)
    as (ip & -> & _ & _ & _ & Hagain).
  exists ip, zfsvfs'. split; [done|]. apply Hagain.
Defined.

Lemma testbit_clear_xattr x : Z.testbit (Z.land x (Z.lnot IOP_XATTR)) 3 = false.
Proof. rewrite Z.land_spec, Z.lnot_spec by lia. apply andb_false_r. Qed.

Lemma inode_lookup_fresh env news zfsvfs id fops ops ip zfsvfs' :
  ilookup zfsvfs id = None →
  zfsctl_inode_lookup env news zfsvfs id fops ops = Some (Some ip, zfsvfs') →
  i_ino ip = id ∧ z_id (ITOZ ip) = id ∧
  zfsctl_is_node ip = true ∧
  zfsctl_is_snapdir ip = (id <=? ZFSCTL_INO_SNAPDIRS) ∧
  i_mode ip = Z.lor S_IFDIR S_IRWXUGO ∧
  i_uid ip = 0 ∧ i_gid ip = 0 ∧ i_generation ip = 0 ∧
  i_fop ip = fops ∧ i_op ip = ops ∧
  Z.testbit (i_opflags ip) 3 = false ∧
  i_atime ip = ctl_inode_time env id ∧
  i_mtime ip = ctl_inode_time env id ∧
  i_ctime ip = ctl_inode_time env id ∧
  z_all_znodes zfsvfs' = z_all_znodes zfsvfs ++ [ip] ∧
  z_ctldir zfsvfs' = z_ctldir zfsvfs.
Proof.
  intros Hnone Hrun. unfold zfsctl_inode_lookup in Hrun.
  apply inode_lookup_loop_new in Hrun as (ip0 & _ & [= ->] & Hz);
    [| by left | done].
  rewrite (Hz _ eq_refl). unfold zfsctl_is_snapdir, zfsctl_is_node. simpl.
  repeat split. apply testbit_clear_xattr.
Qed.

(** X24: an inode [zfsctl_inode_lookup] had to allocate is a directory of
    the control directory with the number asked for as inode and object
    number, mode 0777, owner and group 0, generation 0, the operations
    asked for and no extended-attribute operations; it counts as a
    snapshot directory exactly when its number is at most
    [ZFSCTL_INO_SNAPDIRS]; its three time stamps are the creation time of
    the snapshot when that is known and not zero and the current time
    otherwise; and it is the one znode added to the list. *)
Theorem inode_lookup_new_inode env news zfsvfs id fops ops ip zfsvfs' :
  ilookup zfsvfs id = None →
  zfsctl_inode_lookup env news zfsvfs id fops ops = Some (Some ip, zfsvfs') →
  i_ino ip = id ∧ z_id (ITOZ ip) = id ∧
  zfsctl_is_node ip = true ∧
  zfsctl_is_snapdir ip = (id <=? ZFSCTL_INO_SNAPDIRS) ∧
  i_mode ip = Z.lor S_IFDIR S_IRWXUGO ∧
  i_uid ip = 0 ∧ i_gid ip = 0 ∧ i_generation ip = 0 ∧
  i_fop ip = fops ∧ i_op ip = ops ∧
  Z.testbit (i_opflags ip) 3 = false ∧
  i_atime ip = ctl_inode_time env id ∧
  i_mtime ip = ctl_inode_time env id ∧
  i_ctime ip = ctl_inode_time env id ∧
  z_all_znodes zfsvfs' = z_all_znodes zfsvfs ++ [ip] ∧
  z_ctldir zfsvfs' = z_ctldir zfsvfs.
Proof. apply inode_lookup_fresh. Qed.

Lemma inode_lookup_new_inode_witness :
  zfsctl_inode_lookup example_ctl_env [Some example_fresh_inode]
    example_zfsvfs (ZFSCTL_INO_SNAPDIRS - 42) simple_dir_operations
    simple_dir_inode_operations
    = Some (Some example_snapdir_inode, example_zfsvfs_s1) ∧
  i_ctime example_snapdir_inode = mk_timespec 1000 0.
Proof.
  assert (zfsctl_inode_lookup example_ctl_env [Some example_fresh_inode]
            example_zfsvfs (ZFSCTL_INO_SNAPDIRS - 42) simple_dir_operations
            simple_dir_inode_operations
          = Some (Some example_snapdir_inode, example_zfsvfs_s1)) as Hrun
    by (vm_compute; reflexivity).
  split; [exact Hrun|].
  pose proof (inode_lookup_new_inode example_ctl_env
                [Some example_fresh_inode] example_zfsvfs
                (ZFSCTL_INO_SNAPDIRS - 42) simple_dir_operations
                simple_dir_inode_operations example_snapdir_inode
                example_zfsvfs_s1 eq_refl Hrun) as H.
  destruct H as (_ & _ & _ & _ & _ & _ & _ & _ & _ & _ & _ & _ & _ & Hc & _).
  rewrite Hc. vm_compute. reflexivity.
Defined.

Lemma znodes_hashed_hash_inode ip zfsvfs :
  znodes_hashed zfsvfs →
  ilookup zfsvfs (i_ino ip) = None →
  znodes_hashed (hash_inode ip zfsvfs).
Proof.
  intros [Hnd Hall] Hnone. split.
  - simpl. rewrite fmap_app. simpl. apply NoDup_app. split; [done|].
    split; [|apply NoDup_singleton].
    intros ino (ip' & -> & Hin)%list_elem_of_fmap Hin2.
    apply list_elem_of_singleton in Hin2.
    apply Hall in Hin. rewrite Hin2 in Hin. congruence.
  - intros ip' Hin. simpl in Hin. rewrite ilookup_hash_inode.
    apply elem_of_app in Hin as [Hin|Hin].
    + apply Hall in Hin. destruct (decide (i_ino ip = i_ino ip')) as [Heq|];
        [|done]. rewrite <- Heq in Hin. congruence.
    + apply list_elem_of_singleton in Hin as ->. by rewrite decide_True.
Qed.

Lemma znodes_hashed_inode_lookup env news zfsvfs id fops ops r zfsvfs' :
  znodes_hashed zfsvfs →
  zfsctl_inode_lookup env news zfsvfs id fops ops = Some (r, zfsvfs') →
  znodes_hashed zfsvfs'.
Proof.
  intros Hz Hrun.
  destruct (inode_lookup_result _ _ _ _ _ _ _ _ Hrun)
    as (ip & -> & _ & Hold & Hnew & _).
  destruct (ilookup zfsvfs id) as [ip0|] eqn:Hip.
  - by destruct (Hold ip0 eq_refl) as [_ ->].
  - destruct (Hnew eq_refl) as [Hino ->].
    apply znodes_hashed_hash_inode; [done|]. by rewrite Hino.
Qed.

(** X25: the list of znodes and the inode hash stay in step through every
    function that allocates control inodes: each listed znode is the
    inode hashed under its number and no number is listed twice. *)
Theorem znode_list_matches_hash env news zfsvfs :
  znodes_hashed zfsvfs →
  (∀ id fops ops r zfsvfs',
     zfsctl_inode_lookup env news zfsvfs id fops ops = Some (r, zfsvfs') →
     znodes_hashed zfsvfs') ∧
  (∀ name ipp r zfsvfs',
     zfsctl_root_lookup env news zfsvfs name ipp = Some (r, zfsvfs') →
     znodes_hashed zfsvfs') ∧
  (∀ name ipp r zfsvfs',
     zfsctl_snapdir_lookup env news zfsvfs name ipp = Some (r, zfsvfs') →
     znodes_hashed zfsvfs') ∧
  (∀ new, znodes_hashed (zfsctl_create env new zfsvfs).2) ∧
  znodes_hashed (zfsctl_destroy_head zfsvfs).
Proof.
  intros Hz. split; [|split; [|split; [|split]]].
  - intros id fops ops r zfsvfs'. by apply znodes_hashed_inode_lookup.
  - intros name ipp r zfsvfs'. unfold zfsctl_root_lookup.
    destruct (negb (ce_zfs_enter env =? 0)); [by intros [= <- <-]|].
    destruct (z_show_ctldir zfsvfs =? ZFS_SNAPDIR_DISABLED);
      [by intros [= <- <-]|].
    destruct (strcmp name ".." =? 0); [by intros [= <- <-]|].
    destruct (strcmp name ZFS_SNAPDIR_NAME =? 0).
    { destruct (zfsctl_inode_lookup _ _ _ _ _ _) as [[ip z1]|] eqn:Hrun;
        [|done].
      intros [= <- <-]. by eapply znodes_hashed_inode_lookup. }
    destruct (strcmp name ZFS_SHAREDIR_NAME =? 0); [|by intros [= <- <-]].
    destruct (zfsctl_inode_lookup _ _ _ _ _ _) as [[ip z1]|] eqn:Hrun;
      [|done].
    intros [= <- <-]. by eapply znodes_hashed_inode_lookup.
  - intros name ipp r zfsvfs'. unfold zfsctl_snapdir_lookup.
    destruct (negb (ce_zfs_enter env =? 0)); [by intros [= <- <-]|].
    destruct (ce_snapshot_lookup env name) as [error id].
    destruct (negb (error =? 0)); [by intros [= <- <-]|].
    destruct (zfsctl_inode_lookup _ _ _ _ _ _) as [[ip z1]|] eqn:Hrun;
      [|done].
    intros [= <- <-]. by eapply znodes_hashed_inode_lookup.
  - intros new. unfold zfsctl_create. rewrite inode_alloc_eq.
    destruct new as [ip0|]; [|by destruct Hz].
    destruct (ilookup zfsvfs ZFSCTL_INO_ROOT) eqn:Hip; [by destruct Hz|].
    cbv zeta. simpl.
    match goal with
    | |- znodes_hashed (set_z_ctldir _ (hash_inode ?ip _)) =>
        pose proof (znodes_hashed_hash_inode ip zfsvfs Hz Hip) as [H1 H2]
    end.
    by split.
  - unfold zfsctl_destroy_head. destruct (z_ctldir zfsvfs); [|done].
    by destruct Hz.
Qed.

Lemma znode_list_matches_hash_witness :
  znodes_hashed
    (zfsctl_create example_ctl_env (Some example_fresh_inode)
       example_zfsvfs).2.
Proof.
  apply (znode_list_matches_hash example_ctl_env [] example_zfsvfs).
  split; [constructor|]. intros ip Hin. by apply elem_of_nil in Hin.
Defined.

Lemma lookup_error_eq ip : lookup_error ip = 0 ↔ is_Some ip.
Proof.
  destruct ip; simpl.
  - split; [by eexists | done].
  - split; [done | by intros [? ?]].
Qed.

(** X26: with '.zfs' switched off [zfsctl_root_lookup] finds nothing, not
    even "..".  Otherwise it finds just three names: ".." is the root of
    the file system, "snapshot" and "shares" are the control inodes
    numbered [ZFSCTL_INO_SNAPDIR] and [ZFSCTL_INO_SHARES], hashed when
    the lookup returns.  Every other name gives [ENOENT], and only the
    two control names can add an inode. *)
Theorem root_lookup_names env news zfsvfs name ipp r ip zfsvfs' :
  ce_zfs_enter env = 0 →
  zfsctl_root_lookup env news zfsvfs name ipp = Some (r, ip, zfsvfs') →
  (r = 0 ∨ r = ENOENT) ∧
  (r = 0 ↔ is_Some ip) ∧
  (z_show_ctldir zfsvfs = ZFS_SNAPDIR_DISABLED →
     r = ENOENT ∧ zfsvfs' = zfsvfs) ∧
  (r = 0 → name = ".."%string ∨ name = ZFS_SNAPDIR_NAME ∨
           name = ZFS_SHAREDIR_NAME) ∧
  (z_show_ctldir zfsvfs ≠ ZFS_SNAPDIR_DISABLED →
     (name = ".."%string → ip = ce_s_root env) ∧
     (name = ZFS_SNAPDIR_NAME →
        r = 0 ∧ ip = ilookup zfsvfs' ZFSCTL_INO_SNAPDIR) ∧
     (name = ZFS_SHAREDIR_NAME →
        r = 0 ∧ ip = ilookup zfsvfs' ZFSCTL_INO_SHARES)) ∧
  (name ≠ ZFS_SNAPDIR_NAME → name ≠ ZFS_SHAREDIR_NAME →
   zfsvfs' = zfsvfs).
Proof.
  intros Henter. unfold zfsctl_root_lookup. rewrite Henter. simpl.
  rewrite !strcmp_eqb.
  destruct (z_show_ctldir zfsvfs =? ZFS_SNAPDIR_DISABLED) eqn:Hshow.
  { intros [= <- <- <-]. simpl. split; [by right|]. split.
    { split; [done | by intros [? ?]]. }
    split; [done|]. split; [done|]. split; [lia | done]. }
  assert (z_show_ctldir zfsvfs ≠ ZFS_SNAPDIR_DISABLED) as Hon by lia.
  case_bool_decide as Hdd.
  { intros [= <- <- <-]. split; [destruct (ce_s_root env); by auto|].
    split; [apply lookup_error_eq|]. split; [done|]. split; [by auto|].
    split; [|done]. intros _. subst name. done. }
  case_bool_decide as Hsn.
  { destruct (zfsctl_inode_lookup _ _ _ _ _ _) as [[ip1 z1]|] eqn:Hrun;
      [|done].
    intros [= <- <- <-].
    destruct (inode_lookup_result _ _ _ _ _ _ _ _ Hrun)
      as (i & -> & Hip & _).
    simpl. split; [by left|]. split; [split; [by eexists | done]|].
    split; [done|]. split; [by auto|]. split; [|done].
    intros _. subst name. done. }
  case_bool_decide as Hsh.
  { destruct (zfsctl_inode_lookup _ _ _ _ _ _) as [[ip1 z1]|] eqn:Hrun;
      [|done].
    intros [= <- <- <-].
    destruct (inode_lookup_result _ _ _ _ _ _ _ _ Hrun)
      as (i & -> & Hip & _).
    simpl. split; [by left|]. split; [split; [by eexists | done]|].
    split; [done|]. split; [by auto|]. split; [|done].
    intros _. subst name. done. }
  intros [= <- <- <-]. simpl. split; [by right|].
  split; [split; [done | by intros [? ?]]|].
  split; [done|]. split; [done|]. split; [|done]. by intros _.
Qed.

Lemma root_lookup_names_witness :
  ∃ ip zfsvfs',
    zfsctl_root_lookup example_ctl_env [Some example_fresh_inode]
      example_zfsvfs ZFS_SNAPDIR_NAME None = Some (0, Some ip, zfsvfs') ∧
    ilookup zfsvfs' ZFSCTL_INO_SNAPDIR = Some ip.
Proof.
  destruct (zfsctl_root_lookup example_ctl_env [Some example_fresh_inode]
              example_zfsvfs ZFS_SNAPDIR_NAME None)
    as [[[r ip] zfsvfs']|] eqn:Hrun; [|vm_compute in Hrun; discriminate].
  destruct (root_lookup_names example_ctl_env [Some example_fresh_inode]
              example_zfsvfs ZFS_SNAPDIR_NAME None r ip zfsvfs' eq_refl Hrun)
    as (_ & Hsome & _ & _ & Hon & _).
  destruct Hon as (_ & Hsnap & _); [vm_compute; discriminate|].
  destruct (Hsnap eq_refl) as [-> Hip].
  destruct (proj1 Hsome eq_refl) as [i ->].
  exists i, zfsvfs'. by split.
Defined.

Lemma snapdir_lookup_eq env news zfsvfs name ipp :
  zfsctl_snapdir_lookup env news zfsvfs name ipp =
  if negb (ce_zfs_enter env =? 0) then Some (ce_zfs_enter env, ipp, zfsvfs)
  else if negb ((ce_snapshot_lookup env name).1 =? 0)
  then Some ((ce_snapshot_lookup env name).1, ipp, zfsvfs)
  else
    match zfsctl_inode_lookup env news zfsvfs
            (uint64_t (ZFSCTL_INO_SNAPDIRS - (ce_snapshot_lookup env name).2))
            simple_dir_operations simple_dir_inode_operations with
    | Some (ip, zfsvfs') => Some (lookup_error ip, ip, zfsvfs')
    | None => None
    end.
Proof.
  unfold zfsctl_snapdir_lookup.
  by destruct (ce_snapshot_lookup env name) as [error id].
Qed.

Lemma snapdir_lookup_facts env news zfsvfs name ipp r ip zfsvfs' :
  zfsctl_snapdir_lookup env news zfsvfs name ipp = Some (r, ip, zfsvfs') →
  r = (if ce_zfs_enter env =? 0 then (ce_snapshot_lookup env name).1
       else ce_zfs_enter env) ∧
  (r ≠ 0 → ip = ipp ∧ zfsvfs' = zfsvfs) ∧
  (r = 0 →
     is_Some ip ∧
     ip = ilookup zfsvfs'
            (uint64_t (ZFSCTL_INO_SNAPDIRS
                       - (ce_snapshot_lookup env name).2))).
Proof.
  rewrite snapdir_lookup_eq.
  destruct (ce_zfs_enter env =? 0) eqn:Henter; simpl.
  2:{ intros [= <- <- <-]. split; [done|]. split; [done|]. lia. }
  destruct ((ce_snapshot_lookup env name).1 =? 0) eqn:Herr; simpl.
  2:{ intros [= <- <- <-]. split; [done|]. split; [done|]. lia. }
  destruct (zfsctl_inode_lookup _ _ _ _ _ _) as [[ip1 z1]|] eqn:Hrun;
    [|done].
  intros [= <- <- <-].
  destruct (inode_lookup_result _ _ _ _ _ _ _ _ Hrun) as (i & -> & Hip & _).
  simpl. split; [lia|]. split; [done|]. intros _.
  split; [by eexists | done].
Qed.

(** X27: [zfsctl_snapdir_lookup] fails only with the error of [zfs_enter]
    or of [dmu_snapshot_lookup], and then stores nothing and allocates
    nothing; its own [ENOENT] for a missing inode never arises.  When it
    succeeds, the inode it stores is the one hashed under
    [ZFSCTL_INO_SNAPDIRS] minus the snapshot's object number. *)
Theorem snapdir_lookup_result env news zfsvfs name ipp r ip zfsvfs' :
  zfsctl_snapdir_lookup env news zfsvfs name ipp = Some (r, ip, zfsvfs') →
  r = (if ce_zfs_enter env =? 0 then (ce_snapshot_lookup env name).1
       else ce_zfs_enter env) ∧
  (r ≠ 0 → ip = ipp ∧ zfsvfs' = zfsvfs) ∧
  (r = 0 →
     is_Some ip ∧
     ip = ilookup zfsvfs'
            (uint64_t (ZFSCTL_INO_SNAPDIRS
                       - (ce_snapshot_lookup env name).2))).
Proof. apply snapdir_lookup_facts. Qed.

Lemma snapdir_lookup_result_witness :
  zfsctl_snapdir_lookup example_ctl_env [Some example_fresh_inode]
    example_zfsvfs "s1" None
    = Some (0, Some example_snapdir_inode, example_zfsvfs_s1) ∧
  Some example_snapdir_inode
    = ilookup example_zfsvfs_s1 (ZFSCTL_INO_SNAPDIRS - 42).
Proof.
  assert (zfsctl_snapdir_lookup example_ctl_env [Some example_fresh_inode]
            example_zfsvfs "s1" None
          = Some (0, Some example_snapdir_inode, example_zfsvfs_s1))
    as Hrun by (vm_compute; reflexivity).
  split; [exact Hrun|].
  destruct (snapdir_lookup_result _ _ _ _ _ _ _ _ Hrun) as (_ & _ & Hok).
  destruct (Hok eq_refl) as [_ Hip]. exact Hip.
Defined.

(** X28: from a snapshot's name to its file handle and back: the directory
    [zfsctl_snapdir_lookup] allocates for a snapshot whose object number
    is at most [ZFSCTL_INO_SNAPDIRS] is a snapshot directory, and the
    file handle [zfsctl_fid] makes for it is a long one that carries the
    object number as its object-set id. *)
Theorem snapdir_lookup_fid_roundtrip env news zfsvfs name ipp id ip zfsvfs'
    alias fidp :
  ce_zfs_enter env = 0 →
  ce_snapshot_lookup env name = (0, id) →
  0 ≤ id ≤ ZFSCTL_INO_SNAPDIRS →
  ilookup zfsvfs (ZFSCTL_INO_SNAPDIRS - id) = None →
  zfsctl_snapdir_lookup env news zfsvfs name ipp
    = Some (0, Some ip, zfsvfs') →
  fid_sized fidp →
  LONG_FID_LEN ≤ fid_len fidp →
  zfsctl_is_snapdir ip = true ∧
  ∃ fid',
    zfsctl_fid env ip alias fidp = (0, fid') ∧
    fid_len fid' = LONG_FID_LEN ∧
    decode_le (zf_setid fid') = id ∧
    decode_le (zf_object fid') = i_ino ip ∧
    decode_le (zf_gen fid') = alias_gen alias.
Proof.
  intros Henter Hlook Hid Hnone Hrun Hsized Hlen.
  rewrite snapdir_lookup_eq, Henter, Hlook in Hrun. simpl in Hrun.
  assert (ZFSCTL_INO_SNAPDIRS < 2 ^ 64) as Hmax by done.
  rewrite uint64_small in Hrun by lia.
  destruct (zfsctl_inode_lookup _ _ _ _ _ _) as [[ip1 z1]|] eqn:Hlk;
    [|done].
  injection Hrun as _ -> ->.
  destruct (inode_lookup_fresh _ _ _ _ _ _ _ _ Hnone Hlk)
    as (Hino & _ & _ & Hsnap & _).
  replace (ZFSCTL_INO_SNAPDIRS - id <=? ZFSCTL_INO_SNAPDIRS) with true
    in Hsnap by lia.
  split; [done|].
  destruct (fid_of_snapdir env ip alias fidp Henter Hsnap) as [-> _].
  destruct (snapdir_fid_long ip alias fidp Hsized Hlen)
    as (fid' & Hfid & _ & Hl & Ho & Hs & Hg & _); [lia|].
  exists fid'. split; [done|]. split; [done|]. split; [|done].
  rewrite Hs, Hino. lia.
Qed.

Lemma snapdir_lookup_fid_roundtrip_witness :
  ∃ fid',
    zfsctl_fid example_ctl_env example_snapdir_inode (Some false) example_fid
      = (0, fid') ∧
    decode_le (zf_setid fid') = 42.
Proof.
  destruct (snapdir_lookup_fid_roundtrip example_ctl_env
              [Some example_fresh_inode] example_zfsvfs "s1" None 42
              example_snapdir_inode example_zfsvfs_s1 (Some false)
              example_fid)
    as (_ & fid' & Hfid & _ & Hid & _);
    try reflexivity; try (vm_compute; discriminate).
  - split; vm_compute; discriminate.
  - repeat split.
  - by exists fid'.
Defined.

(** X29: called, as its assertion asks, while no '.zfs' inode is cached,
    [zfsctl_create] succeeds exactly when [new_inode] gives an inode
    and no inode numbered [ZFSCTL_INO_ROOT] is hashed yet.  Then
    [zfsctl_root] returns the cached '.zfs' inode, which is the one
    hashed under that number, a control node that is not a snapshot
    directory, stamped with the current time.  Otherwise the error is
    [ENOENT], nothing is cached, hashed or listed, and [zfsctl_root]
    would panic. *)
Theorem create_caches_root_inode env new zfsvfs :
  z_ctldir zfsvfs = None →
  ((zfsctl_create env new zfsvfs).1 = 0 ↔
   is_Some new ∧ ilookup zfsvfs ZFSCTL_INO_ROOT = None) ∧
  ((zfsctl_create env new zfsvfs).1 ≠ 0 →
     (zfsctl_create env new zfsvfs).1 = ENOENT ∧
     zfsctl_root (zfsctl_create env new zfsvfs).2 = None ∧
     z_sb (zfsctl_create env new zfsvfs).2 = z_sb zfsvfs ∧
     z_all_znodes (zfsctl_create env new zfsvfs).2 = z_all_znodes zfsvfs) ∧
  ((zfsctl_create env new zfsvfs).1 = 0 →
     ∃ ip,
       zfsctl_root (zfsctl_create env new zfsvfs).2 = Some ip ∧
       ilookup (zfsctl_create env new zfsvfs).2 ZFSCTL_INO_ROOT = Some ip ∧
       z_all_znodes (zfsctl_create env new zfsvfs).2
         = z_all_znodes zfsvfs ++ [ip] ∧
       i_ino ip = ZFSCTL_INO_ROOT ∧
       zfsctl_is_node ip = true ∧
       zfsctl_is_snapdir ip = false ∧
       i_fop ip = zpl_fops_root ∧ i_op ip = zpl_ops_root ∧
       i_ctime ip = ce_current_time env).
Proof.
  intros _. unfold zfsctl_create. rewrite inode_alloc_eq.
  destruct new as [ip0|]; simpl.
  2:{ split; [split; [done | by intros [[? ?] _]]|]. split; [done|]. done. }
  destruct (ilookup zfsvfs ZFSCTL_INO_ROOT) as [ip1|] eqn:Hip; simpl.
  { split; [split; [done | by intros [_ ?]]|]. split; [done|]. done. }
  split; [split; [by eauto | done]|]. split; [done|]. intros _.
  eexists. split; [reflexivity|]. unfold ilookup. simpl.
  split; [apply lookup_insert_eq|]. done.
Qed.

Lemma create_caches_root_inode_witness :
  z_ctldir example_zfsvfs = None ∧
  (zfsctl_create example_ctl_env (Some example_fresh_inode)
     example_zfsvfs).1 = 0.
Proof.
  split; [reflexivity|].
  destruct (create_caches_root_inode example_ctl_env
              (Some example_fresh_inode) example_zfsvfs eq_refl)
    as [[_ H] _].
  apply H. split; [by eexists | reflexivity].
Defined.

(** X30: [zfsctl_snapdir_mkdir] asks the DMU for a snapshot, once and with
    the directory's name, exactly when administration through '.zfs' is
    switched on, the name is a valid component and the caller is allowed
    to; otherwise it fails, with [EACCES] first and [EILSEQ] second,
    storing and allocating nothing.  It returns 0 only after the DMU has
    taken the snapshot, and then stores the inode hashed under
    [ZFSCTL_INO_SNAPDIRS] minus the object number found for the name.
    The registry is not touched. *)
Theorem snapdir_mkdir_requests menv env news zfsvfs dirname ipp st :
  ∃ res reqs,
    zfsctl_snapdir_mkdir menv env news zfsvfs dirname ipp st
      = Some ((res, reqs), st) ∧
    (reqs = [] ∨ reqs = [DmuObjsetSnapshotOne (md_dsname menv) dirname]) ∧
    (reqs ≠ [] ↔
     zfs_admin_snapshot st ≠ 0 ∧ md_namecheck menv = 0 ∧
     md_secpolicy menv = 0) ∧
    (reqs = [] →
     ∃ error,
       res = Some (error, ipp, zfsvfs) ∧ error ≠ 0 ∧
       (zfs_admin_snapshot st = 0 → error = EACCES) ∧
       (zfs_admin_snapshot st ≠ 0 ∧ md_namecheck menv ≠ 0 →
        error = EILSEQ)) ∧
    (reqs ≠ [] ∧ md_snapshot_one menv ≠ 0 →
     res = Some (md_snapshot_one menv, ipp, zfsvfs)) ∧
    (∀ ip zfsvfs',
       res = Some (0, ip, zfsvfs') →
       reqs ≠ [] ∧ md_snapshot_one menv = 0 ∧ is_Some ip ∧
       ip = ilookup zfsvfs'
              (uint64_t (ZFSCTL_INO_SNAPDIRS
                         - (ce_snapshot_lookup env dirname).2))).
Proof.
  unfold zfsctl_snapdir_mkdir, bind, gets, ret.
  destruct (zfs_admin_snapshot st =? 0) eqn:Hadmin.
  { eexists _, _. split; [reflexivity|]. split; [by left|].
    split; [split; [done | lia]|]. split.
    { intros _. exists EACCES. split; [done|]. split; [done|].
      split; [done | lia]. }
    split; [by intros [? _]|]. by intros ip z' [= ? _ _]. }
  destruct (md_namecheck menv =? 0) eqn:Hcheck; simpl.
  2:{ eexists _, _. split; [reflexivity|]. split; [by left|].
      split; [split; [done | lia]|]. split.
      { intros _. exists EILSEQ. split; [done|]. split; [done|].
        split; [lia | done]. }
      split; [by intros [? _]|]. by intros ip z' [= ? _ _]. }
  destruct (md_secpolicy menv =? 0) eqn:Hsec; simpl.
  2:{ eexists _, _. split; [reflexivity|]. split; [by left|].
      split; [split; [done | lia]|]. split.
      { intros _. exists (md_secpolicy menv). split; [done|].
        split; [lia|]. split; lia. }
      split; [by intros [? _]|]. intros ip z' [= ? _ _]. lia. }
  destruct (md_snapshot_one menv =? 0) eqn:Hone; simpl.
  - eexists _, _. split; [reflexivity|]. split; [by right|].
    split; [split; [lia | done]|]. split; [done|].
    split; [lia|]. intros ip z' Hres.
    destruct (snapdir_lookup_facts _ _ _ _ _ _ _ _ Hres) as (_ & _ & Hok).
    destruct (Hok eq_refl) as [Hsome Hip].
    split; [done|]. split; [lia|]. done.
  - eexists _, _. split; [reflexivity|]. split; [by right|].
    split; [split; [lia | done]|]. split; [done|].
    split; [done|]. intros ip z' [= ? _ _]. lia.
Qed.
